(* ===== verification/_CoqProject ===== *)
-Q . S2P
Prelude.v
CleanText.v
Base64.v
PyValue.v
ReAct.v
Search.v
Finalizer.v
Paths.v
History.v
Agent.v
Prompt.v
LiteralEval.v
Describers.v
Ingestion.v
Preprocess.v
System.v
Concurrency.v
App.v
