(* ===== verification/Prelude.v ===== *)
(** * FixGenie AI Repair Assistant: a verification development

    This library models, in Rocq, the Python back end of the repository
    (src/backend) and proves the properties that make it correct.

    ** The program

    A Flask service with two endpoints (run.py, api/__init__.py).
    - [/main_agent] ([MainAgent.post], src/backend/app/api/agent.py) takes a
      user id, a query and optional image/audio/video uploads, turns the media
      into text descriptions (agent_tools/*_description.py), appends the
      query to the user's Firestore chat history, runs a LangChain ReAct agent
      whose two tools are [find_closest_match] (agent_tools/search.py, a k=1
      nearest-neighbour lookup with a distance threshold of 0.6) and
      [get_chat_history] (agent_tools/history_retrieval.py, the last five
      turns), parses the agent's output with [ast.literal_eval], expands a
      matched guide with [extract_final_data] (utils/finalizer.py) and a
      second model call, normalises the text with [clean_text], appends the
      assistant turn and answers 200, or 500 on any exception.
    - [/generate_vectordb] ([GenerateVectorDB.get], api/vectordb_generator.py)
      reads the cleaned JSON guides, extracts each title, asks the model for a
      summary (retrying forever), and bulk-inserts summaries with
      [{filename, title}] metadata into the Chroma index.
    - data/preprocessing/redundant.py, an offline script, strips unwanted
      keys from the raw guides before they are indexed and expanded.

    ** Files (in dependency order)

    - [Prelude]: this header; Python [str] as [text] (list of ASCII
      characters), Python's whitespace set, the exception type [exc] and the
      result type [res] (a value or the exception raised) with its [let!]
      notation (scope [fg_scope]), [messages[-n:]] as [last_n],
      sub-sequences, the [fg] hint database and tactics.
    - [CleanText] (Module [CleanText]): [re.sub] for the five patterns of
      [clean_text] (lazy [.*?] that stops at a newline, left-to-right
      non-overlapping scan), [str.strip], [clean_text].  Theorems:
      idempotence ([clean_text_idempotent]), the result is a sub-sequence of the input, text
      without markup characters is only stripped.
    - [Base64]: [base64.b64encode] on 24-bit groups with [Z.shiftr] and
      [Z.land], [b64decode] on canonical encodings; the round trip, the
      encoded length, an empty encoding only for an empty file.
    - [PyValue]: Python/JSON values, truthiness, [or], [dict.get], [in],
      [x[k]] and [d[k] = v], each raising what Python raises.
    - [ReAct]: LangChain's ReAct output parser, which reads each model
      turn of the agent (agent.py lines 52-53): the [Final Answer:] test,
      the [re.search] of the [Action:]/[Action Input:] pattern written out
      (leftmost start, lazy group), the strips, and the observation the
      executor sends back for each parse error.  Theorems: a turn in the
      prompt's format is read back as its tool call
      ([parse_react_action]); a final answer is read back stripped
      ([parse_react_final]).
    - [Search]: [find_closest_match] (search.py) over the [VectorIndex]
      type class (the store's [similarity_search_with_score]), its contract
      [VectorIndexSpec], the abstract matcher [closest_match_spec], and the
      refinement theorem ([find_closest_match_refines]); a brute-force reference index is an instance
      of the contract.
    - [Finalizer]: [extract_final_data] (finalizer.py) over a directory of
      JSON records, with [posixpath.join] and the exceptions raised outside
      its [try]: failures become error dictionaries ([extract_final_data_failures]), the exceptions
      that escape ([extract_final_data_raise]), an absolute filename escapes the directory ([extract_final_data_absolute]),
      and its result is always a dictionary ([extract_final_data_dict]).
    - [Paths]: the directories the modules compute from [__file__] when
      they are imported (finalizer.py lines 4-5, vectordb_generator.py
      21-23, agent.py 33-34, search.py 8-9) over [posixpath]'s [isabs],
      [dirname], [join], [normpath] and [abspath].  Theorems: wherever the
      back end is installed, ingestion persists the index where the agent
      and the search tool open it ([index_directory_shared]) and indexes
      the guides the finalizer expands ([guide_directory_shared]);
      [normpath] is idempotent ([normpath_idempotent]); [abspath] answers
      an absolute path ([abspath_absolute]).
    - [History]: the Firestore history as a stdpp [gmap] from session id to
      its list of turns, the [get_chat_history] tool, and the
      [FirestoreChatMessageHistory] objects ([chat_history]), whose
      [add_message] writes their own copy of the session back; through a
      freshly built object this is an append ([ch_add_load]).
    - [Agent]: the LangChain ReAct executor (tool dispatch, parse-error and
      invalid-tool observations, the default cap of 15 iterations) and the
      whole [MainAgent.post] handler as a function from a request and the
      history to a response and the new history.  Its collaborators (model,
      describers, base64, [ast.literal_eval], the second model pass) are
      the fields of the record [services].  Theorems: what a request does to
      the history on every path ([post_history], [post_failure_turns]), 200 answers are cleaned text
      ([post_response_normalized]), the loop makes at most 15 model calls ([agent_invoke_bounded]) and runs
      every tool call the model asks for, repeated ones included
      ([run_agent_follows_model]), a missing record is
      sent to the model as an error dictionary ([final_response_missing_record]).
    - [LiteralEval] (Module [LiteralEval]): [ast.literal_eval] as Python
      3.10+ evaluates the agent's output (agent.py lines 126-131): a
      recursive-descent parser of literals (strings with their escapes,
      numbers, [None]/[True]/[False], lists, tuples, sets, dicts; anything
      else is [ValueError] or [SyntaxError], and forms outside the model are
      reported as such rather than guessed), the conversion to a value,
      which raises [TypeError] on an unhashable dict key or set element, and
      Python's [repr] of literals.  The class [LiteralEvalSound] states what
      [services.literal_eval] must satisfy; the parser is an instance.
      Theorems: [literal_eval] reads back the [repr] of every displayable
      literal ([literal_check_repr]); an echoed dictionary is expanded with
      [extract_final_data] ([final_response_echo]); a dictionary literal
      with a list or dict as a key makes the request raise [TypeError]
      ([final_response_unhashable]).
    - [Prompt]: the prompt the agent is built with (agent.py lines 44-53):
      the three templates of utils/strings.py literally ([system_text44],
      the one agent.py uses, and the unused [system_text55] and
      [system_text66]), the human template, f-string template parsing
      ([string.Formatter().parse]) and formatting, [custom_prompt] on a
      system template, the tools' descriptions and [create_react_agent]'s
      check of the prompt's variables.  Theorems: the check passes, and
      the three templates have the same variables
      ([create_react_agent_accepts]); on any of them formatting never
      raises for any request, inserts the request's text verbatim and ends
      with the ReAct continuation ([render_prompt_spec], from the general
      [render_app], [render_total] and [format_question]).
    - [Describers]: the image (OCR, vision, few-shot chat), audio and video
      describers over a record of externals, the video describer's
      temporary file as explicit directory state, and [describer_services],
      which plugs them and the base64 encoder into [Agent]'s handler.
      Theorems: through the handler an unreadable image answers 500 and
      loses the query ([post_unreadable_image]); the video file is removed on every path
      through the [try] and left behind otherwise ([describe_video_exit_paths]).
    - [Ingestion]: [extract_title], the retry loop of
      [generate_gemini_summary] and [GenerateVectorDB.get] over a directory
      listing and a loader, with the persisted collection as a list.
    - [Preprocess]: data/preprocessing/redundant.py, the offline script
      that drops listed keys from the raw guides; cleaning is idempotent,
      removes exactly the listed keys, and never changes what
      [extract_fields] or [extract_title] read ([extract_fields_clean],
      [extract_title_clean]).
    - [System]: the service's shared state (history store and persisted
      collection), the two endpoints as an inductive [step] relation, and
      the states [reachable] from a fresh deployment.  Theorems by rule
      induction: stored assistant turns are cleaned text and stored user
      turns are non-empty ([reachable_history_cleaned]); the search tool
      answers one of three shapes, a match naming an ingested [*.json]
      guide ([reachable_search_answer]); a step only grows the state
      ([step_grows]).
    - [Concurrency]: Flask serves requests on threads.  A [post] is a
      thread of four atomic phases on the
      shared history ([thread_step]: describe the media and build the
      history object, which reads the session; store the query through it;
      run the agent; store the answer through it), a [describe_video] call
      a thread of three phases on the shared directory ([vthread_step]:
      write; answer and test the file; remove it).  [run_pool] interleaves
      any number of request threads along a schedule, [run_sched] two of
      them ([run_pool_two]), and [run_vsched] two video calls.  Run alone
      the phases are [post] and [describe_video] ([thread_run_post],
      [vthread_run_describe_video]).  Theorems: requests of different users
      never mix turns, for any number of requests and any schedule
      ([interleaving_users_separate]); two requests of one user can
      overwrite each other's turns through their stale copies, so a request
      answered 200 leaves no turn ([interleaving_same_user]); still, under
      any interleaving every stored turn and every answer stays a non-empty
      query or a [clean_text] output ([interleaving_history_cleaned]); an answered
      video call answers on its own upload ([run_vsched_answers]); two video
      calls interleaved phase by phase make the second raise
      [FileNotFoundError] from its [finally] ([video_race_raises]).
    - [App]: the Flask application of run.py with the flask-restful [Api]
      of api/__init__.py and the two [add_resource] calls: Werkzeug's URL
      map (Flask's static rule and the two resources, 404 on any other
      path, 405 on a method the rule lacks, automatic [OPTIONS] and
      [HEAD]), flask-restful's dispatch ([get] serves [HEAD]), and
      [serve], one HTTP request on [System]'s state.  Theorems: the states
      reached by HTTP requests of any method on any path are exactly
      [System]'s reachable states ([http_reachable_iff]), so [System]'s
      invariants are the application's; only [POST /main_agent] and [GET]
      or [HEAD /generate_vectordb] reach a view, and every other request
      leaves the state alone ([serve_routes]); flask-restful serves
      [HEAD /generate_vectordb] with [get], so it runs the whole ingestion.

    ** Interfaces between the parts

    [Agent] is written against the [VectorIndex] class of [Search] and the
    [services] record; its theorems hold for every index and every
    collaborator.  [Search]'s refinement theorem is proved against the
    contract [VectorIndexSpec] alone; [Describers] instantiates [services]
    with the real describers; [System] runs [Agent]'s handler on the
    collection that [Ingestion] builds, through the reference index of
    [Search].  That one collection and one guide directory serve both endpoints is
    what [Paths] proves of the modules' configuration.  The theorems of [LiteralEval] about the handler assume only the
    contract [LiteralEvalSound] of [services.literal_eval], which the
    parser of [LiteralEval] discharges ([literal_eval_model_sound]).

    ** Fuel and bounds

    The [re.sub] scanner of [CleanText] takes one unit of fuel per input
    character ([sub_delim]), which is enough since every step consumes at
    least one character; [sub_delim_fuel_irrel] shows more fuel changes
    nothing.  The executor loop of [Agent] is bounded by [max_iterations]
    = 15, LangChain's default that the code does not override.  The summary
    retry loop of [Ingestion] is unbounded in the code: the model takes the
    fuel as a parameter, proves that enough fuel returns the first
    successful attempt ([summary_loop_first_success]), and that with no successful attempt no fuel
    suffices ([summary_loop_diverges]), i.e. the request hangs.  The
    literal parser of [LiteralEval] takes [2 * length + 2] units of fuel
    (every nesting level consumes a character); [lit_size_fits] shows this
    is enough for the [repr] of any literal.  Similarity scores are
    rationals; 0.6 is the exact double [5404319552844595 / 2^53].

    ** Granularity of the concurrent model

    [System] runs whole requests one at a time; [Concurrency] splits them
    into phases.  Three of a request's phases make one Firestore access
    each: the read when the history object is built, and the two
    write-backs.  The video phases make one file operation each.  The
    agent phase runs the whole executor against the store as it is when
    the phase starts, although each [get_chat_history] call of the code
    reads the session anew.  That phase writes nothing, and the theorems
    of [Concurrency] hold for every answer it gives, so splitting its reads
    would change no theorem; what the history tool shows the model under
    concurrent writes is not modelled more finely.

    ** What is not modelled

    The LLM, embedding, OCR, image library and Firestore/Chroma services
    are parameters: their answers are inputs of the model, never computed.
    Exceptions raised inside a tool call (a vector-store or Firestore
    failure during the agent run) are not modelled: tools always answer.
    The two Firestore clients of the code are taken to reach one
    database.  Credential bootstrapping (Firebase, Vertex AI, [load_dotenv]), the
    CORS headers, Flask's error pages and logging are not modelled.  The
    prompt's scratchpad is a parameter of [Prompt]: it is LangChain's
    rendering of the model's abstract turns.  Strings are
    ASCII: Python's non-ASCII whitespace (U+0085, U+00A0, ...) is out of
    scope.  Floating-point scores are modelled by their exact rational
    values (a comparison of two finite doubles is the comparison of their
    values); NaN scores are not modelled. *)

From Stdlib Require Import List Ascii Bool Lia.
From Stdlib Require Import String.
Import ListNotations.

(** [String] shadows the list [length]; restore it for every client. *)
Abbreviation length := List.length (only parsing).

Ltac inv H := inversion H; subst; clear H.

Declare Scope fg_scope.
Delimit Scope fg_scope with fg.
Open Scope fg_scope.

Create HintDb fg.
Create Rewrite HintDb fg.

(** ** Python strings *)

(** A Python [str], restricted to ASCII code points. *)
Definition text := list ascii.

Definition txt (s : string) : text := list_ascii_of_string s.
Notation "⟪ s ⟫" := (txt s%string) (at level 0, format "⟪ s ⟫") : fg_scope.

Definition nl : ascii := "010"%char.

(** [str.isspace] on ASCII: tab, newline, vertical tab, form feed, carriage
    return, the four separators U+001C..U+001F, and the space. *)
Definition is_space (a : ascii) : bool :=
  let n := nat_of_ascii a in
  (Nat.leb 9 n && Nat.leb n 13) || (Nat.leb 28 n && Nat.leb n 32).

(** Python truthiness of a [str]: non-empty. *)
Definition str_truthy (s : text) : bool :=
  match s with [] => false | _ => true end.

(** Dropping the leading characters that satisfy [f]. *)
Fixpoint drop_while (f : ascii -> bool) (s : text) : text :=
  match s with
  | c :: r => if f c then drop_while f r else s
  | [] => []
  end.

(** ** Exceptions and results *)

(** The Python exceptions the modelled code raises or catches.
    [ProviderError] stands for any exception raised inside a third-party
    SDK call (model, vector store, database). *)
Inductive exc :=
| KeyError | TypeError | AttributeError | ValueError | SyntaxError
| FileNotFoundError | JSONDecodeError | UnicodeDecodeError | OSError
| ProviderError | BinasciiError | UnidentifiedImageError.

Inductive res (A : Type) : Type :=
| Ok (a : A)
| Raise (e : exc).
Arguments Ok {A} a.
Arguments Raise {A} e.

Definition bind {A B : Type} (c : res A) (f : A -> res B) : res B :=
  match c with
  | Ok a => f a
  | Raise e => Raise e
  end.

Notation "'let!' x ':=' c 'in' k" := (bind c (fun x => k))
  (at level 10, x name, c at level 100, k at level 200) : fg_scope.

(** A list comprehension whose element expression may raise: the first
    exception, left to right. *)
Fixpoint map_res {A B} (f : A -> res B) (l : list A) : res (list B) :=
  match l with
  | [] => Ok []
  | x :: l' => let! y := f x in let! ys := map_res f l' in Ok (y :: ys)
  end.

(** [sep.join(l)]. *)
Fixpoint join (sep : text) (l : list text) : text :=
  match l with
  | [] => []
  | [x] => x
  | x :: l' => x ++ sep ++ join sep l'
  end.

(** ** Lists *)

(** Python's [l[-n:]]: the last [n] elements (all of them when fewer). *)
Definition last_n {A} (n : nat) (l : list A) : list A :=
  skipn (length l - n) l.

(** [subseq t s]: [t] is [s] with some elements deleted. *)
Inductive subseq {A} : list A -> list A -> Prop :=
| subseq_nil : subseq [] []
| subseq_keep x t s : subseq t s -> subseq (x :: t) (x :: s)
| subseq_drop x t s : subseq t s -> subseq t (x :: s).
#[export] Hint Constructors subseq : fg.

(** ** Lemmas on results *)

Lemma bind_Ok {A B} (a : A) (f : A -> res B) : bind (Ok a) f = f a.
Proof. reflexivity. Qed.

Lemma bind_Raise {A B} (e : exc) (f : A -> res B) : bind (Raise e) f = Raise e.
Proof. reflexivity. Qed.

Lemma bind_Ok_inv {A B} (c : res A) (f : A -> res B) b :
  bind c f = Ok b -> exists a, c = Ok a /\ f a = Ok b.
Proof. destruct c; simpl; [eauto | discriminate]. Qed.

#[export] Hint Rewrite @bind_Ok @bind_Raise : fg.

(** ** Shared list lemmas *)


Lemma last_n_length {A} n (l : list A) : length (last_n n l) = Nat.min n (length l).
Proof. unfold last_n. rewrite length_skipn. lia. Qed.

Lemma last_n_suffix {A} n (l : list A) : exists p, l = p ++ last_n n l.
Proof. exists (firstn (length l - n) l). symmetry. apply firstn_skipn. Qed.

Lemma last_n_app_one {A} n (l : list A) (x : A) :
  0 < n -> last_n n (l ++ [x]) = last_n (n - 1) l ++ [x].
Proof.
  intros Hn. unfold last_n. rewrite length_app. simpl.
  rewrite skipn_app. replace (length l + 1 - n - length l) with 0 by lia.
  f_equal. f_equal. lia.
Qed.

Lemma in_firstn {A} (x : A) n l : In x (firstn n l) -> In x l.
Proof. intros H. rewrite <- (firstn_skipn n l). apply in_or_app. auto. Qed.


Lemma subseq_refl {A} (s : list A) : subseq s s.
Proof. induction s; auto with fg. Qed.

Lemma subseq_trans {A} (u t s : list A) : subseq u t -> subseq t s -> subseq u s.
Proof.
  intros H1 H2. revert u H1. induction H2; intros u H1; auto with fg.
  inv H1; auto with fg.
Qed.

Lemma subseq_app_r {A} (p s : list A) : subseq s (p ++ s).
Proof. induction p; simpl; auto using subseq_refl with fg. Qed.

Lemma subseq_app_l {A} (s q : list A) : subseq s (s ++ q).
Proof.
  induction s; simpl; auto with fg.
  induction q; auto with fg.
Qed.
#[export] Hint Resolve subseq_refl subseq_app_r subseq_app_l : fg.

(** Sums and [join]. *)
Lemma sum_cons a l : list_sum (a :: l) = a + list_sum l.
Proof. reflexivity. Qed.

Lemma list_sum_le {A} (f g : A -> nat) l : Forall (fun x => f x <= g x) l ->
  list_sum (map f l) <= list_sum (map g l).
Proof. induction 1; [reflexivity|]. cbn [map]. rewrite !sum_cons. lia. Qed.

Lemma list_sum_double {A} (g : A -> nat) l : list_sum (map (fun x => 2 * g x) l) = 2 * list_sum (map g l).
Proof. induction l as [|x l IH]; [reflexivity|]. cbn [map]. rewrite !sum_cons, IH. lia. Qed.

Lemma join_cons sep x l : join sep (x :: l) = x ++ flat_map (fun y => sep ++ y) l.
Proof.
  revert x. induction l as [|y l IH]; intros x; [cbn; now rewrite app_nil_r|].
  change (join sep (x :: y :: l)) with (x ++ sep ++ join sep (y :: l)).
  rewrite IH. cbn [flat_map]. now rewrite <- app_assoc.
Qed.

Lemma length_join_ge sep l : list_sum (map (@length ascii) l) <= length (join sep l).
Proof.
  destruct l as [|x l]; [reflexivity|]. rewrite join_cons. cbn [map]. rewrite sum_cons, length_app.
  enough (list_sum (map (@length ascii) l) <= length (flat_map (fun y => sep ++ y) l)) by lia.
  induction l as [|y l IH]; [reflexivity|]. cbn [map flat_map]. rewrite sum_cons, !length_app. lia.
Qed.

(** Locating a known suffix [s] in a list built of conses and appends. *)
Lemma suffix_here {A} (s : list A) : s = [] ++ s.
Proof. reflexivity. Qed.

Lemma suffix_cons {A} (a : A) l pre s : l = pre ++ s -> a :: l = (a :: pre) ++ s.
Proof. intros ->. reflexivity. Qed.

Lemma suffix_app {A} (a l pre s : list A) : l = pre ++ s -> a ++ l = (a ++ pre) ++ s.
Proof. intros ->. apply app_assoc. Qed.

(** ** Tactics *)

(** Peel the binds of a hypothesis [bind c f = Ok b]. *)
Ltac bind_inv H :=
  repeat (apply bind_Ok_inv in H; destruct H as (?x & ?Ex & H); cbv beta in H).

(** Case on every [res] scrutinee of the goal, keeping the equation. *)
Ltac res_cases :=
  repeat match goal with
         | |- context [match ?c with Ok _ => _ | Raise _ => _ end] =>
             let E := fresh "E" in destruct c eqn:E
         end; autorewrite with fg in *.

(** Prove [l = ?pre ++ s] by walking [l] until [s] is reached. *)
Ltac find_suffix :=
  repeat first [exact (suffix_here _) | apply suffix_cons | apply suffix_app].

Example txt_example : ⟪"ab"⟫ = ["a"%char; "b"%char].
Proof. reflexivity. Qed.
