(* ===== verification/CleanText.v ===== *)
(** * CleanText: the text normaliser [clean_text]

    [clean_text] is defined five times, identically, in
    agent_tools/audio_description.py, image_description.py,
    video_description.py and api/vectordb_generator.py (lines 12-19,
    16-22, 20-27, 34-41).  It applies five [re.sub] calls and [str.strip]:
    {v
    text = re.sub(r"\*\*(.*?)\*\*", r"\1", text)
    text = re.sub(r"\*(.*?)\*", r"\1", text)
    text = re.sub(r"_(.*?)_", r"\1", text)
    text = re.sub(r"`(.*?)`", r"\1", text)
    text = re.sub(r"<.*?>", "", text)
    return text.strip()
    v}
    Each pattern is "opening delimiter, lazy [.*?], closing delimiter".
    [sub_delim o c keep] models [re.sub] for such a pattern: scanning left
    to right, at each position it tries the opening delimiter, then the
    shortest body that is followed by the closing delimiter and contains no
    newline (Python's [.] does not match ["\n"]); on a match the body (when
    [keep], the group [\1]) or nothing replaces the match and scanning
    resumes after it; otherwise the character is copied.  The scan is a
    [Fixpoint] on fuel; [sub_delim] gives it one unit per character, and
    [sub_delim_unfold_match] / [sub_delim_unfold_nomatch] are its
    fuel-free equations.

    Theorems: [clean_text] only deletes characters ([clean_text_subseq]);
    it is idempotent ([clean_text_idempotent], the property of spec section
    8); text with no markup characters is only stripped
    ([clean_text_plain]). *)

From Stdlib Require Import List Ascii String Bool Lia.
From S2P Require Import Prelude.
Import ListNotations.
Open Scope fg_scope.

Module CleanText.

(** ** The delimiter substitution *)

(** [s] starts with [p]: the rest of [s]. *)
Fixpoint strip_prefix (p s : text) : option text :=
  match p, s with
  | [], _ => Some s
  | a :: p', b :: s' => if ascii_dec a b then strip_prefix p' s' else None
  | _ :: _, [] => None
  end.

(** The lazy group [(.*?)] followed by the closing delimiter [c]: the
    shortest newline-free body after which [c] occurs, and the rest. *)
Fixpoint find_close (c s : text) : option (text * text) :=
  match strip_prefix c s with
  | Some rest => Some ([], rest)
  | None =>
      match s with
      | [] => None
      | x :: s' =>
          if ascii_dec x nl then None
          else match find_close c s' with
               | Some (b, r) => Some (x :: b, r)
               | None => None
               end
      end
  end.

(** A match of [o(.*?)c] at the start of [s]: the group and the rest. *)
Definition match_at (o c s : text) : option (text * text) :=
  match strip_prefix o s with
  | Some s1 => find_close c s1
  | None => None
  end.

(** [re.sub(o(.*?)c, r"\1" or "", s)], with fuel. *)
Fixpoint sub_delim_fuel (fuel : nat) (o c : text) (keep : bool) (s : text) : text :=
  match fuel with
  | 0 => s
  | S f =>
      match s with
      | [] => []
      | x :: s' =>
          match match_at o c s with
          | Some (body, rest) => (if keep then body else []) ++ sub_delim_fuel f o c keep rest
          | None => x :: sub_delim_fuel f o c keep s'
          end
      end
  end.

Definition sub_delim (o c : text) (keep : bool) (s : text) : text :=
  sub_delim_fuel (S (length s)) o c keep s.

(** The five patterns of [clean_text]. *)
Definition star : ascii := "*".
Definition underscore : ascii := "_".
Definition backtick : ascii := "`".
Definition lt_sign : ascii := "<".
Definition gt_sign : ascii := ">".

Definition sub_bold (s : text) : text := sub_delim [star; star] [star; star] true s.
Definition sub_italic (s : text) : text := sub_delim [star] [star] true s.
Definition sub_underline (s : text) : text := sub_delim [underscore] [underscore] true s.
Definition sub_code (s : text) : text := sub_delim [backtick] [backtick] true s.
Definition sub_tags (s : text) : text := sub_delim [lt_sign] [gt_sign] false s.

(** ** [str.strip] *)

Fixpoint lstrip (s : text) : text :=
  match s with
  | [] => []
  | x :: s' => if is_space x then lstrip s' else s
  end.

Definition rstrip (s : text) : text := rev (lstrip (rev s)).

Definition strip (s : text) : text := rstrip (lstrip s).

(** ** [clean_text] *)

Definition clean_text (s : text) : text :=
  strip (sub_tags (sub_code (sub_underline (sub_italic (sub_bold s))))).

(** ** Predicates of the proofs *)

(** [thin t s]: [t] is [s] with some characters deleted, never a newline. *)
Inductive thin : text -> text -> Prop :=
| thin_nil : thin [] []
| thin_keep x t s : thin t s -> thin (x :: t) (x :: s)
| thin_drop x t s : x <> nl -> thin t s -> thin t (x :: s).
#[export] Hint Constructors thin : fg.

(** [c] occurs before the end of the current line. *)
Fixpoint reach (c : ascii) (s : text) : bool :=
  match s with
  | [] => false
  | x :: s' => if ascii_dec x c then true else if ascii_dec x nl then false else reach c s'
  end.

(** No [o] is followed by a [c] on the same line. *)
Fixpoint nomatch1 (o c : ascii) (s : text) : bool :=
  match s with
  | [] => true
  | x :: s' => (if ascii_dec x o then negb (reach c s') else true) && nomatch1 o c s'
  end.

(** No position of [s] starts a match of [o(.*?)c]. *)
Fixpoint matchless (o c s : text) : bool :=
  match s with
  | [] => true
  | _ :: s' => match match_at o c s with Some _ => false | None => true end && matchless o c s'
  end.

(** The text does not start with whitespace. *)
Definition no_lead (s : text) : bool :=
  match s with [] => true | x :: _ => negb (is_space x) end.

(** ** Examples *)

Example clean_text_bold : clean_text ⟪"**bold**"⟫ = ⟪"bold"⟫.
Proof. reflexivity. Qed.

Example clean_text_nested : clean_text ⟪"***a***"⟫ = ⟪"a"⟫.
Proof. reflexivity. Qed.

Example clean_text_tag : clean_text ⟪" <b>Fix</b> the _drain_ `filter` "⟫ = ⟪"Fix the drain filter"⟫.
Proof. reflexivity. Qed.

Example clean_text_newline : clean_text (⟪"**a"⟫ ++ [nl] ++ ⟪"**b**"⟫) = ⟪"a"⟫ ++ [nl] ++ ⟪"b"⟫.
Proof. reflexivity. Qed.

Example clean_text_angles : clean_text ⟪"<<>>"⟫ = ⟪">"⟫.
Proof. reflexivity. Qed.

(** ** Shape of a match *)

Lemma strip_prefix_some p s r : strip_prefix p s = Some r -> s = p ++ r.
Proof.
  revert s; induction p as [|a p IH]; intros s H; simpl in *; [congruence|].
  destruct s as [|b s]; [discriminate|].
  destruct (ascii_dec a b); [subst; simpl; f_equal; auto | discriminate].
Qed.

Lemma find_close_some c s b r :
  find_close c s = Some (b, r) -> s = b ++ c ++ r /\ ~ In nl b.
Proof.
  revert b r. induction s as [|x s IH]; intros b r H; cbn [find_close] in H.
  - destruct (strip_prefix c []) as [rest|] eqn:E; [|discriminate]. inv H.
    apply strip_prefix_some in E. simpl. tauto.
  - destruct (strip_prefix c (x :: s)) as [rest|] eqn:E.
    + inv H. apply strip_prefix_some in E. simpl. tauto.
    + destruct (ascii_dec x nl) as [|Hx]; [discriminate|].
      destruct (find_close c s) as [[b' r']|]; [|discriminate]. inv H.
      destruct (IH _ _ eq_refl) as [-> Hb]. split; [reflexivity|].
      simpl. intros [->|Hin]; auto.
Qed.

Lemma match_at_some o c s b r :
  match_at o c s = Some (b, r) -> s = o ++ b ++ c ++ r /\ ~ In nl b.
Proof.
  unfold match_at. destruct (strip_prefix o s) as [s1|] eqn:E; [|discriminate].
  intros H. apply strip_prefix_some in E. apply find_close_some in H as [-> Hb]. auto.
Qed.

Lemma match_at_shorter o c s b r :
  o <> [] -> match_at o c s = Some (b, r) -> length r < length s.
Proof.
  intros Ho H. apply match_at_some in H as [-> _].
  destruct o; [congruence|]. rewrite !length_app. simpl. lia.
Qed.

Section SubDelim.
Variables (o c : text) (keep : bool).
Hypothesis o_ne : o <> [].

Lemma sub_delim_fuel_cons n x s :
  sub_delim_fuel (S n) o c keep (x :: s) =
  match match_at o c (x :: s) with
  | Some (b, r) => (if keep then b else []) ++ sub_delim_fuel n o c keep r
  | None => x :: sub_delim_fuel n o c keep s
  end.
Proof. reflexivity. Qed.

(** The result does not depend on the fuel once it exceeds the length. *)
Lemma sub_delim_fuel_irrel n m s :
  length s < n -> length s < m -> sub_delim_fuel n o c keep s = sub_delim_fuel m o c keep s.
Proof.
  revert m s; induction n as [|n IH]; intros m s Hn Hm; [lia|].
  destruct m as [|m]; [lia|]. destruct s as [|x s]; [reflexivity|].
  rewrite !sub_delim_fuel_cons.
  destruct (match_at o c (x :: s)) as [[b r]|] eqn:E.
  - pose proof (match_at_shorter _ _ _ _ _ o_ne E). f_equal. apply IH; lia.
  - simpl in *. f_equal. apply IH; lia.
Qed.

Lemma sub_delim_unfold_match x s b r :
  match_at o c (x :: s) = Some (b, r) ->
  sub_delim o c keep (x :: s) = (if keep then b else []) ++ sub_delim o c keep r.
Proof.
  intros E. pose proof (match_at_shorter _ _ _ _ _ o_ne E).
  unfold sub_delim at 1. rewrite sub_delim_fuel_cons, E. f_equal.
  apply sub_delim_fuel_irrel; simpl in *; lia.
Qed.

Lemma sub_delim_unfold_nomatch x s :
  match_at o c (x :: s) = None ->
  sub_delim o c keep (x :: s) = x :: sub_delim o c keep s.
Proof.
  intros E. unfold sub_delim at 1. rewrite sub_delim_fuel_cons, E. reflexivity.
Qed.

(** Functional induction for [sub_delim], following its two cases. *)
Lemma sub_delim_ind (P : text -> text -> Prop) :
  P [] [] ->
  (forall x s b r, match_at o c (x :: s) = Some (b, r) -> P r (sub_delim o c keep r) ->
     P (x :: s) ((if keep then b else []) ++ sub_delim o c keep r)) ->
  (forall x s, match_at o c (x :: s) = None -> P s (sub_delim o c keep s) ->
     P (x :: s) (x :: sub_delim o c keep s)) ->
  forall s, P s (sub_delim o c keep s).
Proof.
  intros Hnil Hm Hn s.
  assert (Hgen : forall n s, length s < n -> P s (sub_delim o c keep s)).
  { induction n as [|n IH]; intros s' Hl; [lia|]. destruct s' as [|x s']; [exact Hnil|].
    destruct (match_at o c (x :: s')) as [[b r]|] eqn:E.
    - rewrite (sub_delim_unfold_match _ _ _ _ E). apply Hm; [exact E|].
      pose proof (match_at_shorter _ _ _ _ _ o_ne E). apply IH. simpl in *. lia.
    - rewrite (sub_delim_unfold_nomatch _ _ E). apply Hn; [exact E|].
      apply IH. simpl in Hl. lia. }
  apply (Hgen (S (length s))). lia.
Qed.

End SubDelim.

(** ** Deleting characters other than newlines *)


Lemma thin_refl s : thin s s.
Proof. induction s; auto with fg. Qed.

Lemma thin_app t1 s1 t2 s2 : thin t1 s1 -> thin t2 s2 -> thin (t1 ++ t2) (s1 ++ s2).
Proof. induction 1; simpl; auto with fg. Qed.

Lemma thin_drop_all p t s : ~ In nl p -> thin t s -> thin t (p ++ s).
Proof.
  induction p as [|a p IH]; simpl; intros Hp H; auto.
  apply thin_drop; [intros ->; auto | apply IH; auto].
Qed.

Lemma thin_subseq t s : thin t s -> subseq t s.
Proof. induction 1; auto with fg. Qed.

Lemma thin_trans u t s : thin u t -> thin t s -> thin u s.
Proof.
  intros H1 H2. revert u H1. induction H2; intros u H1; auto with fg.
  inv H1; auto with fg.
Qed.
#[export] Hint Resolve thin_refl thin_app thin_drop_all : fg.

Lemma sub_delim_thin o c keep s :
  o <> [] -> ~ In nl o -> ~ In nl c -> thin (sub_delim o c keep s) s.
Proof.
  intros Ho Hon Hcn. apply (sub_delim_ind o c keep Ho (fun s t => thin t s)); auto with fg.
  intros x s' b r E IH. apply match_at_some in E as [-> Hb].
  apply thin_drop_all; [exact Hon|].
  destruct keep; simpl; [apply thin_app; auto with fg | apply thin_drop_all; auto with fg].
Qed.

(** ** No match left on a line *)


Lemma reach_thin c t s : thin t s -> reach c t = true -> reach c s = true.
Proof.
  induction 1 as [|x t s _ IH|x t s Hx _ IH]; simpl; auto.
  - destruct (ascii_dec x c); auto. destruct (ascii_dec x nl); auto.
  - intros H. destruct (ascii_dec x c); auto. destruct (ascii_dec x nl); [contradiction|auto].
Qed.

Lemma nomatch1_thin o c t s : thin t s -> nomatch1 o c s = true -> nomatch1 o c t = true.
Proof.
  induction 1 as [|x t s Ht IH|x t s _ _ IH]; simpl; auto;
    intros H; apply andb_prop in H as [H1 H2]; auto.
  rewrite IH by exact H2. destruct (ascii_dec x o); [|reflexivity].
  destruct (reach c t) eqn:R; [|reflexivity].
  rewrite (reach_thin c t s Ht R) in H1. discriminate.
Qed.

Lemma reach_app_l c s q : reach c s = true -> reach c (s ++ q) = true.
Proof.
  induction s as [|x s IH]; simpl; [discriminate|].
  destruct (ascii_dec x c); auto. destruct (ascii_dec x nl); auto.
Qed.

Lemma reach_through c b r : ~ In nl b -> reach c (b ++ c :: r) = true.
Proof.
  induction b as [|x b IH]; simpl; intros Hb.
  - destruct (ascii_dec c c); congruence.
  - destruct (ascii_dec x c); auto. destruct (ascii_dec x nl); [exfalso; auto|auto].
Qed.

Lemma find_close_one_none c s : find_close [c] s = None -> reach c s = false.
Proof.
  induction s as [|x s IH]; simpl; auto.
  destruct (ascii_dec c x); [discriminate|].
  destruct (ascii_dec x c); [congruence|]. destruct (ascii_dec x nl); auto.
  destruct (find_close [c] s) as [[]|]; [discriminate|auto].
Qed.

Lemma find_close_one_body c s b r : find_close [c] s = Some (b, r) -> ~ In c b.
Proof.
  revert b r. induction s as [|x s IH]; intros b r; simpl.
  - intros H. discriminate.
  - destruct (ascii_dec c x); [intros H; inv H; simpl; auto|].
    destruct (ascii_dec x nl); [discriminate|].
    destruct (find_close [c] s) as [[b' r']|] eqn:F; [|discriminate].
    intros H. inv H. simpl. intros [->|Hin]; [auto|eapply IH; eauto].
Qed.

Lemma match_at_one o c x s :
  match_at [o] [c] (x :: s) = if ascii_dec o x then find_close [c] s else None.
Proof. unfold match_at. simpl. destruct (ascii_dec o x); reflexivity. Qed.

Lemma nomatch1_app o c b t :
  ~ In o b -> nomatch1 o c (b ++ t) = nomatch1 o c t.
Proof.
  induction b as [|x b IH]; simpl; intros Hb; auto.
  destruct (ascii_dec x o); [exfalso; auto|]. simpl. auto.
Qed.

Section SingleChar.
Variables (o c : ascii) (keep : bool).
Hypothesis o_nl : o <> nl.

Lemma sub_delim_reach s :
  reach c (sub_delim [o] [c] keep s) = true -> reach c s = true.
Proof.
  apply (sub_delim_ind [o] [c] keep ltac:(discriminate) (fun s t => reach c t = true -> reach c s = true)); auto.
  - intros x s' b r E _ _. apply match_at_some in E as [E Hb]. inv E.
    simpl. destruct (ascii_dec o c); auto. destruct (ascii_dec o nl); [contradiction|].
    now apply reach_through.
  - intros x s' _ IH. simpl. destruct (ascii_dec x c); auto.
    destruct (ascii_dec x nl); auto.
Qed.

(** After the substitution no [o] is followed by [c] on a line, when the
    kept group cannot hold an [o] (it is deleted, or [o = c]). *)
Lemma sub_delim_nomatch1 s :
  keep = false \/ o = c -> nomatch1 o c (sub_delim [o] [c] keep s) = true.
Proof.
  intros Hk.
  apply (sub_delim_ind [o] [c] keep ltac:(discriminate) (fun s t => nomatch1 o c t = true)); auto.
  - intros x s' b r E IH. rewrite match_at_one in E.
    destruct (ascii_dec o x); [|discriminate].
    destruct keep; [|exact IH]. destruct Hk as [Hk|Hoc]; [discriminate|].
    rewrite nomatch1_app; [exact IH|]. rewrite Hoc. eapply find_close_one_body; eauto.
  - intros x s' E IH. simpl. rewrite IH, andb_true_r.
    destruct (ascii_dec x o) as [->|]; [|reflexivity].
    rewrite match_at_one in E. destruct (ascii_dec o o); [|congruence].
    apply find_close_one_none in E.
    destruct (reach c (sub_delim [o] [c] keep s')) eqn:R; [|reflexivity].
    apply sub_delim_reach in R. congruence.
Qed.

End SingleChar.

Lemma sub_delim_matchless o c keep s :
  o <> [] -> matchless o c s = true -> sub_delim o c keep s = s.
Proof.
  intros Ho. induction s as [|x s IH]; simpl; intros H; [reflexivity|].
  destruct (match_at o c (x :: s)) eqn:E; [discriminate|].
  rewrite sub_delim_unfold_nomatch by assumption. f_equal. auto.
Qed.

Lemma nomatch1_matchless o c s : nomatch1 o c s = true -> matchless [o] [c] s = true.
Proof.
  induction s as [|x s IH]; simpl; auto. intros H. apply andb_prop in H as [H1 H2].
  rewrite IH by exact H2. rewrite match_at_one.
  destruct (ascii_dec o x) as [<-|]; [|reflexivity].
  destruct (ascii_dec o o) as [_|]; [|congruence].
  destruct (find_close [c] s) as [[b r]|] eqn:F; [|reflexivity].
  apply find_close_some in F as [-> Hb]. cbn [app] in H1. rewrite reach_through in H1; auto.
Qed.

(** Two adjacent stars would be a pair on one line. *)
Lemma nomatch1_matchless_bold s :
  nomatch1 star star s = true -> matchless [star; star] [star; star] s = true.
Proof.
  induction s as [|x s IH]; simpl; auto. intros H. apply andb_prop in H as [H1 H2].
  rewrite IH by exact H2.
  destruct (match_at [star; star] [star; star] (x :: s)) as [[b r]|] eqn:E; [|reflexivity].
  apply match_at_some in E as [E _]. simpl in E. inv E. simpl in H1.
  destruct (ascii_dec star star); [discriminate|congruence].
Qed.

(** ** [strip] *)


Lemma lstrip_suffix s : exists p, s = p ++ lstrip s.
Proof.
  induction s as [|x s [p Hp]]; simpl; [exists []; reflexivity|].
  destruct (is_space x); [exists (x :: p); simpl; congruence | exists []; reflexivity].
Qed.

Lemma lstrip_no_lead s : no_lead (lstrip s) = true.
Proof.
  induction s as [|x s IH]; simpl; auto.
  destruct (is_space x) eqn:E; simpl; [exact IH | rewrite E; reflexivity].
Qed.

Lemma lstrip_id s : no_lead s = true -> lstrip s = s.
Proof. destruct s as [|x s]; simpl; auto. destruct (is_space x); simpl; [discriminate|auto]. Qed.

Lemma rstrip_prefix s : exists q, s = rstrip s ++ q.
Proof.
  unfold rstrip. destruct (lstrip_suffix (rev s)) as [p Hp]. exists (rev p).
  rewrite <- rev_app_distr, <- Hp, rev_involutive. reflexivity.
Qed.

Lemma no_lead_prefix t q : no_lead (t ++ q) = true -> no_lead t = true.
Proof. destruct t; simpl; auto. Qed.

Lemma strip_idem s : strip (strip s) = strip s.
Proof.
  unfold strip. set (u := lstrip s).
  assert (Hu : no_lead u = true) by apply lstrip_no_lead.
  destruct (rstrip_prefix u) as [q Hq].
  rewrite (lstrip_id (rstrip u)) by (apply (no_lead_prefix _ q); rewrite <- Hq; exact Hu).
  unfold rstrip. rewrite rev_involutive, (lstrip_id (lstrip _)) by apply lstrip_no_lead.
  reflexivity.
Qed.

Lemma strip_subseq s : subseq (strip s) s.
Proof.
  unfold strip. apply subseq_trans with (lstrip s).
  - destruct (rstrip_prefix (lstrip s)) as [q Hq]. rewrite Hq at 2. apply subseq_app_l.
  - destruct (lstrip_suffix s) as [p Hp]. rewrite Hp at 2. apply subseq_app_r.
Qed.

Lemma nomatch1_suffix o c p s : nomatch1 o c (p ++ s) = true -> nomatch1 o c s = true.
Proof. induction p as [|x p IH]; simpl; auto. intros H. apply andb_prop in H as [_ H]. auto. Qed.

Lemma nomatch1_prefix o c s q : nomatch1 o c (s ++ q) = true -> nomatch1 o c s = true.
Proof.
  induction s as [|x s IH]; simpl; auto. intros H. apply andb_prop in H as [H1 H2].
  rewrite IH by exact H2. destruct (ascii_dec x o); [|reflexivity].
  destruct (reach c s) eqn:R; [|reflexivity]. rewrite reach_app_l in H1 by exact R. discriminate.
Qed.

Lemma nomatch1_strip o c s : nomatch1 o c s = true -> nomatch1 o c (strip s) = true.
Proof.
  intros H. unfold strip. destruct (lstrip_suffix s) as [p Hp].
  destruct (rstrip_prefix (lstrip s)) as [q Hq].
  apply (nomatch1_prefix _ _ _ q). rewrite <- Hq. apply (nomatch1_suffix _ _ p). rewrite <- Hp. exact H.
Qed.

(** ** The theorems of [clean_text] *)

(** The delimiters are not newlines. *)
Ltac char_neq := unfold star, underscore, backtick, lt_sign, gt_sign, nl; discriminate.

Lemma not_in_one a : a <> nl -> ~ In nl [a].
Proof. simpl. intros H [E|[]]. auto. Qed.

(** A later single-character substitution deletes characters only, so it
    keeps the invariant established by an earlier one. *)
Lemma nomatch1_sub o c a b k s :
  a <> nl -> b <> nl -> nomatch1 o c s = true -> nomatch1 o c (sub_delim [a] [b] k s) = true.
Proof.
  intros Ha Hb. apply nomatch1_thin, sub_delim_thin; [discriminate| |]; apply not_in_one; assumption.
Qed.

Lemma matchless_absent a o c s : ~ In a s -> matchless (a :: o) c s = true.
Proof.
  induction s as [|x s IH]; simpl; intros H; auto.
  destruct (match_at (a :: o) c (x :: s)) as [[b r]|] eqn:E.
  - apply match_at_some in E as [E _]. inv E. exfalso. auto.
  - simpl. auto.
Qed.

(** The five substitutions delete characters only, and never a newline:
    the lazy [.*?] cannot span two lines. *)
Theorem clean_subs_thin s :
  thin (sub_tags (sub_code (sub_underline (sub_italic (sub_bold s))))) s.
Proof.
  assert (H : forall a b k t, a <> nl -> b <> nl -> thin (sub_delim [a] [b] k t) t)
    by (intros; apply sub_delim_thin; [discriminate| |]; apply not_in_one; assumption).
  unfold sub_tags, sub_code, sub_underline, sub_italic, sub_bold.
  repeat (eapply thin_trans; [apply H; discriminate|]).
  apply sub_delim_thin; [discriminate| |]; simpl; intros [E|[E|[]]]; discriminate.
Qed.

(** C4: Normalising already-normalised text is a no-op: [clean_text] is
    idempotent (spec section 8). *)
Theorem clean_text_idempotent s : clean_text (clean_text s) = clean_text s.
Proof.
  assert (Hs : nomatch1 star star (sub_tags (sub_code (sub_underline (sub_italic (sub_bold s))))) = true).
  { unfold sub_tags, sub_code, sub_underline, sub_italic.
    do 3 (apply nomatch1_sub; [char_neq|char_neq|]).
    apply sub_delim_nomatch1; [char_neq|right; reflexivity]. }
  assert (Hu : nomatch1 underscore underscore (sub_tags (sub_code (sub_underline (sub_italic (sub_bold s))))) = true).
  { unfold sub_tags, sub_code, sub_underline.
    do 2 (apply nomatch1_sub; [char_neq|char_neq|]).
    apply sub_delim_nomatch1; [char_neq|right; reflexivity]. }
  assert (Hb : nomatch1 backtick backtick (sub_tags (sub_code (sub_underline (sub_italic (sub_bold s))))) = true).
  { unfold sub_tags, sub_code.
    apply nomatch1_sub; [char_neq|char_neq|].
    apply sub_delim_nomatch1; [char_neq|right; reflexivity]. }
  assert (Ht : nomatch1 lt_sign gt_sign (sub_tags (sub_code (sub_underline (sub_italic (sub_bold s))))) = true).
  { unfold sub_tags. apply sub_delim_nomatch1; [char_neq|left; reflexivity]. }
  apply nomatch1_strip in Hs, Hu, Hb, Ht.
  remember (strip (sub_tags (sub_code (sub_underline (sub_italic (sub_bold s)))))) as t eqn:Et.
  change (clean_text s) with (strip (sub_tags (sub_code (sub_underline (sub_italic (sub_bold s)))))).
  rewrite <- Et. unfold clean_text, sub_bold, sub_italic, sub_underline, sub_code, sub_tags.
  rewrite (sub_delim_matchless [star; star] [star; star] true t),
    (sub_delim_matchless [star] [star] true t),
    (sub_delim_matchless [underscore] [underscore] true t),
    (sub_delim_matchless [backtick] [backtick] true t),
    (sub_delim_matchless [lt_sign] [gt_sign] false t)
    by (discriminate || apply nomatch1_matchless_bold, Hs || apply nomatch1_matchless; assumption).
  subst t. apply strip_idem.
Qed.

(** [clean_text] only deletes characters. *)
Theorem clean_text_subseq s : subseq (clean_text s) s.
Proof.
  unfold clean_text. eapply subseq_trans; [apply strip_subseq|].
  apply thin_subseq, clean_subs_thin.
Qed.

(** Text without any of the markup characters [* _ ` <] is only stripped. *)
Theorem clean_text_plain s :
  ~ In star s -> ~ In underscore s -> ~ In backtick s -> ~ In lt_sign s ->
  clean_text s = strip s.
Proof.
  intros H1 H2 H3 H4. unfold clean_text, sub_bold, sub_italic, sub_underline, sub_code, sub_tags.
  rewrite (sub_delim_matchless [star; star] [star; star] true s),
    (sub_delim_matchless [star] [star] true s),
    (sub_delim_matchless [underscore] [underscore] true s),
    (sub_delim_matchless [backtick] [backtick] true s),
    (sub_delim_matchless [lt_sign] [gt_sign] false s)
    by (discriminate || now apply matchless_absent).
  reflexivity.
Qed.

Lemma clean_text_plain_witness :
  let s := ⟪" Check the drain filter. "⟫ in
  (~ In star s /\ ~ In underscore s /\ ~ In backtick s /\ ~ In lt_sign s) /\
  clean_text s = strip s.
Proof.
  assert (H : ~ In star ⟪" Check the drain filter. "⟫ /\ ~ In underscore ⟪" Check the drain filter. "⟫ /\
              ~ In backtick ⟪" Check the drain filter. "⟫ /\ ~ In lt_sign ⟪" Check the drain filter. "⟫)
    by (vm_compute; repeat split; intros Hin; repeat destruct Hin as [Hin|Hin]; discriminate || exact Hin).
  simpl. split; [exact H|]. destruct H as (H1 & H2 & H3 & H4). exact (clean_text_plain _ H1 H2 H3 H4).
Defined.

End CleanText.
