(* ===== verification/Base64.v ===== *)
(** * Base64: [base64.b64encode] and [base64.b64decode]

    agent.py, [convert_to_base64] (lines 56-58), encodes each uploaded file
    with [base64.b64encode(file.read()).decode("utf-8")]; each describer
    (audio_description.py line 24, image_description.py line 42,
    video_description.py line 32) decodes it again with
    [base64.b64decode].  The encoder is the standard RFC 4648 alphabet with
    [=] padding, on 24-bit groups split into sextets with [Z.shiftr] and
    [Z.land].  The decoder is exact on canonical encodings (groups of four
    alphabet characters, padding only in the last group); on any other
    text it raises [binascii.Error], where CPython's lenient decoder would
    sometimes skip characters instead: the program only ever decodes what
    [convert_to_base64] produced, and [b64_roundtrip] shows that this is
    always decoded back to the uploaded bytes.

    Theorems: the round trip; the encoded length is [4 * ceil(n / 3)]; the
    encoding is empty exactly for an empty file (the handler's "Couldn't
    convert to base64 successfully." branch). *)

From Stdlib Require Import List Ascii String ZArith Lia.
From Stdlib Require Strings.Byte.
From S2P Require Import Prelude.
Import ListNotations.
Open Scope fg_scope.
Open Scope Z_scope.

Module Base64.

Definition alphabet : text :=
  ⟪"ABCDEFGHIJKLMNOPQRSTUVWXYZabcdefghijklmnopqrstuvwxyz0123456789+/"⟫.

Definition pad : ascii := "=".

(** The character of a sextet [0 <= v < 64]. *)
Definition b64char (v : Z) : ascii := nth (Z.to_nat v) alphabet pad.

Fixpoint index_from (c : ascii) (l : text) (i : Z) : option Z :=
  match l with
  | [] => None
  | x :: l' => if ascii_dec c x then Some i else index_from c l' (Z.succ i)
  end.

(** The sextet of an alphabet character. *)
Definition b64val (c : ascii) : option Z := index_from c alphabet 0.

(** A byte as an integer in [0, 256). *)
Definition bval (b : Byte.byte) : Z := Z.of_N (Byte.to_N b).

(** The low eight bits of [v] as a byte. *)
Definition byte_of (v : Z) : Byte.byte :=
  match Byte.of_N (Z.to_N (Z.land v 255)) with Some b => b | None => Byte.x00 end.

(** The sextet of the 24-bit group [n] that starts at bit [k]. *)
Definition sextet (n k : Z) : ascii := b64char (Z.land (Z.shiftr n k) 63).

(** Three bytes as a 24-bit group, most significant first. *)
Definition group (a b c : Byte.byte) : Z := bval a * 65536 + bval b * 256 + bval c.

(** [base64.b64encode]: three bytes give four characters; a final group
    of one or two bytes is zero-filled and padded with [=]. *)
Fixpoint b64encode (bs : list Byte.byte) : text :=
  match bs with
  | a :: b :: c :: rest =>
      let n := group a b c in [sextet n 18; sextet n 12; sextet n 6; sextet n 0] ++ b64encode rest
  | [a; b] => let n := group a b Byte.x00 in [sextet n 18; sextet n 12; sextet n 6; pad]
  | [a] => let n := group a Byte.x00 Byte.x00 in [sextet n 18; sextet n 12; pad; pad]
  | [] => []
  end.

(** Four sextets as a 24-bit group. *)
Definition join4 (v1 v2 v3 v4 : Z) : Z := v1 * 262144 + v2 * 4096 + v3 * 64 + v4.

(** [base64.b64decode] on a canonical encoding. *)
Fixpoint b64decode (t : text) : res (list Byte.byte) :=
  match t with
  | [] => Ok []
  | c1 :: c2 :: c3 :: c4 :: rest =>
      match b64val c1, b64val c2 with
      | Some v1, Some v2 =>
          if ascii_dec c4 pad then
            match rest with
            | [] =>
                if ascii_dec c3 pad then Ok [byte_of (Z.shiftr (join4 v1 v2 0 0) 16)]
                else match b64val c3 with
                     | Some v3 => let n := join4 v1 v2 v3 0 in
                                  Ok [byte_of (Z.shiftr n 16); byte_of (Z.shiftr n 8)]
                     | None => Raise BinasciiError
                     end
            | _ => Raise BinasciiError
            end
          else
            match b64val c3, b64val c4 with
            | Some v3, Some v4 =>
                let n := join4 v1 v2 v3 v4 in
                let! r := b64decode rest in
                Ok (byte_of (Z.shiftr n 16) :: byte_of (Z.shiftr n 8) :: byte_of n :: r)
            | _, _ => Raise BinasciiError
            end
      | _, _ => Raise BinasciiError
      end
  | _ => Raise BinasciiError
  end.

(** ** Lemmas *)

Lemma land_low x k : 0 <= k -> Z.land x (Z.ones k) = x mod 2 ^ k.
Proof. intros Hk. now rewrite Z.land_ones. Qed.

Lemma bval_range b : 0 <= bval b < 256.
Proof. unfold bval. pose proof (Byte.to_N_bounded b). lia. Qed.

Lemma byte_of_bval v b : v mod 256 = bval b -> byte_of v = b.
Proof.
  intros Hv. unfold byte_of. change 255 with (Z.ones 8). rewrite land_low by lia.
  change (2 ^ 8) with 256. rewrite Hv. unfold bval. rewrite N2Z.id, Byte.of_to_N. reflexivity.
Qed.

Lemma b64char_val v : 0 <= v < 64 -> b64val (b64char v) = Some v /\ b64char v <> pad.
Proof.
  intros Hv. unfold b64char. rewrite <- (Z2Nat.id v) at 2 by lia.
  assert (Hk : (Z.to_nat v < 64)%nat) by lia. revert Hk. generalize (Z.to_nat v) as k. intros k Hk.
  do 64 (destruct k as [|k]; [split; [reflexivity | discriminate]|]). lia.
Qed.

Lemma sextet_spec n k : 0 <= k -> sextet n k = b64char ((n / 2 ^ k) mod 64).
Proof.
  intros Hk. unfold sextet. rewrite Z.shiftr_div_pow2 by exact Hk.
  change 63 with (Z.ones 6). rewrite land_low by lia. reflexivity.
Qed.

Lemma sextet_val n k : 0 <= k ->
  b64val (sextet n k) = Some ((n / 2 ^ k) mod 64) /\ sextet n k <> pad.
Proof. intros Hk. rewrite sextet_spec by exact Hk. apply b64char_val, Z.mod_pos_bound. lia. Qed.

Lemma byte_of_shift v k b : 0 <= k -> (v / 2 ^ k) mod 256 = bval b -> byte_of (Z.shiftr v k) = b.
Proof. intros Hk Hv. apply byte_of_bval. now rewrite Z.shiftr_div_pow2. Qed.

Lemma div_step n d : 0 <= n -> 0 < d -> n / d = 64 * (n / (d * 64)) + (n / d) mod 64.
Proof. intros Hn Hd. rewrite <- Z.div_div by lia. apply Z.div_mod. lia. Qed.

(** The four sextets of a 24-bit group join back into it. *)
Lemma join_sextets n : 0 <= n < 16777216 ->
  join4 ((n / 2 ^ 18) mod 64) ((n / 2 ^ 12) mod 64) ((n / 2 ^ 6) mod 64) ((n / 2 ^ 0) mod 64) = n.
Proof.
  intros Hn. unfold join4. change (2 ^ 18) with 262144. change (2 ^ 12) with 4096.
  change (2 ^ 6) with 64. change (2 ^ 0) with 1.
  pose proof (div_step n 1 ltac:(lia) ltac:(lia)) as H0.
  pose proof (div_step n 64 ltac:(lia) ltac:(lia)) as H6.
  pose proof (div_step n 4096 ltac:(lia) ltac:(lia)) as H12.
  change (1 * 64) with 64 in H0. change (64 * 64) with 4096 in H6. change (4096 * 64) with 262144 in H12.
  rewrite (Z.mod_small (n / 262144)).
  2:{ split; [apply Z.div_pos; lia|]. apply Z.div_lt_upper_bound; lia. }
  rewrite Z.div_1_r in *. lia.
Qed.

(** The three bytes of a group. *)
Lemma group_bytes a b c :
  (group a b c / 2 ^ 16) mod 256 = bval a /\ (group a b c / 2 ^ 8) mod 256 = bval b /\
  group a b c mod 256 = bval c.
Proof.
  pose proof (bval_range a) as Ha. pose proof (bval_range b) as Hb. pose proof (bval_range c) as Hc.
  unfold group. change (2 ^ 16) with 65536. change (2 ^ 8) with 256. split; [|split].
  - rewrite <- (Z.div_unique _ 65536 (bval a) (bval b * 256 + bval c)) by lia. apply Z.mod_small. lia.
  - rewrite <- (Z.div_unique _ 256 (bval a * 256 + bval b) (bval c)) by lia.
    symmetry. apply Z.mod_unique with (q := bval a); lia.
  - symmetry. apply Z.mod_unique with (q := bval a * 256 + bval b); lia.
Qed.

Lemma group_range a b c : 0 <= group a b c < 16777216.
Proof.
  pose proof (bval_range a). pose proof (bval_range b). pose proof (bval_range c). unfold group. lia.
Qed.

Lemma low_sextet_zero q : (q * 64 / 2 ^ 0) mod 64 = 0.
Proof. change (2 ^ 0) with 1. rewrite Z.div_1_r. apply Z.mod_mul. lia. Qed.

(** A final group of two bytes has a zero last sextet. *)
Lemma join_pad2 a b : let n := group a b Byte.x00 in
  join4 ((n / 2 ^ 18) mod 64) ((n / 2 ^ 12) mod 64) ((n / 2 ^ 6) mod 64) 0 = n.
Proof.
  intros n. assert (H0 : (n / 2 ^ 0) mod 64 = 0).
  { replace n with ((bval a * 1024 + bval b * 4) * 64)
      by (unfold n, group; change (bval Byte.x00) with 0; lia). apply low_sextet_zero. }
  rewrite <- H0 at 1. apply join_sextets, group_range.
Qed.

(** A final group of one byte has two zero sextets. *)
Lemma join_pad1 a : let n := group a Byte.x00 Byte.x00 in
  join4 ((n / 2 ^ 18) mod 64) ((n / 2 ^ 12) mod 64) 0 0 = n.
Proof.
  intros n. assert (Hn : n = bval a * 16 * 64 * 64)
    by (unfold n, group; change (bval Byte.x00) with 0; lia).
  assert (H0 : (n / 2 ^ 0) mod 64 = 0) by (rewrite Hn; apply low_sextet_zero).
  assert (H6 : (n / 2 ^ 6) mod 64 = 0).
  { rewrite Hn. change (2 ^ 6) with 64. rewrite Z.div_mul by lia. apply Z.mod_mul. lia. }
  transitivity (join4 ((n / 2 ^ 18) mod 64) ((n / 2 ^ 12) mod 64) ((n / 2 ^ 6) mod 64) ((n / 2 ^ 0) mod 64)).
  - now rewrite H6, H0.
  - apply join_sextets, group_range.
Qed.

(** The decoder inverts one full group. *)
Lemma b64decode_group a b c rest :
  b64decode (let n := group a b c in [sextet n 18; sextet n 12; sextet n 6; sextet n 0] ++ rest) =
  let! r := b64decode rest in Ok (a :: b :: c :: r).
Proof.
  cbv zeta. set (n := group a b c).
  destruct (sextet_val n 18) as [V1 _], (sextet_val n 12) as [V2 _],
    (sextet_val n 6) as [V3 _], (sextet_val n 0) as [V4 P4]; try lia.
  simpl app. cbn [b64decode]. rewrite V1, V2, V3, V4.
  destruct (ascii_dec (sextet n 0) pad) as [E|_]; [contradiction|].
  rewrite join_sextets by apply group_range.
  destruct (b64decode rest) as [r|e]; [|reflexivity]. cbn [bind].
  destruct (group_bytes a b c) as (Ea & Eb & Ec).
  rewrite (byte_of_shift n 16 a), (byte_of_shift n 8 b), (byte_of_bval n c); auto; lia.
Qed.

(** ** Theorems *)

(** C30: Decoding an encoding gives back the bytes: the describers always
    receive exactly the uploaded file. *)
Theorem b64_roundtrip bs : b64decode (b64encode bs) = Ok bs.
Proof.
  induction bs as [bs IH] using (induction_ltof1 _ (@List.length _)); unfold ltof in IH.
  destruct bs as [|a [|b [|c rest]]]; [reflexivity| | |].
  - cbn [b64encode]. pose proof (join_pad1 a) as J. set (n := group a Byte.x00 Byte.x00) in *.
    destruct (sextet_val n 18) as [V1 _], (sextet_val n 12) as [V2 _]; try lia.
    cbn [b64decode]. rewrite V1, V2.
    destruct (ascii_dec pad pad) as [_|E]; [|contradiction]. rewrite J.
    do 2 f_equal. apply byte_of_shift; [lia | apply group_bytes].
  - cbn [b64encode]. pose proof (join_pad2 a b) as J. set (n := group a b Byte.x00) in *.
    destruct (sextet_val n 18) as [V1 _], (sextet_val n 12) as [V2 _], (sextet_val n 6) as [V3 P3]; try lia.
    cbn [b64decode]. rewrite V1, V2.
    destruct (ascii_dec pad pad) as [_|E]; [|contradiction].
    destruct (ascii_dec (sextet n 6) pad) as [E|_]; [contradiction|]. rewrite V3. cbv zeta. rewrite J.
    do 3 f_equal; [|f_equal]; apply byte_of_shift; try lia; apply group_bytes.
  - cbn [b64encode]. rewrite b64decode_group, IH by (simpl; lia). reflexivity.
Qed.

(** C39: Four characters per started group of three bytes. *)
Theorem b64encode_length bs : length (b64encode bs) = (4 * ((length bs + 2) / 3))%nat.
Proof.
  induction bs as [bs IH] using (induction_ltof1 _ (@List.length _)); unfold ltof in IH.
  destruct bs as [|a [|b [|c rest]]]; try reflexivity.
  cbn [b64encode]. rewrite length_app, IH by (simpl; lia). cbn [List.length].
  replace (S (S (S (length rest))) + 2)%nat with (length rest + 2 + 1 * 3)%nat by lia.
  rewrite Nat.div_add by lia. simpl. lia.
Qed.

(** The encoding is falsy exactly for an empty file: the handler answers
    "Couldn't convert to base64 successfully." only for an empty upload. *)
Theorem b64encode_truthy bs : str_truthy (b64encode bs) = true <-> bs <> [].
Proof.
  destruct bs as [|a [|b [|c rest]]]; simpl; split; congruence.
Qed.

Example b64encode_lg : b64encode [Byte.x4c; Byte.x47] = ⟪"TEc="⟫.
Proof. reflexivity. Qed.

End Base64.
