(* ===== verification/PyValue.v ===== *)
(** * PyValue: the Python values the back end manipulates

    JSON records loaded by [json.load], the metadata dictionaries of the
    vector index, the tool results of the agent and the literals parsed by
    [ast.literal_eval] are Python values.  [pyval] models them (dictionaries
    with string keys, as JSON objects have, as association lists in
    insertion order), with the operations the code applies to them:
    truthiness ([if x:], [x or y]), [d.get(k)], [d.get(k, default)],
    [k in x], [x[k]] and [d[k] = v], each raising the exception Python
    raises on a value of the wrong type. *)

From Stdlib Require Import List Ascii String Bool ZArith QArith Lia.
From S2P Require Import Prelude.
Import ListNotations.
Open Scope fg_scope.

Module PyValue.

Inductive pyval :=
| PNone
| PBool (b : bool)
| PInt (z : Z)
| PFloat (q : Q)
| PStr (s : text)
| PList (l : list pyval)
| PDict (d : list (text * pyval)).

Definition dict := list (text * pyval).

Definition text_eqb (a b : text) : bool :=
  if list_eq_dec ascii_dec a b then true else false.

(** Python truthiness: [None], [False], zero, and empty containers are false. *)
Definition truthy (v : pyval) : bool :=
  match v with
  | PNone => false
  | PBool b => b
  | PInt z => negb (Z.eqb z 0)
  | PFloat q => negb (Qeq_bool q 0)
  | PStr s => str_truthy s
  | PList l => match l with [] => false | _ => true end
  | PDict d => match d with [] => false | _ => true end
  end.

(** [x or y] with [y] evaluated only when [x] is falsy. *)
Definition py_or (x : pyval) (y : unit -> res pyval) : res pyval :=
  if truthy x then Ok x else y tt.

(** Lookup of a key in a dictionary (keys are unique in a Python dict). *)
Fixpoint dict_get (k : text) (d : dict) : option pyval :=
  match d with
  | [] => None
  | (k', v) :: d' => if text_eqb k k' then Some v else dict_get k d'
  end.

Definition has_key (k : text) (d : dict) : bool :=
  match dict_get k d with Some _ => true | None => false end.

(** [d[k] = v]: an existing key keeps its position, a new key goes last. *)
Fixpoint dict_set (k : text) (v : pyval) (d : dict) : dict :=
  match d with
  | [] => [(k, v)]
  | (k', v') :: d' => if text_eqb k k' then (k', v) :: d' else (k', v') :: dict_set k v d'
  end.

(** [x.get(k, default)]: only dictionaries have [get]. *)
Definition py_get (x : pyval) (k : text) (default : pyval) : res pyval :=
  match x with
  | PDict d => Ok (match dict_get k d with Some v => v | None => default end)
  | _ => Raise AttributeError
  end.

(** [k in s] for strings: substring test. *)
Fixpoint is_infix (k s : text) : bool :=
  match s with
  | [] => match k with [] => true | _ => false end
  | _ :: s' => (if list_eq_dec ascii_dec k (firstn (length k) s) then true else false) || is_infix k s'
  end.

(** [k in x] for a string [k]: key test on a dict, substring test on a str,
    element test on a list; any other type raises [TypeError]. *)
Definition py_contains (x : pyval) (k : text) : res bool :=
  match x with
  | PDict d => Ok (has_key k d)
  | PStr s => Ok (is_infix k s)
  | PList l => Ok (existsb (fun v => match v with PStr s => text_eqb s k | _ => false end) l)
  | _ => Raise TypeError
  end.

(** [x[k]] for a string [k]: [KeyError] on a dict without [k]; a str or a
    list cannot be indexed by a str ([TypeError]), nor can a scalar. *)
Definition py_getitem (x : pyval) (k : text) : res pyval :=
  match x with
  | PDict d => match dict_get k d with Some v => Ok v | None => Raise KeyError end
  | _ => Raise TypeError
  end.

(** [d.get(k)] on a dictionary. *)
Definition dget (d : dict) (k : text) : pyval :=
  match dict_get k d with Some v => v | None => PNone end.

(** ** Lemmas *)

Lemma text_eqb_eq a b : text_eqb a b = true <-> a = b.
Proof. unfold text_eqb. destruct (list_eq_dec ascii_dec a b); split; congruence. Qed.

Lemma text_eqb_refl a : text_eqb a a = true.
Proof. now apply text_eqb_eq. Qed.

Lemma dict_get_set_eq k v d : dict_get k (dict_set k v d) = Some v.
Proof.
  induction d as [|[k' v'] d IH]; simpl.
  - now rewrite text_eqb_refl.
  - destruct (text_eqb k k') eqn:E; simpl; rewrite ?E; auto.
Qed.

Lemma dict_get_set_ne k k' v d : k <> k' -> dict_get k' (dict_set k v d) = dict_get k' d.
Proof.
  intros Hne. induction d as [|[j w] d IH]; simpl.
  - destruct (text_eqb k' k) eqn:E; [apply text_eqb_eq in E; congruence | reflexivity].
  - destruct (text_eqb k j) eqn:E; simpl.
    + apply text_eqb_eq in E. subst j.
      destruct (text_eqb k' k) eqn:E'; [apply text_eqb_eq in E'; congruence | reflexivity].
    + destruct (text_eqb k' j); auto.
Qed.

Lemma dict_set_keys k v d : map fst (dict_set k v d) =
  if has_key k d then map fst d else map fst d ++ [k].
Proof.
  unfold has_key. induction d as [|[k' v'] d IH]; simpl; [reflexivity|].
  destruct (text_eqb k k'); simpl; [reflexivity|]. rewrite IH. destruct (dict_get k d); reflexivity.
Qed.

Lemma py_or_truthy x y : truthy x = true -> py_or x y = Ok x.
Proof. unfold py_or. intros ->. reflexivity. Qed.

Lemma py_or_falsy x y : truthy x = false -> py_or x y = y tt.
Proof. unfold py_or. intros ->. reflexivity. Qed.

Lemma py_get_dict d k def :
  py_get (PDict d) k def = Ok (match dict_get k d with Some v => v | None => def end).
Proof. reflexivity. Qed.

Example is_infix_title : is_infix ⟪"title"⟫ ⟪"guide_title"⟫ = true.
Proof. reflexivity. Qed.

End PyValue.
