(* ===== verification/ReAct.v ===== *)
(** * ReAct: the agent's output parser

    [create_react_agent] (agent.py line 52) parses every model turn with
    LangChain's [ReActSingleInputOutputParser], and the executor of line
    53 ([handle_parsing_errors=True]) turns a parse error into an
    observation for the next turn.  The parser:
    - [includes_answer = "Final Answer:" in text];
    - [re.search] of the pattern [Action\s*\d*\s*:[\s]*(.*?)[\s]*Action\s*\d*\s*Input\s*\d*\s*:[\s]*]
      followed by a greedy group of the rest of the text, with
      [re.DOTALL]: when it matches, an answer in the same turn is an
      error, otherwise the turn is the call of tool [group(1).strip()] on
      [group(2)] stripped of spaces ([.strip(" ")]) and then of double
      quotes;
    - with no match, a turn with an answer finishes with
      [text.split("Final Answer:")[-1].strip()];
    - otherwise the error says what is missing: no [Action:] at all, or no
      [Action Input:]; the executor sends these two messages back to the
      model as observations, and ["Invalid or incomplete response"] for
      the other errors.

    [search_action] is [re.search] with that pattern, written out: the
    leftmost start, the keyword [Action\s*\d*\s*:], the lazy group, and the
    second keyword.  [\s] is Python's [str.isspace] ([is_space]), [\d] an
    ASCII digit.  Each [\s*\d*\s*] run is followed by a character that is
    neither a space nor a digit (['I'] or [':']), so the greedy runs never
    backtrack, and the lazy group ends at the first place from which the
    second keyword follows some spaces.

    Theorems: a turn written in the prompt's [Action:]/[Action Input:]
    format is read back as that tool call ([parse_react_action]); a turn
    [Final Answer: out] finishes with [out] stripped
    ([parse_react_final]). *)

From Stdlib Require Import List Ascii String Bool Arith Lia.
From S2P Require Import Prelude CleanText PyValue.
Import ListNotations CleanText PyValue.
Open Scope fg_scope.

Module ReAct.

(** What the parser makes of one model turn; [ParseFailure o]: an
    [OutputParserException], with the observation the executor sends back
    for it. *)
Inductive agent_step :=
| AgentAction (tool input : text)
| AgentFinish (output : text)
| ParseFailure (observation : text).

Definition final_answer_action : text := ⟪"Final Answer:"⟫.
Definition missing_action_error : text := ⟪"Invalid Format: Missing 'Action:' after 'Thought:'"⟫.
Definition missing_action_input_error : text :=
  ⟪"Invalid Format: Missing 'Action Input:' after 'Action:'"⟫.
Definition parse_error_observation : text := ⟪"Invalid or incomplete response"⟫.

Definition double_quote : ascii := "034"%char.

(** [\d]. *)
Definition re_digit (c : ascii) : bool :=
  Nat.leb 48 (nat_of_ascii c) && Nat.leb (nat_of_ascii c) 57.

(** [\s*\d*\s*]. *)
Definition ws_digits_ws (s : text) : text :=
  drop_while is_space (drop_while re_digit (drop_while is_space s)).

(** A literal [:]. *)
Definition colon (s : text) : option text :=
  match s with
  | c :: r => if Ascii.eqb c ":" then Some r else None
  | [] => None
  end.

(** [Action\s*\d*\s*:] at the head of [s]: what follows the colon. *)
Definition action_colon (s : text) : option text :=
  match strip_prefix ⟪"Action"⟫ s with
  | Some r => colon (ws_digits_ws r)
  | None => None
  end.

(** [Action\s*\d*\s*Input\s*\d*\s*:] at the head of [s]. *)
Definition action_input_colon (s : text) : option text :=
  match strip_prefix ⟪"Action"⟫ s with
  | Some r =>
      match strip_prefix ⟪"Input"⟫ (ws_digits_ws r) with
      | Some r2 => colon (ws_digits_ws r2)
      | None => None
      end
  | None => None
  end.

(** [(.*?)[\s]*Action\s*\d*\s*Input\s*\d*\s*:[\s]*] and the greedy
    group 2: the shortest group 1 after which the second keyword follows,
    and group 2, the rest after the keyword's spaces. *)
Fixpoint lazy_input (s : text) : option (text * text) :=
  match action_input_colon (drop_while is_space s) with
  | Some r => Some ([], drop_while is_space r)
  | None =>
      match s with
      | [] => None
      | c :: s' =>
          match lazy_input s' with
          | Some (g1, g2) => Some (c :: g1, g2)
          | None => None
          end
      end
  end.

(** The whole pattern at the head of [s]: its two groups. *)
Definition action_match_at (s : text) : option (text * text) :=
  match action_colon s with
  | Some r => lazy_input (drop_while is_space r)
  | None => None
  end.

(** [re.search(pattern, text, re.DOTALL)]: the leftmost match. *)
Fixpoint search_action (s : text) : option (text * text) :=
  match action_match_at s with
  | Some m => Some m
  | None => match s with [] => None | _ :: s' => search_action s' end
  end.

(** Whether a prefix pattern matches at some position of [s]. *)
Fixpoint search_prefix (f : text -> option text) (s : text) : bool :=
  match f s with
  | Some _ => true
  | None => match s with [] => false | _ :: s' => search_prefix f s' end
  end.

Definition is_prefixb (p s : text) : bool :=
  match strip_prefix p s with Some _ => true | None => false end.

(** [s.split(sep)[-1]] for a non-empty [sep]: what follows the last
    occurrence of [sep], occurrences found left to right without overlap;
    [skip] counts the characters of an occurrence still to pass. *)
Fixpoint last_piece (sep s : text) (skip : nat) (cur : text) : text :=
  match s with
  | [] => rev cur
  | c :: s' =>
      match skip with
      | S k => last_piece sep s' k cur
      | 0 => if is_prefixb sep s then last_piece sep s' (length sep - 1) []
             else last_piece sep s' 0 (c :: cur)
      end
  end.

(** [s.strip(c)] for one character [c]. *)
Definition strip_char (c : ascii) (s : text) : text :=
  rev (drop_while (Ascii.eqb c) (rev (drop_while (Ascii.eqb c) s))).

(** [ReActSingleInputOutputParser.parse], with the executor's observation
    for each exception. *)
Definition parse_react (t : text) : agent_step :=
  let includes_answer := is_infix final_answer_action t in
  match search_action t with
  | Some (g1, g2) =>
      if includes_answer then ParseFailure parse_error_observation
      else AgentAction (strip g1) (strip_char double_quote (strip_char " " g2))
  | None =>
      if includes_answer then AgentFinish (strip (last_piece final_answer_action t 0 []))
      else if negb (search_prefix action_colon t) then ParseFailure missing_action_error
      else if negb (search_prefix action_input_colon t) then ParseFailure missing_action_input_error
      else ParseFailure parse_error_observation
  end.

(** The format the prompt asks the model for. *)
Definition render_action (tool input : text) : text :=
  ⟪"Action: "⟫ ++ tool ++ nl :: ⟪"Action Input: "⟫ ++ input.

Definition render_final (out : text) : text := ⟪"Final Answer: "⟫ ++ out.

(** The characters of a tool name: lower-case letters, digits, [_]. *)
Definition tool_char (c : ascii) : bool :=
  (Nat.leb 97 (nat_of_ascii c) && Nat.leb (nat_of_ascii c) 122) || re_digit c || Ascii.eqb c "_".

Definition tool_name_ok (t : text) : bool := str_truthy t && forallb tool_char t.

(** A tool input the parser gives back as it is: it does not start with
    whitespace or a double quote, does not end with a space or a double
    quote, and holds no [Final Answer:]. *)
Definition input_ok (i : text) : bool :=
  match i with
  | [] => true
  | c :: _ =>
      negb (is_space c || Ascii.eqb c double_quote) &&
      match rev i with d :: _ => negb (Ascii.eqb d " " || Ascii.eqb d double_quote) | [] => true end
  end && negb (is_infix final_answer_action i).

(** ** Lemmas *)

Lemma tool_char_facts c : tool_char c = true ->
  is_space c = false /\ Ascii.eqb c "A" = false /\ Ascii.eqb c "F" = false.
Proof.
  unfold tool_char, re_digit, is_space. intros H.
  destruct (Ascii.eqb_spec c "A") as [->|_]; [discriminate|].
  destruct (Ascii.eqb_spec c "F") as [->|_]; [discriminate|].
  repeat split. apply Bool.not_true_iff_false. intros Hs.
  apply Bool.orb_true_iff in H as [H|H]; [apply Bool.orb_true_iff in H as [H|H]|];
    [| |apply Ascii.eqb_eq in H; subst c; discriminate];
    apply andb_prop in H as [H1 H2]; apply Nat.leb_le in H1, H2;
    apply Bool.orb_true_iff in Hs as [Hs|Hs]; apply andb_prop in Hs as [H3 H4];
    apply Nat.leb_le in H3, H4; lia.
Qed.

(** A pattern whose first character does not occur in [p] cannot start
    inside [p]. *)
Lemma is_infix_skip k p s : (match k with x :: _ => ~ In x p | [] => False end) ->
  is_infix k (p ++ s) = is_infix k s.
Proof.
  destruct k as [|x k]; [contradiction|]. induction p as [|a p IH]; intros Hx; [reflexivity|].
  cbn [app is_infix]. rewrite IH by (intros Hin; apply Hx; now right).
  destruct (list_eq_dec ascii_dec (x :: k) (firstn (length (x :: k)) (a :: p ++ s))) as [E|]; [|reflexivity].
  cbn in E. inversion E. subst. exfalso. apply Hx. now left.
Qed.

Lemma tool_no_F t : forallb tool_char t = true -> ~ In "F"%char t.
Proof.
  intros H Hin. rewrite forallb_forall in H. destruct (tool_char_facts _ (H _ Hin)) as (_ & _ & HF).
  now rewrite Ascii.eqb_refl in HF.
Qed.

(** The lazy group runs over a tool name: its characters are neither
    spaces nor the [A] of the second keyword. *)
Lemma lazy_input_tool t r : forallb tool_char t = true ->
  lazy_input (t ++ r) = match lazy_input r with Some (g1, g2) => Some (t ++ g1, g2) | None => None end.
Proof.
  induction t as [|c t IH]; intros H; cbn [app].
  - now destruct (lazy_input r) as [[g1 g2]|].
  - cbn in H. apply andb_prop in H as [Hc H]. destruct (tool_char_facts c Hc) as (Hs & HA & _).
    cbn [lazy_input drop_while]. rewrite Hs. unfold action_input_colon at 1. cbn [strip_prefix txt].
    replace (strip_prefix _ (c :: t ++ r)) with (@None text).
    2: { cbn [strip_prefix txt list_ascii_of_string].
         destruct (ascii_dec "A" c) as [<-|]; [rewrite Ascii.eqb_refl in HA; discriminate|reflexivity]. }
    rewrite IH by exact H. now destruct (lazy_input r) as [[g1 g2]|].
Qed.

Lemma strip_no_space t : forallb (fun c => negb (is_space c)) t = true -> strip t = t.
Proof.
  intros H. unfold strip, rstrip.
  assert (L : forall u, forallb (fun c => negb (is_space c)) u = true -> lstrip u = u).
  { intros [|c u] Hu; [reflexivity|]. cbn in Hu. apply andb_prop in Hu as [Hc _].
    cbn. now destruct (is_space c). }
  rewrite (L t H), L, rev_involutive; [reflexivity|].
  rewrite forallb_forall in H |- *. intros x Hx. apply H. now apply in_rev.
Qed.

Lemma drop_while_stop f s : match s with c :: _ => f c = false | [] => True end -> drop_while f s = s.
Proof. destruct s as [|c s]; [reflexivity|]. cbn. now intros ->. Qed.

Lemma strip_char_id c s :
  match s with x :: _ => Ascii.eqb c x = false | [] => True end ->
  match rev s with x :: _ => Ascii.eqb c x = false | [] => True end ->
  strip_char c s = s.
Proof.
  intros H1 H2. unfold strip_char. rewrite (drop_while_stop _ s H1), (drop_while_stop _ (rev s) H2).
  apply rev_involutive.
Qed.

Lemma search_action_hit s m : action_match_at s = Some m -> search_action s = Some m.
Proof. destruct s; cbn; intros ->; reflexivity. Qed.

Lemma lazy_input_keyword input :
  lazy_input (nl :: ⟪"Action Input: "⟫ ++ input) = Some ([], drop_while is_space input).
Proof. reflexivity. Qed.

Lemma action_match_render tool input : tool_name_ok tool = true ->
  action_match_at (render_action tool input) = Some (tool, drop_while is_space input).
Proof.
  destruct tool as [|c t]; [discriminate|]. unfold tool_name_ok. cbn [str_truthy andb]. intros Ht.
  assert (Hc : is_space c = false) by (cbn in Ht; apply andb_prop in Ht as [Hc _]; apply tool_char_facts, Hc).
  change (action_match_at (render_action (c :: t) input))
    with (lazy_input (drop_while is_space (c :: t ++ nl :: ⟪"Action Input: "⟫ ++ input))).
  rewrite drop_while_stop by exact Hc.
  pose proof (lazy_input_tool (c :: t) (nl :: ⟪"Action Input: "⟫ ++ input) Ht) as L.
  cbn [app] in L. rewrite L, lazy_input_keyword, app_nil_r. reflexivity.
Qed.

Lemma is_infix_render tool input : tool_name_ok tool = true ->
  is_infix final_answer_action (render_action tool input) = is_infix final_answer_action input.
Proof.
  unfold tool_name_ok, render_action. intros Ht. apply andb_prop in Ht as [_ Ht].
  rewrite is_infix_skip by (cbn; intuition discriminate).
  rewrite is_infix_skip by (exact (tool_no_F tool Ht)).
  change (nl :: ⟪"Action Input: "⟫ ++ input) with ((nl :: ⟪"Action Input: "⟫) ++ input).
  rewrite is_infix_skip by (cbn; intuition discriminate). reflexivity.
Qed.

Lemma is_prefixb_infix p s : is_prefixb p s = true -> is_infix p s = true.
Proof.
  unfold is_prefixb. destruct (strip_prefix p s) as [r|] eqn:E; [|discriminate]. intros _.
  apply strip_prefix_some in E. subst s. destruct (p ++ r) as [|x l] eqn:E.
  - apply app_eq_nil in E as [-> _]. reflexivity.
  - cbn [is_infix]. rewrite <- E, firstn_app, Nat.sub_diag, firstn_all. cbn. rewrite app_nil_r.
    destruct (list_eq_dec ascii_dec p p); [reflexivity|congruence].
Qed.

(** With no occurrence of [sep], the last piece is the whole rest. *)
Lemma last_piece_none sep s cur : is_infix sep s = false -> last_piece sep s 0 cur = rev cur ++ s.
Proof.
  revert cur. induction s as [|c s IH]; intros cur H; [now rewrite app_nil_r|].
  cbn [last_piece]. destruct (is_prefixb sep (c :: s)) eqn:P.
  - apply is_prefixb_infix in P. congruence.
  - cbn [is_infix] in H. apply Bool.orb_false_iff in H as [_ H].
    rewrite IH by exact H. cbn. now rewrite <- app_assoc.
Qed.

(** ** Theorems *)

(** C28: A turn written in the prompt's format, [Action: tool] then
    [Action Input: input] on the next line, is read back as the call of
    [tool] on [input], for every lower-case tool name and every input that
    starts with neither whitespace nor a double quote, ends with neither a
    space nor a double quote and holds no [Final Answer:]. *)
Theorem parse_react_action tool input : tool_name_ok tool = true -> input_ok input = true ->
  parse_react (render_action tool input) = AgentAction tool input.
Proof.
  intros Ht Hi. unfold parse_react.
  rewrite (search_action_hit _ _ (action_match_render tool input Ht)), is_infix_render by exact Ht.
  unfold input_ok in Hi. apply andb_prop in Hi as [Hi Hfa]. apply Bool.negb_true_iff in Hfa. rewrite Hfa.
  assert (Hs : forallb (fun c => negb (is_space c)) tool = true).
  { unfold tool_name_ok in Ht. apply andb_prop in Ht as [_ Ht]. rewrite forallb_forall in Ht |- *.
    intros x Hx. destruct (tool_char_facts x (Ht x Hx)) as [-> _]. reflexivity. }
  rewrite strip_no_space by exact Hs. f_equal.
  destruct input as [|c i]; [reflexivity|].
  apply andb_prop in Hi as [Hc Hl]. apply Bool.negb_true_iff, Bool.orb_false_iff in Hc as [Hc1 Hc2].
  assert (Hr : rev (c :: i) <> []).
  { intros E. apply (f_equal (@length _)) in E. rewrite length_rev in E. discriminate. }
  destruct (rev (c :: i)) as [|d r] eqn:Er; [congruence|].
  apply Bool.negb_true_iff, Bool.orb_false_iff in Hl as [Hd1 Hd2].
  rewrite drop_while_stop by exact Hc1.
  assert (Hsp : Ascii.eqb " " c = false) by (apply Ascii.eqb_neq; intros <-; discriminate Hc1).
  rewrite (strip_char_id " " (c :: i)); [rewrite (strip_char_id double_quote (c :: i)); [reflexivity| |]| |];
    rewrite ?Er.
  - rewrite Ascii.eqb_sym. exact Hc2.
  - rewrite Ascii.eqb_sym. exact Hd2.
  - exact Hsp.
  - rewrite Ascii.eqb_sym. exact Hd1.
Qed.

(** C40: A turn [Final Answer: out], where [out] holds no tool call and no
    second [Final Answer:], finishes the loop with [out] stripped. *)
Theorem parse_react_final out : search_action out = None -> is_infix final_answer_action out = false ->
  parse_react (render_final out) = AgentFinish (strip out).
Proof.
  intros Hs Hi. unfold parse_react.
  change (search_action (render_final out)) with (search_action out). rewrite Hs.
  change (is_infix final_answer_action (render_final out)) with true. cbv iota.
  change (last_piece final_answer_action (render_final out) 0 [])
    with (last_piece final_answer_action (" "%char :: out) 0 []).
  rewrite last_piece_none.
  - reflexivity.
  - change (" "%char :: out) with ([" "%char] ++ out). rewrite is_infix_skip by (cbn; intuition discriminate).
    exact Hi.
Qed.

(** ** Witnesses *)

Lemma parse_react_action_witness :
  parse_react (render_action ⟪"find_closest_match"⟫ ⟪"LG washer error OE"⟫) =
    AgentAction ⟪"find_closest_match"⟫ ⟪"LG washer error OE"⟫.
Proof.
  exact (parse_react_action ⟪"find_closest_match"⟫ ⟪"LG washer error OE"⟫
           ltac:(vm_compute; reflexivity) ltac:(vm_compute; reflexivity)).
Defined.

Lemma parse_react_final_witness :
  parse_react (render_final ⟪" Open the drain filter door. "⟫) = AgentFinish ⟪"Open the drain filter door."⟫.
Proof.
  exact (parse_react_final ⟪" Open the drain filter door. "⟫
           ltac:(vm_compute; reflexivity) ltac:(vm_compute; reflexivity)).
Defined.

End ReAct.
