(* ===== verification/Search.v ===== *)
(** * Search: the similarity matcher [find_closest_match]

    agent_tools/search.py, lines 15-35.  The tool asks the Chroma store for
    [similarity_search_with_score(query, k=1)] and
    - returns [{"error": "No matches found in the vector database."}] when
      the result list is empty,
    - returns the string "No match passed the similarity score threshold."
      when the top distance is [> 0.6],
    - otherwise writes the distance into the document's metadata under
      ["similarity_score"] and returns the metadata.

    The store is a parameter: the class [VectorIndex] gives its documents,
    the distance it assigns a document for a query, and its search;
    [VectorIndexSpec] states what a nearest-neighbour search promises (at
    most k results, each a stored document with its distance, the first
    one nearest, none missing when the index is not empty).  The tool is
    proved against the interface only ([find_closest_match_refines]), and
    [flat_index], a brute-force index that sorts all documents by
    distance, discharges the interface, so its laws are satisfiable.

    Distances are Python floats; they are modelled by their exact rational
    values, and the threshold [0.6] by the value of the double nearest to
    0.6 (5404319552844595 / 2^53), against which Python compares. *)

From Stdlib Require Import List Ascii String Bool ZArith QArith Lia.
From Stdlib Require Import Morphisms.
From S2P Require Import Prelude PyValue.
Import ListNotations PyValue.
Open Scope fg_scope.

Module Search.

(** A LangChain [Document]: its text and its metadata dictionary. *)
Record document := { page_content : text; doc_metadata : dict }.

(** [score_threshold = 0.6], as the double Python stores. *)
Definition score_threshold : Q := 5404319552844595 # 9007199254740992.

(** Python's [a > b]. *)
Definition score_gt (a b : Q) : bool := negb (Qle_bool a b).

Definition no_matches : pyval :=
  PDict [(⟪"error"⟫, PStr ⟪"No matches found in the vector database."⟫)].

Definition below_threshold : pyval :=
  PStr ⟪"No match passed the similarity score threshold."⟫.

Definition similarity_key : text := ⟪"similarity_score"⟫.

(** Lines 22-35: the tool's answer for the search results. *)
Definition closest_match_of (results : list (document * Q)) : pyval :=
  match results with
  | [] => no_matches
  | (doc, score) :: _ =>
      if score_gt score score_threshold then below_threshold
      else PDict (dict_set similarity_key (PFloat score) (doc_metadata doc))
  end.

(** ** The vector store interface *)

Class VectorIndex (I : Type) := {
  index_docs : I -> list document;
  distance : I -> text -> document -> Q;
  similarity_search_with_score : I -> text -> nat -> list (document * Q)
}.

Class VectorIndexSpec (I : Type) `{VectorIndex I} := {
  search_le_k : forall i q k, (length (similarity_search_with_score i q k) <= k)%nat;
  search_nonempty : forall i q k,
    (0 < k)%nat -> index_docs i <> [] -> similarity_search_with_score i q k <> [];
  search_sound : forall i q k d s,
    In (d, s) (similarity_search_with_score i q k) -> In d (index_docs i) /\ s = distance i q d;
  search_nearest : forall i q k d s rest,
    similarity_search_with_score i q k = (d, s) :: rest ->
    forall d', In d' (index_docs i) -> s <= distance i q d'
}.

(** Line 18 and the rest: the tool itself. *)
Definition find_closest_match {I} `{VectorIndex I} (i : I) (query : text) : pyval :=
  closest_match_of (similarity_search_with_score i query 1).

(** ** What the matcher promises (spec section 4.1) *)

Inductive match_outcome :=
| NoMatches
| BelowThreshold
| Matched (d : document) (score : Q).

Definition outcome_value (o : match_outcome) : pyval :=
  match o with
  | NoMatches => no_matches
  | BelowThreshold => below_threshold
  | Matched d s => PDict (dict_set similarity_key (PFloat s) (doc_metadata d))
  end.

(** [NoMatches] exactly on an empty index; [BelowThreshold] when every
    document is farther than the threshold; otherwise a nearest document,
    within the threshold, with its distance. *)
Definition closest_match_spec (docs : list document) (dist : document -> Q)
    (o : match_outcome) : Prop :=
  match o with
  | NoMatches => docs = []
  | BelowThreshold => docs <> [] /\ forall d, In d docs -> score_threshold < dist d
  | Matched d s =>
      In d docs /\ s = dist d /\ s <= score_threshold /\ forall d', In d' docs -> s <= dist d'
  end.

(** ** A reference index: sort every document by distance *)

Record flat_index := { fi_docs : list document; fi_dist : text -> document -> Q }.

Fixpoint insert_by_score (x : document * Q) (l : list (document * Q)) : list (document * Q) :=
  match l with
  | [] => [x]
  | y :: l' => if Qle_bool (snd x) (snd y) then x :: l else y :: insert_by_score x l'
  end.

Definition sort_by_score (l : list (document * Q)) : list (document * Q) :=
  fold_right insert_by_score [] l.

Definition flat_search (i : flat_index) (q : text) (k : nat) : list (document * Q) :=
  firstn k (sort_by_score (map (fun d => (d, fi_dist i q d)) (fi_docs i))).

#[export] Instance flat_vector_index : VectorIndex flat_index := {
  index_docs := fi_docs;
  distance := fi_dist;
  similarity_search_with_score := flat_search
}.

(** ** The spec's scenario: an LG washer guide at distance 0.2 *)

Definition lg_doc : document :=
  {| page_content := ⟪"LG WM3488HW washer, OE drain error: clean the drain filter."⟫;
     doc_metadata := [(⟪"filename"⟫, PStr ⟪"lg_wm3488hw.json"⟫); (⟪"title"⟫, PStr ⟪"LG WM3488HW OE Error"⟫)] |}.

Definition toaster_doc : document :=
  {| page_content := ⟪"Toaster heating element replacement."⟫;
     doc_metadata := [(⟪"filename"⟫, PStr ⟪"toaster.json"⟫); (⟪"title"⟫, PStr ⟪"Toaster Element"⟫)] |}.

(** Distances a store might assign: 0.2 to the LG guide, 0.75 to the other. *)
Definition demo_index : flat_index :=
  {| fi_docs := [toaster_doc; lg_doc];
     fi_dist := fun _ d => if page_content d is "L"%char :: _ then 1 # 5 else 3 # 4 |}.

(** ** The matcher refines its specification *)

Lemma score_gt_true a b : score_gt a b = true <-> b < a.
Proof.
  unfold score_gt. rewrite negb_true_iff. split; intros H.
  - apply Qnot_le_lt. intros Hle. apply Qle_bool_iff in Hle. congruence.
  - destruct (Qle_bool a b) eqn:E; [|reflexivity].
    apply Qle_bool_iff in E. exfalso. exact (Qlt_not_le _ _ H E).
Qed.

Lemma score_gt_false a b : score_gt a b = false <-> a <= b.
Proof.
  unfold score_gt. rewrite negb_false_iff. apply Qle_bool_iff.
Qed.

Section Refinement.
Context {I : Type} `{VectorIndexSpec I}.

(** C3: The tool implements [closest_match_spec] over any store that keeps the
    promises of [VectorIndexSpec]: it answers "no matches" exactly on an
    empty index, rejects when every document is farther than 0.6, and
    otherwise returns a nearest document's metadata with its distance. *)
Theorem find_closest_match_refines (i : I) (query : text) :
  exists o, closest_match_spec (index_docs i) (distance i query) o /\
            find_closest_match i query = outcome_value o.
Proof.
  unfold find_closest_match.
  destruct (similarity_search_with_score i query 1) as [|[d s] rest] eqn:E.
  - exists NoMatches. split; [|reflexivity]. simpl.
    destruct (index_docs i) eqn:D; [reflexivity|]. exfalso.
    apply (search_nonempty i query 1); [lia | rewrite D; discriminate | exact E].
  - assert (Hin : In d (index_docs i) /\ s = distance i query d)
      by (apply (search_sound i query 1); rewrite E; left; reflexivity).
    pose proof (search_nearest i query 1 d s rest E) as Hnear. simpl.
    destruct (score_gt s score_threshold) eqn:G.
    + exists BelowThreshold. split; [|reflexivity]. apply score_gt_true in G. split.
      * intros D. rewrite D in Hin. destruct Hin as [[] _].
      * intros d' Hd'. eapply Qlt_le_trans; [exact G | exact (Hnear d' Hd')].
    + exists (Matched d s). split; [|reflexivity]. apply score_gt_false in G.
      destruct Hin as [Hd Hs]. repeat split; auto.
Qed.

End Refinement.

(** ** The reference index keeps the promises *)

Lemma insert_by_score_In x y l : In y (insert_by_score x l) <-> y = x \/ In y l.
Proof.
  induction l as [|z l IH]; simpl.
  - split; [intros [<-|[]] | intros [->|[]]]; auto.
  - destruct (Qle_bool (snd x) (snd z)); simpl.
    + split; intros [Hy|Hy]; subst; auto.
    + rewrite IH. tauto.
Qed.

Lemma sort_by_score_In y l : In y (sort_by_score l) <-> In y l.
Proof.
  induction l as [|x l IH]; simpl; [tauto|].
  rewrite insert_by_score_In, IH. split; intros [Hy|Hy]; subst; auto.
Qed.

Lemma sort_by_score_head l x rest :
  sort_by_score l = x :: rest -> forall y, In y l -> snd x <= snd y.
Proof.
  revert x rest. induction l as [|a l IH]; intros x rest E y Hy; [destruct Hy|].
  simpl in E. destruct (sort_by_score l) as [|b rest'] eqn:S.
  - simpl in E. inv E. destruct Hy as [<-|Hy]; [apply Qle_refl|].
    apply sort_by_score_In in Hy. rewrite S in Hy. destruct Hy.
  - simpl in E. destruct (Qle_bool (snd a) (snd b)) eqn:L; inv E.
    + apply Qle_bool_iff in L. destruct Hy as [<-|Hy]; [apply Qle_refl|].
      eapply Qle_trans; [exact L | exact (IH _ _ eq_refl y Hy)].
    + destruct Hy as [<-|Hy]; [|exact (IH _ _ eq_refl y Hy)].
      apply Qlt_le_weak, Qnot_le_lt. intros Hle. apply Qle_bool_iff in Hle. congruence.
Qed.

#[export] Instance flat_vector_index_spec : VectorIndexSpec flat_index.
Proof.
  constructor; simpl; unfold flat_search.
  - intros. apply firstn_le_length.
  - intros i q k Hk Hd E. destruct k as [|k]; [lia|].
    destruct (fi_docs i) as [|d ds] eqn:D; [congruence|].
    assert (Hx : In (d, fi_dist i q d) (sort_by_score (map (fun d => (d, fi_dist i q d)) (d :: ds))))
      by (apply sort_by_score_In; left; reflexivity).
    destruct (sort_by_score (map (fun d => (d, fi_dist i q d)) (d :: ds))) as [|x l];
      [destruct Hx | discriminate].
  - intros i q k d s Hin. apply in_firstn, sort_by_score_In, in_map_iff in Hin.
    destruct Hin as [d' [E Hd']]. inv E. auto.
  - intros i q k d s rest E d' Hd'. destruct k as [|k]; [discriminate|].
    destruct (sort_by_score (map (fun d => (d, fi_dist i q d)) (fi_docs i))) as [|x l] eqn:S;
      [discriminate|].
    simpl in E. inv E.
    apply (sort_by_score_head _ _ _ S (d', fi_dist i q d')).
    apply in_map_iff. eauto.
Qed.


(** ** Witness on the spec's scenario *)

Lemma find_closest_match_refines_witness :
  exists o, closest_match_spec (index_docs demo_index) (distance demo_index ⟪"my LG washing machine shows error OE"⟫) o /\
    find_closest_match demo_index ⟪"my LG washing machine shows error OE"⟫ = outcome_value o.
Proof. exact (find_closest_match_refines demo_index ⟪"my LG washing machine shows error OE"⟫). Defined.

End Search.
