(* ===== verification/Finalizer.v ===== *)
(** * Finalizer: [extract_final_data]

    utils/finalizer.py, lines 7-52.  Given the metadata dictionary the agent
    returned, the function joins its ["filename"] to the directory of clean
    JSON guides, loads the file, and builds a response dictionary with the
    fields [title] (from the root, or else from [metadata.title]),
    [tools] (first truthy of [tools], [tools_needed], [tools_and_materials]),
    [steps], [embed_code] and [embed_guide], each only when truthy.

    The directory is a map from paths to what [open] + [json.load] find
    there ([file_system]); a missing path is [FileNotFoundError].  The three
    [except] clauses of lines 15-23 turn loading failures into
    [{"error": ...}] dictionaries.  What happens outside the [try] is not
    caught: a non-string filename makes [os.path.join] raise [TypeError],
    and a JSON document that is not an object makes [data.get] raise
    [AttributeError]; both propagate to the request handler.

    [path_join] is [posixpath.join] for two arguments: an absolute second
    argument replaces the first. *)

From Stdlib Require Import List Ascii String Bool ZArith QArith Lia.
From S2P Require Import Prelude PyValue.
Import ListNotations PyValue.
Open Scope fg_scope.

Module Finalizer.

(** What [open(path)] and [json.load] find at a path that exists. *)
Inductive file_content :=
| JsonFile (v : pyval)       (** a well-formed JSON document *)
| BadJson                    (** [json.JSONDecodeError] *)
| Unreadable (msg : text).   (** any other exception, with [str(e)] *)

(** [None]: the path does not exist ([FileNotFoundError]). *)
Definition file_system := text -> option file_content.

Definition slash : ascii := "/".

(** [os.path.join(a, b)]. *)
Definition path_join (a b : text) : text :=
  match b with
  | x :: _ => if ascii_dec x slash then b
              else match rev a with
                   | [] => b
                   | y :: _ => if ascii_dec y slash then a ++ b else a ++ slash :: b
                   end
  | [] => match rev a with
          | [] => b
          | y :: _ => if ascii_dec y slash then a ++ b else a ++ [slash]
          end
  end.

Definition error_dict (msg : text) : pyval := PDict [(⟪"error"⟫, PStr msg)].

(** [if v: response[k] = v]. *)
Definition set_if (k : text) (v : pyval) (r : dict) : dict :=
  if truthy v then dict_set k v r else r.

(** Line 28: [data.get("title") or data.get("metadata", {}).get("title")]. *)
Definition record_title (data : pyval) : res pyval :=
  let! t := py_get data ⟪"title"⟫ PNone in
  py_or t (fun _ =>
    let! m := py_get data ⟪"metadata"⟫ (PDict []) in
    py_get m ⟪"title"⟫ PNone).

(** Line 33: [data.get("tools") or data.get("tools_needed")
    or data.get("tools_and_materials")]. *)
Definition record_tools (data : pyval) : res pyval :=
  let! t1 := py_get data ⟪"tools"⟫ PNone in
  py_or t1 (fun _ =>
    let! t2 := py_get data ⟪"tools_needed"⟫ PNone in
    py_or t2 (fun _ => py_get data ⟪"tools_and_materials"⟫ PNone)).

(** Lines 25-52: the fields of a loaded record. *)
Definition extract_fields (data : pyval) : res pyval :=
  let! title := record_title data in
  let r1 := set_if ⟪"title"⟫ title [] in
  let! tools := record_tools data in
  let r2 := set_if ⟪"tools"⟫ tools r1 in
  let! steps := py_get data ⟪"steps"⟫ PNone in
  let r3 := set_if ⟪"steps"⟫ steps r2 in
  let! embed_code := py_get data ⟪"embed_code"⟫ PNone in
  let r4 := set_if ⟪"embed_code"⟫ embed_code r3 in
  let! embed_guide := py_get data ⟪"embed_guide"⟫ PNone in
  Ok (PDict (set_if ⟪"embed_guide"⟫ embed_guide r4)).

Section Extract.
Variable json_dir : text.

(** Lines 7-52. *)
Definition extract_final_data (fsys : file_system) (metadata : dict) : res pyval :=
  let file_name := match dict_get ⟪"filename"⟫ metadata with Some v => v | None => PNone end in
  if negb (truthy file_name) then Ok (error_dict ⟪"Filename not provided in metadata"⟫)
  else match file_name with
       | PStr name =>
           let file_path := path_join json_dir name in
           match fsys file_path with
           | None => Ok (error_dict (⟪"File not found: "⟫ ++ file_path))
           | Some BadJson => Ok (error_dict ⟪"Invalid JSON format"⟫)
           | Some (Unreadable msg) => Ok (error_dict (⟪"Failed to read JSON file: "⟫ ++ msg))
           | Some (JsonFile data) => extract_fields data
           end
       | _ => Raise TypeError
       end.

End Extract.

Definition filename_key : text := ⟪"filename"⟫.

Definition final_fields : list text :=
  [⟪"title"⟫; ⟪"tools"⟫; ⟪"steps"⟫; ⟪"embed_code"⟫; ⟪"embed_guide"⟫].

(** [extract_fields] can proceed on [data]: it is an object, and when its
    root title is falsy, its ["metadata"] is absent or an object. *)
Definition record_ok (data : pyval) : bool :=
  match data with
  | PDict d =>
      truthy (dget d ⟪"title"⟫) ||
      match dict_get ⟪"metadata"⟫ d with None | Some (PDict _) => true | Some _ => false end
  | _ => false
  end.

(** ** A small guide directory *)

Definition demo_dir : text := ⟪"/srv/fixgenie/data/clean_data"⟫.

Definition lg_record : pyval :=
  PDict [(⟪"title"⟫, PStr ⟪"LG WM3488HW OE Error"⟫);
         (⟪"tools_needed"⟫, PList [PStr ⟪"Phillips screwdriver"⟫]);
         (⟪"steps"⟫, PList [PStr ⟪"Open the drain filter door"⟫; PStr ⟪"Clean the filter"⟫]);
         (⟪"embed_code"⟫, PStr [])].

Definition demo_fs : file_system := fun p =>
  if list_eq_dec ascii_dec p (demo_dir ++ ⟪"/lg_wm3488hw.json"⟫) then Some (JsonFile lg_record)
  else if list_eq_dec ascii_dec p ⟪"/etc/fixgenie/keys.json"⟫ then Some (JsonFile (PDict [(⟪"title"⟫, PStr ⟪"secret"⟫)]))
  else if list_eq_dec ascii_dec p (demo_dir ++ ⟪"/list.json"⟫) then Some (JsonFile (PList []))
  else None.

(** ** Theorems *)

Lemma record_tools_dict d : exists v, record_tools (PDict d) = Ok v.
Proof.
  unfold record_tools, py_or. simpl.
  destruct (truthy _); [eauto|]. destruct (truthy _); eauto.
Qed.

Lemma record_title_raise data e : record_title data = Raise e -> e = AttributeError.
Proof.
  unfold record_title, py_or. destruct data as [| | | | | |d]; simpl; try congruence.
  destruct (truthy _); [discriminate|].
  destruct (dict_get _ d) as [[| | | | | |m]|]; simpl; congruence.
Qed.

Lemma record_title_ok data : (exists v, record_title data = Ok v) <-> record_ok data = true.
Proof.
  unfold record_title, record_ok, py_or, dget. destruct data as [| | | | | |d]; simpl;
    try (split; [intros [v H]; discriminate | discriminate]).
  destruct (truthy _); simpl; [split; eauto|].
  destruct (dict_get _ d) as [[| | | | | |m]|]; simpl;
    split; try (intros [v H]; discriminate); eauto; discriminate.
Qed.

(** Loading a record raises only [AttributeError], and exactly when the
    record is not an object, or its root title is falsy and its
    ["metadata"] is not an object ([None], a list, a string...). *)
Theorem extract_fields_exception data :
  (forall e, extract_fields data = Raise e -> e = AttributeError) /\
  ((exists e, extract_fields data = Raise e) <-> record_ok data = false).
Proof.
  unfold extract_fields.
  destruct (record_title data) as [title|e] eqn:T; cbn [bind].
  - assert (Hd : exists d, data = PDict d).
    { destruct data; try (unfold record_title in T; simpl in T; discriminate). eauto. }
    destruct Hd as [d ->]. destruct (record_tools_dict d) as [tools ->]. cbn [bind py_get].
    assert (Hok : record_ok (PDict d) = true) by (apply record_title_ok; eauto).
    rewrite Hok. split; [discriminate|]. split; [intros [e H]; discriminate | discriminate].
  - split; [intros e' H; inv H; eapply record_title_raise; eauto|].
    split; [|eauto]. intros _.
    destruct (record_ok data) eqn:R; [|reflexivity].
    apply record_title_ok in R as [v Hv]. congruence.
Qed.

(** The response holds only the five fields, in the order of the code, each
    with a truthy value. *)
Theorem extract_fields_shape data r :
  extract_fields data = Ok (PDict r) ->
  subseq (map fst r) final_fields /\ Forall (fun kv => truthy (snd kv) = true) r.
Proof.
  unfold extract_fields. intros H. bind_inv H. inv H. unfold set_if.
  destruct (truthy x) eqn:T1, (truthy x0) eqn:T2, (truthy x1) eqn:T3,
    (truthy x2) eqn:T4, (truthy x3) eqn:T5; cbn;
    split; repeat constructor; assumption.
Qed.

Lemma extract_fields_dict data v : extract_fields data = Ok v -> exists r, v = PDict r.
Proof. unfold extract_fields. intros H. bind_inv H. inv H. eauto. Qed.

Section Loading.
Variables (json_dir : text) (fsys : file_system).

(** The expander returns a dictionary on every path that returns (the
    function is annotated and documented as returning a dict): the record's
    fields or an [{"error": ...}] dictionary. *)
Theorem extract_final_data_dict md v : extract_final_data json_dir fsys md = Ok v -> exists d, v = PDict d.
Proof.
  unfold extract_final_data. destruct (negb _); [intros [= <-]; eexists; reflexivity|].
  destruct (match dict_get _ md with Some v => v | None => PNone end) as [| | | | s | |]; try discriminate.
  destruct (fsys (path_join json_dir s)) as [[data| |msg]|]; try (intros [= <-]; eexists; reflexivity).
  apply extract_fields_dict.
Qed.

(** C7: A falsy or missing filename, a missing file, malformed JSON and any
    other read error are all reported as [{"error": ...}], never raised. *)
Theorem extract_final_data_failures md :
  (truthy (dget md filename_key) = false ->
     extract_final_data json_dir fsys md = Ok (error_dict ⟪"Filename not provided in metadata"⟫)) /\
  (forall name, dget md filename_key = PStr name -> name <> [] ->
     (forall v, fsys (path_join json_dir name) <> Some (JsonFile v)) ->
     exists msg, extract_final_data json_dir fsys md = Ok (error_dict msg)).
Proof.
  unfold extract_final_data, dget, filename_key. split.
  - intros H. rewrite H. reflexivity.
  - intros name Hn Hne Hf. rewrite Hn. destruct name as [|a name]; [congruence|].
    cbn [truthy str_truthy negb].
    destruct (fsys (path_join json_dir (a :: name))) as [[v| |msg]|] eqn:F;
      try (eexists; reflexivity).
    exfalso. exact (Hf v eq_refl).
Qed.

(** C11: The only exceptions: [TypeError] from [os.path.join] for a truthy
    filename that is not a string, and [AttributeError] from a record that
    is not an object (or whose [metadata] is not one). *)
Theorem extract_final_data_raise md e :
  extract_final_data json_dir fsys md = Raise e ->
  (e = TypeError /\ truthy (dget md filename_key) = true /\ forall s, dget md filename_key <> PStr s) \/
  (e = AttributeError /\ exists name data, dget md filename_key = PStr name /\
     fsys (path_join json_dir name) = Some (JsonFile data) /\ record_ok data = false).
Proof.
  unfold extract_final_data, dget, filename_key. destruct (dict_get _ md) as [v|]; [|discriminate].
  destruct (truthy v) eqn:T; [|discriminate]. cbn [negb].
  destruct v as [| | | | s | |]; intros H;
    try (inv H; left; split; [reflexivity|split; [reflexivity|intros ? ?; discriminate]]).
  destruct (fsys (path_join json_dir s)) as [[data| |msg]|] eqn:F; try discriminate.
  right. pose proof (extract_fields_exception data) as [H1 H2].
  split; [exact (H1 e H)|]. exists s, data. repeat split; auto. apply H2. eauto.
Qed.

End Loading.

(** C13: [os.path.join] drops the guide directory for an absolute filename, so
    the record read is the one at the path the agent's output names. *)
Theorem extract_final_data_absolute json_dir fsys md name data :
  dget md filename_key = PStr (slash :: name) ->
  fsys (slash :: name) = Some (JsonFile data) ->
  extract_final_data json_dir fsys md = extract_fields data.
Proof.
  unfold extract_final_data, dget, filename_key. intros Hn Hf.
  destruct (dict_get _ md) as [v|]; [|discriminate]. subst v. simpl.
  unfold path_join. destruct (ascii_dec slash slash); [|congruence]. rewrite Hf. reflexivity.
Qed.


(** ** Witnesses on the small guide directory *)

Lemma extract_final_data_dict_witness :
  let md := [(filename_key, PStr ⟪"lg_wm3488hw.json"⟫)] in
  let v := match extract_final_data demo_dir demo_fs md with Ok v => v | Raise _ => PNone end in
  extract_final_data demo_dir demo_fs md = Ok v /\ exists d, v = PDict d.
Proof.
  intros md v. assert (E : extract_final_data demo_dir demo_fs md = Ok v) by (vm_compute; reflexivity).
  split; [exact E|]. exact (extract_final_data_dict demo_dir demo_fs md v E).
Defined.

Lemma extract_fields_shape_witness :
  exists r, extract_fields lg_record = Ok (PDict r) /\
    subseq (map fst r) final_fields /\ Forall (fun kv => truthy (snd kv) = true) r.
Proof.
  eexists. split; [reflexivity|]. apply (extract_fields_shape lg_record). reflexivity.
Defined.

Lemma extract_final_data_failures_witness :
  extract_final_data demo_dir demo_fs [(filename_key, PStr ⟪"missing.json"⟫)] =
    Ok (error_dict (⟪"File not found: "⟫ ++ demo_dir ++ ⟪"/missing.json"⟫)) /\
  exists msg, extract_final_data demo_dir demo_fs [(filename_key, PStr ⟪"missing.json"⟫)] = Ok (error_dict msg).
Proof.
  split; [reflexivity|].
  apply (proj2 (extract_final_data_failures demo_dir demo_fs _)) with (name := ⟪"missing.json"⟫);
    [reflexivity | discriminate | intros v; vm_compute; discriminate].
Defined.

Lemma extract_final_data_raise_witness :
  extract_final_data demo_dir demo_fs [(filename_key, PStr ⟪"list.json"⟫)] = Raise AttributeError /\
  ((AttributeError = TypeError /\ truthy (dget [(filename_key, PStr ⟪"list.json"⟫)] filename_key) = true /\
     forall s, dget [(filename_key, PStr ⟪"list.json"⟫)] filename_key <> PStr s) \/
   (AttributeError = AttributeError /\ exists name data, dget [(filename_key, PStr ⟪"list.json"⟫)] filename_key = PStr name /\
     demo_fs (path_join demo_dir name) = Some (JsonFile data) /\ record_ok data = false)).
Proof.
  split; [reflexivity|]. apply (extract_final_data_raise demo_dir demo_fs). reflexivity.
Defined.

Lemma extract_final_data_absolute_witness :
  dget [(filename_key, PStr ⟪"/etc/fixgenie/keys.json"⟫)] filename_key = PStr (slash :: ⟪"etc/fixgenie/keys.json"⟫) /\
  demo_fs (slash :: ⟪"etc/fixgenie/keys.json"⟫) = Some (JsonFile (PDict [(⟪"title"⟫, PStr ⟪"secret"⟫)])) /\
  extract_final_data demo_dir demo_fs [(filename_key, PStr ⟪"/etc/fixgenie/keys.json"⟫)] =
    extract_fields (PDict [(⟪"title"⟫, PStr ⟪"secret"⟫)]).
Proof.
  split; [reflexivity|]. split; [reflexivity|].
  apply (extract_final_data_absolute demo_dir demo_fs _ ⟪"etc/fixgenie/keys.json"⟫); reflexivity.
Defined.

End Finalizer.
