(* ===== verification/Paths.v ===== *)
(** * Paths: where the modules look for the guides and the index

    Four modules compute, when they are imported, the directories they work
    on from their own file name ([__file__]):
    - utils/finalizer.py, lines 4-5: [json_dir], the clean guides that
      [extract_final_data] opens;
    - api/vectordb_generator.py, lines 21-23: [json_dir], the guides that
      [GenerateVectorDB.get] indexes, and [persistent_directory], where it
      persists the index;
    - api/agent.py, lines 33-34, and api/agent_tools/search.py, lines 8-9:
      [persistent_directory], the index the agent and the search tool open.
    Each is [os.path.abspath(os.path.join(os.path.dirname(
    os.path.abspath(__file__)), "..", ..., "data", name))].

    The module models [posixpath] on [str] as CPython writes it:
    [isabs], [dirname], [join] ([Finalizer.path_join], folded over the
    arguments), [normpath] (with its one or two initial slashes and its
    [new_comps] stack, kept here with its last element first) and
    [abspath], with [os.getcwd()] as a parameter.  The theorems show that
    [abspath] answers an absolute path, that [normpath] is idempotent, and
    that, for any location of the back end, the directory ingestion writes
    is the one the agent and the search tool read, and the guides it
    indexes are the ones the finalizer opens: the reason [System] can use
    one collection and one guide directory for both endpoints.  Symbolic
    links are not resolved by [abspath] and are not modelled. *)

From Stdlib Require Import List Ascii String Bool Lia.
From S2P Require Import Prelude PyValue Finalizer.
Import ListNotations PyValue Finalizer.
Open Scope fg_scope.

Module Paths.

Definition is_slash (c : ascii) : bool := Ascii.eqb c slash.

Definition dot : text := ⟪"."⟫.
Definition dotdot : text := ⟪".."⟫.

(** [s.startswith('/')]: [posixpath.isabs]. *)
Definition isabs (s : text) : bool :=
  match s with c :: _ => is_slash c | [] => false end.

(** [path.split('/')]: never empty. *)
Fixpoint split_sep (s : text) : list text :=
  match s with
  | [] => [[]]
  | c :: r =>
      let parts := split_sep r in
      if is_slash c then [] :: parts
      else match parts with
           | p :: ps => (c :: p) :: ps
           | [] => [[c]]
           end
  end.

(** [posixpath.join(a, *p)]: the two-argument join folded over [p]. *)
Definition path_join_all (a : text) (p : list text) : text :=
  fold_left path_join p a.

(** [initial_slashes] of [normpath]: one for a leading slash, two for
    exactly two, and one again for three or more. *)
Definition initial_slashes (p : text) : nat :=
  match p with
  | a :: b :: c :: _ =>
      if is_slash a then (if is_slash b then (if is_slash c then 1 else 2) else 1) else 0
  | [a; b] => if is_slash a then (if is_slash b then 2 else 1) else 0
  | [a] => if is_slash a then 1 else 0
  | [] => 0
  end.

(** The loop of [normpath] over [comps]; [acc] is [new_comps] with its
    last element first. *)
Fixpoint norm_comps (initial : bool) (acc : list text) (comps : list text) : list text :=
  match comps with
  | [] => acc
  | comp :: rest =>
      if text_eqb comp [] || text_eqb comp dot then norm_comps initial acc rest
      else if negb (text_eqb comp dotdot)
              || (negb initial && match acc with [] => true | _ => false end)
              || match acc with top :: _ => text_eqb top dotdot | [] => false end
      then norm_comps initial (comp :: acc) rest
      else match acc with
           | _ :: acc' => norm_comps initial acc' rest
           | [] => norm_comps initial acc rest
           end
  end.

(** [posixpath.normpath]. *)
Definition normpath (path : text) : text :=
  match path with
  | [] => dot
  | _ =>
      let n := initial_slashes path in
      let comps := rev (norm_comps (Nat.ltb 0 n) [] (split_sep path)) in
      let p := repeat slash n ++ join [slash] comps in
      match p with [] => dot | _ => p end
  end.

(** [posixpath.abspath], with [os.getcwd()] as [cwd]. *)
Definition abspath (cwd path : text) : text :=
  normpath (if isabs path then path else path_join cwd path).

(** [posixpath.dirname]: [p[:p.rfind('/') + 1]], and its trailing slashes
    stripped unless it is made of slashes only. *)
Definition dirname (p : text) : text :=
  let head := rev (drop_while (fun c => negb (is_slash c)) (rev p)) in
  if str_truthy head && negb (forallb is_slash head)
  then rev (drop_while is_slash (rev head))
  else head.

(** [current_dir = os.path.dirname(os.path.abspath(__file__))]. *)
Definition current_dir (cwd file : text) : text := dirname (abspath cwd file).

(** [os.path.abspath(os.path.join(current_dir, *parts))]. *)
Definition config_path (cwd file : text) (parts : list text) : text :=
  abspath cwd (path_join_all (current_dir cwd file) parts).

(** utils/finalizer.py, lines 4-5. *)
Definition finalizer_json_dir (cwd file : text) : text :=
  config_path cwd file [dotdot; dotdot; ⟪"data"⟫; ⟪"clean_data"⟫].

(** api/vectordb_generator.py, lines 21-22. *)
Definition generator_json_dir (cwd file : text) : text :=
  config_path cwd file [dotdot; dotdot; ⟪"data"⟫; ⟪"clean_data"⟫].

(** api/vectordb_generator.py, lines 21 and 23. *)
Definition generator_persistent_directory (cwd file : text) : text :=
  config_path cwd file [dotdot; dotdot; ⟪"data"⟫; ⟪"vector_database"⟫].

(** api/agent.py, lines 33-34. *)
Definition agent_persistent_directory (cwd file : text) : text :=
  config_path cwd file [dotdot; dotdot; ⟪"data"⟫; ⟪"vector_database"⟫].

(** api/agent_tools/search.py, lines 8-9: one more level up. *)
Definition search_persistent_directory (cwd file : text) : text :=
  config_path cwd file [dotdot; dotdot; dotdot; ⟪"data"⟫; ⟪"vector_database"⟫].

(** The files' places under the back end's directory. *)
Definition finalizer_py : list text := [⟪"app"⟫; ⟪"utils"⟫; ⟪"finalizer.py"⟫].
Definition generator_py : list text := [⟪"app"⟫; ⟪"api"⟫; ⟪"vectordb_generator.py"⟫].
Definition agent_py : list text := [⟪"app"⟫; ⟪"api"⟫; ⟪"agent.py"⟫].
Definition search_py : list text := [⟪"app"⟫; ⟪"api"⟫; ⟪"agent_tools"⟫; ⟪"search.py"⟫].

(** [data/name] under the back end. *)
Definition data_dir (name : string) : list text := [⟪"data"⟫; ⟪name⟫].

(** An installation of the back end. *)
Definition demo_backend : list text := [⟪"srv"⟫; ⟪"fixgenie"⟫; ⟪"src"⟫; ⟪"backend"⟫].

(** The absolute path with components [cs]: ["/c1/c2/..."]. *)
Definition root_of (cs : list text) : text := flat_map (fun c => slash :: c) cs.

(** A non-empty path component without a slash. *)
Definition segment (c : text) : bool := str_truthy c && forallb (fun a => negb (is_slash a)) c.

(** A component [normpath] keeps as it is. *)
Definition plain (c : text) : bool :=
  segment c && negb (text_eqb c dot) && negb (text_eqb c dotdot).

(** The stacks [normpath]'s loop builds: ordinary components above a run
    of [..], and no [..] at all in an absolute path. *)
Definition stack_ok (initial : bool) (acc : list text) : Prop :=
  exists ps k, acc = ps ++ repeat dotdot k /\ forallb plain ps = true /\ (initial = true -> k = 0).

(** The tail of [normpath]: the path built from the stack. *)
Definition render_path (n : nat) (acc : list text) : text :=
  let p := repeat slash n ++ join [slash] (rev acc) in
  match p with [] => dot | _ => p end.

Definition no_slash (c : text) : bool := forallb (fun a => negb (is_slash a)) c.

(** ** Lemmas *)

Lemma plain_segment c : plain c = true -> segment c = true.
Proof. unfold plain. intros H. now apply andb_prop in H as [[H _]%andb_prop _]. Qed.

Lemma plain_not_dotdot c : plain c = true -> text_eqb c dotdot = false.
Proof. unfold plain. intros H. apply andb_prop in H as [_ H]. now destruct (text_eqb c dotdot). Qed.

Lemma plain_not_empty_dot c : plain c = true -> text_eqb c [] || text_eqb c dot = false.
Proof.
  unfold plain, segment. intros H. apply andb_prop in H as [H _]. apply andb_prop in H as [[H1 _]%andb_prop H2].
  destruct c; [discriminate|]. unfold text_eqb at 1. destruct (list_eq_dec _ _ _); [discriminate|].
  now destruct (text_eqb _ dot).
Qed.

Lemma dotdot_kept : text_eqb dotdot [] || text_eqb dotdot dot = false.
Proof. reflexivity. Qed.

Lemma segment_dotdot : segment dotdot = true.
Proof. reflexivity. Qed.

#[export] Hint Resolve plain_segment plain_not_dotdot plain_not_empty_dot segment_dotdot : fg.

Lemma drop_while_app f u v : forallb f u = true -> drop_while f (u ++ v) = drop_while f v.
Proof.
  induction u as [|a u IH]; cbn; [reflexivity|]. intros H. apply andb_prop in H as [-> H]. auto.
Qed.

Lemma forallb_rev {A} (f : A -> bool) l : forallb f (rev l) = forallb f l.
Proof.
  induction l as [|a l IH]; cbn; [reflexivity|]. rewrite forallb_app, IH. cbn.
  now rewrite andb_true_r, andb_comm.
Qed.

Lemma root_of_app cs ds : root_of (cs ++ ds) = root_of cs ++ root_of ds.
Proof. apply flat_map_app. Qed.

Lemma root_of_snoc cs d : root_of (cs ++ [d]) = root_of cs ++ slash :: d.
Proof. rewrite root_of_app. cbn. now rewrite app_nil_r. Qed.

(** [root_of cs] ends with the last character of its last component. *)
Lemma root_of_last cs : cs <> [] -> forallb segment cs = true ->
  exists r a, rev (root_of cs) = a :: r /\ is_slash a = false.
Proof.
  intros Hne Hs. destruct (exists_last Hne) as (cs' & d & ->).
  rewrite forallb_app in Hs. apply andb_prop in Hs as [_ Hd]. cbn in Hd.
  rewrite andb_true_r in Hd. unfold segment in Hd. apply andb_prop in Hd as [Hd1 Hd2].
  rewrite root_of_snoc, rev_app_distr. cbn.
  destruct (rev d) as [|a r] eqn:E.
  - apply (f_equal (@rev ascii)) in E. rewrite rev_involutive in E. now subst.
  - exists ((r ++ [slash]) ++ rev (root_of cs')), a. split; [reflexivity|].
    rewrite <- forallb_rev, E in Hd2. cbn in Hd2. apply andb_prop in Hd2 as [Ha _].
    now destruct (is_slash a).
Qed.

Lemma split_sep_char a s : is_slash a = false ->
  split_sep (a :: s) = match split_sep s with p :: ps => (a :: p) :: ps | [] => [[a]] end.
Proof. intros H. cbn. now rewrite H. Qed.

(** [path.split('/')] of a segment followed by an absolute path. *)
Lemma split_sep_seg c cs : forallb (fun a => negb (is_slash a)) c = true ->
  forallb segment cs = true -> split_sep (c ++ root_of cs) = c :: cs.
Proof.
  revert c. induction cs as [|d cs IH]; intros c Hc Hcs.
  - rewrite app_nil_r. induction c as [|a c IHc]; [reflexivity|].
    cbn in Hc. apply andb_prop in Hc as [Ha Hc].
    rewrite split_sep_char, IHc by (exact Hc || now destruct (is_slash a)). reflexivity.
  - cbn in Hcs. apply andb_prop in Hcs as [Hd Hcs].
    unfold segment in Hd. apply andb_prop in Hd as [_ Hd].
    induction c as [|a c IHc].
    + change (split_sep (slash :: d ++ root_of cs) = [[]; d] ++ cs).
      cbn [split_sep]. rewrite IH by assumption. reflexivity.
    + cbn in Hc. apply andb_prop in Hc as [Ha Hc]. rewrite <- app_comm_cons.
      rewrite split_sep_char, IHc by (exact Hc || now destruct (is_slash a)). reflexivity.
Qed.

Lemma split_sep_root cs : forallb segment cs = true -> split_sep (root_of cs) = [] :: cs.
Proof.
  destruct cs as [|c cs]; [reflexivity|]. intros H. cbn [root_of flat_map].
  cbn in H. apply andb_prop in H as [Hc H]. unfold segment in Hc. apply andb_prop in Hc as [_ Hc].
  change (split_sep (slash :: (c ++ root_of cs)) = [] :: c :: cs).
  cbn [split_sep]. rewrite split_sep_seg by assumption. reflexivity.
Qed.

(** Plain components are pushed on the stack. *)
Lemma norm_comps_plain i acc ps rest : forallb plain ps = true ->
  norm_comps i acc (ps ++ rest) = norm_comps i (rev ps ++ acc) rest.
Proof.
  revert acc. induction ps as [|p ps IH]; intros acc H; [reflexivity|].
  cbn in H. apply andb_prop in H as [Hp H]. cbn [app norm_comps].
  rewrite (plain_not_empty_dot p Hp), (plain_not_dotdot p Hp). cbn.
  rewrite IH by exact H. now rewrite <- app_assoc.
Qed.

Lemma norm_comps_plain_all i acc ps : forallb plain ps = true ->
  norm_comps i acc ps = rev ps ++ acc.
Proof. intros H. rewrite <- (app_nil_r ps) at 1. now rewrite norm_comps_plain. Qed.

(** In an absolute path, each [..] pops a plain component, and is dropped
    at the root. *)
Lemma norm_comps_up acc n rest : forallb plain acc = true ->
  norm_comps true acc (repeat dotdot n ++ rest) = norm_comps true (skipn n acc) rest.
Proof.
  revert acc. induction n as [|n IH]; intros acc H; [reflexivity|].
  cbn [repeat app norm_comps]. rewrite dotdot_kept, text_eqb_refl.
  destruct acc as [|top acc]; cbn [negb orb andb].
  - rewrite (IH []) by reflexivity. now destruct n.
  - cbn in H. apply andb_prop in H as [Ht H]. rewrite (plain_not_dotdot top Ht).
    now apply IH.
Qed.

Lemma root_of_join l : l <> [] -> slash :: join [slash] l = root_of l.
Proof.
  induction l as [|a l IH]; [congruence|]. intros _. destruct l as [|b l]; cbn.
  - now rewrite app_nil_r.
  - f_equal. f_equal. apply IH. discriminate.
Qed.

Lemma initial_slashes_root cs : cs <> [] -> forallb segment cs = true ->
  initial_slashes (root_of cs) = 1.
Proof.
  destruct cs as [|c cs]; [congruence|]. intros _ H. cbn in H.
  apply andb_prop in H as [Hc _]. unfold segment in Hc. apply andb_prop in Hc as [Hc1 Hc2].
  destruct c as [|a c]; [discriminate|]. cbn in Hc2. apply andb_prop in Hc2 as [Ha _].
  change (initial_slashes (slash :: a :: (c ++ root_of cs)) = 1). unfold initial_slashes.
  replace (is_slash a) with false by (now destruct (is_slash a)).
  now destruct (c ++ root_of cs).
Qed.

Lemma plain_all_segment l : forallb plain l = true -> forallb segment l = true.
Proof.
  rewrite !forallb_forall. intros H x Hx. now apply plain_segment, H.
Qed.

Lemma segment_repeat n : forallb segment (repeat dotdot n) = true.
Proof. induction n; cbn; auto. Qed.

Lemma isabs_root cs : cs <> [] -> isabs (root_of cs) = true.
Proof. destruct cs; [congruence|reflexivity]. Qed.

Lemma normpath_root cs : cs <> [] -> forallb segment cs = true ->
  normpath (root_of cs) = slash :: join [slash] (rev (norm_comps true [] cs)).
Proof.
  intros Hne Hs. assert (Hi := initial_slashes_root cs Hne Hs).
  unfold normpath. rewrite Hi, split_sep_root by exact Hs.
  destruct cs as [|c cs]; [congruence|]. reflexivity.
Qed.

(** [dirname] drops the last component of an absolute path. *)
Lemma dirname_root ds f : ds <> [] -> forallb segment ds = true -> segment f = true ->
  dirname (root_of (ds ++ [f])) = root_of ds.
Proof.
  intros Hne Hs Hf. destruct (root_of_last ds Hne Hs) as (r & a & Er & Ha).
  unfold dirname. cbv zeta. rewrite root_of_snoc, rev_app_distr. cbn [rev].
  rewrite <- app_assoc, drop_while_app.
  2: { unfold segment in Hf. apply andb_prop in Hf as [_ Hf]. now rewrite forallb_rev. }
  cbn [app]. replace (drop_while _ (slash :: rev (root_of ds))) with (slash :: rev (root_of ds))
    by reflexivity.
  cbn [rev]. rewrite rev_involutive.
  replace (forallb is_slash (root_of ds ++ [slash])) with false.
  2: { rewrite <- forallb_rev, rev_app_distr, Er. cbn. now rewrite Ha. }
  replace (str_truthy (root_of ds ++ [slash])) with true by (now destruct (root_of ds)).
  cbn [andb negb]. rewrite rev_app_distr. cbn [rev app drop_while].
  replace (is_slash slash) with true by reflexivity.
  rewrite Er. cbn [drop_while]. rewrite Ha, <- Er. apply rev_involutive.
Qed.

Lemma path_join_root cs p : cs <> [] -> forallb segment cs = true -> segment p = true ->
  path_join (root_of cs) p = root_of (cs ++ [p]).
Proof.
  intros Hne Hs Hp. destruct (root_of_last cs Hne Hs) as (r & a & Er & Ha).
  rewrite root_of_snoc. unfold segment in Hp. apply andb_prop in Hp as [Hp1 Hp2].
  destruct p as [|x p]; [discriminate|]. cbn in Hp2. apply andb_prop in Hp2 as [Hx _].
  unfold path_join. rewrite Er.
  destruct (ascii_dec x slash) as [->|_]; [discriminate|].
  destruct (ascii_dec a slash) as [->|_]; [discriminate|]. reflexivity.
Qed.

Lemma path_join_all_root cs ps : cs <> [] -> forallb segment cs = true -> forallb segment ps = true ->
  path_join_all (root_of cs) ps = root_of (cs ++ ps).
Proof.
  unfold path_join_all. revert cs. induction ps as [|p ps IH]; intros cs Hne Hs Hps.
  - now rewrite app_nil_r.
  - cbn in Hps. apply andb_prop in Hps as [Hp Hps]. cbn [fold_left].
    rewrite path_join_root by assumption.
    rewrite IH; [now rewrite <- app_assoc| | |exact Hps].
    + now destruct cs.
    + rewrite forallb_app, Hs. cbn. now rewrite Hp.
Qed.

(** The directory a module computes from a file [ds/f]: [n] levels up from
    [ds], then [names]. *)
Lemma config_path_resolves cwd file ds f n names :
  ds <> [] -> forallb plain ds = true -> segment f = true ->
  names <> [] -> forallb plain names = true ->
  abspath cwd file = root_of (ds ++ [f]) ->
  config_path cwd file (repeat dotdot n ++ names) = root_of (firstn (length ds - n) ds ++ names).
Proof.
  intros Hne Hds Hf Hnn Hn Hfile. unfold config_path, current_dir. rewrite Hfile.
  assert (Sds := plain_all_segment ds Hds). assert (Sn := plain_all_segment names Hn).
  rewrite dirname_root, path_join_all_root by
    (rewrite ?forallb_app, ?segment_repeat, ?Sn; auto).
  assert (Hne' : ds ++ repeat dotdot n ++ names <> []) by (destruct ds; [congruence|discriminate]).
  unfold abspath. rewrite isabs_root, normpath_root by
    (rewrite ?forallb_app, ?segment_repeat, ?Sn, ?Sds; auto).
  rewrite norm_comps_plain by exact Hds.
  rewrite norm_comps_up by (rewrite app_nil_r, forallb_rev; exact Hds).
  rewrite norm_comps_plain_all by exact Hn.
  rewrite app_nil_r, rev_app_distr, rev_involutive, skipn_rev, rev_involutive.
  apply root_of_join. destruct names; [congruence|]. destruct (firstn _ _); discriminate.
Qed.

(** A module [ext/f] under the back end's directory [bs] that goes up
    [length ext] levels lands in [bs]. *)
Lemma resolves_to_backend cwd file bs ext f names :
  forallb plain bs = true -> ext <> [] -> forallb plain ext = true -> segment f = true ->
  names <> [] -> forallb plain names = true ->
  abspath cwd file = root_of (bs ++ ext ++ [f]) ->
  config_path cwd file (repeat dotdot (length ext) ++ names) = root_of (bs ++ names).
Proof.
  intros Hbs Hne Hext Hf Hnn Hn Hfile.
  rewrite (config_path_resolves cwd file (bs ++ ext) f); rewrite ?app_assoc in *; auto.
  - rewrite length_app. replace (length bs + length ext - length ext) with (length bs) by lia.
    rewrite firstn_app, firstn_all. replace (length bs - length bs) with 0 by lia. now rewrite app_nil_r.
  - destruct ext; [congruence|]. destruct bs; discriminate.
  - rewrite forallb_app, Hbs, Hext. reflexivity.
Qed.

Lemma split_sep_noslash x : no_slash x = true -> split_sep x = [x].
Proof.
  induction x as [|a x IH]; [reflexivity|]. cbn. intros H. apply andb_prop in H as [Ha H].
  rewrite IH by exact H. now destruct (is_slash a).
Qed.

Lemma split_sep_app_slash x s : no_slash x = true -> split_sep (x ++ slash :: s) = x :: split_sep s.
Proof.
  induction x as [|a x IH]; [reflexivity|]. cbn. intros H. apply andb_prop in H as [Ha H].
  rewrite IH by exact H. now destruct (is_slash a).
Qed.

Lemma split_sep_join l : l <> [] -> forallb no_slash l = true -> split_sep (join [slash] l) = l.
Proof.
  induction l as [|x l IH]; [congruence|]. intros _ H. cbn in H. apply andb_prop in H as [Hx H].
  destruct l as [|y l].
  - now apply split_sep_noslash.
  - change (join [slash] (x :: y :: l)) with (x ++ slash :: join [slash] (y :: l)).
    rewrite split_sep_app_slash, IH by (discriminate || assumption). reflexivity.
Qed.

Lemma split_sep_repeat n s : split_sep (repeat slash n ++ s) = repeat [] n ++ split_sep s.
Proof. induction n as [|n IH]; [reflexivity|]. cbn [repeat app]. cbn - [split_sep]. now rewrite <- IH. Qed.

Lemma split_sep_fields p : forallb no_slash (split_sep p) = true.
Proof.
  induction p as [|a p IH]; [reflexivity|]. cbn. destruct (is_slash a) eqn:Ha; [exact IH|].
  destruct (split_sep p) as [|x xs]; cbn in *; [now rewrite Ha|]. now rewrite Ha.
Qed.

Lemma norm_comps_empties i acc n rest : norm_comps i acc (repeat [] n ++ rest) = norm_comps i acc rest.
Proof. induction n as [|n IH]; [reflexivity|]. exact IH. Qed.

Lemma norm_comps_dotdots k rest :
  norm_comps false [] (repeat dotdot k ++ rest) = norm_comps false (repeat dotdot k) rest.
Proof.
  enough (H : forall j, norm_comps false (repeat dotdot j) (repeat dotdot k ++ rest)
                        = norm_comps false (repeat dotdot (k + j)) rest)
    by (specialize (H 0); replace (k + 0) with k in H by lia; exact H).
  induction k as [|k IH]; intros j; [reflexivity|].
  cbn [repeat app norm_comps]. rewrite dotdot_kept, text_eqb_refl.
  replace (S k + j) with (k + S j) by lia.
  destruct j; cbn [negb orb andb]; [apply (IH 1)|]. cbn [repeat]. rewrite text_eqb_refl, orb_true_r.
  apply (IH (S (S j))).
Qed.

Lemma stack_ok_nil i : stack_ok i [].
Proof. exists [], 0. repeat split. Qed.

(** One step of the loop keeps the stack's shape. *)
Lemma stack_ok_step i acc comp rest : stack_ok i acc -> no_slash comp = true ->
  (forall acc', stack_ok i acc' -> stack_ok i (norm_comps i acc' rest)) ->
  stack_ok i (norm_comps i acc (comp :: rest)).
Proof.
  intros (ps & k & -> & Hps & Hk) Hc IH. cbn [norm_comps].
  destruct (text_eqb comp [] || text_eqb comp dot) eqn:Hskip; [apply IH; now exists ps, k|].
  destruct (text_eqb comp dotdot) eqn:Hdd; cbn [negb orb].
  - unfold text_eqb in Hdd. destruct (list_eq_dec _ comp dotdot) as [->|]; [|discriminate].
    destruct ps as [|p ps]; cbn [app].
    + destruct i, k as [|k]; cbn [negb andb orb]; try (specialize (Hk eq_refl); discriminate).
      * apply IH. now exists [], 0.
      * apply IH. exists [], 1. repeat split. discriminate.
      * cbn [repeat]. rewrite text_eqb_refl, orb_true_r. apply IH. exists [], (S (S k)). repeat split. discriminate.
    + cbn in Hps. apply andb_prop in Hps as [Hp Hps]. rewrite (plain_not_dotdot p Hp).
      destruct i; cbn [negb andb orb]; apply IH; now exists ps, k.
  - apply IH. exists (comp :: ps), k. repeat split; [|assumption]. cbn. rewrite Hps, andb_true_r.
    unfold plain, segment. rewrite Hdd. apply orb_false_elim in Hskip as [H1 H2].
    rewrite H2. destruct comp; [discriminate|]. unfold no_slash in Hc. cbn [str_truthy]. now rewrite Hc.
Qed.

Lemma stack_ok_norm_comps i acc comps : stack_ok i acc -> forallb no_slash comps = true ->
  stack_ok i (norm_comps i acc comps).
Proof.
  revert acc. induction comps as [|c comps IH]; intros acc Hacc Hc; [exact Hacc|].
  cbn in Hc. apply andb_prop in Hc as [Hc Hcs]. apply stack_ok_step; auto.
Qed.

(** Reading a stack back in path order rebuilds it. *)
Lemma norm_comps_rev i acc : stack_ok i acc -> norm_comps i [] (rev acc) = acc.
Proof.
  intros (ps & k & -> & Hps & Hk). rewrite rev_app_distr, rev_repeat.
  destruct k as [|k].
  - cbn [repeat app]. rewrite norm_comps_plain_all by now rewrite forallb_rev.
    now rewrite rev_involutive, !app_nil_r.
  - destruct i; [now specialize (Hk eq_refl)|].
    rewrite norm_comps_dotdots, norm_comps_plain_all by now rewrite forallb_rev.
    now rewrite rev_involutive.
Qed.

Lemma initial_slashes_le p : initial_slashes p <= 2.
Proof.
  destruct p as [|a [|b [|c p]]]; cbn [initial_slashes];
    repeat match goal with |- context [if ?x then _ else _] => destruct x end; lia.
Qed.

Lemma initial_slashes_prefix n s : n <= 2 ->
  match s with c :: _ => is_slash c = false | [] => True end ->
  initial_slashes (repeat slash n ++ s) = n.
Proof.
  intros Hn Hs. destruct n as [|[|[|n]]]; [| | |lia];
    destruct s as [|c [|d s]]; cbn; rewrite ?Hs; try reflexivity; now destruct s.
Qed.

Lemma normpath_nonempty p : p <> [] ->
  normpath p = render_path (initial_slashes p) (norm_comps (Nat.ltb 0 (initial_slashes p)) [] (split_sep p)).
Proof. destruct p; [congruence|reflexivity]. Qed.

Lemma render_nonempty n acc : rev acc <> [] -> forallb segment (rev acc) = true ->
  exists c t, render_path n acc = repeat slash n ++ join [slash] (rev acc) /\
              is_slash c = false /\ join [slash] (rev acc) = c :: t.
Proof.
  intros Hne Hl. unfold render_path. cbv zeta. destruct (rev acc) as [|y l]; [congruence|]. cbn in Hl.
  apply andb_prop in Hl as [Hy _]. unfold segment in Hy. apply andb_prop in Hy as [Hy1 Hy2].
  destruct y as [|c y]; [discriminate|]. cbn in Hy2. apply andb_prop in Hy2 as [Hc _].
  assert (Hj : exists t, join [slash] ((c :: y) :: l) = c :: t) by (destruct l; eexists; reflexivity).
  destruct Hj as [t Hj]. exists c, t. repeat split; [| now destruct (is_slash c) | exact Hj].
  destruct n; [destruct l|]; reflexivity.
Qed.

(** A path built from a well-shaped stack is its own normal form. *)
Lemma normpath_render n acc : n <= 2 -> stack_ok (Nat.ltb 0 n) acc ->
  normpath (render_path n acc) = render_path n acc.
Proof.
  intros Hn Hacc. destruct acc as [|x acc'] eqn:E.
  - destruct n as [|[|[|n]]]; [reflexivity|reflexivity|reflexivity|lia].
  - rewrite <- E in *. destruct Hacc as (ps & k & Eacc & Hps & Hk).
    assert (Hl : forallb segment (rev acc) = true).
    { rewrite Eacc, forallb_rev, forallb_app, plain_all_segment, segment_repeat by exact Hps. reflexivity. }
    assert (Hne : rev acc <> []) by (rewrite E; cbn; now destruct (rev acc')).
    destruct (render_nonempty n acc Hne Hl) as (c & t & HR & Hc & Hj).
    rewrite HR at 1. rewrite normpath_nonempty by (rewrite Hj; destruct n; discriminate).
    rewrite initial_slashes_prefix by (rewrite ?Hj; assumption).
    rewrite split_sep_repeat, norm_comps_empties, split_sep_join, norm_comps_rev; try easy.
    + now exists ps, k.
    + rewrite forallb_forall in Hl |- *. intros y Hy. specialize (Hl y Hy).
      unfold segment in Hl. now apply andb_prop in Hl as [_ Hl].
Qed.

Lemma isabs_path_join a b : isabs a = true -> isabs (path_join a b) = true.
Proof.
  intros H. destruct a as [|x a]; [discriminate|]. unfold path_join.
  assert (Hr : rev (x :: a) <> []).
  { intros E. apply (f_equal (@length _)) in E. rewrite length_rev in E. discriminate. }
  destruct (rev (x :: a)) as [|z r]; [congruence|].
  destruct b as [|y b]; [destruct (ascii_dec z slash); exact H|].
  destruct (ascii_dec y slash) as [->|]; [reflexivity|]. destruct (ascii_dec z slash); exact H.
Qed.

Lemma normpath_isabs p : isabs p = true -> isabs (normpath p) = true.
Proof.
  destruct p as [|a p]; [discriminate|]. intros H. rewrite normpath_nonempty by discriminate.
  assert (Hm : exists m, initial_slashes (a :: p) = S m).
  { cbn in H. destruct p as [|b [|c p]]; cbn; rewrite H;
      repeat match goal with |- context [if ?x then _ else _] => destruct x end; eauto. }
  destruct Hm as [m ->]. reflexivity.
Qed.

(** C19: Wherever the back end is installed (any absolute directory [bs] of
    ordinary components), and whatever the working directory, the
    [persistent_directory] that [GenerateVectorDB.get] persists the index to
    is the one [agent.py] and the search tool open: [bs/data/vector_database]. *)
Theorem index_directory_shared cwd bs fa fs fg :
  forallb plain bs = true ->
  abspath cwd fa = root_of (bs ++ agent_py) ->
  abspath cwd fs = root_of (bs ++ search_py) ->
  abspath cwd fg = root_of (bs ++ generator_py) ->
  agent_persistent_directory cwd fa = root_of (bs ++ data_dir "vector_database") /\
  search_persistent_directory cwd fs = root_of (bs ++ data_dir "vector_database") /\
  generator_persistent_directory cwd fg = root_of (bs ++ data_dir "vector_database").
Proof.
  intros Hbs Ha Hs Hg. repeat split.
  - exact (resolves_to_backend cwd fa bs [⟪"app"⟫; ⟪"api"⟫] ⟪"agent.py"⟫ (data_dir "vector_database")
             Hbs ltac:(discriminate) eq_refl eq_refl ltac:(discriminate) eq_refl Ha).
  - exact (resolves_to_backend cwd fs bs [⟪"app"⟫; ⟪"api"⟫; ⟪"agent_tools"⟫] ⟪"search.py"⟫
             (data_dir "vector_database") Hbs ltac:(discriminate) eq_refl eq_refl ltac:(discriminate) eq_refl Hs).
  - exact (resolves_to_backend cwd fg bs [⟪"app"⟫; ⟪"api"⟫] ⟪"vectordb_generator.py"⟫
             (data_dir "vector_database") Hbs ltac:(discriminate) eq_refl eq_refl ltac:(discriminate) eq_refl Hg).
Qed.

(** C20: Likewise the [json_dir] whose guides [GenerateVectorDB.get] indexes
    is the [json_dir] [extract_final_data] opens them from:
    [bs/data/clean_data]. *)
Theorem guide_directory_shared cwd bs ff fg :
  forallb plain bs = true ->
  abspath cwd ff = root_of (bs ++ finalizer_py) ->
  abspath cwd fg = root_of (bs ++ generator_py) ->
  finalizer_json_dir cwd ff = root_of (bs ++ data_dir "clean_data") /\
  generator_json_dir cwd fg = root_of (bs ++ data_dir "clean_data").
Proof.
  intros Hbs Hf Hg. split.
  - exact (resolves_to_backend cwd ff bs [⟪"app"⟫; ⟪"utils"⟫] ⟪"finalizer.py"⟫ (data_dir "clean_data")
             Hbs ltac:(discriminate) eq_refl eq_refl ltac:(discriminate) eq_refl Hf).
  - exact (resolves_to_backend cwd fg bs [⟪"app"⟫; ⟪"api"⟫] ⟪"vectordb_generator.py"⟫
             (data_dir "clean_data") Hbs ltac:(discriminate) eq_refl eq_refl ltac:(discriminate) eq_refl Hg).
Qed.

(** [os.path.normpath] is idempotent: what it answers is its own
    normal form, for every string, relative or absolute, with one, two or
    more leading slashes. *)
Theorem normpath_idempotent p : normpath (normpath p) = normpath p.
Proof.
  destruct p as [|a p]; [reflexivity|].
  rewrite (normpath_nonempty (a :: p)) by discriminate. apply normpath_render; [apply initial_slashes_le|].
  apply stack_ok_norm_comps; [apply stack_ok_nil|apply split_sep_fields].
Qed.

(** C38: With an absolute working directory (what [os.getcwd()] returns),
    [os.path.abspath] answers an absolute path for every argument. *)
Theorem abspath_absolute cwd p : isabs cwd = true -> isabs (abspath cwd p) = true.
Proof.
  intros H. unfold abspath. apply normpath_isabs.
  destruct (isabs p) eqn:E; [exact E|]. now apply isabs_path_join.
Qed.

Lemma abspath_absolute_witness :
  abspath ⟪"/srv"⟫ ⟪"../../x/./y"⟫ = ⟪"/x/y"⟫ /\ isabs (abspath ⟪"/srv"⟫ ⟪"../../x/./y"⟫) = true.
Proof. split; [vm_compute; reflexivity|]. apply (abspath_absolute ⟪"/srv"⟫ ⟪"../../x/./y"⟫). reflexivity. Defined.

(** The service started from its back-end directory, with the modules
    imported under relative file names. *)
Lemma index_directory_shared_witness :
  agent_persistent_directory (root_of demo_backend) ⟪"app/api/agent.py"⟫ = ⟪"/srv/fixgenie/src/backend/data/vector_database"⟫ /\
  search_persistent_directory (root_of demo_backend) ⟪"app/api/agent_tools/search.py"⟫ = ⟪"/srv/fixgenie/src/backend/data/vector_database"⟫ /\
  generator_persistent_directory (root_of demo_backend) ⟪"app/api/vectordb_generator.py"⟫ = ⟪"/srv/fixgenie/src/backend/data/vector_database"⟫.
Proof.
  apply (index_directory_shared (root_of demo_backend) demo_backend); vm_compute; reflexivity.
Defined.

Lemma guide_directory_shared_witness :
  finalizer_json_dir ⟪"/"⟫ ⟪"/srv/fixgenie/src/backend/app/utils/finalizer.py"⟫ = ⟪"/srv/fixgenie/src/backend/data/clean_data"⟫ /\
  generator_json_dir ⟪"/"⟫ ⟪"/srv/fixgenie/src/backend/app/api/vectordb_generator.py"⟫ = ⟪"/srv/fixgenie/src/backend/data/clean_data"⟫.
Proof.
  apply (guide_directory_shared ⟪"/"⟫ demo_backend); vm_compute; reflexivity.
Defined.

End Paths.
