(* ===== verification/History.v ===== *)
(** * History: the Firestore chat history and the [get_chat_history] tool

    agent.py (lines 101-107, 136) and agent_tools/history_retrieval.py
    (lines 7-18) use LangChain's [FirestoreChatMessageHistory] on the
    collection ["ai_repair_chat_history"], one document per session id
    ([str(user_id)]).  The model keeps the collection as a finite map from
    session id to the ordered list of its turns; [add_user_message] and
    [add_ai_message] append one turn, and [.messages] reads the list
    (empty for an unknown session).  agent.py (line 30) and the history
    tool (api/__init__.py line 12) reach the collection through two
    clients, [google.cloud.firestore.Client()] and firebase_admin's; both
    are taken to name the same Firestore database, the one store of the
    model.  The tool answers "No chat history
    found." on an empty session and the last five turns ([messages[-5:]])
    otherwise.

    A [FirestoreChatMessageHistory] object ([chat_history]) keeps its own
    copy of the turns: the constructor loads it from the document, and
    [add_message] appends to the copy and writes the whole copy back
    ([ch_add]).  Through an object whose copy is what the document holds
    this is the append [add_message] of the store ([ch_add_synced]), and
    through a freshly built one the object is then the one built on the
    new store ([ch_add_load]): that is how the sequential
    handler of [Agent] is written; [Concurrency] runs requests on the
    objects themselves, where a stale copy overwrites other turns.

    Theorems: appending touches only its own session and only extends it
    (requests run one at a time keep the store append-only,
    [store_extends]); the tool returns at most
    five turns, the most recent ones, in order; a turn just appended is the
    last turn the tool returns. *)

From stdpp Require Import base gmap strings list.
From Stdlib Require Import Ascii.
From S2P Require Import Prelude.
Open Scope fg_scope.

Module History.

Inductive message :=
| HumanMessage (content : text)
| AIMessage (content : text).

#[export] Instance message_eq_dec : EqDecision message.
Proof. solve_decision. Defined.

(** The collection: session id -> turns, oldest first. *)
Abbreviation store := (gmap text (list message)).

(** [chat_history.messages]. *)
Definition messages (st : store) (sid : text) : list message :=
  default [] (st !! sid).

Definition add_message (sid : text) (m : message) (st : store) : store :=
  <[sid := messages st sid ++ [m]]> st.

(** [chat_history.add_user_message(q)], [chat_history.add_ai_message(a)]. *)
Definition add_user_message (sid q : text) (st : store) : store :=
  add_message sid (HumanMessage q) st.

Definition add_ai_message (sid a : text) (st : store) : store :=
  add_message sid (AIMessage a) st.

(** What the tool returns: the string "No chat history found." or the
    list of the last five messages. *)
Inductive history_result :=
| NoHistory
| LastMessages (ms : list message).

(** history_retrieval.py, lines 8-18. *)
Definition get_chat_history (st : store) (user_id : text) : history_result :=
  match messages st user_id with
  | [] => NoHistory
  | ms => LastMessages (last_n 5 ms)
  end.

(** A [FirestoreChatMessageHistory] object: its session and its own copy
    of the session's turns, read from the document when the object is
    built ([_load_messages]) and appended to by each [add_message]. *)
Record chat_history := { ch_session : text; ch_messages : list message }.

(** [FirestoreChatMessageHistory(session_id=sid, ...)]. *)
Definition load_history (st : store) (sid : text) : chat_history :=
  {| ch_session := sid; ch_messages := messages st sid |}.

(** [chat_history.add_message(m)]: append to the object's copy, then
    [_upsert_messages] writes the whole copy to the session's document
    ([doc_ref.set]), whatever the document holds by then. *)
Definition ch_add (h : chat_history) (m : message) (st : store) : chat_history * store :=
  let l := ch_messages h ++ [m] in
  ({| ch_session := ch_session h; ch_messages := l |}, <[ch_session h := l]> st).

(** Every session of [st'] extends the same session of [st]. *)
Definition store_extends (st st' : store) : Prop :=
  forall sid, messages st sid `prefix_of` messages st' sid.

(** ** Lemmas *)

Lemma messages_add_same sid m st : messages (add_message sid m st) sid = messages st sid ++ [m].
Proof. unfold messages, add_message. by rewrite lookup_insert_eq. Qed.

Lemma messages_add_other sid sid' m st :
  sid <> sid' -> messages (add_message sid m st) sid' = messages st sid'.
Proof. intros Hne. unfold messages, add_message. by rewrite lookup_insert_ne. Qed.

Lemma messages_add sid sid' m st :
  messages (add_message sid m st) sid' =
  if decide (sid = sid') then messages st sid' ++ [m] else messages st sid'.
Proof.
  case_decide as E; [subst; apply messages_add_same | by apply messages_add_other].
Qed.

(** Through an object whose copy is what the document holds,
    [add_message] is the append of the store. *)
Lemma ch_add_synced h m st : ch_messages h = messages st (ch_session h) ->
  ch_add h m st =
  ({| ch_session := ch_session h; ch_messages := messages st (ch_session h) ++ [m] |},
   add_message (ch_session h) m st).
Proof. intros E. unfold ch_add, add_message. by rewrite ?E. Qed.

(** Through a freshly built object, [add_message] is the append, and the
    object is then the one built on the new store. *)
Lemma ch_add_load st sid m :
  ch_add (load_history st sid) m st = (load_history (add_message sid m st) sid, add_message sid m st).
Proof.
  rewrite ch_add_synced by reflexivity. unfold load_history. cbn. by rewrite messages_add_same.
Qed.

#[export] Instance store_extends_preorder : PreOrder store_extends.
Proof.
  split; [intros st sid; reflexivity|].
  intros st1 st2 st3 H12 H23 sid. by trans (messages st2 sid).
Qed.

(** ** Theorems *)

(** Appending a turn extends its session by exactly that turn, leaves every
    other session unchanged, and so keeps the store append-only. *)
Theorem add_message_spec sid m st :
  messages (add_message sid m st) sid = messages st sid ++ [m] /\
  (forall sid', sid' <> sid -> messages (add_message sid m st) sid' = messages st sid') /\
  store_extends st (add_message sid m st).
Proof.
  split; [apply messages_add_same|]. split.
  - intros sid' Hne. apply messages_add_other. congruence.
  - intros sid'. rewrite messages_add. case_decide; [by eexists|done].
Qed.

(** C21: The tool answers "No chat history found." exactly on an empty session;
    otherwise it returns [min 5 n] turns, which are the most recent ones,
    oldest first. *)
Theorem get_chat_history_spec st uid :
  (get_chat_history st uid = NoHistory <-> messages st uid = []) /\
  forall ms, get_chat_history st uid = LastMessages ms ->
    length ms = Nat.min 5 (length (messages st uid)) /\
    exists older, messages st uid = older ++ ms.
Proof.
  unfold get_chat_history. destruct (messages st uid) as [|m ms0] eqn:E.
  - split; [done|]. intros ms H. discriminate.
  - split; [split; discriminate|]. intros ms H. inversion H; subst ms.
    split; [apply last_n_length | apply last_n_suffix].
Qed.

(** A turn just appended is the last one the tool returns, after the four
    most recent older turns. *)
Theorem get_chat_history_after_add st sid m :
  get_chat_history (add_message sid m st) sid = LastMessages (last_n 4 (messages st sid) ++ [m]).
Proof.
  unfold get_chat_history. rewrite messages_add_same.
  destruct (messages st sid ++ [m]) eqn:E; [destruct (messages st sid); simpl in E; discriminate|].
  rewrite <- E. f_equal. rewrite last_n_app_one by lia. reflexivity.
Qed.

End History.
