(* ===== verification/Agent.v ===== *)
(** * Agent: the ReAct executor and the [/main_agent] handler

    agent.py.  [MainAgent.post] (lines 70-146):
    + reads [user_id] (default "Unknown User") and [query] (default "")
      from the form, and describes each uploaded file (image, audio, video)
      through base64 and its describer, or uses the "No ... Provided"
      placeholder (lines 73-99);
    + opens the user's Firestore history and, when the query is non-empty,
      appends it as a human turn (lines 101-107);
    + runs the LangChain agent executor on the query (or "No Query
      Provided") and the three descriptions (lines 109-122);
    + parses the output with [ast.literal_eval]; a dictionary with a
      ["filename"] key is expanded by [extract_final_data] and rewritten by
      a second model call ([google_ai_python_sdk_for_gemini_api], lines
      60-68), anything else is normalised by [clean_text] (lines 126-134);
    + appends the answer as an assistant turn and answers 200 (136-141);
    + any exception answers 500 (143-146), with the history as it was when
      the exception was raised: Firestore writes are not rolled back.

    The executor ([create_react_agent] + [AgentExecutor], lines 41-53) is
    LangChain's loop with its defaults: at most [max_iterations = 15]
    model turns, each parsed by [ReAct.parse_react]; a parse error becomes
    the observation of its exception ([handle_parsing_errors]), and each
    step keeps the turn's text for the next prompt; a tool call runs
    [find_closest_match] or [get_chat_history] (an unknown name yields
    LangChain's invalid-tool observation); a final answer ends the loop;
    after 15 turns the forced stop message is returned.  Each step keeps
    the model's turn as its log; for the two parse errors LangChain does
    not send back to the model ("both an action and a final answer", "no
    match") its log is [str(e)] instead, which only the next prompt would
    show, and the model's turns are inputs here.  A tool call always
    answers: an exception of the vector store or of Firestore inside a
    tool, which would end the executor and answer 500, is not modelled.

    The model calls, the describers, base64 encoding, [str()] of tool
    results and [ast.literal_eval] are the fields of [services]: their
    answers are inputs ([LiteralEval] models [ast.literal_eval] itself and
    proves it satisfies the contract its theorems assume).  The vector store
    is any [VectorIndex]. *)

From stdpp Require Import base gmap strings list.
From Stdlib Require Import Ascii.
From S2P Require Import Prelude CleanText PyValue Search Finalizer History ReAct.
Import CleanText PyValue Search Finalizer History ReAct.
Open Scope fg_scope.

Module Agent.

(** The variables of the prompt (line 47). *)
Record agent_input := {
  ai_user_id : text;
  ai_input : text;
  ai_image : text;
  ai_audio : text;
  ai_video : text
}.

(** One step of the executor's scratchpad ([intermediate_steps]): what
    the parser made of the model's turn, the turn's text (the log the next
    prompt shows the model) and the observation. *)
Definition intermediate_step : Type := agent_step * text * text.

Definition tool_find : text := ⟪"find_closest_match"⟫.
Definition tool_history : text := ⟪"get_chat_history"⟫.
Definition invalid_tool (name : text) : text :=
  name ++ ⟪" is not a valid tool, try one of [find_closest_match, get_chat_history]."⟫.
Definition stopped_output : text := ⟪"Agent stopped due to iteration limit or time limit."⟫.
Definition max_iterations : nat := 15.

(** A file part of the request: its file name and its bytes. *)
Record upload := { up_filename : text; up_content : list Byte.byte }.

Record request := {
  form_user_id : option text;
  form_query : option text;
  files_image : option upload;
  files_audio : option upload;
  files_video : option upload
}.

Inductive response :=
| Respond200 (body : text)
| Respond500.

(** The collaborators the handler calls. *)
Record services := {
  llm : agent_input -> list intermediate_step -> res text;
  show_match : pyval -> text;
  show_history : history_result -> text;
  describe_image : text -> res text;
  describe_audio : text -> res text;
  describe_video : text -> res text;
  b64encode : list Byte.byte -> text;
  literal_eval : text -> res (option pyval);
  generate_content : text -> res (option text)
}.

Section Handler.
Context {I : Type} `{VectorIndex I}.
Variables (svc : services) (idx : I) (json_dir : text) (fsys : file_system).

(** ** The executor *)

(** A tool call, against the history as it is during the request. *)
Definition run_tool (st : store) (name input : text) : text :=
  if decide (name = tool_find) then show_match svc (find_closest_match idx input)
  else if decide (name = tool_history) then show_history svc (get_chat_history st input)
  else invalid_tool name.

Fixpoint run_agent (fuel : nat) (st : store) (inp : agent_input)
    (scratch : list intermediate_step) : res (text * list intermediate_step) :=
  match fuel with
  | 0 => Ok (stopped_output, scratch)
  | S n =>
      let! turn := llm svc inp scratch in
      match parse_react turn with
      | AgentFinish out => Ok (out, scratch)
      | AgentAction tool input =>
          run_agent n st inp (scratch ++ [(AgentAction tool input, turn, run_tool st tool input)])
      | ParseFailure obs =>
          run_agent n st inp (scratch ++ [(ParseFailure obs, turn, obs)])
      end
  end.

(** [agent_executor.invoke(agent_input).get("output", "")]. *)
Definition agent_invoke (st : store) (inp : agent_input) : res text :=
  let! r := run_agent max_iterations st inp [] in Ok (fst r).

(** ** The handler *)

Definition could_not_generate : text := ⟪"Could not generate description."⟫.
Definition no_response : text := ⟪"No response from AI."⟫.
Definition cannot_convert : text := ⟪"Couldn't convert to base64 successfully."⟫.

Definition eight_spaces : text := ⟪"        "⟫.

(** Lines 62-67: the prompt around [str(input)]. *)
Definition sdk_prompt (v : pyval) : text :=
  ⟪"From the following code, give me every step and any sort of title and description related to that step, and any image links related to that step too. Also, give me the embed code, and the tools required as well. Your response should be as if you're an AI Repair Agent."⟫
  ++ [nl; nl] ++ eight_spaces ++ show_match svc v ++ [nl] ++ eight_spaces.

(** [google_ai_python_sdk_for_gemini_api], lines 60-68. *)
Definition google_ai_python_sdk_for_gemini_api (v : pyval) : res text :=
  let! r := generate_content svc (sdk_prompt v) in
  Ok (match r with Some t => clean_text t | None => could_not_generate end).

(** Line 134. *)
Definition free_text (output : text) : text :=
  if str_truthy output then clean_text output else no_response.

(** Lines 126-134. *)
Definition final_response (output : text) : res text :=
  let! check := literal_eval svc output in
  match check with
  | Some (PDict d) =>
      if has_key filename_key d then
        let! data := extract_final_data json_dir fsys d in
        google_ai_python_sdk_for_gemini_api data
      else Ok (free_text output)
  | _ => Ok (free_text output)
  end.

(** Lines 83-97 for one file: [if file:] is false for a part without a file
    name; an empty file has an empty base64 string. *)
Definition describe_upload (describe : text -> res text) (absent : text)
    (u : option upload) : res text :=
  match u with
  | Some f =>
      if str_truthy (up_filename f) then
        let b := b64encode svc (up_content f) in
        if str_truthy b then describe b else Ok cannot_convert
      else Ok absent
  | None => Ok absent
  end.

Definition describe_all (req : request) : res (text * text * text) :=
  let! img := describe_upload (describe_image svc) ⟪"No Image Provided"⟫ (files_image req) in
  let! aud := describe_upload (describe_audio svc) ⟪"No Audio Provided"⟫ (files_audio req) in
  let! vid := describe_upload (describe_video svc) ⟪"No Video Provided"⟫ (files_video req) in
  Ok (img, aud, vid).

Definition unknown_user : text := ⟪"Unknown User"⟫.

Definition request_user (req : request) : text := default unknown_user (form_user_id req).
Definition request_query (req : request) : text := default [] (form_query req).

(** [MainAgent.post], lines 71-146: the response and the history after it. *)
Definition post (req : request) (st : store) : response * store :=
  let user_id := request_user req in
  let query := request_query req in
  match describe_all req with
  | Raise _ => (Respond500, st)
  | Ok (img, aud, vid) =>
      let st1 := if str_truthy query then add_user_message user_id query st else st in
      let inp := {| ai_user_id := user_id;
                    ai_input := if str_truthy query then query else ⟪"No Query Provided"⟫;
                    ai_image := img; ai_audio := aud; ai_video := vid |} in
      match (let! out := agent_invoke st1 inp in final_response out) with
      | Ok final => (Respond200 final, add_ai_message user_id final st1)
      | Raise _ => (Respond500, st1)
      end
  end.

End Handler.

(** The turn a request adds to its session before the agent runs. *)
Definition human_turn (req : request) : list message :=
  if str_truthy (request_query req) then [HumanMessage (request_query req)] else [].

(** ** The spec's LG washer scenario *)

Definition lg_output : text :=
  ⟪"{'filename': 'lg_wm3488hw.json', 'title': 'LG WM3488HW OE Error'}"⟫.

Definition gone_output : text := ⟪"{'filename': 'gone.json'}"⟫.

Definition demo_services (down : bool) : services := {|
  llm := fun inp sc =>
    if down then Raise ProviderError else
    match sc with
    | [] => Ok (render_action tool_find (ai_input inp))
    | _ => Ok (render_final lg_output)
    end;
  show_match := fun _ => lg_output;
  show_history := fun _ => ⟪"No chat history found."⟫;
  describe_image := fun _ => Ok ⟪"A washer display showing OE."⟫;
  describe_audio := fun _ => Ok ⟪"Beeping."⟫;
  describe_video := fun _ => Ok ⟪"A washer."⟫;
  b64encode := fun bs => match bs with [] => [] | _ => ⟪"QQ=="⟫ end;
  literal_eval := fun t =>
    if decide (t = lg_output) then Ok (Some (PDict (doc_metadata lg_doc)))
    else if decide (t = gone_output) then Ok (Some (PDict [(filename_key, PStr ⟪"gone.json"⟫)]))
    else Ok None;
  generate_content := fun _ => Ok (Some ⟪"**Step 1**: open the _drain filter_ door."⟫)
|}.

(** The demo collaborators with a model that answers the turns [turns],
    then [last]. *)
Definition scripted_services (turns : list text) (last : text) : services := {|
  llm := fun _ sc => Ok (nth (length sc) turns last);
  show_match := show_match (demo_services false);
  show_history := show_history (demo_services false);
  describe_image := describe_image (demo_services false);
  describe_audio := describe_audio (demo_services false);
  describe_video := describe_video (demo_services false);
  b64encode := b64encode (demo_services false);
  literal_eval := literal_eval (demo_services false);
  generate_content := generate_content (demo_services false)
|}.

(** A model that looks the same query up twice before answering. *)
Definition twice_lookup : list (text * text) :=
  [(tool_find, ⟪"LG washer OE"⟫); (tool_find, ⟪"LG washer OE"⟫)].

Definition twice_lookup_turns : list text :=
  [render_action tool_find ⟪"LG washer OE"⟫; render_action tool_find ⟪"LG washer OE"⟫].

Definition demo_request : request := {|
  form_user_id := Some ⟪"u42"⟫;
  form_query := Some ⟪"my LG washing machine shows error OE"⟫;
  files_image := None; files_audio := None; files_video := None
|}.

Definition demo_input : agent_input := {|
  ai_user_id := ⟪"u42"⟫; ai_input := ⟪"my LG washing machine shows error OE"⟫;
  ai_image := ⟪"No Image Provided"⟫; ai_audio := ⟪"No Audio Provided"⟫; ai_video := ⟪"No Video Provided"⟫
|}.

Definition demo_run : response * store :=
  post (demo_services false) demo_index demo_dir demo_fs demo_request ∅.

Definition demo_outage : response * store :=
  post (demo_services true) demo_index demo_dir demo_fs demo_request ∅.

(** ** Theorems *)

Section Theorems.
Context {I : Type} `{VectorIndex I}.
Variables (svc : services) (idx : I) (json_dir : text) (fsys : file_system).

(** The executor adds one step per model turn and stops with the model's
    final answer before [n] steps, or with the forced stop after [n]. *)
Lemma run_agent_spec n st inp sc out sc' :
  run_agent svc idx n st inp sc = Ok (out, sc') ->
  exists new, sc' = sc ++ new /\
    ((out = stopped_output /\ length new = n) \/
     (length new < n /\ exists turn, llm svc inp sc' = Ok turn /\ parse_react turn = AgentFinish out)).
Proof.
  revert sc. induction n as [|n IH]; intros sc Hrun; simpl in Hrun.
  - inv Hrun. exists []. rewrite app_nil_r. split; [done|]. by left.
  - destruct (llm svc inp sc) as [turn|e] eqn:L; simpl in Hrun; [|discriminate].
    destruct (parse_react turn) as [tool input|o|obs] eqn:P.
    + destruct (IH _ Hrun) as (new & -> & Hout).
      exists ((AgentAction tool input, turn, run_tool svc idx st tool input) :: new).
      rewrite <- (List.app_assoc sc). split; [done|]. simpl.
      destruct Hout as [[-> ->]|[Hlt Hfin]]; [by left | right; split; [lia|]].
      by rewrite <- (List.app_assoc sc) in Hfin.
    + inv Hrun. exists []. rewrite app_nil_r. split; [done|]. right. split; [simpl; lia|]. eauto.
    + destruct (IH _ Hrun) as (new & -> & Hout).
      exists ((ParseFailure obs, turn, obs) :: new).
      rewrite <- (List.app_assoc sc). split; [done|]. simpl.
      destruct Hout as [[-> ->]|[Hlt Hfin]]; [by left | right; split; [lia|]].
      by rewrite <- (List.app_assoc sc) in Hfin.
Qed.

Lemma run_agent_llm_raise n st inp sc e :
  llm svc inp sc = Raise e -> run_agent svc idx (S n) st inp sc = Raise e.
Proof. intros Hl. cbn [run_agent]. rewrite Hl. reflexivity. Qed.

Lemma skipn_cons_nth {A} (l : list A) k x r d :
  skipn k l = x :: r -> nth k l d = x /\ skipn (S k) l = r.
Proof.
  revert l. induction k as [|k IH]; intros [|y l] Hk; cbn in *; try discriminate.
  - inv Hk. done.
  - by apply IH.
Qed.

Lemma skipn_nil_nth {A} (l : list A) k d : skipn k l = [] -> nth k l d = d.
Proof.
  intros Hk. apply nth_overflow. apply (f_equal (@length A)) in Hk.
  rewrite length_skipn in Hk. cbn in Hk. lia.
Qed.

(** The executor follows a model whose turns parse to the calls [cr]:
    each call is run against the history, then the final answer ends the
    loop. *)
Lemma run_agent_script st inp turns last out :
  (forall sc', llm svc inp sc' = Ok (nth (length sc') turns last)) ->
  parse_react last = AgentFinish out ->
  forall tr cr, Forall2 (fun turn c => parse_react turn = AgentAction (fst c) (snd c)) tr cr ->
  forall n sc, skipn (length sc) turns = tr -> length tr < n ->
  run_agent svc idx n st inp sc =
    Ok (out, sc ++ map (fun '(turn, (tool, input)) => (AgentAction tool input, turn, run_tool svc idx st tool input))
                       (combine tr cr)).
Proof.
  intros Hl Hlast tr cr HF. induction HF as [|turn c tr cr Hp HF IH]; intros [|n] sc Hs Hn; cbn in Hn; try lia;
    cbn [run_agent]; rewrite Hl; cbn [bind].
  - rewrite (skipn_nil_nth _ _ _ Hs), Hlast. cbn. by rewrite app_nil_r.
  - destruct (skipn_cons_nth _ _ _ _ last Hs) as [-> Hs']. destruct c as [tool input]. cbn [fst snd] in Hp.
    rewrite Hp. rewrite IH; [cbn; by rewrite <- List.app_assoc| |lia].
    rewrite length_app. cbn. by replace (length sc + 1) with (S (length sc)) by lia.
Qed.

(** C6: The agent's output is the final answer of a model turn taken after
    fewer than 15 earlier steps, or the forced stop message: the loop makes
    at most 15 model calls. *)
Theorem agent_invoke_bounded st inp out :
  agent_invoke svc idx st inp = Ok out ->
  out = stopped_output \/
  exists steps turn, length steps < max_iterations /\
    llm svc inp steps = Ok turn /\ parse_react turn = AgentFinish out.
Proof.
  unfold agent_invoke. intros Hinv. apply bind_Ok_inv in Hinv as ([out' sc'] & Hrun & Hout).
  inv Hout. destruct (run_agent_spec _ _ _ _ _ _ Hrun) as (new & -> & [[-> _]|[Hlt Hfin]]).
  - by left.
  - right. exists new. exact (conj Hlt Hfin) || (destruct Hfin as (turn & L & P); exists turn; auto).
Qed.

(** C29: The executor runs the tool calls the model asks for, in order and
    with repetitions, up to 14 of them: for a model whose turns the parser
    reads as the calls [calls] and then as the final answer [out], the
    executor answers [out] after exactly these calls, each run against the
    history.  Nothing stops the same tool being called twice in one pass. *)
Theorem run_agent_follows_model st inp turns calls last out :
  length calls < max_iterations ->
  (forall sc, llm svc inp sc = Ok (nth (length sc) turns last)) ->
  Forall2 (fun turn c => parse_react turn = AgentAction (fst c) (snd c)) turns calls ->
  parse_react last = AgentFinish out ->
  run_agent svc idx max_iterations st inp [] =
    Ok (out, map (fun '(turn, (tool, input)) => (AgentAction tool input, turn, run_tool svc idx st tool input))
                 (combine turns calls)).
Proof.
  intros Hn Hl HF Hlast.
  exact (run_agent_script st inp turns last out Hl Hlast turns calls HF max_iterations [] eq_refl
           ltac:(rewrite (Forall2_length _ _ _ HF); exact Hn)).
Qed.

(** ** The handler *)

Lemma messages_after_query req st sid :
  messages (if str_truthy (request_query req)
            then add_user_message (request_user req) (request_query req) st else st) sid =
  if decide (request_user req = sid) then messages st sid ++ human_turn req else messages st sid.
Proof.
  unfold human_turn, add_user_message. destruct (str_truthy _); [apply messages_add|].
  case_decide; [by rewrite app_nil_r | done].
Qed.

Ltac post_cases :=
  unfold post;
  match goal with |- context [describe_all ?s ?r] =>
    destruct (describe_all s r) as [[[img aud] vid]|e0] end;
  [match goal with |- context [match ?c with Ok _ => _ | Raise _ => _ end] =>
     destruct c as [body0|e1] eqn:Ebody end|].

(** C1: What a request does to the history: only the requesting user's session
    changes; a 200 answer appends the (non-empty) query and the answer; a
    500 answer appends the query or nothing, and never an assistant turn. *)
Theorem post_history req st resp st' :
  post svc idx json_dir fsys req st = (resp, st') ->
  (forall sid, sid <> request_user req -> messages st' sid = messages st sid) /\
  match resp with
  | Respond200 body =>
      messages st' (request_user req) = messages st (request_user req) ++ human_turn req ++ [AIMessage body]
  | Respond500 =>
      messages st' (request_user req) = messages st (request_user req) \/
      messages st' (request_user req) = messages st (request_user req) ++ human_turn req
  end.
Proof.
  post_cases; intros Hp; inv Hp.
  - split.
    + intros sid Hne. unfold add_ai_message. rewrite messages_add_other by congruence.
      rewrite messages_after_query. case_decide; congruence.
    + unfold add_ai_message. rewrite messages_add_same, messages_after_query, decide_True by done.
      by rewrite <- List.app_assoc.
  - split.
    + intros sid Hne. rewrite messages_after_query. case_decide; congruence.
    + right. rewrite messages_after_query. by rewrite decide_True.
  - split; [done | by left].
Qed.

(** C2: Where the turns are lost on failure: a describer exception happens
    before the query is stored, so nothing is stored; a model outage
    during the agent run leaves the query stored with no assistant turn. *)
Theorem post_failure_turns req st :
  (forall e, describe_all svc req = Raise e -> post svc idx json_dir fsys req st = (Respond500, st)) /\
  (forall img aud vid e, describe_all svc req = Ok (img, aud, vid) ->
     (forall inp sc, llm svc inp sc = Raise e) ->
     exists st', post svc idx json_dir fsys req st = (Respond500, st') /\
       messages st' (request_user req) = messages st (request_user req) ++ human_turn req).
Proof.
  split.
  - intros e He. unfold post. by rewrite He.
  - intros img aud vid e Hd Hllm. unfold post. rewrite Hd.
    assert (Ha : forall st1 inp, agent_invoke svc idx st1 inp = Raise e).
    { intros st1 inp. unfold agent_invoke. change max_iterations with (S 14).
      rewrite (run_agent_llm_raise 14 st1 inp [] e (Hllm inp [])). reflexivity. }
    rewrite Ha. cbn [bind].
    eexists. split; [reflexivity|]. rewrite messages_after_query. by rewrite decide_True.
Qed.

(** Both output paths of lines 126-134 end in [clean_text] or in a fixed
    message that is its own cleaning. *)
Lemma final_response_cleaned out f :
  final_response svc json_dir fsys out = Ok f -> exists raw, f = clean_text raw.
Proof.
  unfold final_response. intros Hr. bind_inv Hr.
  assert (Hf : exists raw, free_text out = clean_text raw).
  { unfold free_text. destruct (str_truthy out); [eauto | exists no_response; reflexivity]. }
  destruct x as [[| | | | | |d]|]; try (inv Hr; exact Hf).
  destruct (has_key filename_key d); [|inv Hr; exact Hf].
  apply bind_Ok_inv in Hr as (data & _ & Hr).
  unfold google_ai_python_sdk_for_gemini_api in Hr. bind_inv Hr. inv Hr.
  destruct x; [eauto | exists could_not_generate; reflexivity].
Qed.

(** C5: Every 200 answer is the output of [clean_text]: the free-text
    path cleans the agent's output, the structured path cleans the second
    model pass, and the fixed messages are their own cleaning.  With C4 the
    answer is already normalised. *)
Theorem post_response_normalized req st body st' :
  post svc idx json_dir fsys req st = (Respond200 body, st') -> exists raw, body = clean_text raw.
Proof.
  post_cases; intros Hp; inv Hp.
  apply bind_Ok_inv in Ebody as (out & _ & Ebody). exact (final_response_cleaned _ _ Ebody).
Qed.

(** C12: A matched guide whose record is missing is not a retrieval failure
    that falls back to generated steps: the "File not found" error
    dictionary itself is sent to the model for rewriting. *)
Theorem final_response_missing_record out d name :
  literal_eval svc out = Ok (Some (PDict d)) ->
  dget d filename_key = PStr name -> name <> [] ->
  fsys (path_join json_dir name) = None ->
  final_response svc json_dir fsys out =
  google_ai_python_sdk_for_gemini_api svc
    (error_dict (⟪"File not found: "⟫ ++ path_join json_dir name)).
Proof.
  intros Hl Hn Hne Hf. unfold final_response. rewrite Hl. simpl.
  unfold has_key. unfold dget in Hn. destruct (dict_get filename_key d) eqn:E; [|discriminate]. subst p.
  unfold extract_final_data. fold filename_key. rewrite E.
  destruct name as [|a name]; [congruence|]. cbn [truthy str_truthy negb]. rewrite Hf. reflexivity.
Qed.

End Theorems.

(** ** Witnesses on the spec's LG washer scenario *)

Lemma agent_invoke_bounded_witness :
  agent_invoke (demo_services false) demo_index ∅ demo_input = Ok lg_output /\
  (lg_output = stopped_output \/
   exists steps turn, length steps < max_iterations /\
     llm (demo_services false) demo_input steps = Ok turn /\ parse_react turn = AgentFinish lg_output).
Proof.
  assert (E : agent_invoke (demo_services false) demo_index ∅ demo_input = Ok lg_output)
    by (vm_compute; reflexivity).
  split; [exact E|]. exact (agent_invoke_bounded (demo_services false) demo_index ∅ demo_input lg_output E).
Defined.

Lemma run_agent_follows_model_witness :
  run_agent (scripted_services twice_lookup_turns (render_final lg_output)) demo_index max_iterations ∅ demo_input [] =
  Ok (lg_output, [(AgentAction tool_find ⟪"LG washer OE"⟫, render_action tool_find ⟪"LG washer OE"⟫, lg_output);
                  (AgentAction tool_find ⟪"LG washer OE"⟫, render_action tool_find ⟪"LG washer OE"⟫, lg_output)]).
Proof.
  exact (run_agent_follows_model (scripted_services twice_lookup_turns (render_final lg_output))
           demo_index ∅ demo_input twice_lookup_turns twice_lookup (render_final lg_output) lg_output
           ltac:(unfold max_iterations; cbn; lia) (fun sc => eq_refl)
           ltac:(repeat constructor; vm_compute; reflexivity) ltac:(vm_compute; reflexivity)).
Defined.

Lemma post_history_witness :
  post (demo_services false) demo_index demo_dir demo_fs demo_request ∅ = (fst demo_run, snd demo_run) /\
  (forall sid, sid <> request_user demo_request -> messages (snd demo_run) sid = messages ∅ sid) /\
  match fst demo_run with
  | Respond200 body =>
      messages (snd demo_run) (request_user demo_request) =
      messages ∅ (request_user demo_request) ++ human_turn demo_request ++ [AIMessage body]
  | Respond500 =>
      messages (snd demo_run) (request_user demo_request) = messages ∅ (request_user demo_request) \/
      messages (snd demo_run) (request_user demo_request) = messages ∅ (request_user demo_request) ++ human_turn demo_request
  end.
Proof.
  assert (E : post (demo_services false) demo_index demo_dir demo_fs demo_request ∅ = (fst demo_run, snd demo_run))
    by (vm_compute; reflexivity).
  split; [exact E|]. exact (post_history (demo_services false) demo_index demo_dir demo_fs demo_request ∅ _ _ E).
Defined.

Lemma post_response_normalized_witness :
  post (demo_services false) demo_index demo_dir demo_fs demo_request ∅ =
    (Respond200 ⟪"Step 1: open the drain filter door."⟫, snd demo_run) /\
  exists raw, ⟪"Step 1: open the drain filter door."⟫ = clean_text raw.
Proof.
  assert (E : post (demo_services false) demo_index demo_dir demo_fs demo_request ∅ =
                (Respond200 ⟪"Step 1: open the drain filter door."⟫, snd demo_run))
    by (vm_compute; reflexivity).
  split; [exact E|]. exact (post_response_normalized (demo_services false) demo_index demo_dir demo_fs demo_request ∅ _ _ E).
Defined.

Lemma post_failure_turns_witness :
  describe_all (demo_services true) demo_request =
    Ok (⟪"No Image Provided"⟫, ⟪"No Audio Provided"⟫, ⟪"No Video Provided"⟫) /\
  exists st', post (demo_services true) demo_index demo_dir demo_fs demo_request ∅ = (Respond500, st') /\
    messages st' (request_user demo_request) = messages ∅ (request_user demo_request) ++ human_turn demo_request.
Proof.
  assert (D : describe_all (demo_services true) demo_request =
                Ok (⟪"No Image Provided"⟫, ⟪"No Audio Provided"⟫, ⟪"No Video Provided"⟫)) by reflexivity.
  split; [exact D|].
  exact (proj2 (post_failure_turns (demo_services true) demo_index demo_dir demo_fs demo_request ∅)
           _ _ _ ProviderError D (fun _ _ => eq_refl)).
Defined.

Lemma final_response_missing_record_witness :
  literal_eval (demo_services false) gone_output = Ok (Some (PDict [(filename_key, PStr ⟪"gone.json"⟫)])) /\
  final_response (demo_services false) demo_dir demo_fs gone_output =
  google_ai_python_sdk_for_gemini_api (demo_services false)
    (error_dict (⟪"File not found: "⟫ ++ path_join demo_dir ⟪"gone.json"⟫)).
Proof.
  split; [vm_compute; reflexivity|].
  apply (final_response_missing_record (demo_services false) demo_dir demo_fs gone_output
           [(filename_key, PStr ⟪"gone.json"⟫)] ⟪"gone.json"⟫);
    [vm_compute; reflexivity | reflexivity | discriminate | vm_compute; reflexivity].
Defined.

End Agent.
