(* ===== verification/Prompt.v ===== *)
(** * Prompt: the ReAct prompt of the agent

    agent.py lines 44-53 build the agent's prompt: a system message from
    the template [system_text44] (utils/strings.py lines 1-53; the module
    also defines the later versions [system_text55] and [system_text66],
    which agent.py does not use, and [custom_prompt] is modelled on any
    of the three) and a human
    message ["User ID: {user_id}, Query: {input}, ..."], both parsed as
    f-string templates by [from_template]; [create_react_agent] checks that
    the prompt has the variables [tools], [tool_names] and
    [agent_scratchpad] and fills the first two from the tool list.  Each
    model call of the executor formats the prompt with the request's input.

    Template parsing is Python's [string.Formatter().parse] on templates
    whose fields are plain names: [{{] and [}}] are escaped braces, a lone
    [}] or an unclosed [{] raises [ValueError], and so does a [{] inside a
    field; conversions ([!r]) and format specs ([:x]) are not modelled (no
    template of the program has one).  Formatting looks each field up in
    the keyword arguments and raises [KeyError] on a missing one; values are
    inserted as they are, never parsed again.  A tool's description is its
    docstring, as the [@tool] decorator of langchain-core makes it, and
    [{tools}] lists each tool as langchain-core's [render_text_description]
    does: its name, its function's signature, [" - "] and the
    description.

    Theorems: formatting is total when every field has a value
    ([render_total]) and distributes over a split template
    ([render_app]); every template of utils/strings.py parses into known
    fields followed by the ReAct tail [Question: {input}] / [User ID:
    {user_id}] / [Thought: {agent_scratchpad}] ([strings_templates_split]),
    so the prompt formats on every request ([render_prompt_spec]). *)

From Stdlib Require Import List Ascii String Bool.
From S2P Require Import Prelude PyValue Search History Agent.
Import ListNotations PyValue Agent.
Open Scope fg_scope.

Module Prompt.

(** ** Templates *)

(** A parsed template: literal text and replacement fields. *)
Inductive piece :=
| Lit (t : text)
| Field (name : text).

(** [string.Formatter().parse], as a scan that is in literal text
    ([field = None], [acc] the literal so far) or inside a field. *)
Fixpoint scan (s : text) (field : option text) (acc : text) : res (list piece) :=
  match s with
  | [] => match field with None => Ok [Lit acc] | Some _ => Raise ValueError end
  | c :: r =>
      match field with
      | Some f =>
          if Ascii.eqb c "}" then let! ps := scan r None [] in Ok (Field f :: ps)
          else if Ascii.eqb c "{" then Raise ValueError
          else scan r (Some (f ++ [c])) acc
      | None =>
          if Ascii.eqb c "{" then
            match r with
            | d :: r' =>
                if Ascii.eqb d "{" then scan r' None (acc ++ [c])
                else let! ps := scan r (Some []) [] in Ok (Lit acc :: ps)
            | [] => Raise ValueError
            end
          else if Ascii.eqb c "}" then
            match r with
            | d :: r' => if Ascii.eqb d "}" then scan r' None (acc ++ [c]) else Raise ValueError
            | [] => Raise ValueError
            end
          else scan r None (acc ++ [c])
      end
  end.

Definition parse_template (t : text) : res (list piece) := scan t None [].

Fixpoint fields (ps : list piece) : list text :=
  match ps with
  | [] => []
  | Lit _ :: ps' => fields ps'
  | Field n :: ps' => n :: fields ps'
  end.

(** [get_template_variables] (as a list; LangChain keeps them as a set). *)
Definition template_variables (t : text) : res (list text) :=
  let! ps := parse_template t in Ok (fields ps).

(** [formatter.format(template, **kwargs)] on a parsed template. *)
Fixpoint render (kwargs : text -> option text) (ps : list piece) : res text :=
  match ps with
  | [] => Ok []
  | Lit t :: ps' => let! r := render kwargs ps' in Ok (t ++ r)
  | Field n :: ps' =>
      match kwargs n with
      | Some v => let! r := render kwargs ps' in Ok (v ++ r)
      | None => Raise KeyError
      end
  end.

Definition format_template (kwargs : text -> option text) (t : text) : res text :=
  let! ps := parse_template t in render kwargs ps.

(** Keyword arguments as a Python dict with text keys. *)
Fixpoint kw_lookup (d : list (text * text)) (k : text) : option text :=
  match d with
  | [] => None
  | (k', v) :: d' => if text_eqb k k' then Some v else kw_lookup d' k
  end.

(** ** The program's prompt *)

Definition dq : text := ["034"%char].

(** utils/strings.py lines 1-53. *)
Definition system_text44 : text :=
  ⟪"
You are an AI repair assistant specializing in diagnosing and providing repair solutions for various kinds of appliances.  

You have access to the following tools:  

{tools}  

Your output must strictly follow ONE of the following formats (and nothing else):  

---------------------------  
FORMAT A: TOOL CALL  
---------------------------  
When you need to call a tool, output ONLY this format:  
Question: {input}  
Thought: [brief reasoning]  
Action: {tool_names}  # One of find_closest_match, get_chat_history  
Action Input: [the relevant query, user_id]  

---------------------------  
FORMAT B: FINAL ANSWER  
---------------------------  
When you have all necessary information, output ONLY this format:  
Question: {input}  
Thought: [brief reasoning, possibly including relevant context from chat history if retrieved]  
Final Answer: [your final response]  

---------------------------  

### RULES:  
1. Follow-Up Context Handling:  
   - If the user's question is a follow-up or references prior messages, first call get_chat_history (FORMAT A).  
   - Do NOT call get_chat_history for general greetings (e.g., "⟫ ++ dq ++
  ⟪"hello"⟫ ++ dq ++
  ⟪", "⟫ ++ dq ++
  ⟪"hi"⟫ ++ dq ++
  ⟪", "⟫ ++ dq ++
  ⟪"how are you?"⟫ ++ dq ++
  ⟪").  
   - Wait for the response and integrate relevant context before proceeding.  

2. Primary Repair Guidance:
   - If an appliance or issue is mentioned, first call find_closest_match (FORMAT A).  
   - If a relevant match is found, return the metadata exactly as received (FORMAT B).  

3. Fallback Repair Guidance:  
   - If no relevant match is found, generate repair steps using the LLM (FORMAT B).  
   - The response should be structured, detailed, and practical for troubleshooting.  

4. Strict Adherence to Formats:  
   - Never produce both a tool call (Action + Action Input) and a Final Answer in the same response.  
   - Never call the same tool more than once in a single reasoning step.  
   - No extra text, explanations, or commentary beyond the specified formats.  

Begin now.  

Question: {input}  
User ID: {user_id}  
Thought: {agent_scratchpad}  
"⟫.

(** utils/strings.py lines 56-111: a later version of the template with
    an [Observation:] line in format B and a rule to check the match's
    title; agent.py does not use it. *)
Definition system_text55 : text :=
  ⟪"
You are an AI repair assistant specializing in diagnosing and providing repair solutions for various kinds of appliances.  

You have access to the following tools:  

{tools}  

Your output must strictly follow ONE of the following formats (and nothing else):  

---------------------------  
FORMAT A: TOOL CALL  
---------------------------  
When you need to call a tool, output ONLY this format:  
Question: {input}  
Thought: [brief reasoning]  
Action: {tool_names}  # One of find_closest_match, get_chat_history  
Action Input: [the relevant query, user_id]  

---------------------------  
FORMAT B: FINAL ANSWER  
---------------------------  
When you have all necessary information, output ONLY this format:  
Question: {input}  
Thought: [brief reasoning, possibly including relevant context from chat history if retrieved]  
Observation: [result of the previous tool call]  
Final Answer: [your final response]  

---------------------------  

### RULES:  
1. Follow-Up Context Handling:  
   - If the user's question is a follow-up or references prior messages, first call get_chat_history (FORMAT A).  
   - Do NOT call get_chat_history for general greetings (e.g., "⟫ ++ dq ++
  ⟪"hello"⟫ ++ dq ++
  ⟪", "⟫ ++ dq ++
  ⟪"hi"⟫ ++ dq ++
  ⟪", "⟫ ++ dq ++
  ⟪"how are you?"⟫ ++ dq ++
  ⟪").  
   - Wait for the response and integrate relevant context before proceeding.  

2. Primary Repair Guidance:
   - If an appliance or issue is mentioned, first call find_closest_match (FORMAT A).  
   - Wait for the result and inspect whether the closest match found is appropriate.  
   - Only if it is appropriate (look at the title of the result from find_closes_match), return the metadata exactly as received (FORMAT B).  
   - If not appropriate, fall back to LLM-generated repair steps (FORMAT B).  

3. Fallback Repair Guidance:  
   - If no relevant match is found, generate repair steps using the LLM (FORMAT B).  
   - The response should be structured, detailed, and practical for troubleshooting.  

4. Strict Adherence to Formats:  
   - Never produce both a tool call (Action + Action Input) and a Final Answer in the same response.  
   - Never call the same tool more than once in a single reasoning step.  
   - No extra text, explanations, or commentary beyond the specified formats.  

Begin now.  

Question: {input}  
User ID: {user_id}  
Thought: {agent_scratchpad}  
"⟫.

(** utils/strings.py lines 114-174: the version with a rule on
    multimodal input; agent.py does not use it either. *)
Definition system_text66 : text :=
  ⟪"
You are an AI repair assistant specializing in diagnosing and providing repair solutions for various kinds of appliances.  

You have access to the following tools:  

{tools}  

Your output must strictly follow ONE of the following formats (and nothing else):  

---------------------------  
FORMAT A: TOOL CALL  
---------------------------  
When you need to call a tool, output ONLY this format:  
Question: {input}  
Thought: [brief reasoning]  
Action: {tool_names}  # One of find_closest_match, get_chat_history  
Action Input: [the relevant query, user_id]  

---------------------------  
FORMAT B: FINAL ANSWER  
---------------------------  
When you have all necessary information, output ONLY this format:  
Question: {input}  
Thought: [brief reasoning, possibly including relevant context from chat history if retrieved]  
Observation: [result of the previous tool call]  
Final Answer: [your final response]  

---------------------------  

### RULES:  

1. Multimodal Input Handling:
   - IF the input contains multiple modalities such as image, audio, or video (or references to them), analyze and incorporate information from ALL provided sources in your reasoning and response.
   - Never ignore any modality unless explicitly instructed to do so by the user.

2. Follow-Up Context Handling:  
   - If the user's question is a follow-up or references prior messages, first call get_chat_history (FORMAT A).  
   - Do NOT call get_chat_history for general greetings (e.g., "⟫ ++ dq ++
  ⟪"hello"⟫ ++ dq ++
  ⟪", "⟫ ++ dq ++
  ⟪"hi"⟫ ++ dq ++
  ⟪", "⟫ ++ dq ++
  ⟪"how are you?"⟫ ++ dq ++
  ⟪").  
   - Wait for the response and integrate relevant context before proceeding.  

3. Primary Repair Guidance:
   - If an appliance or issue is mentioned, first call find_closest_match (FORMAT A).  
   - Wait for the result and inspect whether the closest match found is appropriate.  
   - Only if it is appropriate (look at the title of the result from find_closes_match), return the metadata exactly as received (FORMAT B).  
   - If not appropriate, fall back to LLM-generated repair steps (FORMAT B).  

4. Fallback Repair Guidance:  
   - If no relevant match is found, generate repair steps using the LLM (FORMAT B).  
   - The response should be structured, detailed, and practical for troubleshooting.  

5. Strict Adherence to Formats:  
   - Never produce both a tool call (Action + Action Input) and a Final Answer in the same response.  
   - Never call the same tool more than once in a single reasoning step.  
   - No extra text, explanations, or commentary beyond the specified formats.  

Begin now.  

Question: {input}  
User ID: {user_id}  
Thought: {agent_scratchpad}  
"⟫.

(** agent.py line 47. *)
Definition human_template : text :=
  ⟪"User ID: {user_id}, Query: {input}, Image Description: {image}, Audio Description: {audio}, Video Description: {video}"⟫.

(** The docstrings of the two tools (search.py line 17,
    history_retrieval.py line 9). *)
Definition find_closest_match_doc : text :=
  ⟪"Finds the most relevant document in the vector database based on similarity search and returns its metadata."⟫.

Definition get_chat_history_doc : text :=
  ⟪"Retrieves the chat history for the given user from Firestore Database."⟫.

(** The signatures of the two tool functions, as [str(inspect.signature)]
    prints them (search.py line 16, history_retrieval.py line 8). *)
Definition find_closest_match_sig : text := ⟪"(query: str)"⟫.

Definition get_chat_history_sig : text := ⟪"(user_id)"⟫.

(** agent.py line 42: [tools = [find_closest_match, get_chat_history]]:
    name, signature and description of each. *)
Definition tools : list (text * text * text) :=
  [(tool_find, find_closest_match_sig, find_closest_match_doc);
   (tool_history, get_chat_history_sig, get_chat_history_doc)].

(** langchain-core's [render_text_description(tools)]: one line
    ["name(signature) - description"] per tool, since an [@tool] function
    keeps its [func]. *)
Definition render_text_description (ts : list (text * text * text)) : text :=
  join [nl] (map (fun '(n, sg, d) => n ++ sg ++ ⟪" - "⟫ ++ d) ts).

Definition tool_names (ts : list (text * text * text)) : text :=
  join ⟪", "⟫ (map (fun '(n, _, _) => n) ts).

Definition react_required : list text := [⟪"tools"⟫; ⟪"tool_names"⟫; ⟪"agent_scratchpad"⟫].

(** [create_react_agent(llm, tools, custom_prompt)] on the templates of the
    prompt's messages: [from_template] parses each one (raising on a bad
    template), then the agent raises [ValueError] when a required variable
    is missing. *)
Definition create_react_agent (templates : list text) : res unit :=
  let! vars := map_res template_variables templates in
  if forallb (fun v => existsb (text_eqb v) (List.concat vars)) react_required then Ok tt
  else Raise ValueError.

(** The keyword arguments of one model call: the request's [agent_input]
    (agent.py lines 110-116), the partials [tools] and [tool_names], and
    the scratchpad of the steps so far. *)
Definition prompt_kwargs (inp : agent_input) (scratchpad : text) : list (text * text) :=
  [(⟪"tools"⟫, render_text_description tools); (⟪"tool_names"⟫, tool_names tools);
   (⟪"user_id"⟫, ai_user_id inp); (⟪"input"⟫, ai_input inp); (⟪"image"⟫, ai_image inp);
   (⟪"audio"⟫, ai_audio inp); (⟪"video"⟫, ai_video inp); (⟪"agent_scratchpad"⟫, scratchpad)].

(** The system and human messages the model receives from
    [custom_prompt] (agent.py lines 44-49) built on a system template,
    formatted. *)
Definition custom_prompt (system_template : text) (inp : agent_input) (scratchpad : text)
    : res (text * text) :=
  let kw := kw_lookup (prompt_kwargs inp scratchpad) in
  let! sys := format_template kw system_template in
  let! hum := format_template kw human_template in
  Ok (sys, hum).

(** agent.py builds it on [system_text44] (line 45). *)
Definition render_prompt (inp : agent_input) (scratchpad : text) : res (text * text) :=
  custom_prompt system_text44 inp scratchpad.

(** The templates of utils/strings.py. *)
Definition strings_templates : list text := [system_text44; system_text55; system_text66].

(** The names [prompt_kwargs] binds. *)
Definition prompt_keys : list text :=
  [⟪"tools"⟫; ⟪"tool_names"⟫; ⟪"user_id"⟫; ⟪"input"⟫; ⟪"image"⟫; ⟪"audio"⟫; ⟪"video"⟫;
   ⟪"agent_scratchpad"⟫].

Definition known_field (n : text) : bool := existsb (text_eqb n) prompt_keys.

(** How every template of utils/strings.py ends: [Question: {input}],
    [User ID: {user_id}], [Thought: {agent_scratchpad}], each line ending
    in two spaces. *)
Definition react_tail : list piece :=
  [Field ⟪"input"⟫; Lit (⟪"  "⟫ ++ [nl] ++ ⟪"User ID: "⟫); Field ⟪"user_id"⟫;
   Lit (⟪"  "⟫ ++ [nl] ++ ⟪"Thought: "⟫); Field ⟪"agent_scratchpad"⟫; Lit (⟪"  "⟫ ++ [nl])].

(** A parsed template cut before its last seven pieces, and the literal
    text there without its final [Question: ]. *)
Definition question_split (ps : list piece) : list piece * text :=
  (firstn (length ps - 7) ps,
   match nth (length ps - 7) ps (Lit []) with Lit l => firstn (length l - 10) l | Field _ => [] end).

(** ** Lemmas *)

Lemma render_app kw ps1 ps2 :
  render kw (ps1 ++ ps2) = let! a := render kw ps1 in let! b := render kw ps2 in Ok (a ++ b).
Proof.
  induction ps1 as [|[t|n] ps IH]; cbn [app render].
  - destruct (render kw ps2); reflexivity.
  - rewrite IH. destruct (render kw ps) as [a|e]; [|reflexivity]. cbn.
    destruct (render kw ps2); cbn; [now rewrite List.app_assoc | reflexivity].
  - destruct (kw n) as [v|]; [|reflexivity]. rewrite IH.
    destruct (render kw ps) as [a|e]; [|reflexivity]. cbn.
    destruct (render kw ps2); cbn; [now rewrite List.app_assoc | reflexivity].
Qed.

(** Rendering succeeds when every field has a value. *)
Lemma render_total kw ps :
  Forall (fun n => exists v, kw n = Some v) (fields ps) -> exists r, render kw ps = Ok r.
Proof.
  induction ps as [|[t|n] ps IH]; cbn [fields render]; intros Hf; [eauto| |].
  - destruct (IH Hf) as [r ->]. eauto.
  - inversion Hf as [|? ? [v Hv] Hr]; subst. rewrite Hv. destruct (IH Hr) as [r ->]. eauto.
Qed.

Lemma known_field_bound inp sc n :
  known_field n = true -> exists v, kw_lookup (prompt_kwargs inp sc) n = Some v.
Proof.
  unfold known_field. intros (k & Hk & E)%existsb_exists. apply text_eqb_eq in E as ->.
  repeat destruct Hk as [<-|Hk]; first [eexists; reflexivity | destruct Hk].
Qed.

(** A template that parses into known fields followed by the ReAct tail
    formats to its text up to [Question: ], then the request's input, user
    id and scratchpad. *)
Lemma format_question t pre q inp sc :
  parse_template t = Ok (pre ++ Lit (q ++ ⟪"Question: "⟫) :: react_tail) ->
  forallb known_field (fields pre) = true ->
  exists r, format_template (kw_lookup (prompt_kwargs inp sc)) t =
    Ok (r ++ q ++ ⟪"Question: "⟫ ++ ai_input inp ++ ⟪"  "⟫ ++ [nl] ++
        ⟪"User ID: "⟫ ++ ai_user_id inp ++ ⟪"  "⟫ ++ [nl] ++ ⟪"Thought: "⟫ ++ sc ++ ⟪"  "⟫ ++ [nl]).
Proof.
  intros Ep Hk. unfold format_template. rewrite Ep, bind_Ok, render_app.
  destruct (render_total (kw_lookup (prompt_kwargs inp sc)) pre) as [r Hr].
  { apply List.Forall_forall. intros n Hn. apply known_field_bound.
    exact (proj1 (forallb_forall _ _) Hk n Hn). }
  rewrite Hr. exists r. cbn. rewrite ?List.app_nil_r, <- ?List.app_assoc. reflexivity.
Qed.

Lemma format_human inp sc :
  format_template (kw_lookup (prompt_kwargs inp sc)) human_template =
    Ok (⟪"User ID: "⟫ ++ ai_user_id inp ++ ⟪", Query: "⟫ ++ ai_input inp ++
        ⟪", Image Description: "⟫ ++ ai_image inp ++ ⟪", Audio Description: "⟫ ++ ai_audio inp ++
        ⟪", Video Description: "⟫ ++ ai_video inp).
Proof. cbn. now rewrite List.app_nil_r. Qed.

(** Every template of utils/strings.py has that shape. *)
Lemma strings_templates_split t :
  In t strings_templates ->
  let ps := match parse_template t with Ok ps => ps | Raise _ => [] end in
  parse_template t = Ok (fst (question_split ps) ++ Lit (snd (question_split ps) ++ ⟪"Question: "⟫) :: react_tail) /\
  forallb known_field (fields (fst (question_split ps))) = true.
Proof. intros [<-|[<-|[<-|[]]]]; vm_compute; split; reflexivity. Qed.

(** ** Theorems *)

(** The prompt passes [create_react_agent]'s check when agent.py is
    imported: both templates parse, and the system template has the
    variables [tools], [tool_names] and [agent_scratchpad], besides the
    request's [input] and [user_id]; the two other templates of
    utils/strings.py have the same variables, in the same order. *)
Theorem create_react_agent_accepts :
  template_variables system_text44 =
    Ok [⟪"tools"⟫; ⟪"input"⟫; ⟪"tool_names"⟫; ⟪"input"⟫; ⟪"input"⟫; ⟪"user_id"⟫; ⟪"agent_scratchpad"⟫] /\
  template_variables human_template = Ok [⟪"user_id"⟫; ⟪"input"⟫; ⟪"image"⟫; ⟪"audio"⟫; ⟪"video"⟫] /\
  template_variables system_text55 = template_variables system_text44 /\
  template_variables system_text66 = template_variables system_text44.
Proof. vm_compute. repeat split. Qed.

(** C37: Formatting the prompt never raises, whatever the request holds, and
    whichever template of utils/strings.py it is built on: each passes
    [create_react_agent]'s check; the human message is the request's
    fields inserted verbatim (braces in a query are not read as fields),
    and the system message ends with the ReAct continuation: the
    question, the user id and the scratchpad. *)
Theorem render_prompt_spec t inp scratchpad :
  In t strings_templates ->
  create_react_agent [t; human_template] = Ok tt /\
  exists sys, custom_prompt t inp scratchpad =
    Ok (sys, ⟪"User ID: "⟫ ++ ai_user_id inp ++ ⟪", Query: "⟫ ++ ai_input inp ++
             ⟪", Image Description: "⟫ ++ ai_image inp ++ ⟪", Audio Description: "⟫ ++ ai_audio inp ++
             ⟪", Video Description: "⟫ ++ ai_video inp) /\
  exists pre, sys = pre ++ ⟪"Question: "⟫ ++ ai_input inp ++ ⟪"  "⟫ ++ [nl] ++
                    ⟪"User ID: "⟫ ++ ai_user_id inp ++ ⟪"  "⟫ ++ [nl] ++
                    ⟪"Thought: "⟫ ++ scratchpad ++ ⟪"  "⟫ ++ [nl].
Proof.
  intros Ht. split; [revert Ht; intros [<-|[<-|[<-|[]]]]; vm_compute; reflexivity|].
  destruct (strings_templates_split t Ht) as [Ep Hk].
  destruct (format_question _ _ _ inp scratchpad Ep Hk) as [r Er].
  unfold custom_prompt. rewrite Er, bind_Ok, format_human. eexists. split; [reflexivity|].
  exists (r ++ snd (question_split (match parse_template t with Ok ps => ps | Raise _ => [] end))).
  now rewrite <- !List.app_assoc.
Qed.

(** ** Witnesses *)

Lemma render_prompt_spec_witness :
  In system_text55 strings_templates /\
  create_react_agent [system_text55; human_template] = Ok tt /\
  exists sys, custom_prompt system_text55 demo_input [] =
    Ok (sys, ⟪"User ID: "⟫ ++ ai_user_id demo_input ++ ⟪", Query: "⟫ ++ ai_input demo_input ++
             ⟪", Image Description: "⟫ ++ ai_image demo_input ++ ⟪", Audio Description: "⟫ ++ ai_audio demo_input ++
             ⟪", Video Description: "⟫ ++ ai_video demo_input) /\
  exists pre, sys = pre ++ ⟪"Question: "⟫ ++ ai_input demo_input ++ ⟪"  "⟫ ++ [nl] ++
                    ⟪"User ID: "⟫ ++ ai_user_id demo_input ++ ⟪"  "⟫ ++ [nl] ++
                    ⟪"Thought: "⟫ ++ [] ++ ⟪"  "⟫ ++ [nl].
Proof.
  assert (Hin : In system_text55 strings_templates) by (right; left; reflexivity).
  split; [exact Hin|]. exact (render_prompt_spec system_text55 demo_input [] Hin).
Defined.

End Prompt.
