(* ===== verification/LiteralEval.v ===== *)
(** * LiteralEval: [ast.literal_eval] on the agent's output

    agent.py lines 126-131 parse the agent's final output with
    [ast.literal_eval] and take the record-expansion path when the result
    is a dict with a ["filename"] key; [ValueError] and [SyntaxError] are
    caught (the output is then used as text), any other exception reaches
    the handler's [except] and the request answers 500.

    [literal_check] models what CPython (3.10 and later) does there, for
    the inputs whose outcome the model can tell, and answers [None]
    (outside the model) for the others, so that every answer it gives is
    CPython's.  It parses Python literal displays: [None], [True],
    [False], decimal integers, floats ([1.5], [1e-05], [2.5e+20]), strings
    in single or double quotes with the escapes backslash followed by a backslash, a quote of
    either kind, [n], [r], [t] or [x] and two hex digits,
    lists, tuples, sets and dicts, with spaces, tabs and newlines between
    tokens.  Anything else inside a display (names, operators, comments,
    other escapes, prefixed or implicitly concatenated strings) is outside
    the model; an input that ends inside a display or a string is a
    [SyntaxError].

    At the top level: a display followed by nothing is converted; a
    display followed by other text makes a larger expression that
    [literal_eval] rejects ([ValueError] or [SyntaxError]), except after a
    comma (a tuple), a comment or a line continuation, which are outside
    the model; an input that starts with a name other than [True],
    [False], [None] and [set] (and not a string prefix) is rejected the
    same way, since [_convert] raises [ValueError] on the first element
    that is not a literal.  This covers the agent's two kinds of output: a
    metadata dict echoed from the search tool, and prose.

    Converting a parsed literal raises [TypeError] on an unhashable dict
    key or set element (a list, dict or set, or a tuple holding one).  A
    converted dict keeps its string keys, in first-insertion order with the
    last value, which is all the program reads of it ([in] and
    [d.get("filename")]); tuples and sets become lists (the program only
    tests their truthiness and that they are not dicts); a float is the
    exact value of its decimal literal.  CPython's recursion and memory
    limits are not modelled. *)

From Stdlib Require Import List Ascii String Bool ZArith QArith Lia.
From S2P Require Import Prelude PyValue Search History Finalizer Agent.
Import ListNotations PyValue Finalizer Agent.
Open Scope nat_scope.
Open Scope fg_scope.

Module LiteralEval.

(** ** Literals *)

(** The literal displays of the grammar, as written (a float keeps its
    lexeme). *)
Inductive lit :=
| LNone
| LBool (b : bool)
| LInt (z : Z)
| LFloat (lexeme : text)
| LStr (s : text)
| LList (l : list lit)
| LTuple (l : list lit)
| LSet (l : list lit)
| LDict (kvs : list (lit * lit)).

(** A parse step: a value and the rest of the input, a definite
    [SyntaxError], or an input outside the model. *)
Inductive pres (A : Type) :=
| POk (a : A)
| PSyntax
| PUnknown.
Arguments POk {A} a.
Arguments PSyntax {A}.
Arguments PUnknown {A}.

(** ** Characters *)

Definition code (c : ascii) : nat := nat_of_ascii c.
Definition tab : ascii := "009"%char.
Definition cr : ascii := "013"%char.
Definition ff : ascii := "012"%char.
Definition dquote : ascii := "034"%char.

Definition is_digit (c : ascii) : bool := Nat.leb 48 (code c) && Nat.leb (code c) 57.

Definition is_alpha (c : ascii) : bool :=
  (Nat.leb 65 (code c) && Nat.leb (code c) 90) || (Nat.leb 97 (code c) && Nat.leb (code c) 122).

Definition is_ident_char (c : ascii) : bool := is_alpha c || is_digit c || Ascii.eqb c "_".

(** Whitespace between tokens inside a display. *)
Definition tok_ws (c : ascii) : bool :=
  Ascii.eqb c " " || Ascii.eqb c tab || Ascii.eqb c ff || Ascii.eqb c nl || Ascii.eqb c cr.

Fixpoint skip_ws (s : text) : text :=
  match s with
  | c :: r => if tok_ws c then skip_ws r else s
  | [] => []
  end.

(** What may follow a complete token inside a display. *)
Definition delim_ok (s : text) : bool :=
  match s with
  | [] => true
  | c :: _ => tok_ws c || Ascii.eqb c "," || Ascii.eqb c ":" || Ascii.eqb c "]"
              || Ascii.eqb c "}" || Ascii.eqb c ")"
  end.

Fixpoint span (p : ascii -> bool) (s : text) : text * text :=
  match s with
  | c :: r => if p c then let '(a, b) := span p r in (c :: a, b) else ([], s)
  | [] => ([], [])
  end.

Definition hex_val (c : ascii) : option nat :=
  if is_digit c then Some (code c - 48)
  else if Nat.leb 97 (code c) && Nat.leb (code c) 102 then Some (code c - 87)
  else if Nat.leb 65 (code c) && Nat.leb (code c) 70 then Some (code c - 55)
  else None.

(** ** Tokens *)

(** The body of a string literal after its opening quote [q], up to the
    closing quote; [acc] holds the characters read so far. *)
Fixpoint p_str (q : ascii) (s : text) (acc : text) : pres (text * text) :=
  match s with
  | [] => PSyntax
  | c :: r =>
      if Ascii.eqb c q then POk (acc, r)
      else if Ascii.eqb c nl || Ascii.eqb c cr then PSyntax
      else if Ascii.eqb c "\" then
        match r with
        | [] => PSyntax
        | e :: r' =>
            if Ascii.eqb e "\" || Ascii.eqb e "'" || Ascii.eqb e dquote then p_str q r' (acc ++ [e])
            else if Ascii.eqb e "n" then p_str q r' (acc ++ [nl])
            else if Ascii.eqb e "r" then p_str q r' (acc ++ [cr])
            else if Ascii.eqb e "t" then p_str q r' (acc ++ [tab])
            else if Ascii.eqb e "x" then
              match r' with
              | h1 :: h2 :: r'' =>
                  match hex_val h1, hex_val h2 with
                  | Some a, Some b => p_str q r'' (acc ++ [ascii_of_nat (a * 16 + b)])
                  | _, _ => PSyntax
                  end
              | _ => PSyntax
              end
            else PUnknown
        end
      else if Nat.ltb 0 (code c) && Nat.ltb (code c) 128 then p_str q r (acc ++ [c])
      else PUnknown
  end.

Fixpoint digits_value (ds : text) (acc : Z) : Z :=
  match ds with
  | [] => acc
  | d :: ds' => digits_value ds' (acc * 10 + Z.of_nat (code d - 48))%Z
  end.

(** The exponent part of a float after its [e]: an optional sign and
    digits. *)
Definition p_exponent (s : text) : option (text * text) :=
  let '(sg, s1) := match s with
                   | c :: r => if Ascii.eqb c "+" || Ascii.eqb c "-" then ([c], r) else ([], s)
                   | [] => ([], s)
                   end in
  match span is_digit s1 with
  | ([], _) => None
  | (ds, s2) => Some (sg ++ ds, s2)
  end.

(** The stages of a number: an optional minus sign, a fraction [.d+], an
    exponent [e[+-]?d+] ([Some None]: an [e] not followed by one). *)
Definition lex_sign (s : text) : text * text :=
  match s with
  | c :: r => if Ascii.eqb c "-" then ([c], r) else ([], s)
  | [] => ([], [])
  end.

Definition lex_frac (s : text) : option text * text :=
  match s with
  | c :: r => if Ascii.eqb c "." then let '(fs, r') := span is_digit r in (Some fs, r') else (None, s)
  | [] => (None, [])
  end.

Definition lex_exp (s : text) : option (option text) * text :=
  match s with
  | c :: r =>
      if Ascii.eqb c "e" || Ascii.eqb c "E" then
        match p_exponent r with
        | Some (e, r') => (Some (Some (c :: e)), r')
        | None => (Some None, r)
        end
      else (None, s)
  | [] => (None, [])
  end.

(** A multi-digit integer part that starts with 0. *)
Definition leading_zero (ds : text) : bool :=
  match ds with
  | d :: _ :: _ => Ascii.eqb d "0"
  | _ => false
  end.

(** A number: [-]? digits, with a fraction and/or an exponent for a float;
    a leading zero, an empty fraction ([1.]) and a number followed by
    anything but a delimiter ([1j], [1_0], [0x1]) are outside the model. *)
Definition p_number (s : text) : pres (lit * text) :=
  let '(sg, s1) := lex_sign s in
  let '(ds, s2) := span is_digit s1 in
  match ds with
  | [] => PUnknown
  | _ =>
      if leading_zero ds then PUnknown else
      let '(frac, s3) := lex_frac s2 in
      let '(ex, s4) := lex_exp s3 in
      if negb (delim_ok s4) then PUnknown else
      match frac, ex with
      | None, None =>
          let n := digits_value ds 0%Z in
          POk (LInt (match sg with [] => n | _ => Z.opp n end), s4)
      | Some [], _ | _, Some None => PUnknown
      | _, _ =>
          POk (LFloat (sg ++ ds ++ match frac with Some fs => "."%char :: fs | None => [] end
                             ++ match ex with Some (Some e) => e | _ => [] end), s4)
      end
  end.

(** [kw] followed by a delimiter. *)
Definition p_keyword (kw : text) (v : lit) (s : text) : option (pres (lit * text)) :=
  if list_eq_dec ascii_dec (firstn (length kw) s) kw then
    let r := skipn (length kw) s in
    Some (if delim_ok r then POk (v, r) else PUnknown)
  else None.

(** ** The parser *)

(** Displays, by mutual recursion on a fuel that bounds the nesting and
    the number of items (the top level gives twice the input's length,
    more than any parse uses).
    - [p_value]: one literal;
    - [p_seq close]: the items of a list, tuple or set up to [close],
      returning whether a comma was read (it makes [(x,)] a tuple);
    - [p_brace]: after [{], a dict or a set, told apart by the [:] after
      the first item;
    - [p_dict], [p_entry]: the entries of a dict after the first. *)
Fixpoint p_value (fuel : nat) (s : text) : pres (lit * text) :=
  match fuel with
  | 0 => PUnknown
  | S f =>
      match s with
      | [] => PSyntax
      | c :: r =>
          if Ascii.eqb c "[" then
            match p_seq f "]" r [] false with
            | POk (items, _, r') => POk (LList items, r')
            | PSyntax => PSyntax
            | PUnknown => PUnknown
            end
          else if Ascii.eqb c "(" then
            match p_seq f ")" r [] false with
            | POk ([x], false, r') => POk (x, r')
            | POk (items, _, r') => POk (LTuple items, r')
            | PSyntax => PSyntax
            | PUnknown => PUnknown
            end
          else if Ascii.eqb c "{" then p_brace f r
          else if Ascii.eqb c "'" || Ascii.eqb c dquote then
            match p_str c r [] with
            | POk (str, r') => if delim_ok r' then POk (LStr str, r') else PUnknown
            | PSyntax => PSyntax
            | PUnknown => PUnknown
            end
          else if is_digit c || Ascii.eqb c "-" then p_number s
          else match p_keyword ⟪"None"⟫ LNone s with
               | Some p => p
               | None =>
                   match p_keyword ⟪"True"⟫ (LBool true) s with
                   | Some p => p
                   | None =>
                       match p_keyword ⟪"False"⟫ (LBool false) s with
                       | Some p => p
                       | None => PUnknown
                       end
                   end
               end
      end
  end
with p_seq (fuel : nat) (close : ascii) (s : text) (acc : list lit) (comma : bool)
    : pres (list lit * bool * text) :=
  match fuel with
  | 0 => PUnknown
  | S f =>
      match skip_ws s with
      | [] => PSyntax
      | c :: r =>
          if Ascii.eqb c close then POk (acc, comma, r)
          else match p_value f (c :: r) with
               | POk (v, s1) =>
                   match skip_ws s1 with
                   | [] => PSyntax
                   | d :: r1 =>
                       if Ascii.eqb d "," then p_seq f close r1 (acc ++ [v]) true
                       else if Ascii.eqb d close then POk (acc ++ [v], comma, r1)
                       else PUnknown
                   end
               | PSyntax => PSyntax
               | PUnknown => PUnknown
               end
      end
  end
with p_brace (fuel : nat) (s : text) : pres (lit * text) :=
  match fuel with
  | 0 => PUnknown
  | S f =>
      match skip_ws s with
      | [] => PSyntax
      | c :: r =>
          if Ascii.eqb c "}" then POk (LDict [], r)
          else match p_value f (c :: r) with
               | POk (k, s1) =>
                   match skip_ws s1 with
                   | [] => PSyntax
                   | d :: r1 =>
                       if Ascii.eqb d ":" then
                         match p_value f (skip_ws r1) with
                         | POk (v, s2) => p_dict f s2 [(k, v)]
                         | PSyntax => PSyntax
                         | PUnknown => PUnknown
                         end
                       else if Ascii.eqb d "," then
                         match p_seq f "}" r1 [k] true with
                         | POk (items, _, r') => POk (LSet items, r')
                         | PSyntax => PSyntax
                         | PUnknown => PUnknown
                         end
                       else if Ascii.eqb d "}" then POk (LSet [k], r1)
                       else PUnknown
                   end
               | PSyntax => PSyntax
               | PUnknown => PUnknown
               end
      end
  end
with p_dict (fuel : nat) (s : text) (acc : list (lit * lit)) : pres (lit * text) :=
  match fuel with
  | 0 => PUnknown
  | S f =>
      match skip_ws s with
      | [] => PSyntax
      | c :: r =>
          if Ascii.eqb c "}" then POk (LDict acc, r)
          else if Ascii.eqb c "," then p_entry f r acc
          else PUnknown
      end
  end
with p_entry (fuel : nat) (s : text) (acc : list (lit * lit)) : pres (lit * text) :=
  match fuel with
  | 0 => PUnknown
  | S f =>
      match skip_ws s with
      | [] => PSyntax
      | c :: r =>
          if Ascii.eqb c "}" then POk (LDict acc, r)
          else match p_value f (c :: r) with
               | POk (k, s1) =>
                   match skip_ws s1 with
                   | [] => PSyntax
                   | d :: r1 =>
                       if Ascii.eqb d ":" then
                         match p_value f (skip_ws r1) with
                         | POk (v, s2) => p_dict f s2 (acc ++ [(k, v)])
                         | PSyntax => PSyntax
                         | PUnknown => PUnknown
                         end
                       else PUnknown
                   end
               | PSyntax => PSyntax
               | PUnknown => PUnknown
               end
      end
  end.

(** ** Conversion: [_convert] of [ast.literal_eval] *)

(** [hash(x)] succeeds. *)
Fixpoint hashable (v : lit) : bool :=
  match v with
  | LList _ | LSet _ | LDict _ => false
  | LTuple l => forallb hashable l
  | _ => true
  end.

(** The exact value of a float literal [-?d+(.d+)?(e[+-]?d+)?]. *)
Definition float_value (lx : text) : Q :=
  let '(neg, s1) := match lx with
                    | c :: r => if Ascii.eqb c "-" then (true, r) else (false, lx)
                    | [] => (false, lx)
                    end in
  let '(ds, s2) := span is_digit s1 in
  let '(fs, s3) := match s2 with
                   | c :: r => if Ascii.eqb c "." then span is_digit r else ([], s2)
                   | [] => ([], s2)
                   end in
  let e := match s3 with
           | _ :: c :: r => if Ascii.eqb c "-" then Z.opp (digits_value r 0)
                            else if Ascii.eqb c "+" then digits_value r 0
                            else digits_value (c :: r) 0
           | _ => 0%Z
           end in
  let m := digits_value (ds ++ fs) 0 in
  let m := if neg then Z.opp m else m in
  let d := (e - Z.of_nat (length fs))%Z in
  if (0 <=? d)%Z then Qmake (m * 10 ^ d) 1 else Qmake m (Z.to_pos (10 ^ (- d))).

(** [_convert]: element by element, left to right; a dict converts each
    key and its value, then inserts the pair, which hashes the key. *)
Fixpoint to_pyval (v : lit) : res pyval :=
  match v with
  | LNone => Ok PNone
  | LBool b => Ok (PBool b)
  | LInt z => Ok (PInt z)
  | LFloat lx => Ok (PFloat (float_value lx))
  | LStr s => Ok (PStr s)
  | LList l => let! vs := map_res to_pyval l in Ok (PList vs)
  | LTuple l => let! vs := map_res to_pyval l in Ok (PList vs)
  | LSet l =>
      let! vs := map_res to_pyval l in
      if forallb hashable l then Ok (PList vs) else Raise TypeError
  | LDict kvs =>
      let fix entries (kvs : list (lit * lit)) (d : dict) : res dict :=
        match kvs with
        | [] => Ok d
        | (k, x) :: kvs' =>
            let! _ := to_pyval k in
            let! xv := to_pyval x in
            if hashable k then entries kvs' (match k with LStr s => dict_set s xv d | _ => d end)
            else Raise TypeError
        end in
      let! d := entries kvs [] in Ok (PDict d)
  end.

(** What lines 126-131 see of [literal_eval]'s outcome: a dict (its string
    keys), another value or a caught [ValueError]/[SyntaxError], or an
    exception that escapes. *)
Inductive check :=
| CDict (d : dict)
| COther
| CRaise (e : exc).

Definition check_of (v : lit) : check :=
  match to_pyval v with
  | Ok (PDict d) => CDict d
  | Ok _ => COther
  | Raise e => CRaise e
  end.

Definition lit_fuel (s : text) : nat := 2 * length s + 2.

Definition reserved_names : list text := [⟪"True"⟫; ⟪"False"⟫; ⟪"None"⟫; ⟪"set"⟫].

(** [ast.literal_eval(t)] as lines 126-131 see it, or [None] outside the
    model. *)
Definition literal_check (t : text) : option check :=
  match t with
  | [] => Some COther
  | c :: _ =>
      if Ascii.eqb c "[" || Ascii.eqb c "(" || Ascii.eqb c "{" then
        match p_value (lit_fuel t) t with
        | POk (v, rest) =>
            match skip_ws rest with
            | [] => Some (check_of v)
            | d :: _ =>
                if Ascii.eqb d "," || Ascii.eqb d "#" || Ascii.eqb d "\" then None else Some COther
            end
        | PSyntax => Some COther
        | PUnknown => None
        end
      else if is_alpha c || Ascii.eqb c "_" then
        let '(name, rest) := span is_ident_char t in
        if existsb (text_eqb name) reserved_names then None
        else match rest with
             | d :: _ => if Ascii.eqb d "'" || Ascii.eqb d dquote then None else Some COther
             | [] => Some COther
             end
      else None
  end.

(** The outcome the handler gets from a [literal_eval] result. *)
Definition check_of_res (r : res (option pyval)) : check :=
  match r with
  | Ok (Some (PDict d)) => CDict d
  | Ok _ => COther
  | Raise e => CRaise e
  end.

(** ** In the handler *)

(** Lines 126-134 once [literal_eval]'s outcome is known. *)
Definition final_of_check (svc : services) (json_dir : text) (fsys : file_system) (c : check) (output : text)
    : res text :=
  match c with
  | CDict d =>
      if has_key filename_key d then
        let! data := extract_final_data json_dir fsys d in
        google_ai_python_sdk_for_gemini_api svc data
      else Ok (free_text output)
  | COther => Ok (free_text output)
  | CRaise e => Raise e
  end.

(** The contract of the [literal_eval] collaborator of [services]: on every
    input the model tells, the handler sees the outcome the model gives. *)
Class LiteralEvalSound (f : text -> res (option pyval)) : Prop :=
  literal_eval_sound : forall t c, literal_check t = Some c -> check_of_res (f t) = c.

(** A collaborator that meets the contract: [literal_check], with the
    inputs outside the model read as text. *)
Definition literal_eval_model (t : text) : res (option pyval) :=
  match literal_check t with
  | Some (CDict d) => Ok (Some (PDict d))
  | Some (CRaise e) => Raise e
  | _ => Ok None
  end.

#[export] Instance literal_eval_model_sound : LiteralEvalSound literal_eval_model.
Proof. intros t c E. unfold literal_eval_model. rewrite E. now destruct c. Qed.

(** The handler's collaborators with another [literal_eval]. *)
Definition with_literal_eval (svc : services) (f : text -> res (option pyval)) : services := {|
  llm := llm svc; show_match := show_match svc; show_history := show_history svc;
  describe_image := describe_image svc; describe_audio := describe_audio svc;
  describe_video := describe_video svc; b64encode := b64encode svc;
  literal_eval := f; generate_content := generate_content svc |}.

(** The displays: what [literal_check] parses. *)
Definition is_display (v : lit) : bool :=
  match v with LList _ | LTuple _ | LSet _ | LDict _ => true | _ => false end.

(** ** Printing: [repr]

    The search tool returns its metadata dict (search.py line 35); the
    executor of agent.py lines 52-53 shows it to the model as
    [str(observation)], which prints each key and value with Python's
    [repr].  The definitions below are that printing, library code of
    Python and LangChain that the program calls there. *)

Definition hex_digit (n : nat) : ascii :=
  if Nat.ltb n 10 then ascii_of_nat (48 + n) else ascii_of_nat (87 + n).

(** One character of [repr] of a [str] quoted with [q]. *)
Definition escape_char (q : ascii) (c : ascii) : text :=
  if Ascii.eqb c "\" then ["\"%char; "\"%char]
  else if Ascii.eqb c q then ["\"%char; q]
  else if Ascii.eqb c tab then ["\"%char; "t"%char]
  else if Ascii.eqb c nl then ["\"%char; "n"%char]
  else if Ascii.eqb c cr then ["\"%char; "r"%char]
  else if Nat.ltb (code c) 32 || Nat.eqb (code c) 127 then
    ["\"%char; "x"%char; hex_digit (code c / 16); hex_digit (code c mod 16)]
  else [c].

(** [repr(s)]: single quotes, unless [s] has a single quote and no double
    quote. *)
Definition repr_str (s : text) : text :=
  let q := if existsb (Ascii.eqb "'") s && negb (existsb (Ascii.eqb dquote) s) then dquote else "'"%char in
  q :: flat_map (escape_char q) s ++ [q].

(** The decimal digits of [n > 0], most significant first, in front of
    [acc]; [fuel] bounds the number of digits. *)
Fixpoint decimal (fuel : nat) (n : Z) (acc : text) : text :=
  match fuel with
  | 0 => acc
  | S f =>
      let acc' := ascii_of_nat (48 + Z.to_nat (n mod 10)) :: acc in
      if (n <? 10)%Z then acc' else decimal f (n / 10)%Z acc'
  end.

Definition repr_int (z : Z) : text :=
  let digits n := decimal (S (Z.to_nat (Z.log2 n))) n [] in
  if (z <? 0)%Z then "-"%char :: digits (Z.opp z) else digits z.

Fixpoint repr (v : lit) : text :=
  match v with
  | LNone => ⟪"None"⟫
  | LBool true => ⟪"True"⟫
  | LBool false => ⟪"False"⟫
  | LInt z => repr_int z
  | LFloat lx => lx
  | LStr s => repr_str s
  | LList l => ⟪"["⟫ ++ join ⟪", "⟫ (map repr l) ++ ⟪"]"⟫
  | LTuple [x] => ⟪"("⟫ ++ repr x ++ ⟪",)"⟫
  | LTuple l => ⟪"("⟫ ++ join ⟪", "⟫ (map repr l) ++ ⟪")"⟫
  | LSet l => ⟪"{"⟫ ++ join ⟪", "⟫ (map repr l) ++ ⟪"}"⟫
  | LDict kvs => ⟪"{"⟫ ++ join ⟪", "⟫ (map (fun '(k, x) => repr k ++ ⟪": "⟫ ++ repr x) kvs) ++ ⟪"}"⟫
  end.

(** The literals [repr] prints and the grammar reads back: ASCII strings,
    float lexemes the grammar reads, and no empty set ([repr] prints
    [set()]). *)
Fixpoint printable (v : lit) : bool :=
  match v with
  | LStr s => forallb (fun c => Nat.ltb (code c) 128) s
  | LFloat lx =>
      match p_number lx with POk (LFloat lx', []) => text_eqb lx' lx | _ => false end
  | LList l | LTuple l => forallb printable l
  | LSet l => match l with [] => false | _ => forallb printable l end
  | LDict kvs => forallb (fun '(k, x) => printable k && printable x) kvs
  | _ => true
  end.

(** ** The spec's LG washer scenario *)

(** The search tool's answer for the LG washer, as the agent echoes it. *)
Definition demo_match : lit :=
  LDict [(LStr ⟪"filename"⟫, LStr ⟪"lg_wm3488hw.json"⟫); (LStr ⟪"title"⟫, LStr ⟪"LG WM3488HW OE Error"⟫);
         (LStr ⟪"similarity_score"⟫, LFloat ⟪"0.3471"⟫)].

Definition demo_match_dict : dict :=
  [(⟪"filename"⟫, PStr ⟪"lg_wm3488hw.json"⟫); (⟪"title"⟫, PStr ⟪"LG WM3488HW OE Error"⟫);
   (⟪"similarity_score"⟫, PFloat (float_value ⟪"0.3471"⟫))].

Definition demo_literal_services : services := with_literal_eval (demo_services false) literal_eval_model.

(** ** Predicates of the proofs *)

Definition number_char (c : ascii) : bool :=
  is_digit c || Ascii.eqb c "." || Ascii.eqb c "e" || Ascii.eqb c "E" || Ascii.eqb c "+" || Ascii.eqb c "-".

Definition stops (p : ascii -> bool) (r : text) : Prop := forall c r', r = c :: r' -> p c = false.

Definition quote (q : ascii) : Prop := q = "'"%char \/ q = dquote.

Definition head_ok (c : ascii) : bool :=
  negb (tok_ws c) && negb (Ascii.eqb c "]") && negb (Ascii.eqb c ")") && negb (Ascii.eqb c "}").

Fixpoint lit_size (v : lit) : nat :=
  match v with
  | LList l | LTuple l | LSet l => 2 + list_sum (map (fun x => S (lit_size x)) l)
  | LDict kvs => 2 + list_sum (map (fun '(k, x) => 3 + lit_size k + lit_size x) kvs)
  | _ => 1
  end.

Section LitInd.
Variable P : lit -> Prop.
Hypotheses (HNone : P LNone) (HBool : forall b, P (LBool b)) (HInt : forall z, P (LInt z))
  (HFloat : forall lx, P (LFloat lx)) (HStr : forall s, P (LStr s))
  (HList : forall l, Forall P l -> P (LList l)) (HTuple : forall l, Forall P l -> P (LTuple l))
  (HSet : forall l, Forall P l -> P (LSet l))
  (HDict : forall kvs, Forall (fun kv => P (fst kv) /\ P (snd kv)) kvs -> P (LDict kvs)).

Fixpoint lit_ind' (v : lit) : P v :=
  let fix items (l : list lit) : Forall P l :=
    match l with [] => @List.Forall_nil lit P | x :: l' => @List.Forall_cons lit P x l' (lit_ind' x) (items l') end in
  let fix entries (kvs : list (lit * lit)) : Forall (fun kv => P (fst kv) /\ P (snd kv)) kvs :=
    match kvs with
    | [] => @List.Forall_nil (lit * lit) _
    | (k, x) :: kvs' => @List.Forall_cons (lit * lit) (fun kv => P (fst kv) /\ P (snd kv)) (k, x) kvs' (conj (lit_ind' k) (lit_ind' x)) (entries kvs')
    end in
  match v with
  | LNone => HNone | LBool b => HBool b | LInt z => HInt z | LFloat lx => HFloat lx | LStr s => HStr s
  | LList l => HList l (items l) | LTuple l => HTuple l (items l) | LSet l => HSet l (items l)
  | LDict kvs => HDict kvs (entries kvs)
  end.
End LitInd.

Definition closer (c : ascii) : Prop := c = "]"%char \/ c = ")"%char \/ c = "}"%char.

Definition entry (kv : lit * lit) : text := let '(k, x) := kv in repr k ++ ⟪": "⟫ ++ repr x.


Definition entries_size (kvs : list (lit * lit)) : nat :=
  list_sum (map (fun '(k, x) => 3 + lit_size k + lit_size x) kvs).

Definition reads_back (v : lit) : Prop :=
  printable v = true -> forall f rest, lit_size v < f -> delim_ok rest = true ->
  p_value f (repr v ++ rest) = POk (v, rest).

Definition size_fits (v : lit) : Prop := printable v = true -> S (lit_size v) <= 2 * length (repr v).

(** The items of a display cost at most twice the length they print. *)

(** ** Lemmas: what [repr] prints, the parser reads back *)

Lemma hex_val_digit n : n < 16 -> hex_val (hex_digit n) = Some n.
Proof. intros H. do 16 (destruct n as [|n]; [reflexivity|]). lia. Qed.

Lemma code_ascii c : ascii_of_nat (code c) = c.
Proof. apply ascii_nat_embedding. Qed.

Lemma eqb_false_code c d : Ascii.eqb c d = false -> code c <> code d.
Proof.
  intros H E. assert (c = d) as ->.
  { rewrite <- (code_ascii c), <- (code_ascii d). unfold code in *. now rewrite E. }
  now rewrite Ascii.eqb_refl in H.
Qed.

Lemma p_str_escape_char q c s acc :
  q = "'"%char \/ q = dquote -> Nat.ltb (code c) 128 = true ->
  p_str q (escape_char q c ++ s) acc = p_str q s (acc ++ [c]).
Proof.
  intros Hq Hc. apply Nat.ltb_lt in Hc. unfold escape_char.
  destruct (Ascii.eqb c "\") eqn:E1; [apply Ascii.eqb_eq in E1; subst c; destruct Hq as [-> | ->]; reflexivity|].
  destruct (Ascii.eqb c q) eqn:E2; [apply Ascii.eqb_eq in E2; subst c; destruct Hq as [-> | ->]; reflexivity|].
  destruct (Ascii.eqb c tab) eqn:E3; [apply Ascii.eqb_eq in E3; subst c; destruct Hq as [-> | ->]; reflexivity|].
  destruct (Ascii.eqb c nl) eqn:E4; [apply Ascii.eqb_eq in E4; subst c; destruct Hq as [-> | ->]; reflexivity|].
  destruct (Ascii.eqb c cr) eqn:E5; [apply Ascii.eqb_eq in E5; subst c; destruct Hq as [-> | ->]; reflexivity|].
  destruct (Nat.ltb (code c) 32 || Nat.eqb (code c) 127)%bool eqn:E6.
  - assert (Hq' : Ascii.eqb "\" q = false) by (destruct Hq as [-> | ->]; reflexivity).
    pose proof (Nat.div_mod (code c) 16 ltac:(lia)) as Hdm. pose proof (Nat.mod_upper_bound (code c) 16 ltac:(lia)) as Hb.
    assert (Ha : code c / 16 < 16) by (apply Nat.Div0.div_lt_upper_bound; lia).
    remember (code c / 16) as a. remember (code c mod 16) as b.
    cbn [app p_str]. rewrite Hq', !hex_val_digit by lia. simpl.
    do 2 f_equal. replace (a * 16 + b) with (code c) by lia. now rewrite code_ascii.
  - cbn [app p_str]. rewrite (Ascii.eqb_sym c q) in E2. rewrite Ascii.eqb_sym in E2.
    rewrite E2, E4, E5, E1. cbn [orb].
    apply orb_false_iff in E6 as [E6 E7]. apply Nat.ltb_ge in E6. apply Nat.eqb_neq in E7.
    replace (Nat.ltb 0 (code c) && Nat.ltb (code c) 128)%bool with true; [reflexivity|].
    symmetry. apply andb_true_iff. split; apply Nat.ltb_lt; lia.
Qed.

Lemma delim_not_number c r : delim_ok (c :: r) = true -> number_char c = false.
Proof.
  unfold delim_ok, tok_ws. intros H.
  repeat (apply orb_true_iff in H; destruct H as [H|H]; [|apply Ascii.eqb_eq in H; subst; reflexivity]).
  apply Ascii.eqb_eq in H; subst; reflexivity.
Qed.

(** What follows a number in the printed text. *)
Lemma delim_stops p r : delim_ok r = true -> (forall c, number_char c = false -> p c = false) -> stops p r.
Proof. intros H Hp c r' ->. apply Hp. exact (delim_not_number c r' H). Qed.

Lemma span_app_stop p s r : stops p r -> span p (s ++ r) = (fst (span p s), snd (span p s) ++ r).
Proof.
  intros Hr. induction s as [|a s IH]; cbn [app span].
  - destruct r as [|c r']; [reflexivity|]. cbn [span]. now rewrite (Hr c r' eq_refl).
  - destruct (p a); [|reflexivity]. rewrite IH. now destruct (span p s).
Qed.


Lemma lex_sign_app s r : delim_ok r = true -> lex_sign (s ++ r) = (fst (lex_sign s), snd (lex_sign s) ++ r).
Proof.
  intros Hr. destruct s as [|c s]; cbn [app lex_sign]; [|now destruct (Ascii.eqb c "-")].
  destruct r as [|c r]; [reflexivity|]. apply delim_not_number in Hr. unfold number_char in Hr.
  apply orb_false_iff in Hr as [_ Hm]. cbn [lex_sign]. now rewrite Hm.
Qed.

Lemma number_char_false c : number_char c = false ->
  is_digit c = false /\ Ascii.eqb c "." = false /\ (Ascii.eqb c "e" || Ascii.eqb c "E") = false /\
  (Ascii.eqb c "+" || Ascii.eqb c "-") = false.
Proof.
  unfold number_char. intros H. repeat (apply orb_false_iff in H as [H ?]).
  repeat split; try assumption; apply orb_false_iff; split; assumption.
Qed.

Lemma delim_cons_facts c r : delim_ok (c :: r) = true ->
  is_digit c = false /\ Ascii.eqb c "." = false /\ (Ascii.eqb c "e" || Ascii.eqb c "E") = false /\
  (Ascii.eqb c "+" || Ascii.eqb c "-") = false.
Proof. intros H. apply number_char_false, (delim_not_number c r H). Qed.

Lemma delim_stops_digit r : delim_ok r = true -> stops is_digit r.
Proof. intros H c r' ->. apply (delim_cons_facts c r' H). Qed.

Lemma lex_frac_app s r : delim_ok r = true -> lex_frac (s ++ r) = (fst (lex_frac s), snd (lex_frac s) ++ r).
Proof.
  intros Hr. destruct s as [|c s]; cbn [app lex_frac].
  - destruct r as [|c r]; [reflexivity|]. cbn [lex_frac]. now rewrite (proj1 (proj2 (delim_cons_facts c r Hr))).
  - destruct (Ascii.eqb c "."); [|reflexivity].
    rewrite (span_app_stop _ _ _ (delim_stops_digit r Hr)). now destruct (span is_digit s).
Qed.

Lemma p_exponent_app s r : delim_ok r = true ->
  p_exponent (s ++ r) = match p_exponent s with Some (e, s') => Some (e, s' ++ r) | None => None end.
Proof.
  intros Hr. pose proof (fun s => span_app_stop is_digit s r (delim_stops_digit r Hr)) as Hs. unfold p_exponent.
  destruct s as [|c s]; cbn [app].
  - destruct r as [|c r]; [reflexivity|].
    destruct (delim_cons_facts c r Hr) as (Hd & _ & _ & Hpm). rewrite Hpm. cbn [span]. now rewrite Hd.
  - destruct (Ascii.eqb c "+" || Ascii.eqb c "-"); cbv beta iota zeta.
    + rewrite Hs. destruct (span is_digit s) as [[|d ds] s2]; reflexivity.
    + change (c :: s ++ r) with ((c :: s) ++ r). rewrite Hs.
      destruct (span is_digit (c :: s)) as [[|d ds] s2]; reflexivity.
Qed.

Lemma lex_exp_app s r : delim_ok r = true -> lex_exp (s ++ r) = (fst (lex_exp s), snd (lex_exp s) ++ r).
Proof.
  intros Hr. destruct s as [|c s]; cbn [app lex_exp].
  - destruct r as [|c r]; [reflexivity|]. cbn [lex_exp]. now rewrite (proj1 (proj2 (proj2 (delim_cons_facts c r Hr)))).
  - destruct (Ascii.eqb c "e" || Ascii.eqb c "E"); [|reflexivity].
    rewrite (p_exponent_app s r Hr). now destruct (p_exponent s) as [[e s']|].
Qed.

(** A number token keeps its value when a delimiter follows it. *)
Lemma p_number_app s r v : p_number s = POk (v, []) -> delim_ok r = true -> p_number (s ++ r) = POk (v, r).
Proof.
  intros H Hr. unfold p_number in *. rewrite (lex_sign_app s r Hr).
  destruct (lex_sign s) as [sg s1]. cbn [fst snd].
  rewrite (span_app_stop _ _ _ (delim_stops_digit r Hr)).
  destruct (span is_digit s1) as [ds s2]. cbn [fst snd].
  destruct ds as [|d ds]; [discriminate|]. destruct (leading_zero (d :: ds)); [discriminate|].
  rewrite (lex_frac_app s2 r Hr). destruct (lex_frac s2) as [frac s3]. cbn [fst snd].
  rewrite (lex_exp_app s3 r Hr). destruct (lex_exp s3) as [ex s4]. cbn [fst snd].
  destruct s4 as [|c s4].
  - cbn [app]. rewrite Hr. cbn [negb] in *.
    destruct frac as [[|f fs]|], ex as [[e|]|]; cbn in H |- *; congruence.
  - destruct (negb (delim_ok (c :: s4))); [discriminate|].
    destruct frac as [[|f fs]|], ex as [[e|]|]; discriminate.
Qed.

Lemma code_digit k : k < 10 -> code (ascii_of_nat (48 + k)) = 48 + k.
Proof. intros H. unfold code. apply nat_ascii_embedding. lia. Qed.

Lemma is_digit_digit k : k < 10 -> is_digit (ascii_of_nat (48 + k)) = true.
Proof. intros H. unfold is_digit. rewrite code_digit by exact H. apply andb_true_iff; split; apply Nat.leb_le; lia. Qed.

Lemma digits_value_app a b acc : digits_value (a ++ b) acc = digits_value b (digits_value a acc).
Proof. revert acc. induction a as [|d a IH]; intros acc; [reflexivity|]. apply IH. Qed.

Lemma decimal_S f n acc :
  decimal (S f) n acc =
  if (n <? 10)%Z then ascii_of_nat (48 + Z.to_nat (n mod 10)) :: acc
  else decimal f (n / 10) (ascii_of_nat (48 + Z.to_nat (n mod 10)) :: acc).
Proof. reflexivity. Qed.

Lemma decimal_spec f : forall n acc, (0 <= n < 10 ^ Z.of_nat (S f))%Z ->
  exists ds, decimal (S f) n acc = ds ++ acc /\ ds <> [] /\ forallb is_digit ds = true /\
    digits_value ds 0 = n /\ leading_zero ds = false /\ ((1 <= n)%Z -> Ascii.eqb (hd "0"%char ds) "0" = false).
Proof.
  induction f as [|f IH]; intros n acc Hn; rewrite decimal_S;
  set (k := Z.to_nat (n mod 10)); assert (Hk : k < 10) by (unfold k; pose proof (Z.mod_pos_bound n 10); lia);
  assert (Hkv : Z.of_nat k = (n mod 10)%Z) by (unfold k; pose proof (Z.mod_pos_bound n 10); lia).
  - assert (Hlt : (n <? 10)%Z = true) by (apply Z.ltb_lt; cbn in Hn; lia). rewrite Hlt.
    exists [ascii_of_nat (48 + k)]. cbn [digits_value app hd leading_zero forallb].
    rewrite is_digit_digit, code_digit by exact Hk. repeat split; try discriminate.
    + replace (48 + k - 48) with k by lia. rewrite Hkv. rewrite Z.mod_small; lia.
    + intros H1. apply Bool.not_true_iff_false. intros E. apply Ascii.eqb_eq in E.
      apply (f_equal code) in E. rewrite code_digit in E by exact Hk. change (code "0"%char) with 48 in E.
      assert (k = 0) by lia. rewrite Z.mod_small in Hkv by lia. lia.
  - destruct (n <? 10)%Z eqn:Hlt.
    + exists [ascii_of_nat (48 + k)]. cbn [digits_value app hd leading_zero forallb].
      apply Z.ltb_lt in Hlt.
      rewrite is_digit_digit, code_digit by exact Hk. repeat split; try discriminate.
      * replace (48 + k - 48) with k by lia. rewrite Hkv. rewrite Z.mod_small; lia.
      * intros H1. apply Bool.not_true_iff_false. intros E. apply Ascii.eqb_eq in E.
        apply (f_equal code) in E. rewrite code_digit in E by exact Hk. change (code "0"%char) with 48 in E.
        assert (k = 0) by lia. rewrite Z.mod_small in Hkv by lia. lia.
    + apply Z.ltb_ge in Hlt.
      destruct (IH (n / 10)%Z (ascii_of_nat (48 + k) :: acc)) as (ds & E & Hne & Hd & Hv & Hl & Hh).
      { split; [apply Z.div_pos; lia|]. apply Z.div_lt_upper_bound; [lia|].
        rewrite Nat2Z.inj_succ, Z.pow_succ_r in Hn by lia. lia. }
      exists (ds ++ [ascii_of_nat (48 + k)]). rewrite E, <- app_assoc. split; [reflexivity|].
      destruct ds as [|d0 ds]; [congruence|].
      assert (H10 : (1 <= n / 10)%Z) by (apply Z.div_le_lower_bound; lia).
      specialize (Hh H10). cbn [hd] in Hh.
      repeat split.
      * discriminate.
      * rewrite forallb_app, Hd. cbn [forallb]. now rewrite is_digit_digit.
      * rewrite digits_value_app, Hv. cbn [digits_value]. rewrite code_digit by exact Hk.
        replace (48 + k - 48) with k by lia. rewrite Hkv. pose proof (Z.div_mod n 10). lia.
      * cbn [app leading_zero]. destruct (ds ++ [ascii_of_nat (48 + k)]) eqn:X; [destruct ds; discriminate|exact Hh].
      * intros _. exact Hh.
Qed.

Lemma decimal_fuel n : (0 <= n)%Z -> (n < 10 ^ Z.of_nat (S (Z.to_nat (Z.log2 n))))%Z.
Proof.
  intros Hn. rewrite Nat2Z.inj_succ, Z2Nat.id by apply Z.log2_nonneg.
  destruct (Z.eq_dec n 0) as [->|Hn0]; [reflexivity|].
  pose proof (Z.log2_spec n ltac:(lia)) as [_ H2].
  eapply Z.lt_le_trans; [exact H2|]. apply Z.pow_le_mono_l. split; [lia|lia].
Qed.

Lemma span_all p s : forallb p s = true -> span p s = (s, []).
Proof.
  induction s as [|c s IH]; [reflexivity|]. cbn [forallb span]. intros H.
  apply andb_true_iff in H as [-> H]. now rewrite IH.
Qed.

Lemma digit_not_minus d : is_digit d = true -> Ascii.eqb d "-" = false.
Proof. intros H. destruct (Ascii.eqb d "-") eqn:E; [|reflexivity]. apply Ascii.eqb_eq in E. now subst. Qed.

Lemma p_number_digits ds : ds <> [] -> forallb is_digit ds = true -> leading_zero ds = false ->
  p_number ds = POk (LInt (digits_value ds 0), []) /\
  p_number ("-"%char :: ds) = POk (LInt (Z.opp (digits_value ds 0)), []).
Proof.
  intros Hne Hd Hl. unfold p_number. destruct ds as [|d ds']; [congruence|].
  assert (Hm : Ascii.eqb d "-" = false) by (apply digit_not_minus; cbn in Hd; now destruct (is_digit d)).
  assert (E1 : lex_sign (d :: ds') = ([], d :: ds')) by (cbn [lex_sign]; now rewrite Hm).
  assert (E2 : lex_sign ("-"%char :: d :: ds') = (["-"%char], d :: ds')) by reflexivity.
  rewrite E1, E2. cbv beta iota zeta. rewrite (span_all _ _ Hd), Hl. split; reflexivity.
Qed.

Lemma p_number_repr_int z : p_number (repr_int z) = POk (LInt z, []).
Proof.
  unfold repr_int. destruct (z <? 0)%Z eqn:Hz.
  - apply Z.ltb_lt in Hz. assert (Hz' : (0 <= Z.opp z)%Z) by lia.
    destruct (decimal_spec _ (Z.opp z) [] (conj Hz' (decimal_fuel _ Hz')))
      as (ds & -> & Hne & Hd & Hv & Hl & _).
    rewrite app_nil_r. rewrite (proj2 (p_number_digits ds Hne Hd Hl)), Hv. now rewrite Z.opp_involutive.
  - apply Z.ltb_ge in Hz.
    destruct (decimal_spec _ z [] (conj Hz (decimal_fuel _ Hz))) as (ds & -> & Hne & Hd & Hv & Hl & _).
    rewrite app_nil_r. now rewrite (proj1 (p_number_digits ds Hne Hd Hl)), Hv.
Qed.

Lemma p_str_repr q s acc rest : quote q -> forallb (fun c => Nat.ltb (code c) 128) s = true ->
  p_str q (flat_map (escape_char q) s ++ q :: rest) acc = POk (acc ++ s, rest).
Proof.
  intros Hq. revert acc. induction s as [|c s IH]; intros acc Hs.
  - cbn [flat_map app p_str]. rewrite Ascii.eqb_refl, app_nil_r. reflexivity.
  - cbn [forallb] in Hs. apply andb_true_iff in Hs as [Hc Hs].
    cbn [flat_map]. rewrite <- app_assoc, p_str_escape_char by assumption.
    rewrite IH by exact Hs. now rewrite <- app_assoc.
Qed.

Lemma p_value_quote f q s : quote q ->
  p_value (S f) (q :: s) =
  match p_str q s [] with
  | POk (str, r') => if delim_ok r' then POk (LStr str, r') else PUnknown
  | PSyntax => PSyntax
  | PUnknown => PUnknown
  end.
Proof. intros [-> | ->]; reflexivity. Qed.

Lemma p_value_repr_str f s rest : forallb (fun c => Nat.ltb (code c) 128) s = true -> delim_ok rest = true ->
  p_value (S f) (repr_str s ++ rest) = POk (LStr s, rest).
Proof.
  intros Hs Hr. unfold repr_str.
  set (q := if existsb (Ascii.eqb "'") s && negb (existsb (Ascii.eqb dquote) s) then dquote else "'"%char).
  assert (Hq : quote q) by (unfold q, quote; destruct (_ && _); auto).
  cbn [app]. rewrite p_value_quote by exact Hq. rewrite <- app_assoc. cbn [app].
  rewrite p_str_repr by assumption. now rewrite Hr.
Qed.

Lemma p_value_keyword f kw v rest :
  (kw = ⟪"None"⟫ /\ v = LNone) \/ (kw = ⟪"True"⟫ /\ v = LBool true) \/ (kw = ⟪"False"⟫ /\ v = LBool false) ->
  delim_ok rest = true -> p_value (S f) (kw ++ rest) = POk (v, rest).
Proof.
  intros H Hr. destruct H as [[-> ->]|[[-> ->]|[-> ->]]]; simpl; replace (skipn 0 rest) with rest by reflexivity; now rewrite Hr.
Qed.

Lemma p_value_number f c r : (is_digit c || Ascii.eqb c "-") = true -> p_value (S f) (c :: r) = p_number (c :: r).
Proof.
  intros H. cbn [p_value].
  destruct (Ascii.eqb c "[") eqn:E1; [apply Ascii.eqb_eq in E1; now subst|].
  destruct (Ascii.eqb c "(") eqn:E2; [apply Ascii.eqb_eq in E2; now subst|].
  destruct (Ascii.eqb c "{") eqn:E3; [apply Ascii.eqb_eq in E3; now subst|].
  destruct (Ascii.eqb c "'" || Ascii.eqb c dquote) eqn:E4.
  - apply orb_true_iff in E4 as [E4|E4]; apply Ascii.eqb_eq in E4; now subst.
  - now rewrite H.
Qed.

Lemma p_number_head s v r : p_number s = POk (v, r) -> exists c s', s = c :: s' /\ (is_digit c || Ascii.eqb c "-") = true.
Proof.
  destruct s as [|c s']; [discriminate|]. intros H. exists c, s'. split; [reflexivity|].
  destruct (Ascii.eqb c "-") eqn:Em; [now rewrite orb_true_r|]. rewrite orb_false_r.
  destruct (is_digit c) eqn:Ed; [reflexivity|]. exfalso. unfold p_number in H.
  cbn [lex_sign] in H. rewrite Em in H. cbn [span] in H. rewrite Ed in H. discriminate.
Qed.

(** A character a printed literal may start with: not whitespace and no
    closing bracket. *)
Lemma number_head_ok c : (is_digit c || Ascii.eqb c "-") = true -> head_ok c = true.
Proof.
  intros H. unfold head_ok, tok_ws.
  repeat match goal with
         | |- context [Ascii.eqb c ?d] =>
             let E := fresh in destruct (Ascii.eqb c d) eqn:E;
             [apply Ascii.eqb_eq in E; subst c; discriminate H|]
         end.
  reflexivity.
Qed.


Lemma repr_head v : printable v = true -> exists c r, repr v = c :: r /\ head_ok c = true.
Proof.
  intros Hp. destruct v as [|[]|z|lx|s|l|l|l|kvs]; cbn [repr printable] in *;
    try (eexists _, _; split; [reflexivity|reflexivity]).
  - destruct (p_number_head (repr_int z) (LInt z) [] (p_number_repr_int z)) as (c & r & E & H).
    exists c, r. split; [exact E|]. now apply number_head_ok.
  - destruct (p_number lx) as [[[] []]| |] eqn:E; try discriminate.
    destruct (p_number_head _ _ _ E) as (c & r & -> & H). exists c, r. split; [reflexivity|]. now apply number_head_ok.
  - unfold repr_str. destruct (_ && _); eexists _, _; split; reflexivity.
  - destruct l as [|x [|y l]]; eexists _, _; split; reflexivity.
Qed.

Lemma head_ok_facts c : head_ok c = true ->
  tok_ws c = false /\ forall d, closer d -> Ascii.eqb c d = false.
Proof.
  unfold head_ok. intros H. repeat (apply andb_true_iff in H as [H ?]). apply negb_true_iff in H.
  split; [exact H|]. intros d [-> | [-> | ->]]; now apply negb_true_iff.
Qed.

Lemma skip_ws_repr v s : printable v = true -> skip_ws (repr v ++ s) = repr v ++ s.
Proof.
  intros Hp. destruct (repr_head v Hp) as (c & r & -> & Hc). cbn [app skip_ws].
  now rewrite (proj1 (head_ok_facts c Hc)).
Qed.

Lemma closer_not_ws d : closer d -> tok_ws d = false.
Proof. intros [-> | [-> | ->]]; reflexivity. Qed.

Lemma closer_not_comma d : closer d -> Ascii.eqb d "," = false.
Proof. intros [-> | [-> | ->]]; reflexivity. Qed.

Lemma closer_delim d r : closer d -> delim_ok (d :: r) = true.
Proof. intros [-> | [-> | ->]]; reflexivity. Qed.

Lemma closer_rbracket : closer "]"%char. Proof. left; reflexivity. Qed.
Lemma closer_rparen : closer ")"%char. Proof. right; left; reflexivity. Qed.
Lemma closer_rbrace : closer "}"%char. Proof. right; right; reflexivity. Qed.

(** Step over the first character of a printed item, which is neither
    whitespace nor the closing bracket [close]. *)
Ltac open_item v Hp Hc :=
  let c := fresh "c" in let r := fresh "r" in let E := fresh "E" in let Hh := fresh "Hh" in
  destruct (repr_head v Hp) as (c & r & E & Hh);
  rewrite skip_ws_repr by exact Hp; rewrite E; cbn [app];
  now rewrite (proj2 (head_ok_facts c Hh) _ Hc).


Lemma p_seq_item f close v s acc comma : printable v = true -> closer close ->
  p_seq (S f) close (repr v ++ s) acc comma =
  match p_value f (repr v ++ s) with
  | POk (x, s1) =>
      match skip_ws s1 with
      | [] => PSyntax
      | d :: r1 =>
          if Ascii.eqb d "," then p_seq f close r1 (acc ++ [x]) true
          else if Ascii.eqb d close then POk (acc ++ [x], comma, r1)
          else PUnknown
      end
  | PSyntax => PSyntax
  | PUnknown => PUnknown
  end.
Proof.
  intros Hp Hc. cbn [p_seq]. open_item v Hp Hc.
Qed.

Lemma p_seq_space f close s acc comma : p_seq f close (" "%char :: s) acc comma = p_seq f close s acc comma.
Proof. destruct f; reflexivity. Qed.

Lemma skip_ws_closer d r : closer d -> skip_ws (d :: r) = d :: r.
Proof. intros Hd. cbn [skip_ws]. now rewrite closer_not_ws. Qed.

Lemma flat_map_comma_delim close l rest : closer close ->
  delim_ok (flat_map (fun y => ⟪", "⟫ ++ repr y) l ++ close :: rest) = true.
Proof. intros Hc. destruct l; [now apply closer_delim|reflexivity]. Qed.


Lemma comma_app s : ⟪", "⟫ ++ s = ","%char :: " "%char :: s.
Proof. reflexivity. Qed.

Lemma skip_ws_comma s : skip_ws (","%char :: s) = ","%char :: s.
Proof. reflexivity. Qed.

Section Items.
Variable P : lit -> Prop.
Hypothesis HP : forall v, P v -> printable v = true -> forall f rest, lit_size v < f -> delim_ok rest = true ->
  p_value f (repr v ++ rest) = POk (v, rest).

Lemma p_seq_from close l : closer close -> Forall P l -> forallb printable l = true ->
  forall x f rest acc comma, P x -> printable x = true ->
  S (lit_size x) + list_sum (map (fun y => S (lit_size y)) l) < f ->
  p_seq f close (repr x ++ flat_map (fun y => ⟪", "⟫ ++ repr y) l ++ close :: rest) acc comma =
    POk (acc ++ x :: l, match l with [] => comma | _ => true end, rest).
Proof.
  intros Hc HF Hpl. induction HF as [|y l Hy HF IH]; intros x f rest acc comma Hx Hpx Hf;
    (destruct f as [|f]; [lia|]); rewrite p_seq_item by assumption.
  - rewrite HP by (assumption || lia || now apply closer_delim).
    cbn [flat_map app]. rewrite skip_ws_closer by exact Hc. rewrite closer_not_comma, Ascii.eqb_refl by exact Hc. reflexivity.
  - cbn [forallb] in Hpl. apply andb_true_iff in Hpl as [Hpy Hpl].
    cbn [map] in Hf.
    rewrite HP by (assumption || lia || reflexivity). cbn [flat_map].
    rewrite <- !app_assoc, comma_app, skip_ws_comma, Ascii.eqb_refl, p_seq_space.
    rewrite (IH Hpl y f rest (acc ++ [x]) true Hy Hpy) by (rewrite sum_cons in Hf; lia).
    rewrite <- app_assoc. now destruct l.
Qed.
End Items.

Lemma flat_map_map_sep (g : lit -> text) (sep : text) l :
  flat_map (fun y => sep ++ y) (map g l) = flat_map (fun y => sep ++ g y) l.
Proof. induction l as [|y l IH]; cbn; [reflexivity|now rewrite IH]. Qed.

Lemma p_seq_close f close r acc comma : closer close -> p_seq (S f) close (close :: r) acc comma = POk (acc, comma, r).
Proof. intros Hc. cbn [p_seq]. rewrite skip_ws_closer, Ascii.eqb_refl by exact Hc. reflexivity. Qed.

Lemma colon_app s : ⟪": "⟫ ++ s = ":"%char :: " "%char :: s.
Proof. reflexivity. Qed.

Lemma p_dict_close f s acc : p_dict (S f) ("}"%char :: s) acc = POk (LDict acc, s).
Proof. reflexivity. Qed.

Lemma p_dict_comma f s acc : p_dict (S f) (","%char :: s) acc = p_entry f s acc.
Proof. reflexivity. Qed.

Lemma p_entry_space f s acc : p_entry f (" "%char :: s) acc = p_entry f s acc.
Proof. destruct f; reflexivity. Qed.

(** After a key [k] of a printed entry, [: ] and the value [x]. *)
Lemma entry_value x T : printable x = true ->
  skip_ws (⟪": "⟫ ++ repr x ++ T) = ":"%char :: " "%char :: repr x ++ T /\
  skip_ws (" "%char :: repr x ++ T) = repr x ++ T.
Proof. intros Hx. split; [reflexivity|]. apply (skip_ws_repr x T Hx). Qed.

Lemma p_entry_item f k s acc : printable k = true ->
  p_entry (S f) (repr k ++ s) acc =
  match p_value f (repr k ++ s) with
  | POk (k', s1) =>
      match skip_ws s1 with
      | [] => PSyntax
      | d :: r1 =>
          if Ascii.eqb d ":" then
            match p_value f (skip_ws r1) with
            | POk (v, s2) => p_dict f s2 (acc ++ [(k', v)])
            | PSyntax => PSyntax
            | PUnknown => PUnknown
            end
          else PUnknown
      end
  | PSyntax => PSyntax
  | PUnknown => PUnknown
  end.
Proof.
  intros Hp. cbn [p_entry]. open_item k Hp closer_rbrace.
Qed.

Lemma flat_map_map_entries (sep : text) kvs :
  flat_map (fun y : list ascii => sep ++ y) (map entry kvs) = flat_map (fun kv => sep ++ entry kv) kvs.
Proof. induction kvs as [|y l IH]; cbn; [reflexivity|now rewrite IH]. Qed.


Lemma entries_delim kvs rest : delim_ok (flat_map (fun kv => ⟪", "⟫ ++ entry kv) kvs ++ "}"%char :: rest) = true.
Proof. destruct kvs; reflexivity. Qed.

Section Entries.
Variable P : lit -> Prop.
Hypothesis HP : forall v, P v -> printable v = true -> forall f rest, lit_size v < f -> delim_ok rest = true ->
  p_value f (repr v ++ rest) = POk (v, rest).

(** The entries after the first, each [, k: x], then [}]. *)
Lemma p_dict_entries kvs : Forall (fun kv => P (fst kv) /\ P (snd kv)) kvs ->
  forallb (fun '(k, x) => printable k && printable x) kvs = true ->
  forall f acc rest, entries_size kvs < f ->
  p_dict f (flat_map (fun kv => ⟪", "⟫ ++ entry kv) kvs ++ "}"%char :: rest) acc = POk (LDict (acc ++ kvs), rest).
Proof.
  intros HF. induction HF as [|[k x] kvs [Hk Hx] HF IH]; intros Hp f acc rest Hf;
    (destruct f as [|f]; [lia|]).
  - cbn [flat_map app]. rewrite p_dict_close, app_nil_r. reflexivity.
  - cbn [forallb] in Hp. apply andb_true_iff in Hp as [Hkx Hp]. apply andb_true_iff in Hkx as [Hpk Hpx].
    unfold entries_size in Hf. cbn [map] in Hf. rewrite sum_cons in Hf.
    destruct f as [|f]; [lia|].
    cbn [flat_map entry]. rewrite <- !app_assoc, comma_app, p_dict_comma, p_entry_space, p_entry_item by exact Hpk.
    rewrite HP by (assumption || lia || reflexivity).
    rewrite (proj1 (entry_value x _ Hpx)), Ascii.eqb_refl, (proj2 (entry_value x _ Hpx)).
    rewrite HP by (assumption || lia || apply entries_delim).
    rewrite IH by (assumption || (unfold entries_size; lia)). now rewrite <- app_assoc.
Qed.
End Entries.

Lemma p_brace_item f k s : printable k = true ->
  p_brace (S f) (repr k ++ s) =
  match p_value f (repr k ++ s) with
  | POk (k', s1) =>
      match skip_ws s1 with
      | [] => PSyntax
      | d :: r1 =>
          if Ascii.eqb d ":" then
            match p_value f (skip_ws r1) with
            | POk (v, s2) => p_dict f s2 [(k', v)]
            | PSyntax => PSyntax
            | PUnknown => PUnknown
            end
          else if Ascii.eqb d "," then
            match p_seq f "}" r1 [k'] true with
            | POk (items, _, r') => POk (LSet items, r')
            | PSyntax => PSyntax
            | PUnknown => PUnknown
            end
          else if Ascii.eqb d "}" then POk (LSet [k'], r1)
          else PUnknown
      end
  | PSyntax => PSyntax
  | PUnknown => PUnknown
  end.
Proof.
  intros Hp. cbn [p_brace]. open_item k Hp closer_rbrace.
Qed.

Lemma p_value_open f c s : c = "["%char \/ c = "("%char \/ c = "{"%char ->
  p_value (S f) (c :: s) =
  if Ascii.eqb c "[" then
    match p_seq f "]" s [] false with
    | POk (items, _, r') => POk (LList items, r') | PSyntax => PSyntax | PUnknown => PUnknown
    end
  else if Ascii.eqb c "(" then
    match p_seq f ")" s [] false with
    | POk ([x], false, r') => POk (x, r')
    | POk (items, _, r') => POk (LTuple items, r')
    | PSyntax => PSyntax | PUnknown => PUnknown
    end
  else p_brace f s.
Proof. intros [-> | [-> | ->]]; reflexivity. Qed.

Lemma wrap_app (a b : ascii) J rest : ([a] ++ J ++ [b]) ++ rest = a :: J ++ b :: rest.
Proof. cbn [app]. now rewrite <- app_assoc. Qed.


(** What [repr] prints, the parser reads back, whatever follows it. *)
Lemma p_value_repr v : reads_back v.
Proof.
  induction v as [| b | z | lx | s | l IH | l IH | l IH | kvs IH] using lit_ind';
    intros Hp f rest Hf Hr; (destruct f as [|f]; [cbn in Hf; lia|]); cbn [repr printable] in *.
  - apply p_value_keyword; auto.
  - destruct b; apply p_value_keyword; auto.
  - destruct (p_number_head _ _ _ (p_number_repr_int z)) as (c & r & E & Hc).
    rewrite E, <- app_comm_cons, p_value_number by exact Hc. rewrite app_comm_cons, <- E.
    apply p_number_app; [apply p_number_repr_int | exact Hr].
  - destruct (p_number lx) as [[[] [|]]| |] eqn:E; try discriminate.
    apply PyValue.text_eqb_eq in Hp. subst.
    destruct (p_number_head _ _ _ E) as (c & r & -> & Hc).
    rewrite <- app_comm_cons, p_value_number by exact Hc. rewrite app_comm_cons. now apply p_number_app.
  - now apply p_value_repr_str.
  - change (⟪"["⟫) with ["["%char]. change (⟪"]"⟫) with ["]"%char]. rewrite wrap_app, p_value_open by auto.
    cbn [Ascii.eqb Bool.eqb]. destruct l as [|x l].
    + cbn [map join app]. destruct f as [|f]; [cbn in Hf; lia|]. now rewrite p_seq_close by apply closer_rbracket.
    + inversion IH as [|? ? Hx IHl]; subst. cbn [forallb] in Hp. apply andb_true_iff in Hp as [Hpx Hpl].
      cbn [lit_size map] in Hf. rewrite sum_cons in Hf.
      cbn [map]. rewrite join_cons, flat_map_map_sep, <- app_assoc.
      rewrite (p_seq_from reads_back (fun v H => H) "]" l closer_rbracket IHl Hpl x f rest [] false Hx Hpx) by lia.
      reflexivity.
  - destruct l as [|x [|y l]].
    + change (⟪"("⟫ ++ join ⟪", "⟫ (map repr []) ++ ⟪")"⟫) with ["("%char; ")"%char].
      cbn [app]. rewrite p_value_open by auto. cbn [Ascii.eqb Bool.eqb].
      destruct f as [|f]; [cbn in Hf; lia|]. now rewrite p_seq_close by apply closer_rparen.
    + inversion IH as [|? ? Hx _]; subst. cbn [forallb] in Hp. rewrite andb_true_r in Hp.
      cbn [lit_size map] in Hf. rewrite sum_cons in Hf. cbn [list_sum fold_right] in Hf.
      change (⟪"("⟫) with ["("%char]. change (⟪",)"⟫) with [","%char; ")"%char].
      cbn [app]. rewrite <- app_assoc. cbn [app]. rewrite p_value_open by auto. cbn [Ascii.eqb Bool.eqb].
      destruct f as [|f]; [lia|]. rewrite p_seq_item by (exact Hp || apply closer_rparen).
      rewrite Hx by (assumption || lia || reflexivity).
      rewrite skip_ws_comma, Ascii.eqb_refl. destruct f as [|f]; [lia|].
      now rewrite p_seq_close by apply closer_rparen.
    + inversion IH as [|? ? Hx IHl]; subst. cbn [forallb] in Hp. apply andb_true_iff in Hp as [Hpx Hpl].
      cbn [lit_size map] in Hf. rewrite sum_cons in Hf.
      change (⟪"("⟫) with ["("%char]. change (⟪")"⟫) with [")"%char].
      rewrite wrap_app, p_value_open by auto. cbn [Ascii.eqb Bool.eqb].
      change (map repr (x :: y :: l)) with (repr x :: map repr (y :: l)).
      rewrite join_cons, flat_map_map_sep, <- app_assoc.
      rewrite (p_seq_from reads_back (fun v H => H) ")" (y :: l) closer_rparen IHl Hpl x f rest [] false Hx Hpx)
        by (cbn [map] in *; lia).
      reflexivity.
  - destruct l as [|x l]; [discriminate|].
    inversion IH as [|? ? Hx IHl]; subst. cbn [forallb] in Hp. apply andb_true_iff in Hp as [Hpx Hpl].
    cbn [lit_size map] in Hf. rewrite sum_cons in Hf.
    change (⟪"{"⟫) with ["{"%char]. change (⟪"}"⟫) with ["}"%char].
    rewrite wrap_app, p_value_open by auto. cbn [Ascii.eqb Bool.eqb]. cbn [map].
    rewrite join_cons, flat_map_map_sep, <- app_assoc.
    destruct f as [|f]; [lia|]. rewrite p_brace_item by exact Hpx.
    destruct l as [|y l].
    + cbn [flat_map app]. rewrite Hx by (assumption || lia || reflexivity).
      rewrite skip_ws_closer by apply closer_rbrace. reflexivity.
    + inversion IHl as [|? ? Hy IHl']; subst. cbn [forallb] in Hpl. apply andb_true_iff in Hpl as [Hpy Hpl].
      cbn [map] in Hf. rewrite sum_cons in Hf.
      cbn [flat_map]. rewrite <- app_assoc. rewrite Hx by (assumption || lia || reflexivity).
      rewrite <- !app_assoc, comma_app, skip_ws_comma. cbn [Ascii.eqb Bool.eqb]. rewrite p_seq_space.
      rewrite (p_seq_from reads_back (fun v H => H) "}" l closer_rbrace IHl' Hpl y f rest [x] true Hy Hpy) by lia.
      reflexivity.
  - destruct kvs as [|[k x] kvs].
    + change (⟪"{"⟫ ++ join ⟪", "⟫ (map (fun '(k, x) => repr k ++ ⟪": "⟫ ++ repr x) []) ++ ⟪"}"⟫)
        with ["{"%char; "}"%char].
      cbn [app]. rewrite p_value_open by auto. cbn [Ascii.eqb Bool.eqb]. destruct f; [cbn in Hf; lia|].
      reflexivity.
    + inversion IH as [|? ? [Hk Hx] IHl]; subst. cbn [forallb] in Hp.
      apply andb_true_iff in Hp as [Hkx Hpl]. apply andb_true_iff in Hkx as [Hpk Hpx].
      cbn [lit_size map] in Hf. rewrite sum_cons in Hf.
      change (⟪"{"⟫) with ["{"%char]. change (⟪"}"⟫) with ["}"%char].
      change (map (fun '(k, x) => repr k ++ ⟪": "⟫ ++ repr x) ((k, x) :: kvs)) with (map entry ((k, x) :: kvs)).
      rewrite wrap_app, p_value_open by auto. cbn [Ascii.eqb Bool.eqb]. cbn [map].
      rewrite join_cons, flat_map_map_entries. cbn [entry]. rewrite <- !app_assoc.
      destruct f as [|f]; [lia|]. rewrite p_brace_item by exact Hpk.
      cbn [fst snd] in Hk, Hx. rewrite Hk by (assumption || lia || reflexivity).
      rewrite (proj1 (entry_value x _ Hpx)), Ascii.eqb_refl, (proj2 (entry_value x _ Hpx)).
      rewrite Hx by (assumption || lia || apply entries_delim).
      rewrite (p_dict_entries reads_back (fun v H => H) kvs IHl Hpl f [(k, x)] rest) by (unfold entries_size; lia).
      reflexivity.
Qed.


(** ** The fuel of the top level is enough *)




Lemma repr_nonempty v : printable v = true -> 1 <= length (repr v).
Proof. intros Hp. destruct (repr_head v Hp) as (c & r & -> & _). cbn. lia. Qed.

Lemma items_fit l : Forall size_fits l -> forallb printable l = true ->
  list_sum (map (fun x => S (lit_size x)) l) <= 2 * length (join ⟪", "⟫ (map repr l)).
Proof.
  intros HF Hp. eapply Nat.le_trans; [|apply Nat.mul_le_mono_l, length_join_ge].
  rewrite map_map, <- list_sum_double. apply list_sum_le.
  induction HF as [|x l Hx HF IH]; [constructor|]. cbn [forallb] in Hp. apply andb_true_iff in Hp as [Hpx Hp].
  constructor; [exact (Hx Hpx)|exact (IH Hp)].
Qed.

Lemma lit_size_fits v : size_fits v.
Proof.
  induction v as [| b | z | lx | s | l IH | l IH | l IH | kvs IH] using lit_ind'; intros Hp;
    try (pose proof (repr_nonempty _ Hp); cbn [lit_size]; lia).
  - cbn [lit_size repr]. rewrite !length_app. cbn [printable] in Hp. pose proof (items_fit l IH Hp) as H.
    revert H. generalize (join ⟪", "⟫ (map repr l)). intros J H. cbn in H |- *. lia.
  - cbn [printable] in Hp. destruct l as [|x [|y l]].
    + cbn. lia.
    + inversion IH as [|? ? Hx _]; subst. cbn in Hp. rewrite andb_true_r in Hp. specialize (Hx Hp).
      cbn [lit_size repr map]. rewrite !length_app, sum_cons. cbn [list_sum fold_right length]. cbn in Hx |- *. lia.
    + pose proof (items_fit (x :: y :: l) IH Hp) as H.
      change (repr (LTuple (x :: y :: l))) with (⟪"("⟫ ++ join ⟪", "⟫ (map repr (x :: y :: l)) ++ ⟪")"⟫).
      cbn [lit_size]. rewrite !length_app. revert H. generalize (join ⟪", "⟫ (map repr (x :: y :: l))).
      intros J H. cbn in H |- *. lia.
  - cbn [lit_size repr]. rewrite !length_app. cbn [printable] in Hp.
    destruct l as [|x l]; [discriminate|]. pose proof (items_fit (x :: l) IH Hp) as H.
    revert H. generalize (join ⟪", "⟫ (map repr (x :: l))). intros J H. cbn in H |- *. lia.
  - cbn [lit_size repr]. rewrite !length_app. cbn [printable] in Hp.
    change (map (fun '(k, x) => repr k ++ ⟪": "⟫ ++ repr x) kvs) with (map entry kvs).
    enough (H : list_sum (map (fun '(k, x) => 3 + lit_size k + lit_size x) kvs) <= 2 * length (join ⟪", "⟫ (map entry kvs)))
      by (revert H; generalize (join ⟪", "⟫ (map entry kvs)); intros J H; cbn in *; lia).
    eapply Nat.le_trans; [|apply Nat.mul_le_mono_l, length_join_ge].
    rewrite map_map, <- list_sum_double. apply list_sum_le.
    induction IH as [|[k x] kvs [Hk Hx] HF IHF]; [constructor|].
    cbn [forallb] in Hp. apply andb_true_iff in Hp as [Hkx Hp]. apply andb_true_iff in Hkx as [Hpk Hpx].
    constructor; [|exact (IHF Hp)]. cbn [fst snd] in Hk, Hx. specialize (Hk Hpk). specialize (Hx Hpx).
    cbn [entry]. rewrite !length_app. cbn [length txt list_ascii_of_string]. lia.
Qed.

(** ** Lemmas: the top level and the handler *)

Lemma display_head v : is_display v = true ->
  exists c r, repr v = c :: r /\ (Ascii.eqb c "[" || Ascii.eqb c "(" || Ascii.eqb c "{") = true.
Proof.
  destruct v as [| | | | |l|l|l|kvs]; try discriminate; intros _;
    [| destruct l as [|x [|y l]] | |]; eexists _, _; split; reflexivity.
Qed.

(** A printed display is read back whole and converted. *)
Lemma display_reads_back v : printable v = true -> is_display v = true ->
  literal_check (repr v) = Some (check_of v).
Proof.
  intros Hp Hd. destruct (display_head v Hd) as (c & r & E & Hc).
  pose proof (lit_size_fits v Hp) as Hs.
  assert (Hv : p_value (lit_fuel (repr v)) (repr v) = POk (v, [])).
  { rewrite <- (app_nil_r (repr v)) at 2. apply p_value_repr; [exact Hp| |reflexivity].
    unfold lit_fuel. lia. }
  unfold literal_check. rewrite E in Hv |- *. rewrite Hc, Hv. reflexivity.
Qed.

Lemma final_response_check svc json_dir fsys t :
  final_response svc json_dir fsys t = final_of_check svc json_dir fsys (check_of_res (literal_eval svc t)) t.
Proof.
  unfold final_response, final_of_check, check_of_res.
  destruct (literal_eval svc t) as [[[| | | | | |d]|]|e]; reflexivity.
Qed.

Lemma final_response_sound svc json_dir fsys `{LiteralEvalSound (literal_eval svc)} t c :
  literal_check t = Some c -> final_response svc json_dir fsys t = final_of_check svc json_dir fsys c t.
Proof. intros E. rewrite final_response_check. now rewrite (literal_eval_sound t c E). Qed.

Lemma map_res_raise {A B} (f : A -> res B) l e : map_res f l = Raise e -> Exists (fun x => f x = Raise e) l.
Proof.
  induction l as [|x l IH]; cbn [map_res]; [discriminate|].
  destruct (f x) eqn:E; cbn [bind]; [|intros [= ->]; now left].
  destruct (map_res f l); cbn [bind]; [discriminate|]. intros H. right. now apply IH.
Qed.

(** Converting a parsed literal raises nothing but [TypeError]. *)
Lemma to_pyval_raise v : forall e, to_pyval v = Raise e -> e = TypeError.
Proof.
  induction v as [| b | z | lx | s | l IH | l IH | l IH | kvs IH] using lit_ind'; intros e;
    cbn [to_pyval]; try discriminate.
  1-3: destruct (map_res to_pyval l) eqn:E; cbn [bind];
    [try (destruct (forallb hashable l); intros [= <-]; reflexivity); discriminate|];
    intros [= ->]; apply map_res_raise, Exists_exists in E as (x & Hx & Ex);
    rewrite Forall_forall in IH; exact (IH x Hx _ Ex).
  - generalize (@nil (text * pyval)). induction IH as [|[k x] kvs [Hk Hx] HF IHF]; intros d; cbn; [discriminate|].
    destruct (to_pyval k) eqn:Ek; cbn [bind]; [|intros [= ->]; exact (Hk _ Ek)].
    destruct (to_pyval x) eqn:Ex; cbn [bind]; [|intros [= ->]; exact (Hx _ Ex)].
    destruct (hashable k); [apply IHF|intros [= <-]; reflexivity].
Qed.

(** A dict literal whose first key cannot be hashed converts to [TypeError]. *)
Lemma check_of_unhashable k x kvs : hashable k = false -> check_of (LDict ((k, x) :: kvs)) = CRaise TypeError.
Proof.
  intros Hk. unfold check_of. cbn [to_pyval].
  destruct (to_pyval k) eqn:Ek; cbn [bind]; [|now rewrite (to_pyval_raise _ _ Ek)].
  destruct (to_pyval x) eqn:Ex; cbn [bind]; [|now rewrite (to_pyval_raise _ _ Ex)].
  now rewrite Hk.
Qed.

(** ** Theorems *)

(** C15: What Python's [repr] prints of a literal display, [literal_eval]
    parses back to the same value: the agent echoing the search tool's
    metadata dict hands the handler that dict. *)
Theorem literal_check_repr v : printable v = true -> is_display v = true ->
  literal_check (repr v) = Some (check_of v).
Proof. exact (display_reads_back v). Qed.

(** With a [literal_eval] that meets its contract, an agent output that is
    the [repr] of a dict with a ["filename"] key takes the record-expansion
    path with that dict. *)
Theorem final_response_echo svc json_dir fsys `{LiteralEvalSound (literal_eval svc)} kvs d :
  printable (LDict kvs) = true -> check_of (LDict kvs) = CDict d -> has_key filename_key d = true ->
  final_response svc json_dir fsys (repr (LDict kvs)) =
    (let! data := extract_final_data json_dir fsys d in google_ai_python_sdk_for_gemini_api svc data).
Proof.
  intros Hp Hc Hk. rewrite (final_response_sound svc json_dir fsys _ _ (display_reads_back _ Hp eq_refl)).
  rewrite Hc. cbn [final_of_check]. now rewrite Hk.
Qed.

(** C14: An agent output that is a dict literal with an unhashable key (a list,
    dict or set) makes [literal_eval] raise [TypeError], which the
    [except (ValueError, SyntaxError)] of line 128 does not catch: the
    expansion step raises and the request answers 500. *)
Theorem final_response_unhashable svc json_dir fsys `{LiteralEvalSound (literal_eval svc)} k x kvs :
  printable (LDict ((k, x) :: kvs)) = true -> hashable k = false ->
  final_response svc json_dir fsys (repr (LDict ((k, x) :: kvs))) = Raise TypeError.
Proof.
  intros Hp Hk. rewrite (final_response_sound svc json_dir fsys _ _ (display_reads_back _ Hp eq_refl)).
  now rewrite check_of_unhashable.
Qed.

(** ** Witnesses *)

Lemma literal_check_repr_witness :
  printable demo_match = true /\ is_display demo_match = true /\
  literal_check (repr demo_match) = Some (check_of demo_match).
Proof.
  assert (Hp : printable demo_match = true) by (vm_compute; reflexivity).
  split; [exact Hp|]. split; [reflexivity|]. exact (literal_check_repr demo_match Hp eq_refl).
Defined.

Lemma final_response_echo_witness :
  printable demo_match = true /\ check_of demo_match = CDict demo_match_dict /\
  has_key filename_key demo_match_dict = true /\
  final_response demo_literal_services demo_dir demo_fs (repr demo_match) =
    (let! data := extract_final_data demo_dir demo_fs demo_match_dict in
     google_ai_python_sdk_for_gemini_api demo_literal_services data).
Proof.
  assert (Hp : printable demo_match = true) by (vm_compute; reflexivity).
  assert (Hc : check_of demo_match = CDict demo_match_dict) by (vm_compute; reflexivity).
  assert (Hk : has_key filename_key demo_match_dict = true) by (vm_compute; reflexivity).
  split; [exact Hp|]. split; [exact Hc|]. split; [exact Hk|].
  exact (@final_response_echo demo_literal_services demo_dir demo_fs literal_eval_model_sound _ _ Hp Hc Hk).
Defined.

Lemma final_response_unhashable_witness :
  printable (LDict [(LList [], LInt 1)]) = true /\ hashable (LList []) = false /\
  repr (LDict [(LList [], LInt 1)]) = ⟪"{[]: 1}"⟫ /\
  final_response demo_literal_services demo_dir demo_fs (repr (LDict [(LList [], LInt 1)])) = Raise TypeError.
Proof.
  assert (Hp : printable (LDict [(LList [], LInt 1)]) = true) by (vm_compute; reflexivity).
  split; [exact Hp|]. split; [reflexivity|]. split; [vm_compute; reflexivity|].
  exact (@final_response_unhashable demo_literal_services demo_dir demo_fs literal_eval_model_sound _ _ _ Hp eq_refl).
Defined.

End LiteralEval.
