(* ===== verification/Describers.v ===== *)
(** * Describers: the image, audio and video description tools

    api/agent_tools/image_description.py, audio_description.py and
    video_description.py.  Each takes the base64 text the handler made of an
    upload, decodes it, and asks a model for a description, which it cleans
    with [clean_text].
    - [describe_image] (lines 41-87): OCR with Tesseract
      ([extract_text_from_image], lines 24-27); when the OCR text is
      meaningful ([is_meaningful_text], lines 29-30), a few-shot chat prompt
      combining the OCR text with a Gemini vision description
      ([describe_with_google_sdk], lines 32-39); otherwise the vision
      description alone.
    - [describe_audio] (lines 21-36): one Gemini call on the decoded audio.
    - [describe_video] (lines 29-52): writes the decoded bytes to the fixed
      path ["temp_video.mp4"], asks the model, and removes the file in a
      [finally]; only the model call is inside the [try].  The directory is
      explicit state ([files]), threaded through the call.

    The libraries (PIL, Tesseract, the Gemini SDKs, the disk) are the fields
    of [externals]; an exception they raise is [Raise], a response without
    text is [None].  [describer_services] plugs the describers and the
    concrete base64 encoder of Base64.v into the handler of Agent.v.

    Theorems: every description is an output of [clean_text] or a fixed
    message; the OCR branch sends the three worked examples and then the
    combined prompt; the video describer removes its file on every path
    through the [try] but leaves it behind when the model set-up fails;
    and, through the handler, an upload the image library cannot open makes
    the whole request fail with 500 before the query is stored. *)

From Stdlib Require Import List Ascii String Bool Lia.
From Stdlib Require Strings.Byte.
From stdpp Require Import base gmap strings.
From S2P Require Import Prelude CleanText PyValue Search History Finalizer Base64 Agent.
Import ListNotations CleanText PyValue Search History Finalizer Base64 Agent.
Open Scope fg_scope.

Module Describers.

(** One message of a chat prompt: [{"role": ..., "content": ...}]. *)
Record chat_message := { role : text; content : text }.

Definition user (c : text) : chat_message := {| role := ⟪"user"⟫; content := c |}.
Definition assistant (c : text) : chat_message := {| role := ⟪"assistant"⟫; content := c |}.

(** The outcome of [with open(path, "wb") as f: f.write(data)]. *)
Inductive write_result :=
| Written
| OpenFailed (e : exc)     (** [open] raised: no file *)
| WriteFailed (written : list Byte.byte) (e : exc).
    (** [write] raised: the file exists and holds what reached it,
        [written] (a prefix of the data, possibly empty) *)

(** The directory the video describer writes in: path -> contents. *)
Definition files := text -> option (list Byte.byte).

Definition set_file (fs : files) (p : text) (v : option (list Byte.byte)) : files :=
  fun q => if decide (q = p) then v else fs q.

Record externals := {
  image_open : list Byte.byte -> res unit;                    (** [Image.open(io.BytesIO(b))] *)
  image_to_string : list Byte.byte -> res text;               (** [pytesseract.image_to_string] *)
  vision_generate : text -> list Byte.byte -> res (option text);   (** gemini-2.0-flash, [prompt, image] *)
  chat_invoke : list chat_message -> res (option text);       (** [ChatGoogleGenerativeAI.invoke] *)
  audio_generate : text -> list Byte.byte -> res (option text);    (** gemini-1.5-pro, [prompt, audio] *)
  video_prepare : list Byte.byte -> res unit;                 (** [GenerativeModel(...)], [Part.from_data] *)
  video_generate : list Byte.byte -> text -> res (option text);    (** [generate_content([part, prompt])] *)
  write_file : text -> list Byte.byte -> write_result;
  exc_str : exc -> text                                       (** [str(e)] *)
}.

Section Describe.
Variable ext : externals.

(** ** Image, image_description.py *)

(** Lines 24-27. *)
Definition extract_text_from_image (bs : list Byte.byte) : res text :=
  let! _ := image_open ext bs in
  let! t := image_to_string ext bs in
  Ok (clean_text t).

(** Lines 29-30: [bool(text.strip())]. *)
Definition is_meaningful_text (t : text) : bool := str_truthy (strip t).

Definition vision_prompt : text :=
  ⟪"Describe this image. What appliance is it, what model, and what issue might it have? Be specific and technical."⟫.

Definition could_not_visual : text := ⟪"Could not generate visual description."⟫.

(** Lines 32-39. *)
Definition describe_with_google_sdk (bs : list Byte.byte) : res text :=
  let! _ := image_open ext bs in
  let! r := vision_generate ext vision_prompt bs in
  Ok (match r with Some t => clean_text t | None => could_not_visual end).

(** Lines 54-67: the worked examples, [(ocr, desc)]. *)
Definition examples : list (text * text) :=
  [(⟪"HP Pavilion dv6000"⟫ ++ [nl] ++ ⟪"Operating System not found"⟫,
    ⟪"This is an HP Pavilion dv6000 laptop. The screen shows a BIOS error message: 'Operating System not found', which usually indicates a missing bootloader or a failed hard disk."⟫);
   (⟪"LG Washing Machine Model WM3488HW"⟫ ++ [nl] ++ ⟪"Error Code: OE"⟫,
    ⟪"This appears to be an LG WM3488HW washing machine. The OE error code points to a drainage issue, likely due to a clogged drain filter or blocked hose."⟫);
   (⟪"Canon PIXMA MG2522"⟫ ++ [nl] ++ ⟪"Paper Jam"⟫ ++ [nl] ++ ⟪"Error E03"⟫,
    ⟪"This is a Canon PIXMA MG2522 printer. It shows Error E03 and a 'Paper Jam' message, which means paper is likely stuck inside the feed mechanism or rollers."⟫)].

Definition ocr_heading : text := ⟪"OCR Text:"⟫ ++ [nl].

(** Lines 69-72. *)
Definition few_shot : list chat_message :=
  flat_map (fun ex => [user (ocr_heading ++ fst ex); assistant (snd ex)]) examples.

(** Lines 78-81. *)
Definition combined_prompt (ocr visual : text) : text :=
  ocr_heading ++ ocr ++ [nl; nl] ++ ⟪"Visual Description:"⟫ ++ [nl] ++ visual ++ [nl; nl] ++
  ⟪"Using both the OCR and visual info, describe the appliance, its model (if possible), and the issue. Be specific and technical. If uncertain, make an educated guess and explain."⟫.

(** Lines 43-87, after the decoding. *)
Definition describe_decoded_image (bs : list Byte.byte) : res text :=
  let! ocr := extract_text_from_image bs in
  if is_meaningful_text ocr then
    let! visual := describe_with_google_sdk bs in
    let! r := chat_invoke ext (few_shot ++ [user (combined_prompt ocr visual)]) in
    Ok (match r with Some c => clean_text c | None => could_not_generate end)
  else describe_with_google_sdk bs.

(** Lines 41-87. *)
Definition describe_image (image : text) : res text :=
  let! bs := b64decode image in
  describe_decoded_image bs.

(** ** Audio, audio_description.py *)

Definition audio_prompt : text :=
  ⟪"Describe the audio in detail. Identify the appliance or object involved, model if possible, and any technical issues or context. Break down the sounds or speech in a structured way."⟫.

(** Lines 26-36, after the decoding. *)
Definition describe_decoded_audio (bs : list Byte.byte) : res text :=
  let! r := audio_generate ext audio_prompt bs in
  Ok (match r with Some t => clean_text t | None => could_not_generate end).

(** Lines 21-36. *)
Definition describe_audio (audio : text) : res text :=
  let! bs := b64decode audio in
  describe_decoded_audio bs.

(** ** Video, video_description.py *)

Definition temp_path : text := ⟪"temp_video.mp4"⟫.

Definition video_prompt : text :=
  ⟪"Describe this video in detail. Include visual content, actions, objects, and transcribe the audio if present. Try to identify any appliances, devices, or repair scenarios shown."⟫.

(** Lines 50-52: [if os.path.exists(temp_path): os.remove(temp_path)]. *)
Definition remove_temp (fs : files) : files :=
  match fs temp_path with Some _ => set_file fs temp_path None | None => fs end.

(** Lines 45-49: the [try] body and its handler. *)
Definition video_answer (bs : list Byte.byte) : text :=
  match video_generate ext bs video_prompt with
  | Ok (Some t) => clean_text t
  | Ok None => could_not_generate
  | Raise e => ⟪"Error: "⟫ ++ exc_str ext e
  end.

(** Lines 29-52: the answer and the directory after the call. *)
Definition describe_video (video : text) (fs : files) : res text * files :=
  match b64decode video with
  | Raise e => (Raise e, fs)
  | Ok bs =>
      match write_file ext temp_path bs with
      | OpenFailed e => (Raise e, fs)
      | WriteFailed written e => (Raise e, set_file fs temp_path (Some written))
      | Written =>
          let fs1 := set_file fs temp_path (Some bs) in
          match video_prepare ext bs with
          | Raise e => (Raise e, fs1)
          | Ok _ => (Ok (video_answer bs), remove_temp fs1)
          end
      end
  end.

End Describe.

(** ** The describers in the handler *)

(** The handler's collaborators with the three describers and the base64
    encoder of [convert_to_base64]; the video describer runs against the
    directory [fs] (the handler does not thread it). *)
Definition describer_services (ext : externals) (base : services) (fs : files) : services :=
  {| llm := llm base; show_match := show_match base; show_history := show_history base;
     Agent.describe_image := describe_image ext; Agent.describe_audio := describe_audio ext;
     Agent.describe_video := fun v => fst (describe_video ext v fs);
     b64encode := Base64.b64encode;
     literal_eval := literal_eval base; generate_content := generate_content base |}.

(** What the handler does with one upload, given what the describer does
    with its bytes. *)
Definition upload_outcome (d : list Byte.byte -> res text) (absent : text) (u : upload) : res text :=
  if str_truthy (up_filename u) then
    match up_content u with [] => Ok cannot_convert | bs => d bs end
  else Ok absent.

(** ** Demo collaborators and requests *)

Definition demo_ext : externals := {|
  image_open := fun bs => match bs with Byte.x89 :: _ => Ok tt | _ => Raise UnidentifiedImageError end;
  image_to_string := fun _ => Ok ⟪"LG Washing Machine Model WM3488HW"⟫;
  vision_generate := fun _ _ => Ok (Some ⟪"A **front-loading** washer."⟫);
  chat_invoke := fun _ => Ok (Some ⟪"An LG WM3488HW with a drain error."⟫);
  audio_generate := fun _ _ => Ok None;
  video_prepare := fun _ => Ok tt;
  video_generate := fun _ _ => Raise ProviderError;
  write_file := fun _ _ => Written;
  exc_str := fun _ => ⟪"quota exceeded"⟫ |}.

Definition demo_files : files := fun p => if decide (p = ⟪"notes.txt"⟫) then Some [Byte.x41] else None.

Definition demo_upload : upload := {| up_filename := ⟪"washer.gif"⟫; up_content := [Byte.x47; Byte.x49; Byte.x46] |}.

Definition demo_image_request : request :=
  {| form_user_id := Some ⟪"u42"⟫; form_query := Some ⟪"what is this error?"⟫;
     files_image := Some demo_upload; files_audio := None; files_video := None |}.

(** ** Lemmas *)

Lemma describe_upload_b64 (s : services) (describer : text -> res text) (d : list Byte.byte -> res text) absent u :
  Agent.b64encode s = Base64.b64encode -> (forall bs, describer (Base64.b64encode bs) = d bs) ->
  describe_upload s describer absent (Some u) = upload_outcome d absent u.
Proof.
  intros Hs Hd. unfold describe_upload, upload_outcome. rewrite Hs.
  destruct (str_truthy (up_filename u)); [|reflexivity].
  destruct (up_content u) as [|b bs] eqn:E; [reflexivity|].
  destruct (str_truthy (Base64.b64encode (b :: bs))) eqn:T.
  - apply Hd.
  - exfalso. assert (Hne : b :: bs <> []) by discriminate.
    apply b64encode_truthy in Hne. congruence.
Qed.

Lemma set_file_same fs p v : set_file fs p v p = v.
Proof. unfold set_file. by rewrite decide_True. Qed.

Lemma set_file_other fs p q v : q <> p -> set_file fs p v q = fs q.
Proof. intros Hne. unfold set_file. by rewrite decide_False. Qed.

Lemma clean_or_fixed_visual r : exists raw, match r with Some t => clean_text t | None => could_not_visual end = clean_text raw.
Proof. destruct r as [t|]; [eauto | exists could_not_visual; reflexivity]. Qed.

Lemma clean_or_fixed_generate r : exists raw, match r with Some t => clean_text t | None => could_not_generate end = clean_text raw.
Proof. destruct r as [t|]; [eauto | exists could_not_generate; reflexivity]. Qed.

Lemma describe_with_google_sdk_cleaned ext bs t :
  describe_with_google_sdk ext bs = Ok t -> exists raw, t = clean_text raw.
Proof. unfold describe_with_google_sdk. intros H. bind_inv H. inv H. apply clean_or_fixed_visual. Qed.

(** ** Theorems *)

(** The image and audio describers receive exactly the uploaded bytes
    (the base64 round trip never fails in the handler); an upload without
    a file name counts as absent, and an empty file gets the fixed
    "Couldn't convert to base64 successfully." text. *)
Theorem describe_upload_describers ext base fs absent u :
  describe_upload (describer_services ext base fs)
    (Agent.describe_image (describer_services ext base fs)) absent (Some u) =
    upload_outcome (describe_decoded_image ext) absent u /\
  describe_upload (describer_services ext base fs)
    (Agent.describe_audio (describer_services ext base fs)) absent (Some u) =
    upload_outcome (describe_decoded_audio ext) absent u.
Proof.
  split; apply describe_upload_b64; try reflexivity;
    intros bs; cbn; unfold describe_image, describe_audio; rewrite b64_roundtrip; reflexivity.
Qed.

(** Every image or audio description is an output of [clean_text]. *)
Theorem describers_cleaned ext v t :
  (describe_image ext v = Ok t -> exists raw, t = clean_text raw) /\
  (describe_audio ext v = Ok t -> exists raw, t = clean_text raw).
Proof.
  split; intros H; bind_inv H.
  - unfold describe_decoded_image in H. bind_inv H.
    destruct (is_meaningful_text x0); [|exact (describe_with_google_sdk_cleaned _ _ _ H)].
    bind_inv H. inv H. apply clean_or_fixed_generate.
  - unfold describe_decoded_audio in H. bind_inv H. inv H. apply clean_or_fixed_generate.
Qed.

(** The video describer touches no file but ["temp_video.mp4"]. *)
Theorem describe_video_frame ext v fs p :
  p <> temp_path -> snd (describe_video ext v fs) p = fs p.
Proof.
  intros Hp. unfold describe_video, remove_temp.
  destruct (b64decode v) as [bs|e]; [|reflexivity].
  destruct (write_file ext temp_path bs); cbn [snd]; try reflexivity; try (now apply set_file_other).
  destruct (video_prepare ext bs); cbn [snd]; [|now apply set_file_other].
  rewrite set_file_same. rewrite !set_file_other by exact Hp. reflexivity.
Qed.

(** C16: Every path through the [try] ends with the temporary file removed and
    an answer, the model's failure included ("Error: ..."); the describer
    raises only when decoding, writing the file or setting up the model
    fails, and in the last two cases the file is left behind. *)
Theorem describe_video_exit_paths ext v fs :
  match describe_video ext v fs with
  | (Ok t, fs') => fs' temp_path = None /\
      exists bs, b64decode v = Ok bs /\ write_file ext temp_path bs = Written /\
        video_prepare ext bs = Ok tt /\ t = video_answer ext bs
  | (Raise e, fs') =>
      b64decode v = Raise e /\ fs' = fs \/
      exists bs, b64decode v = Ok bs /\
        (write_file ext temp_path bs = OpenFailed e /\ fs' = fs \/
         (exists written, write_file ext temp_path bs = WriteFailed written e /\ fs' temp_path = Some written) \/
         write_file ext temp_path bs = Written /\ video_prepare ext bs = Raise e /\ fs' temp_path = Some bs)
  end.
Proof.
  unfold describe_video. destruct (b64decode v) as [bs|e] eqn:D; [|left; auto].
  destruct (write_file ext temp_path bs) as [|e|written e] eqn:W.
  - destruct (video_prepare ext bs) as [[]|e] eqn:P.
    + split; [|eauto 6]. unfold remove_temp. rewrite set_file_same. apply set_file_same.
    + right. exists bs. split; [reflexivity|]. do 2 right. split; [exact W|]. split; [exact P|].
      apply set_file_same.
  - right. exists bs. split; [reflexivity|]. left. auto.
  - right. exists bs. split; [reflexivity|]. right. left. exists written. split; [exact W|].
    apply set_file_same.
Qed.

(** C8: Through the handler: an image upload the image library cannot open
    makes the request answer 500 before the history is opened, so the
    query is not stored. *)
Theorem post_unreadable_image {I : Type} `{VectorIndex I} ext base fs idx json_dir fsys req st u e :
  files_image req = Some u -> str_truthy (up_filename u) = true -> up_content u <> [] ->
  image_open ext (up_content u) = Raise e ->
  post (describer_services ext base fs) idx json_dir fsys req st = (Respond500, st).
Proof.
  intros Hi Hn Hc Ho. unfold post, describe_all. rewrite Hi.
  rewrite (proj1 (describe_upload_describers ext base fs _ u)). unfold upload_outcome. rewrite Hn.
  destruct (up_content u) as [|b bs] eqn:E; [congruence|].
  unfold describe_decoded_image, extract_text_from_image. rewrite Ho. reflexivity.
Qed.

(** ** Witnesses *)

Lemma describe_video_frame_witness :
  ⟪"notes.txt"⟫ <> temp_path /\
  snd (describe_video demo_ext (Base64.b64encode [Byte.x00]) demo_files) ⟪"notes.txt"⟫ = Some [Byte.x41].
Proof.
  assert (Hp : ⟪"notes.txt"⟫ <> temp_path) by (intros Heq; vm_compute in Heq; discriminate Heq).
  split; [exact Hp|]. exact (describe_video_frame demo_ext _ demo_files _ Hp).
Defined.

Lemma post_unreadable_image_witness :
  files_image demo_image_request = Some demo_upload /\ str_truthy (up_filename demo_upload) = true /\
  up_content demo_upload <> [] /\ image_open demo_ext (up_content demo_upload) = Raise UnidentifiedImageError /\
  post (describer_services demo_ext (demo_services false) demo_files) demo_index demo_dir demo_fs
    demo_image_request ∅ = (Respond500, ∅).
Proof.
  assert (Hc : up_content demo_upload <> []) by discriminate.
  split; [reflexivity|]. split; [reflexivity|]. split; [exact Hc|]. split; [reflexivity|].
  exact (post_unreadable_image demo_ext (demo_services false) demo_files demo_index demo_dir demo_fs
           demo_image_request ∅ demo_upload UnidentifiedImageError eq_refl eq_refl Hc eq_refl).
Defined.

End Describers.
