(* ===== verification/Ingestion.v ===== *)
(** * Ingestion: building the vector index ([/generate_vectordb])

    api/vectordb_generator.py.
    - [extract_title] (lines 43-59): the title of a record, from
      [metadata.title], else [metadata.guide_title], else the root [title],
      stripped; with Python's [in] and [[]] on whatever JSON value the file
      holds, so a record of an unexpected shape raises.
    - [generate_gemini_summary] (lines 62-86): asks the model for a summary
      and retries forever on an empty answer or an exception.  The answers
      of successive attempts are the stream [provider : nat -> res text];
      the loop is a [Fixpoint] on fuel, [None] meaning "still retrying".
    - [GenerateVectorDB.get] (lines 89-156): for each [*.json] name of the
      directory listing, load it (a decode error skips the file, any other
      exception aborts with 500), extract the title, summarise
      [json.dumps(data, indent=2)], and collect [(summary, {filename,
      title})]; with no document the answer is 400, otherwise the documents
      are added to the persisted Chroma collection ([Chroma.from_texts] with
      a [persist_directory] adds to the existing collection) and the answer
      is 200 with the count.

    Theorems: the summary loop returns the first successful attempt given
    enough fuel and never returns when no attempt succeeds; the ingestion
    indexes exactly the loadable files, in listing order, each under its
    own file name; a second run adds every document again. *)

From Stdlib Require Import List Ascii String Bool Lia.
From S2P Require Import Prelude CleanText PyValue Search.
Import ListNotations CleanText PyValue Search.
Open Scope fg_scope.

Module Ingestion.

(** ** [extract_title] *)

(** [k in x] followed, when true, by [x[k]]. *)
Definition get_if_in (x : pyval) (k : text) (otherwise : unit -> res pyval) : res pyval :=
  let! b := py_contains x k in
  if b then py_getitem x k else otherwise tt.

(** Lines 43-59. *)
Definition extract_title (data : pyval) : res text :=
  let! has_metadata := py_contains data ⟪"metadata"⟫ in
  let! title :=
    if has_metadata then
      let! metadata := py_getitem data ⟪"metadata"⟫ in
      get_if_in metadata ⟪"title"⟫ (fun _ =>
        get_if_in metadata ⟪"guide_title"⟫ (fun _ => Ok (PStr [])))
    else Ok (PStr []) in
  let! title :=
    if negb (truthy title) then get_if_in data ⟪"title"⟫ (fun _ => Ok title) else Ok title in
  if truthy title then
    match title with PStr s => Ok (strip s) | _ => Raise AttributeError end
  else Ok [].

(** ** [generate_gemini_summary] *)

Section Summary.
(** The content of the answer at each attempt (an exception is [Raise]). *)
Variable provider : nat -> res text.

(** Lines 64-86, from attempt [attempt] on, with [fuel] attempts left:
    the cleaned summary and the number of the successful attempt. *)
Fixpoint summary_loop (fuel attempt : nat) : option (text * nat) :=
  match fuel with
  | 0 => None
  | S f =>
      match provider attempt with
      | Ok c => if str_truthy c then Some (clean_text c, attempt) else summary_loop f (S attempt)
      | Raise _ => summary_loop f (S attempt)
      end
  end.

Definition succeeds (k : nat) : bool :=
  match provider k with Ok c => str_truthy c | Raise _ => false end.

Definition generate_gemini_summary (fuel : nat) : option (text * nat) := summary_loop fuel 1.

End Summary.

(** ** [GenerateVectorDB.get] *)

(** What [open] + [json.load] do for a listed file. *)
Inductive load_result :=
| Loaded (v : pyval)
| DecodeFailure        (** [json.JSONDecodeError] or [UnicodeDecodeError]: skipped *)
| LoadFailure.         (** any other exception: aborts the request *)

Inductive vectordb_response :=
| Created (files_added : nat)   (** 200 *)
| NoDocuments                    (** 400 *)
| CreationFailed.                (** 500 *)

Definition json_suffix : text := ⟪".json"⟫.

(** [s.endswith(suf)]. *)
Definition ends_with (suf s : text) : bool :=
  if list_eq_dec ascii_dec (skipn (length s - length suf) s) suf then true else false.

Definition doc_metadata_of (filename title : text) : dict :=
  [(⟪"filename"⟫, PStr filename); (⟪"title"⟫, PStr title)].

Section Generate.
Variables (load : text -> load_result) (dumps : pyval -> text)
          (provider : text -> nat -> res text) (fuel : nat).

(** Lines 102-127 for one file: [None] when the summary loop is still
    retrying, [Some (Raise _)] on an exception, [Some (Ok None)] when the
    file is skipped. *)
Definition process_file (file : text) : option (res (option document)) :=
  match load file with
  | DecodeFailure => Some (Ok None)
  | LoadFailure => Some (Raise OSError)
  | Loaded data =>
      match extract_title data with
      | Raise e => Some (Raise e)
      | Ok title =>
          match generate_gemini_summary (provider (dumps data)) fuel with
          | None => None
          | Some (summary, _) =>
              Some (Ok (Some {| page_content := summary; doc_metadata := doc_metadata_of file title |}))
          end
      end
  end.

(** Lines 102-127: the documents, in listing order. *)
Fixpoint process_files (files : list text) : option (res (list document)) :=
  match files with
  | [] => Some (Ok [])
  | f :: fs =>
      match process_file f with
      | None => None
      | Some (Raise e) => Some (Raise e)
      | Some (Ok od) =>
          match process_files fs with
          | None => None
          | Some (Raise e) => Some (Raise e)
          | Some (Ok docs) => Some (Ok (match od with Some d => d :: docs | None => docs end))
          end
      end
  end.

(** Lines 90-156: the response and the persisted collection after it;
    [None] while a summary is still being retried. *)
Definition generate_vectordb (dir_exists : bool) (listing : list text)
    (index : list document) : option (vectordb_response * list document) :=
  if negb dir_exists then Some (CreationFailed, index)
  else
    let json_files := filter (ends_with json_suffix) listing in
    match process_files json_files with
    | None => None
    | Some (Raise _) => Some (CreationFailed, index)
    | Some (Ok []) => Some (NoDocuments, index)
    | Some (Ok docs) => Some (Created (length docs), index ++ docs)
    end.

End Generate.

(** ** The spec's scenario 4: a directory with one malformed file *)

Definition flaky_provider (k : nat) : res text :=
  if Nat.ltb k 3 then Raise ProviderError else Ok ⟪"**LG** washer: clean the drain filter."⟫.

Definition demo_listing : list text := [⟪"a.json"⟫; ⟪"bad.json"⟫; ⟪"b.json"⟫; ⟪"notes.txt"⟫].

Definition demo_load (f : text) : load_result :=
  if list_eq_dec ascii_dec f ⟪"a.json"⟫ then Loaded (PDict [(⟪"title"⟫, PStr ⟪" LG washer "⟫)])
  else if list_eq_dec ascii_dec f ⟪"b.json"⟫ then
    Loaded (PDict [(⟪"metadata"⟫, PDict [(⟪"guide_title"⟫, PStr ⟪"Toaster"⟫)])])
  else if list_eq_dec ascii_dec f ⟪"broken.json"⟫ then LoadFailure
  else DecodeFailure.

Definition demo_dumps (v : pyval) : text := ⟪"{...}"⟫.

Definition demo_provider (prompt : text) (k : nat) : res text := Ok ⟪"A summary."⟫.

Definition demo_json_files : list text := [⟪"a.json"⟫; ⟪"bad.json"⟫; ⟪"b.json"⟫].

Definition demo_docs : list document :=
  [{| page_content := ⟪"A summary."⟫; doc_metadata := doc_metadata_of ⟪"a.json"⟫ ⟪"LG washer"⟫ |};
   {| page_content := ⟪"A summary."⟫; doc_metadata := doc_metadata_of ⟪"b.json"⟫ ⟪"Toaster"⟫ |}].

(** ** Theorems *)

Section Runs.
Variables (load : text -> load_result) (dumps : pyval -> text)
          (provider : text -> nat -> res text) (fuel : nat).

Definition is_loaded (f : text) : bool :=
  match load f with Loaded _ => true | _ => false end.

(** A file the run handles without error: it is skipped as malformed, or
    it loads, has a title, and its summary arrives within the fuel. *)
Definition file_ok (f : text) : Prop :=
  load f = DecodeFailure \/
  exists data title, load f = Loaded data /\ extract_title data = Ok title /\
    generate_gemini_summary (provider (dumps data)) fuel <> None.

Definition indexed_as (f : text) (d : document) : Prop :=
  exists data title, load f = Loaded data /\ extract_title data = Ok title /\
    doc_metadata d = doc_metadata_of f title.

Lemma process_files_ok files :
  Forall file_ok files ->
  exists docs, process_files load dumps provider fuel files = Some (Ok docs) /\
    Forall2 indexed_as (filter is_loaded files) docs.
Proof.
  induction 1 as [|f fs Hf _ [docs [Hrun Hrel]]]; [exists []; split; constructor|].
  simpl. unfold process_file, is_loaded. rewrite Hrun.
  destruct Hf as [Hd | (data & title & Hl & Ht & Hs)].
  - rewrite Hd. eauto.
  - rewrite Hl, Ht.
    destruct (generate_gemini_summary (provider (dumps data)) fuel) as [[summary n]|]; [|congruence].
    eexists. split; [reflexivity|]. constructor; [|exact Hrel].
    exists data, title. auto.
Qed.

Lemma process_file_doc f d :
  process_file load dumps provider fuel f = Some (Ok (Some d)) ->
  exists title, doc_metadata d = doc_metadata_of f title.
Proof.
  unfold process_file. intros H. destruct (load f) as [data| |]; try discriminate H.
  destruct (extract_title data) as [title|e]; try discriminate H.
  destruct (generate_gemini_summary _ fuel) as [[summary n]|]; try discriminate H.
  inv H. exists title. reflexivity.
Qed.

(** Every document a run produces is filed under one of the listed names. *)
Lemma process_files_metadata files docs :
  process_files load dumps provider fuel files = Some (Ok docs) ->
  Forall (fun d => exists f title, In f files /\ doc_metadata d = doc_metadata_of f title) docs.
Proof.
  revert docs. induction files as [|f fs IH]; intros docs H; simpl in H; [inv H; constructor|].
  destruct (process_file load dumps provider fuel f) as [[od|e]|] eqn:Pf; try discriminate.
  destruct (process_files load dumps provider fuel fs) as [[ds|e]|]; try discriminate. inv H.
  assert (Hds : Forall (fun d => exists g title, In g (f :: fs) /\ doc_metadata d = doc_metadata_of g title) ds).
  { eapply Forall_impl; [|exact (IH ds eq_refl)]. intros d (g & t & Hg & Hm). exists g, t. simpl. auto. }
  destruct od as [d|]; [|exact Hds]. constructor; [|exact Hds].
  destruct (process_file_doc _ _ Pf) as [t Ht]. exists f, t. simpl. auto.
Qed.

(** C22: When every [*.json] file is handled without error, the run indexes one
    document per file that loads, in listing order, each under its own
    file name and extracted title; malformed files are skipped; the
    answer counts the documents, or is 400 when there are none. *)
Theorem generate_vectordb_indexes listing index :
  Forall file_ok (filter (ends_with json_suffix) listing) ->
  exists docs,
    Forall2 indexed_as (filter is_loaded (filter (ends_with json_suffix) listing)) docs /\
    generate_vectordb load dumps provider fuel true listing index =
      Some (match docs with [] => (NoDocuments, index) | _ => (Created (length docs), index ++ docs) end).
Proof.
  intros Hok. destruct (process_files_ok _ Hok) as [docs [Hrun Hrel]].
  exists docs. split; [exact Hrel|]. unfold generate_vectordb. simpl. rewrite Hrun.
  destruct docs; reflexivity.
Qed.

(** C25: One file that fails to open, or whose title raises, aborts the whole
    run with 500 and indexes nothing, even when every other file is fine. *)
Theorem generate_vectordb_aborts listing index f e :
  (forall g, In g (filter (ends_with json_suffix) listing) -> process_file load dumps provider fuel g <> None) ->
  In f (filter (ends_with json_suffix) listing) ->
  process_file load dumps provider fuel f = Some (Raise e) ->
  generate_vectordb load dumps provider fuel true listing index = Some (CreationFailed, index).
Proof.
  intros Hall Hin Hf. unfold generate_vectordb. simpl.
  assert (H : exists e', process_files load dumps provider fuel (filter (ends_with json_suffix) listing) = Some (Raise e')).
  { induction (filter (ends_with json_suffix) listing) as [|g gs IH]; [destruct Hin|]. simpl.
    destruct Hin as [<-|Hin].
    - rewrite Hf. eauto.
    - destruct (process_file load dumps provider fuel g) as [[od|e']|] eqn:Hg.
      + destruct IH as [e' ->]; [intros; apply Hall; simpl; auto | exact Hin | eauto].
      + eauto.
      + exfalso. apply (Hall g); [left; reflexivity | exact Hg]. }
  destruct H as [e' ->]. reflexivity.
Qed.

(** C26: The collection is not replaced: running the ingestion a second time
    adds every document again. *)
Theorem generate_vectordb_twice listing index n index' :
  generate_vectordb load dumps provider fuel true listing index = Some (Created n, index') ->
  exists docs, index' = index ++ docs /\ length docs = n /\
    generate_vectordb load dumps provider fuel true listing index' =
      Some (Created n, index ++ docs ++ docs).
Proof.
  unfold generate_vectordb. simpl.
  destruct (process_files load dumps provider fuel _) as [[docs|e]|]; try discriminate.
  destruct docs as [|d ds]; [discriminate|]. intros Hr. inv Hr.
  eexists. split; [reflexivity|]. split; [reflexivity|]. now rewrite <- app_assoc.
Qed.

End Runs.

(** C23: Given enough fuel, the retry loop returns the cleaned answer of the
    first successful attempt, with that attempt's number. *)
Theorem summary_loop_first_success provider a k c :
  a <= k -> provider k = Ok c -> str_truthy c = true ->
  (forall j, a <= j < k -> succeeds provider j = false) ->
  forall fuel, k - a < fuel -> summary_loop provider fuel a = Some (clean_text c, k).
Proof.
  intros Hak Hk Hc Hbefore fuel. revert a Hak Hbefore.
  induction fuel as [|fuel IH]; intros a Hak Hbefore Hfuel; [lia|]. simpl.
  destruct (PeanoNat.Nat.eq_dec a k) as [->|Hne].
  - rewrite Hk, Hc. reflexivity.
  - assert (Hs : succeeds provider a = false) by (apply Hbefore; lia).
    unfold succeeds in Hs.
    destruct (provider a) as [c'|e]; [rewrite Hs|]; apply IH; try lia;
      intros j Hj; apply Hbefore; lia.
Qed.

(** C24: When no attempt ever succeeds the loop never returns, whatever the
    fuel: the request that triggered the ingestion hangs. *)
Theorem summary_loop_diverges provider a :
  (forall j, a <= j -> succeeds provider j = false) ->
  forall fuel, summary_loop provider fuel a = None.
Proof.
  intros Hnone fuel. revert a Hnone. induction fuel as [|fuel IH]; intros a Hnone; [reflexivity|].
  simpl. pose proof (Hnone a (le_n a)) as Ha. unfold succeeds in Ha.
  destruct (provider a) as [c|e]; [rewrite Ha|]; apply IH; intros j Hj; apply Hnone; lia.
Qed.

(** C31: A record whose [metadata] is a string containing "title" makes
    [metadata["title"]] raise [TypeError]. *)
Theorem extract_title_string_metadata d m :
  dict_get ⟪"metadata"⟫ d = Some (PStr m) -> is_infix ⟪"title"⟫ m = true ->
  extract_title (PDict d) = Raise TypeError.
Proof.
  intros Hm Hin. unfold extract_title, py_contains, has_key, py_getitem. rewrite Hm.
  cbn [bind]. unfold get_if_in. cbn [bind py_contains]. rewrite Hin. reflexivity.
Qed.

(** ** Witnesses on scenario 4 *)

Lemma summary_loop_first_success_witness :
  (1 <= 3 /\ flaky_provider 3 = Ok ⟪"**LG** washer: clean the drain filter."⟫ /\
   str_truthy ⟪"**LG** washer: clean the drain filter."⟫ = true /\
   (forall j, 1 <= j < 3 -> succeeds flaky_provider j = false) /\ 3 - 1 < 5) /\
  summary_loop flaky_provider 5 1 = Some (clean_text ⟪"**LG** washer: clean the drain filter."⟫, 3).
Proof.
  assert (Hb : forall j, 1 <= j < 3 -> succeeds flaky_provider j = false).
  { intros j Hj. destruct j as [|[|[|j]]]; [lia | reflexivity | reflexivity | lia]. }
  split; [repeat split; [lia | exact Hb | lia]|].
  apply (summary_loop_first_success flaky_provider 1 3); [lia | reflexivity | reflexivity | exact Hb | lia].
Defined.

Lemma summary_loop_diverges_witness :
  (forall j, 1 <= j -> succeeds (fun _ => Ok []) j = false) /\
  forall fuel, summary_loop (fun _ => Ok []) fuel 1 = None.
Proof.
  assert (H : forall j, 1 <= j -> succeeds (fun _ => Ok []) j = false) by reflexivity.
  split; [exact H | exact (summary_loop_diverges _ 1 H)].
Defined.

Lemma extract_title_string_metadata_witness :
  dict_get ⟪"metadata"⟫ [(⟪"metadata"⟫, PStr ⟪"title: LG washer"⟫)] = Some (PStr ⟪"title: LG washer"⟫) /\
  is_infix ⟪"title"⟫ ⟪"title: LG washer"⟫ = true /\
  extract_title (PDict [(⟪"metadata"⟫, PStr ⟪"title: LG washer"⟫)]) = Raise TypeError.
Proof.
  split; [reflexivity|]. split; [reflexivity|].
  apply (extract_title_string_metadata _ ⟪"title: LG washer"⟫); reflexivity.
Defined.

Lemma demo_json_files_eq : filter (ends_with json_suffix) demo_listing = demo_json_files.
Proof. vm_compute. reflexivity. Qed.

Lemma generate_vectordb_indexes_witness :
  Forall (file_ok demo_load demo_dumps demo_provider 3) (filter (ends_with json_suffix) demo_listing) /\
  exists docs,
    Forall2 (indexed_as demo_load) (filter (is_loaded demo_load) (filter (ends_with json_suffix) demo_listing)) docs /\
    generate_vectordb demo_load demo_dumps demo_provider 3 true demo_listing [] =
      Some (match docs with [] => (NoDocuments, []) | _ => (Created (length docs), [] ++ docs) end).
Proof.
  assert (H : Forall (file_ok demo_load demo_dumps demo_provider 3) (filter (ends_with json_suffix) demo_listing)).
  { rewrite demo_json_files_eq. unfold file_ok.
    repeat apply Forall_cons; try apply Forall_nil;
      first [left; reflexivity
            | right; do 2 eexists; split; [reflexivity|]; split; [reflexivity|]; vm_compute; congruence]. }
  split; [exact H | exact (generate_vectordb_indexes _ _ _ _ demo_listing [] H)].
Defined.

Lemma generate_vectordb_aborts_witness :
  (forall g, In g (filter (ends_with json_suffix) (⟪"broken.json"⟫ :: demo_listing)) ->
     process_file demo_load demo_dumps demo_provider 3 g <> None) /\
  In ⟪"broken.json"⟫ (filter (ends_with json_suffix) (⟪"broken.json"⟫ :: demo_listing)) /\
  process_file demo_load demo_dumps demo_provider 3 ⟪"broken.json"⟫ = Some (Raise OSError) /\
  generate_vectordb demo_load demo_dumps demo_provider 3 true (⟪"broken.json"⟫ :: demo_listing) [] =
    Some (CreationFailed, []).
Proof.
  assert (Hall : forall g, In g (filter (ends_with json_suffix) (⟪"broken.json"⟫ :: demo_listing)) ->
                   process_file demo_load demo_dumps demo_provider 3 g <> None).
  { intros g Hg. vm_compute in Hg. repeat destruct Hg as [<-|Hg]; try destruct Hg; vm_compute; congruence. }
  assert (Hin : In ⟪"broken.json"⟫ (filter (ends_with json_suffix) (⟪"broken.json"⟫ :: demo_listing)))
    by (vm_compute; left; reflexivity).
  assert (Hf : process_file demo_load demo_dumps demo_provider 3 ⟪"broken.json"⟫ = Some (Raise OSError))
    by reflexivity.
  split; [exact Hall|]. split; [exact Hin|]. split; [exact Hf|].
  exact (generate_vectordb_aborts _ _ _ _ _ [] _ _ Hall Hin Hf).
Defined.

Lemma generate_vectordb_twice_witness :
  generate_vectordb demo_load demo_dumps demo_provider 3 true demo_listing [] = Some (Created 2, demo_docs) /\
  exists docs, demo_docs = [] ++ docs /\ length docs = 2 /\
    generate_vectordb demo_load demo_dumps demo_provider 3 true demo_listing demo_docs =
      Some (Created 2, [] ++ docs ++ docs).
Proof.
  assert (E : generate_vectordb demo_load demo_dumps demo_provider 3 true demo_listing [] = Some (Created 2, demo_docs))
    by (vm_compute; reflexivity).
  split; [exact E | exact (generate_vectordb_twice _ _ _ _ _ _ _ _ E)].
Defined.

End Ingestion.
