(* ===== verification/Preprocess.v ===== *)
(** * Preprocess: the offline cleaning of the raw guides (redundant.py)

    data/preprocessing/redundant.py copies every [*.json] guide of the raw
    folder to the clean folder, dropping the top-level keys of
    [KEYS_TO_REMOVE] and, when ["metadata"] is an object, its keys of
    [METADATA_KEYS_TO_REMOVE] ([clean_json_file], lines 61-80); a file that
    fails to load is reported and skipped ([process_json_folder], lines
    82-87).  The raw folder is a [file_system] of Finalizer.v, the clean
    folder a map from path to the JSON value written there.

    Theorems: cleaning is idempotent; it removes exactly the listed keys and
    keeps the others in order; it never changes what the finalizer
    ([extract_fields]) or the ingestion ([extract_title]) read from a guide;
    and every file the script writes is the cleaning of a loadable listed
    guide. *)

From Stdlib Require Import List Ascii String Bool Lia.
From S2P Require Import Prelude PyValue Finalizer Ingestion.
Import ListNotations PyValue Finalizer Ingestion.
Open Scope fg_scope.

Module Preprocess.

(** Lines 11-41. *)
Definition KEYS_TO_REMOVE : list text :=
  map txt ["ifixit_links"; "resources_links"; "social_links"; "legal_links"; "license_link";
    "repair_is_noble_link"; "copyright"; "preview_statistics"; "licensing_url"; "team_info";
    "comments"; "manifesto_url"; "comments_section"; "team"; "statistics";
    "author_information"; "team_information"; "author"; "author_info"; "completed_count";
    "favorite_count"; "comments_count"; "view_statistics"; "favorited_count"; "contributors";
    "view_statistics_preview"; "stay_in_loop"; "comments_url"; "contributors_url"]%string.

(** Lines 44-56. *)
Definition METADATA_KEYS_TO_REMOVE : list text :=
  map txt ["member_since"; "view_statistics"; "author"; "author_link"; "contributors";
    "statistics"; "completed_count"; "favorite_count"; "favorited_count"; "comments_count";
    "other_contributors"]%string.

(** [k in keys] for a set of strings. *)
Definition mem (k : text) (keys : list text) : bool := existsb (text_eqb k) keys.

(** [{k: v for k, v in d.items() if k not in keys}]. *)
Definition filter_keys (keys : list text) (d : dict) : dict :=
  filter (fun kv => negb (mem (fst kv) keys)) d.

Definition metadata_key : text := ⟪"metadata"⟫.

(** Lines 66-72. *)
Definition clean_record (data : pyval) : pyval :=
  match data with
  | PDict d =>
      let d1 := filter_keys KEYS_TO_REMOVE d in
      match dict_get metadata_key d1 with
      | Some (PDict m) => PDict (dict_set metadata_key (PDict (filter_keys METADATA_KEYS_TO_REMOVE m)) d1)
      | _ => PDict d1
      end
  | v => v
  end.

(** The clean folder: what [json.dump] wrote at each path. *)
Definition json_store := text -> option pyval.

Definition write_json (out : json_store) (p : text) (v : pyval) : json_store :=
  fun q => if list_eq_dec ascii_dec q p then Some v else out q.

(** Lines 61-80: a file that does not load is reported and skipped. *)
Definition clean_json_file (inp : file_system) (out : json_store) (input_path output_path : text) : json_store :=
  match inp input_path with
  | Some (JsonFile data) => write_json out output_path (clean_record data)
  | _ => out
  end.

(** Lines 82-87. *)
Fixpoint process_json_folder (inp : file_system) (input_folder output_folder : text)
    (listing : list text) (out : json_store) : json_store :=
  match listing with
  | [] => out
  | f :: fs =>
      let out1 := if ends_with json_suffix f
                  then clean_json_file inp out (path_join input_folder f) (path_join output_folder f)
                  else out in
      process_json_folder inp input_folder output_folder fs out1
  end.

(** What line 72 does to the value of ["metadata"] (a non-object is kept). *)
Definition clean_metadata (v : pyval) : pyval :=
  match v with PDict m => PDict (filter_keys METADATA_KEYS_TO_REMOVE m) | _ => v end.

(** ** Lemmas *)

Lemma dict_get_filter ks k d :
  dict_get k (filter_keys ks d) = if mem k ks then None else dict_get k d.
Proof.
  unfold filter_keys. induction d as [|[k' v'] d IH]; simpl; [now destruct (mem k ks)|].
  destruct (text_eqb k k') eqn:E.
  - apply text_eqb_eq in E. subst k'. destruct (mem k ks); simpl; [exact IH|].
    now rewrite text_eqb_refl.
  - destruct (mem k' ks) eqn:M; simpl; [|rewrite E]; rewrite IH; [|reflexivity].
    destruct (mem k ks) eqn:Mk; [reflexivity|].
    reflexivity.
Qed.

Lemma filter_keys_idem ks d : filter_keys ks (filter_keys ks d) = filter_keys ks d.
Proof.
  unfold filter_keys. induction d as [|[k v] d IH]; [reflexivity|]. simpl.
  destruct (mem k ks) eqn:M; simpl; [exact IH|]. rewrite M. simpl. now rewrite IH.
Qed.

Lemma filter_keys_set ks k v d :
  mem k ks = false -> filter_keys ks (dict_set k v d) = dict_set k v (filter_keys ks d).
Proof.
  intros Hk. unfold filter_keys. induction d as [|[k' v'] d IH]; simpl; [now rewrite Hk|].
  destruct (text_eqb k k') eqn:E.
  - apply text_eqb_eq in E. subst k'. simpl. rewrite Hk. simpl. rewrite ?text_eqb_refl. reflexivity.
  - simpl. rewrite IH. destruct (mem k' ks); simpl; rewrite ?E; reflexivity.
Qed.

Lemma dict_set_idem k v d : dict_set k v (dict_set k v d) = dict_set k v d.
Proof.
  induction d as [|[k' v'] d IH]; simpl; [now rewrite text_eqb_refl|].
  destruct (text_eqb k k') eqn:E; simpl; rewrite E; [reflexivity | now rewrite IH].
Qed.

Lemma metadata_kept : mem metadata_key KEYS_TO_REMOVE = false.
Proof. reflexivity. Qed.

(** Every lookup in a cleaned record. *)
Lemma clean_record_get d k :
  exists d', clean_record (PDict d) = PDict d' /\
    dict_get k d' = if mem k KEYS_TO_REMOVE then None
                    else if text_eqb k metadata_key then option_map clean_metadata (dict_get k d)
                    else dict_get k d.
Proof.
  unfold clean_record. set (d1 := filter_keys KEYS_TO_REMOVE d).
  assert (G : forall j, dict_get j d1 = if mem j KEYS_TO_REMOVE then None else dict_get j d)
    by (intros j; apply dict_get_filter).
  destruct (text_eqb k metadata_key) eqn:E.
  - apply text_eqb_eq in E. subst k. rewrite metadata_kept.
    rewrite G, metadata_kept. destruct (dict_get metadata_key d) as [[| | | | | |m]|] eqn:Dm;
      eexists; (split; [reflexivity|]); rewrite ?dict_get_set_eq, ?G, ?metadata_kept, ?Dm; reflexivity.
  - assert (Hne : metadata_key <> k) by (intros Heq; subst k; rewrite text_eqb_refl in E; discriminate).
    destruct (dict_get metadata_key d1) as [[| | | | | |m]|];
      eexists; (split; [reflexivity|]); rewrite ?(dict_get_set_ne _ _ _ _ Hne); apply G.
Qed.


Lemma py_get_clean_metadata v k def :
  mem k METADATA_KEYS_TO_REMOVE = false -> py_get (clean_metadata v) k def = py_get v k def.
Proof.
  intros Hk. destruct v as [| | | | | |m]; try reflexivity. simpl. now rewrite dict_get_filter, Hk.
Qed.

Lemma clean_record_dict d :
  exists d', clean_record (PDict d) = PDict d' /\
    forall k, dict_get k d' = if mem k KEYS_TO_REMOVE then None
                              else if text_eqb k metadata_key then option_map clean_metadata (dict_get k d)
                              else dict_get k d.
Proof.
  destruct (clean_record_get d metadata_key) as (d' & E & _). exists d'. split; [exact E|].
  intros k. destruct (clean_record_get d k) as (d'' & E' & G). rewrite E in E'. inv E'. exact G.
Qed.

Lemma contains_clean_metadata mv k :
  mem k METADATA_KEYS_TO_REMOVE = false -> py_contains (clean_metadata mv) k = py_contains mv k.
Proof.
  intros Hk. destruct mv as [| | | | | |m]; try reflexivity.
  change (Ok (has_key k (filter_keys METADATA_KEYS_TO_REMOVE m)) = Ok (has_key k m) :> res bool).
  unfold has_key. now rewrite dict_get_filter, Hk.
Qed.

Lemma getitem_clean_metadata mv k :
  mem k METADATA_KEYS_TO_REMOVE = false -> py_getitem (clean_metadata mv) k = py_getitem mv k.
Proof.
  intros Hk. destruct mv as [| | | | | |m]; try reflexivity.
  unfold clean_metadata, py_getitem. now rewrite dict_get_filter, Hk.
Qed.

(** ** Theorems *)

Example clean_record_lg :
  clean_record (PDict [(⟪"title"⟫, PStr ⟪"LG WM3488HW OE Error"⟫); (⟪"author"⟫, PStr ⟪"kim"⟫);
                       (⟪"metadata"⟫, PDict [(⟪"member_since"⟫, PStr ⟪"2019"⟫); (⟪"title"⟫, PStr ⟪"LG"⟫)])]) =
  PDict [(⟪"title"⟫, PStr ⟪"LG WM3488HW OE Error"⟫); (⟪"metadata"⟫, PDict [(⟪"title"⟫, PStr ⟪"LG"⟫)])].
Proof. reflexivity. Qed.

(** Cleaning a cleaned guide changes nothing: running the script again on
    its own output is harmless. *)
Theorem clean_record_idempotent v : clean_record (clean_record v) = clean_record v.
Proof.
  destruct v as [| | | | | |d]; try reflexivity.
  set (d1 := filter_keys KEYS_TO_REMOVE d).
  assert (E1 : clean_record (PDict d) =
    match dict_get metadata_key d1 with
    | Some (PDict m) => PDict (dict_set metadata_key (PDict (filter_keys METADATA_KEYS_TO_REMOVE m)) d1)
    | _ => PDict d1
    end) by reflexivity.
  assert (I1 : filter_keys KEYS_TO_REMOVE d1 = d1) by apply filter_keys_idem.
  rewrite E1. destruct (dict_get metadata_key d1) as [mv|] eqn:Dm; [destruct mv as [| | | | | |m]|];
    unfold clean_record; rewrite ?I1, ?Dm; try reflexivity.
  rewrite filter_keys_set, I1, dict_get_set_eq by exact metadata_kept.
  now rewrite filter_keys_idem, dict_set_idem.
Qed.

(** Cleaning removes exactly the listed top-level keys, keeps the others in
    their order with their values, and cleans the metadata object. *)
Theorem clean_record_spec d :
  exists d', clean_record (PDict d) = PDict d' /\
    map fst d' = List.filter (fun k => negb (mem k KEYS_TO_REMOVE)) (map fst d) /\
    forall k, dict_get k d' = if mem k KEYS_TO_REMOVE then None
                              else if text_eqb k metadata_key then option_map clean_metadata (dict_get k d)
                              else dict_get k d.
Proof.
  assert (K : map fst (filter_keys KEYS_TO_REMOVE d) = List.filter (fun k => negb (mem k KEYS_TO_REMOVE)) (map fst d)).
  { unfold filter_keys. induction d as [|[k v] d IH]; [reflexivity|]. cbn [map filter fst].
    destruct (mem k KEYS_TO_REMOVE); cbn [negb map]; rewrite IH; reflexivity. }
  destruct (clean_record_dict d) as (d' & E & G). exists d'. split; [exact E|]. split; [|exact G].
  revert E. unfold clean_record.
  destruct (dict_get metadata_key (filter_keys KEYS_TO_REMOVE d)) as [mv|] eqn:Dm;
    [destruct mv as [| | | | | |m]|]; intros E; inv E; try exact K.
  rewrite dict_set_keys. unfold has_key. rewrite Dm. exact K.
Qed.

(** C27: The finalizer reads the same fields from a cleaned guide as from the
    raw one: no key it reads is ever removed. *)
Theorem extract_fields_clean v : extract_fields (clean_record v) = extract_fields v.
Proof.
  destruct v as [| | | | | |d]; try reflexivity.
  destruct (clean_record_dict d) as (d' & -> & G).
  assert (Gk : forall k, mem k KEYS_TO_REMOVE = false -> text_eqb k metadata_key = false ->
                 dict_get k d' = dict_get k d) by (intros k H1 H2; rewrite G, H1, H2; reflexivity).
  unfold extract_fields, record_title, record_tools. cbn [py_get].
  rewrite (Gk ⟪"title"⟫), (Gk ⟪"tools"⟫), (Gk ⟪"tools_needed"⟫), (Gk ⟪"tools_and_materials"⟫),
    (Gk ⟪"steps"⟫), (Gk ⟪"embed_code"⟫), (Gk ⟪"embed_guide"⟫), (G ⟪"metadata"⟫) by reflexivity.
  destruct (dict_get ⟪"metadata"⟫ d) as [mv|]; [|reflexivity]. cbn [option_map].
  replace (mem ⟪"metadata"⟫ KEYS_TO_REMOVE) with false by reflexivity.
  replace (text_eqb ⟪"metadata"⟫ metadata_key) with true by reflexivity. cbn [bind].
  rewrite py_get_clean_metadata by reflexivity. reflexivity.
Qed.

(** The ingestion extracts the same title from a cleaned guide as from the
    raw one, and raises on the same records. *)
Theorem extract_title_clean v : extract_title (clean_record v) = extract_title v.
Proof.
  destruct v as [| | | | | |d]; try reflexivity.
  destruct (clean_record_dict d) as (d' & -> & G).
  unfold extract_title, get_if_in. cbn [py_contains py_getitem]. unfold has_key.
  rewrite (G ⟪"title"⟫), (G ⟪"metadata"⟫).
  replace (mem ⟪"metadata"⟫ KEYS_TO_REMOVE) with false by reflexivity.
  replace (text_eqb ⟪"metadata"⟫ metadata_key) with true by reflexivity.
  replace (mem ⟪"title"⟫ KEYS_TO_REMOVE) with false by reflexivity.
  replace (text_eqb ⟪"title"⟫ metadata_key) with false by reflexivity.
  destruct (dict_get ⟪"metadata"⟫ d) as [mv|]; [|reflexivity]. cbn [option_map bind].
  rewrite !contains_clean_metadata, !getitem_clean_metadata by reflexivity. reflexivity.
Qed.

(** Every path of the clean folder is either untouched or holds the
    cleaning of a listed [*.json] guide that loads, written under the same
    name. *)
Theorem process_json_folder_writes inp i o listing out p :
  process_json_folder inp i o listing out p = out p \/
  exists f data, In f listing /\ ends_with json_suffix f = true /\ p = path_join o f /\
    inp (path_join i f) = Some (JsonFile data) /\
    process_json_folder inp i o listing out p = Some (clean_record data).
Proof.
  revert out. induction listing as [|f fs IH]; intros out; [left; reflexivity|]. cbn [process_json_folder].
  set (out1 := if ends_with json_suffix f then clean_json_file inp out (path_join i f) (path_join o f) else out).
  destruct (IH out1) as [E|(g & data & Hg & R)]; [|right; exists g, data; simpl; tauto].
  rewrite E. unfold out1, clean_json_file, write_json.
  destruct (ends_with json_suffix f) eqn:J; [|left; reflexivity].
  destruct (inp (path_join i f)) as [[data| |msg]|] eqn:L; try (left; reflexivity).
  destruct (list_eq_dec ascii_dec p (path_join o f)) as [->|]; [|left; reflexivity].
  right. exists f, data. simpl. tauto.
Qed.



End Preprocess.
