(* ===== verification/System.v ===== *)
(** * System: the two endpoints over their shared state

    The service's state outside a request is the Firestore history
    (agent.py lines 28-30 and 101-107) and the persisted Chroma collection
    (agent.py lines 32-37, search.py lines 8-13, vectordb_generator.py lines
    139-145).  [/main_agent] reads the collection through the search tool
    and appends to the history; [/generate_vectordb] appends to the
    collection.  [server] is that state, [step] the effect of one request of
    either endpoint (an [event] records the request and its answer), and
    [reachable] the states of a fresh deployment after any sequence of
    requests.  The search tool sees the collection as it is when the request
    runs, with the embedding distance [embed] ([live_index]).

    Theorems, by induction on [reachable]: every assistant turn in any
    session is an output of [clean_text] and every stored user turn is a
    non-empty query; every indexed document is filed under the name of a
    [*.json] guide with its title; so the search tool answers one of three
    shapes, a match naming a guide file.  Along any step, sessions and the
    collection only grow. *)

From Stdlib Require Import List Ascii String Bool QArith Lia.
From stdpp Require Import base gmap strings list.
From S2P Require Import Prelude CleanText PyValue Search History Finalizer Agent Ingestion.
Import ListNotations CleanText PyValue Search History Finalizer Agent Ingestion.
Open Scope fg_scope.

Module System.

Record server := { history : store; collection : list document }.

Inductive event :=
| MainAgentPost (req : request) (resp : response)
| GenerateVectorDBGet (dir_exists : bool) (listing : list text) (resp : vectordb_response).

Definition initial : server := {| history := ∅; collection := [] |}.

Section Server.
Variables (svc : services) (embed : text -> document -> Q) (json_dir : text) (fsys : file_system)
          (load : text -> load_result) (dumps : pyval -> text)
          (provider : text -> nat -> res text) (fuel : nat).

(** The collection as the search tool sees it. *)
Definition live_index (s : server) : flat_index := {| fi_docs := collection s; fi_dist := embed |}.

Inductive step : server -> event -> server -> Prop :=
| step_post s req resp st' :
    post svc (live_index s) json_dir fsys req (history s) = (resp, st') ->
    step s (MainAgentPost req resp) {| history := st'; collection := collection s |}
| step_ingest s dir listing resp idx' :
    generate_vectordb load dumps provider fuel dir listing (collection s) = Some (resp, idx') ->
    step s (GenerateVectorDBGet dir listing resp) {| history := history s; collection := idx' |}.

Inductive reachable : server -> Prop :=
| reachable_init : reachable initial
| reachable_step s e s' : reachable s -> step s e s' -> reachable s'.

End Server.

(** ** The invariant *)

Definition ai_turns_cleaned (st : store) : Prop :=
  forall sid m, In (AIMessage m) (messages st sid) -> exists raw, m = clean_text raw.

Definition human_turns_nonempty (st : store) : Prop :=
  forall sid q, In (HumanMessage q) (messages st sid) -> q <> [].

Definition filed_document (d : document) : Prop :=
  exists f title, ends_with json_suffix f = true /\ doc_metadata d = doc_metadata_of f title.

Definition server_inv (s : server) : Prop :=
  ai_turns_cleaned (history s) /\ human_turns_nonempty (history s) /\
  Forall filed_document (collection s).

(** ** A deployment: scenario 4's ingestion, then the LG washer request *)

Definition demo_embed : text -> document -> Q := fi_dist demo_index.

Definition demo_server1 : server := {| history := ∅; collection := demo_docs |}.

Definition demo_post : response * store :=
  post (demo_services false) (live_index demo_embed demo_server1) demo_dir demo_fs demo_request ∅.

Definition demo_server2 : server := {| history := snd demo_post; collection := demo_docs |}.

Abbreviation demo_step :=
  (step (demo_services false) demo_embed demo_dir demo_fs demo_load demo_dumps demo_provider 3).
Abbreviation demo_reachable :=
  (reachable (demo_services false) demo_embed demo_dir demo_fs demo_load demo_dumps demo_provider 3).

(** ** Lemmas *)

Lemma in_messages_add sid0 m0 st sid m :
  In m (messages (add_message sid0 m0 st) sid) -> In m (messages st sid) \/ m = m0.
Proof.
  rewrite messages_add. case_decide; [|auto].
  rewrite List.in_app_iff. intros [Hx|[Hx|[]]]; auto.
Qed.

Lemma in_messages_after_query req st sid m :
  In m (messages (if str_truthy (request_query req)
                  then add_user_message (request_user req) (request_query req) st else st) sid) ->
  In m (messages st sid) \/ (m = HumanMessage (request_query req) /\ str_truthy (request_query req) = true).
Proof.
  rewrite messages_after_query. unfold human_turn.
  case_decide; [|auto]. destruct (str_truthy (request_query req)) eqn:T.
  - rewrite List.in_app_iff. intros [Hx|[Hx|[]]]; auto.
  - rewrite app_nil_r. auto.
Qed.

Lemma add_message_extends sid m st : store_extends st (add_message sid m st).
Proof. intros sid'. rewrite messages_add. case_decide; [by eexists | done]. Qed.

Ltac post_split :=
  unfold post;
  match goal with |- context [describe_all ?s ?r] =>
    destruct (describe_all s r) as [[[img aud] vid]|e0] end;
  [match goal with |- context [match ?c with Ok _ => _ | Raise _ => _ end] =>
     destruct c as [body0|e1] eqn:Ebody end|].

Section Request.
Context {I : Type} `{VectorIndex I}.
Variables (svc : services) (idx : I) (json_dir : text) (fsys : file_system).

(** A turn after a request is an old turn, the request's non-empty query,
    or a cleaned answer. *)
Lemma post_new_turns req st resp st' :
  post svc idx json_dir fsys req st = (resp, st') ->
  forall sid m, In m (messages st' sid) ->
    In m (messages st sid) \/
    (m = HumanMessage (request_query req) /\ str_truthy (request_query req) = true) \/
    exists raw, m = AIMessage (clean_text raw).
Proof.
  post_split; intros Hp; inv Hp; intros sid m Hin; [| |auto].
  - apply in_messages_add in Hin as [Hin| ->].
    + apply in_messages_after_query in Hin. tauto.
    + right. right. apply bind_Ok_inv in Ebody as (out & _ & Ebody).
      destruct (final_response_cleaned svc json_dir fsys out body0 Ebody) as [raw ->]. eauto.
  - apply in_messages_after_query in Hin. tauto.
Qed.

Lemma post_extends req st resp st' :
  post svc idx json_dir fsys req st = (resp, st') -> store_extends st st'.
Proof.
  assert (Hq : store_extends st (if str_truthy (request_query req)
             then add_user_message (request_user req) (request_query req) st else st)).
  { destruct (str_truthy _); [apply add_message_extends | reflexivity]. }
  post_split; intros Hp; inv Hp; [| exact Hq | reflexivity].
  etrans; [exact Hq | apply add_message_extends].
Qed.

End Request.

Section Runs.
Variables (load : text -> load_result) (dumps : pyval -> text)
          (provider : text -> nat -> res text) (fuel : nat).

(** A run leaves the collection alone or appends the documents it made. *)
Lemma generate_vectordb_appends dir listing idx resp idx' :
  generate_vectordb load dumps provider fuel dir listing idx = Some (resp, idx') ->
  idx' = idx \/ exists docs, idx' = idx ++ docs /\
    process_files load dumps provider fuel (List.filter (ends_with json_suffix) listing) = Some (Ok docs).
Proof.
  unfold generate_vectordb. destruct (negb dir); [intros H; inv H; auto|].
  destruct (process_files _ _ _ _ _) as [[docs|e]|] eqn:E; intros H; try discriminate;
    [destruct docs|]; inv H; eauto.
Qed.

Lemma generate_vectordb_filed dir listing idx resp idx' :
  Forall filed_document idx ->
  generate_vectordb load dumps provider fuel dir listing idx = Some (resp, idx') ->
  Forall filed_document idx'.
Proof.
  intros Hidx Hg. destruct (generate_vectordb_appends _ _ _ _ _ Hg) as [->|(docs & -> & Hp)]; [exact Hidx|].
  apply Forall_app. split; [exact Hidx|].
  eapply Forall_impl; [exact (process_files_metadata _ _ _ _ _ _ Hp)|].
  intros d (f & t & Hf & Hm). apply filter_In in Hf. exists f, t. tauto.
Qed.

End Runs.

Lemma flat_search_In i q k d s : In (d, s) (flat_search i q k) -> In d (fi_docs i).
Proof.
  unfold flat_search. intros Hin. apply in_firstn, sort_by_score_In, in_map_iff in Hin.
  destruct Hin as (d' & E & Hd). inv E. exact Hd.
Qed.

(** ** Theorems *)

Section Invariant.
Variables (svc : services) (embed : text -> document -> Q) (json_dir : text) (fsys : file_system)
          (load : text -> load_result) (dumps : pyval -> text)
          (provider : text -> nat -> res text) (fuel : nat).

Abbreviation step := (step svc embed json_dir fsys load dumps provider fuel).
Abbreviation reachable := (reachable svc embed json_dir fsys load dumps provider fuel).

Lemma step_history_inv s e s' :
  ai_turns_cleaned (history s) /\ human_turns_nonempty (history s) -> step s e s' ->
  ai_turns_cleaned (history s') /\ human_turns_nonempty (history s').
Proof.
  intros [Hai Hhu] Hs. destruct Hs as [s req resp st' Hp|s dir listing resp idx' Hg]; [|split; assumption].
  pose proof (post_new_turns _ _ _ _ _ _ _ _ Hp) as Hn. cbn [history]. split.
  - intros sid m Hin. destruct (Hn sid _ Hin) as [Ho|[[E _]|[raw E]]];
      [exact (Hai _ _ Ho) | discriminate E | inv E; eauto].
  - intros sid q Hin. destruct (Hn sid _ Hin) as [Ho|[[E T]|[raw E]]];
      [exact (Hhu _ _ Ho) | inv E | discriminate E].
    intros Hq. rewrite Hq in T. discriminate T.
Qed.

Lemma reachable_collection_filed s : reachable s -> Forall filed_document (collection s).
Proof.
  induction 1 as [|s e s' _ IH Hs]; [constructor|].
  destruct Hs as [s req resp st' Hp|s dir listing resp idx' Hg]; [exact IH|].
  exact (generate_vectordb_filed _ _ _ _ _ _ _ _ _ IH Hg).
Qed.

(** C9: In every state a fresh deployment reaches, whatever the requests
    and ingestion runs, every assistant turn stored in any session is an
    output of [clean_text] (spec: text is normalised before it is stored in
    history), and every stored user turn is a non-empty query. *)
Theorem reachable_history_cleaned s :
  reachable s -> ai_turns_cleaned (history s) /\ human_turns_nonempty (history s).
Proof.
  induction 1 as [|s e s' _ IH Hs]; [|exact (step_history_inv _ _ _ IH Hs)].
  split; intros sid m Hin; cbn [initial history] in Hin; unfold messages in Hin;
    rewrite lookup_empty in Hin; destruct Hin.
Qed.

(** One request only extends the sessions and the collection: history
    is append-only and the collection is never replaced or shrunk. *)
Theorem step_grows s e s' :
  step s e s' -> store_extends (history s) (history s') /\ exists added, collection s' = collection s ++ added.
Proof.
  destruct 1 as [s req resp st' Hp|s dir listing resp idx' Hg]; cbn [history collection].
  - split; [exact (post_extends _ _ _ _ _ _ _ _ Hp)|]. exists []. by rewrite app_nil_r.
  - split; [reflexivity|].
    destruct (generate_vectordb_appends _ _ _ _ _ _ _ _ _ Hg) as [->|(docs & -> & _)]; [|eauto].
    exists []. by rewrite app_nil_r.
Qed.

(** C17: In every reachable state the search tool answers "no matches",
    the threshold rejection, or the metadata of an indexed guide (the name
    of a [*.json] file and its title) with the similarity score added. *)
Theorem reachable_search_answer s q :
  reachable s ->
  find_closest_match (live_index embed s) q = no_matches \/
  find_closest_match (live_index embed s) q = below_threshold \/
  exists f title score, ends_with json_suffix f = true /\
    find_closest_match (live_index embed s) q =
      PDict (dict_set similarity_key (PFloat score) (doc_metadata_of f title)).
Proof.
  intros Hr. pose proof (reachable_collection_filed s Hr) as Hcol.
  unfold find_closest_match.
  change (similarity_search_with_score (live_index embed s) q 1) with (flat_search (live_index embed s) q 1).
  destruct (flat_search (live_index embed s) q 1) as [|[d sc] rest] eqn:E; [left; reflexivity|].
  cbn [closest_match_of]. destruct (score_gt sc score_threshold); [right; left; reflexivity|].
  right; right.
  assert (Hd : In d (collection s))
    by (apply (flat_search_In (live_index embed s) q 1 d sc); rewrite E; left; reflexivity).
  rewrite List.Forall_forall in Hcol. destruct (Hcol d Hd) as (f & t & Hf & Hm).
  exists f, t, sc. split; [exact Hf|]. rewrite Hm. reflexivity.
Qed.

End Invariant.

(** ** Witnesses *)

Lemma demo_ingest_step : demo_step initial (GenerateVectorDBGet true demo_listing (Created 2)) demo_server1.
Proof. apply step_ingest. vm_compute. reflexivity. Qed.

Lemma demo_server1_reachable : demo_reachable demo_server1.
Proof. eapply reachable_step; [apply reachable_init | exact demo_ingest_step]. Qed.

Lemma demo_server2_reachable : demo_reachable demo_server2.
Proof.
  eapply reachable_step; [exact demo_server1_reachable|].
  apply (step_post _ _ _ _ _ _ _ _ demo_server1 demo_request (fst demo_post) (snd demo_post)).
  apply surjective_pairing.
Qed.

Lemma reachable_history_cleaned_witness :
  demo_reachable demo_server2 /\
  ai_turns_cleaned (history demo_server2) /\ human_turns_nonempty (history demo_server2).
Proof.
  split; [exact demo_server2_reachable|].
  exact (reachable_history_cleaned _ _ _ _ _ _ _ _ demo_server2 demo_server2_reachable).
Defined.

Lemma step_grows_witness :
  demo_step initial (GenerateVectorDBGet true demo_listing (Created 2)) demo_server1 /\
  store_extends (history initial) (history demo_server1) /\
  exists added, collection demo_server1 = collection initial ++ added.
Proof.
  split; [exact demo_ingest_step|].
  exact (step_grows _ _ _ _ _ _ _ _ _ _ _ demo_ingest_step).
Defined.

Lemma reachable_search_answer_witness :
  demo_reachable demo_server1 /\
  (find_closest_match (live_index demo_embed demo_server1) ⟪"LG washer OE"⟫ = no_matches \/
   find_closest_match (live_index demo_embed demo_server1) ⟪"LG washer OE"⟫ = below_threshold \/
   exists f title score, ends_with json_suffix f = true /\
     find_closest_match (live_index demo_embed demo_server1) ⟪"LG washer OE"⟫ =
       PDict (dict_set similarity_key (PFloat score) (doc_metadata_of f title))).
Proof.
  split; [exact demo_server1_reachable|].
  exact (reachable_search_answer _ _ _ _ _ _ _ _ demo_server1 _ demo_server1_reachable).
Defined.

End System.
