(* ===== verification/Concurrency.v ===== *)
(** * Concurrency: interleaved requests on the shared history and file

    Flask serves requests on threads, so [MainAgent.post] calls
    interleave.  A request works on Firestore in four phases, through its own
    [FirestoreChatMessageHistory] object ([History.chat_history]): it
    builds the object, which reads the session (agent.py lines 101-103,
    after the describers of lines 72-97); stores the query through it
    (lines 105-106), which writes the object's whole copy back; runs the
    agent, whose history tool reads the session afresh, and the second pass
    (lines 109-133); and stores the answer through the same object (line
    136).  [thread_step] is one of these phases, each atomic.  The agent
    phase is coarser than the code: each [get_chat_history] call of the
    run reads the session anew, while the model reads it once, at the
    start of the phase.  That phase writes nothing, and the theorems below
    hold whatever answer it gives, so they do not depend on when its
    reads happen.  A request is
    a thread in [TStart] that ends in [TAnswered] or [TFailed].  Running the
    phases back to back is exactly [post] ([thread_run_post]).  [run_pool]
    interleaves any number of threads along a schedule of thread indices,
    and [run_sched] two threads along a schedule of booleans, which is the
    pool of two ([run_pool_two]).

    The video describer (video_description.py lines 29-52) writes the fixed
    path ["temp_video.mp4"], asks the model, tests that the path exists and
    removes it; as a thread ([vthread_step]) it has three phases on the
    shared directory, and [run_vsched] interleaves two calls.  Inside a
    request thread the describers run within the first phase.

    Theorems: the phases run alone are [post] and [describe_video]
    ([thread_run_post], [vthread_run_describe_video]); requests of
    different users never mix their turns, for any number of requests and
    any schedule ([interleaving_users_separate]); two requests of one user
    that both build their object before either stores its query overwrite
    each other's turns, and the first request's query and answer are lost
    although it answered 200 ([interleaving_same_user]); yet under any
    interleaving of any requests, lost updates included, every turn left
    in the store is a non-empty query or a [clean_text] output and every
    answer returned is a [clean_text] output, the invariant of [System]
    carried over to threads ([interleaving_history_cleaned], through
    [store_clean] and [thread_clean]); an answered video
    call always answers on its own upload ([run_vsched_answers]); and two
    video calls interleaved phase by phase make the second raise
    [FileNotFoundError] from its [finally] ([video_race_raises]), although
    alone it answers. *)

From Stdlib Require Import List Ascii String Bool Lia.
From Stdlib Require Strings.Byte.
From stdpp Require Import base gmap strings list.
From S2P Require Import Prelude CleanText PyValue Search History Finalizer Base64 Agent Describers System.
Import ListNotations CleanText PyValue Search History Finalizer Base64 Agent Describers.
Open Scope fg_scope.

Module Concurrency.

(** Where a request thread is.  [TLoaded]: the media are described and
    the history object built (lines 72-103); [TQueried]: the query stored
    through it (lines 105-106); [TRan]: the agent and the second pass have
    answered (lines 109-133); [TAnswered]: the answer is stored (line 136).
    [TFailed stored]: the request answered 500, after storing its query or
    not. *)
Inductive tstate :=
| TStart
| TLoaded (inp : agent_input) (h : chat_history)
| TQueried (inp : agent_input) (h : chat_history)
| TRan (final : text) (h : chat_history)
| TAnswered (answer : text)
| TFailed (stored : bool).

Definition thread_response (ts : tstate) : option response :=
  match ts with
  | TAnswered a => Some (Respond200 a)
  | TFailed _ => Some Respond500
  | _ => None
  end.

Section Threads.
Context {I : Type} `{VectorIndex I}.
Variables (svc : services) (idx : I) (json_dir : text) (fsys : file_system).

(** The agent input of lines 109-116. *)
Definition request_input (req : request) (img aud vid : text) : agent_input :=
  {| ai_user_id := request_user req;
     ai_input := if str_truthy (request_query req) then request_query req else ⟪"No Query Provided"⟫;
     ai_image := img; ai_audio := aud; ai_video := vid |}.

(** One atomic phase of [post] on the shared store: describe the media
    and build [FirestoreChatMessageHistory],
    which reads the session (lines 72-103); store the query through the
    object (lines 105-106); run the agent and the second pass against the
    store as it is now (lines 109-133); store the answer through the
    object (line 136). *)
Definition thread_step (req : request) (ts : tstate) (st : store) : tstate * store :=
  match ts with
  | TStart =>
      match describe_all svc req with
      | Raise _ => (TFailed false, st)
      | Ok (img, aud, vid) =>
          (TLoaded (request_input req img aud vid) (load_history st (request_user req)), st)
      end
  | TLoaded inp h =>
      if str_truthy (request_query req)
      then let '(h', st') := ch_add h (HumanMessage (request_query req)) st in (TQueried inp h', st')
      else (TQueried inp h, st)
  | TQueried inp h =>
      match (let! out := agent_invoke svc idx st inp in final_response svc json_dir fsys out) with
      | Ok final => (TRan final h, st)
      | Raise _ => (TFailed (str_truthy (request_query req)), st)
      end
  | TRan final h => let '(_, st') := ch_add h (AIMessage final) st in (TAnswered final, st')
  | done => (done, st)
  end.

(** Two threads on one store, moved along a schedule: [true] moves the
    first, [false] the second. *)
Fixpoint run_sched (r1 r2 : request) (sched : list bool) (t1 t2 : tstate) (st : store)
    : tstate * tstate * store :=
  match sched with
  | [] => (t1, t2, st)
  | b :: sc =>
      if b then let '(t1', st') := thread_step r1 t1 st in run_sched r1 r2 sc t1' t2 st'
      else let '(t2', st') := thread_step r2 t2 st in run_sched r1 r2 sc t1 t2' st'
  end.

(** Any number of request threads on one store: the schedule lists the
    index of the thread that moves next; an index with no thread moves
    nothing. *)
Fixpoint run_pool (reqs : list request) (sched : list nat) (ts : list tstate) (st : store)
    : list tstate * store :=
  match sched with
  | [] => (ts, st)
  | i :: sc =>
      match reqs !! i, ts !! i with
      | Some r, Some t =>
          let '(t', st') := thread_step r t st in run_pool reqs sc (<[i := t']> ts) st'
      | _, _ => run_pool reqs sc ts st
      end
  end.

End Threads.

(** The turns a thread has stored so far in its user's session. *)
Definition thread_turns (req : request) (ts : tstate) : list message :=
  match ts with
  | TStart | TLoaded _ _ => []
  | TQueried _ _ | TRan _ _ => human_turn req
  | TAnswered a => human_turn req ++ [AIMessage a]
  | TFailed stored => if stored then human_turn req else []
  end.

(** A thread alone on its session: the session holds [old] and the
    thread's turns, and the thread's history object holds the same. *)
Definition thread_sync (req : request) (old : list message) (ts : tstate) (st : store) : Prop :=
  messages st (request_user req) = old ++ thread_turns req ts /\
  match ts with
  | TLoaded _ h | TQueried _ h | TRan _ h =>
      h = {| ch_session := request_user req; ch_messages := old ++ thread_turns req ts |}
  | _ => True
  end.

(** The pool invariant: every thread keeps its session in step, and the
    sessions of users with no thread are untouched. *)
Definition pool_sync (reqs : list request) (st0 : store) (ts : list tstate) (st : store) : Prop :=
  length ts = length reqs /\
  (forall i r t, reqs !! i = Some r -> ts !! i = Some t ->
     thread_sync r (messages st0 (request_user r)) t st) /\
  (forall sid, sid ∉ request_user <$> reqs -> messages st sid = messages st0 sid).

(** What a stored turn may be: a non-empty query or a [clean_text]
    output; a thread's object copy holds such turns, and the answer it
    holds or has returned is a [clean_text] output. *)
Definition turn_ok (m : message) : Prop :=
  match m with
  | HumanMessage q => q <> []
  | AIMessage a => exists raw, a = clean_text raw
  end.

Definition store_clean (st : store) : Prop := forall sid, Forall turn_ok (messages st sid).

Definition thread_clean (ts : tstate) : Prop :=
  match ts with
  | TLoaded _ h | TQueried _ h => Forall turn_ok (ch_messages h)
  | TRan final h => Forall turn_ok (ch_messages h) /\ exists raw, final = clean_text raw
  | TAnswered a => exists raw, a = clean_text raw
  | _ => True
  end.

(** ** Video requests on the shared directory *)

(** Where a call of [describe_video] is: [VWritten bs] after lines 32-44
    (the bytes written to ["temp_video.mp4"], the model set up);
    [VChecked answer present] after the model's answer and the
    [os.path.exists] test of line 51; [VDone r] once it has returned or
    raised. *)
Inductive vstate :=
| VStart
| VWritten (bs : list Byte.byte)
| VChecked (answer : text) (present : bool)
| VDone (r : res text).

(** One atomic phase of [describe_video] on the shared directory: lines
    32-44; lines 45-51 (the answer of the [try] and the existence test of
    the [finally]); line 52, whose [os.remove] raises [FileNotFoundError]
    when the file has gone since the test, and an exception raised in a
    [finally] replaces the value the [try] returned. *)
Definition vthread_step (ext : externals) (video : text) (vs : vstate) (fs : files) : vstate * files :=
  match vs with
  | VStart =>
      match b64decode video with
      | Raise e => (VDone (Raise e), fs)
      | Ok bs =>
          match write_file ext temp_path bs with
          | OpenFailed e => (VDone (Raise e), fs)
          | WriteFailed written e => (VDone (Raise e), set_file fs temp_path (Some written))
          | Written =>
              let fs1 := set_file fs temp_path (Some bs) in
              match video_prepare ext bs with
              | Raise e => (VDone (Raise e), fs1)
              | Ok _ => (VWritten bs, fs1)
              end
          end
      end
  | VWritten bs =>
      (VChecked (video_answer ext bs) (match fs temp_path with Some _ => true | None => false end), fs)
  | VChecked a present =>
      if present then
        match fs temp_path with
        | Some _ => (VDone (Ok a), set_file fs temp_path None)
        | None => (VDone (Raise FileNotFoundError), fs)
        end
      else (VDone (Ok a), fs)
  | VDone r => (VDone r, fs)
  end.

(** Two video calls on one directory, moved along a schedule. *)
Fixpoint run_vsched (ext : externals) (v1 v2 : text) (sched : list bool) (t1 t2 : vstate) (fs : files)
    : vstate * vstate * files :=
  match sched with
  | [] => (t1, t2, fs)
  | b :: sc =>
      if b then let '(t1', fs') := vthread_step ext v1 t1 fs in run_vsched ext v1 v2 sc t1' t2 fs'
      else let '(t2', fs') := vthread_step ext v2 t2 fs in run_vsched ext v1 v2 sc t1 t2' fs'
  end.

(** What a video thread's state says of its video: its bytes are the
    decoded upload and its answer is the model's answer on them. *)
Definition vthread_inv (ext : externals) (video : text) (vs : vstate) : Prop :=
  match vs with
  | VWritten bs => b64decode video = Ok bs
  | VChecked a _ | VDone (Ok a) => exists bs, b64decode video = Ok bs /\ a = video_answer ext bs
  | _ => True
  end.

(** ** Requests of the spec's scenario *)

(** A second request of user u42, sent before the first is answered. *)
Definition demo_followup : request := {|
  form_user_id := Some ⟪"u42"⟫;
  form_query := Some ⟪"it still shows OE"⟫;
  files_image := None; files_audio := None; files_video := None
|}.

(** A request of another user, u7. *)
Definition demo_other : request := {|
  form_user_id := Some ⟪"u7"⟫;
  form_query := Some ⟪"my dryer does not heat"⟫;
  files_image := None; files_audio := None; files_video := None
|}.

(** A request of a third user, without a query. *)
Definition demo_third : request := {|
  form_user_id := Some ⟪"u9"⟫;
  form_query := None;
  files_image := None; files_audio := None; files_video := None
|}.

Definition demo_answer : text := ⟪"Step 1: open the drain filter door."⟫.

(** ** Lemmas *)

Section Effects.
Context {I : Type} `{VectorIndex I}.
Variables (svc : services) (idx : I) (json_dir : text) (fsys : file_system).

Lemma human_turn_stored req : (if str_truthy (request_query req) then human_turn req else []) = human_turn req.
Proof. unfold human_turn. by destruct (str_truthy (request_query req)). Qed.

(** A thread alone on its session keeps it in step with its object, and
    writes no other session. *)
Lemma thread_step_sync req old ts st ts' st' :
  thread_sync req old ts st ->
  thread_step svc idx json_dir fsys req ts st = (ts', st') ->
  thread_sync req old ts' st' /\
  forall sid, sid <> request_user req -> messages st' sid = messages st sid.
Proof.
  intros [Hm Hh]. destruct ts as [|inp h|inp h|final h|a|b]; hnf in Hh; cbn [thread_turns] in Hh; cbn [thread_step]; intros E.
  - destruct (describe_all svc req) as [[[img aud] vid]|e]; inv E; (split; [|done]).
    + split; [exact Hm|]. unfold load_history. cbn. by rewrite Hm.
    + split; [exact Hm|exact Logic.I].
  - subst h. unfold thread_sync, thread_turns, human_turn in *.
    destruct (str_truthy (request_query req)).
    + rewrite ch_add_synced in E by (cbn; by rewrite Hm). inv E. cbn [ch_session].
      rewrite messages_add_same, Hm, List.app_nil_r. split; [split; reflexivity|].
      intros sid Hne. apply messages_add_other. congruence.
    + inv E. split; [split; [exact Hm|reflexivity]|done].
  - repeat case_match; inv E; (split; [split|done]); cbn [thread_turns] in *;
      rewrite ?human_turn_stored; done.
  - subst h. rewrite ch_add_synced in E by (cbn; by rewrite Hm). inv E. cbn [ch_session].
    split; [split; [|exact Logic.I]|].
    + cbn [thread_turns]. rewrite messages_add_same, Hm. by rewrite <- List.app_assoc.
    + intros sid Hne. apply messages_add_other. congruence.
  - inv E. done.
  - inv E. done.
Qed.

Lemma pool_sync_step reqs st0 ts st i r t t' st' :
  NoDup (request_user <$> reqs) -> pool_sync reqs st0 ts st ->
  reqs !! i = Some r -> ts !! i = Some t ->
  thread_step svc idx json_dir fsys r t st = (t', st') ->
  pool_sync reqs st0 (<[i := t']> ts) st'.
Proof.
  intros Hnd (Hlen & Hs & Ho) Hr Ht E.
  destruct (thread_step_sync r _ t st t' st' (Hs i r t Hr Ht) E) as [Hs' Hother].
  split; [by rewrite length_insert|]. split.
  - intros j rj tj Hrj Htj. destruct (decide (i = j)) as [<-|Hij].
    + rewrite list_lookup_insert_eq in Htj by (eapply lookup_lt_Some; eauto). simplify_eq. exact Hs'.
    + rewrite list_lookup_insert_ne in Htj by done.
      destruct (Hs j rj tj Hrj Htj) as [Hm Hh]. split; [|exact Hh].
      rewrite Hother; [exact Hm|]. intros Hu.
      apply Hij. eapply (NoDup_lookup (request_user <$> reqs)); [exact Hnd| |];
        rewrite list_lookup_fmap; [rewrite Hr|rewrite Hrj]; cbn; [reflexivity|by rewrite Hu].
  - intros sid Hsid. rewrite Hother; [by apply Ho|]. intros ->. apply Hsid.
    apply list_elem_of_fmap. exists r. split; [done|]. by eapply list_elem_of_lookup_2.
Qed.

Lemma run_pool_sync reqs sched st0 ts st :
  NoDup (request_user <$> reqs) -> pool_sync reqs st0 ts st ->
  pool_sync reqs st0 (run_pool svc idx json_dir fsys reqs sched ts st).1
                     (run_pool svc idx json_dir fsys reqs sched ts st).2.
Proof.
  intros Hnd. revert ts st. induction sched as [|i sc IH]; intros ts st Hp; [exact Hp|].
  cbn [run_pool]. destruct (reqs !! i) as [r|] eqn:Hr; [|by apply IH].
  destruct (ts !! i) as [t|] eqn:Ht; [|by apply IH].
  destruct (thread_step svc idx json_dir fsys r t st) as [t' st'] eqn:E.
  apply IH. by eapply pool_sync_step.
Qed.

Lemma run_pool_cons reqs i sc ts st r t :
  reqs !! i = Some r -> ts !! i = Some t ->
  run_pool svc idx json_dir fsys reqs (i :: sc) ts st =
  let '(t', st') := thread_step svc idx json_dir fsys r t st in
  run_pool svc idx json_dir fsys reqs sc (<[i := t']> ts) st'.
Proof. intros Hr Ht. cbn [run_pool]. by rewrite Hr, Ht. Qed.

(** Two threads moved by [run_sched] are the pool of two moved by the
    schedule's indices. *)
Lemma run_pool_two r1 r2 sched t1 t2 st :
  run_pool svc idx json_dir fsys [r1; r2] (map (fun b : bool => if b then 0%nat else 1%nat) sched) [t1; t2] st =
  let '(t1', t2', st') := run_sched svc idx json_dir fsys r1 r2 sched t1 t2 st in ([t1'; t2'], st').
Proof.
  revert t1 t2 st. induction sched as [|b sc IH]; intros t1 t2 st; [reflexivity|].
  destruct b; cbn [map run_sched].
  - rewrite (run_pool_cons _ 0 _ _ _ r1 t1) by reflexivity.
    destruct (thread_step svc idx json_dir fsys r1 t1 st) as [t1' st']. exact (IH t1' t2 st').
  - rewrite (run_pool_cons _ 1 _ _ _ r2 t2) by reflexivity.
    destruct (thread_step svc idx json_dir fsys r2 t2 st) as [t2' st']. exact (IH t1 t2' st').
Qed.

(** The outcomes of the phases that call a collaborator. *)
Lemma thread_step_cases req ts st :
  match ts with
  | TStart =>
      thread_step svc idx json_dir fsys req TStart st = (TFailed false, st) \/
      exists inp, thread_step svc idx json_dir fsys req TStart st =
        (TLoaded inp (load_history st (request_user req)), st)
  | TLoaded inp h =>
      thread_step svc idx json_dir fsys req ts st =
        if str_truthy (request_query req)
        then (TQueried inp (fst (ch_add h (HumanMessage (request_query req)) st)),
              snd (ch_add h (HumanMessage (request_query req)) st))
        else (TQueried inp h, st)
  | TQueried inp h =>
      thread_step svc idx json_dir fsys req ts st = (TFailed (str_truthy (request_query req)), st) \/
      exists a, thread_step svc idx json_dir fsys req ts st = (TRan a h, st)
  | TRan final h =>
      thread_step svc idx json_dir fsys req ts st = (TAnswered final, snd (ch_add h (AIMessage final) st))
  | _ => thread_step svc idx json_dir fsys req ts st = (ts, st)
  end.
Proof.
  destruct ts as [|inp h|inp h|final h|a|b]; cbn [thread_step]; try reflexivity.
  - destruct (describe_all svc req) as [[[img aud] vid]|e]; [right; eauto | left; reflexivity].
  - repeat case_match; first [left; reflexivity | right; eexists; reflexivity].
Qed.

(** The clean-store invariant is the two invariants of [System]. *)
Lemma store_clean_iff st :
  store_clean st <-> System.ai_turns_cleaned st /\ System.human_turns_nonempty st.
Proof.
  split.
  - intros Hs. split; intros sid m Hin; exact (proj1 (List.Forall_forall _ _) (Hs sid) _ Hin).
  - intros [Ha Hh] sid. apply List.Forall_forall. intros [q|a] Hin; [exact (Hh _ _ Hin)|exact (Ha _ _ Hin)].
Qed.

(** Writing back a copy of good turns, plus a good turn, keeps the store
    clean, stale copy or not. *)
Lemma store_clean_ch_add h m st :
  store_clean st -> Forall turn_ok (ch_messages h) -> turn_ok m ->
  store_clean (snd (ch_add h m st)) /\ Forall turn_ok (ch_messages (fst (ch_add h m st))).
Proof.
  intros Hs Hh Hm. unfold ch_add. cbn [fst snd ch_messages].
  assert (Hl : forall l, Forall turn_ok l -> Forall turn_ok (l ++ [m])) by (intros; apply Forall_app; auto).
  split; [|apply Hl; first [exact Hh | apply Hs]]. intros sid. unfold messages.
  destruct (decide (ch_session h = sid)) as [<-|Hne];
    [rewrite lookup_insert_eq; apply Hl; first [exact Hh | apply Hs] | rewrite lookup_insert_ne by done; apply Hs].
Qed.

Lemma thread_step_clean req ts st ts' st' :
  store_clean st -> thread_clean ts ->
  thread_step svc idx json_dir fsys req ts st = (ts', st') ->
  store_clean st' /\ thread_clean ts'.
Proof.
  intros Hs Ht. destruct ts as [|inp h|inp h|final h|a|b]; cbn [thread_step]; intros E.
  - destruct (describe_all svc req) as [[[img aud] vid]|e]; inv E; split; try exact Hs; [apply Hs|exact Logic.I].
  - destruct (str_truthy (request_query req)) eqn:Q; [|inv E; split; assumption].
    assert (Hq : turn_ok (HumanMessage (request_query req))) by (cbn; intros Z; rewrite Z in Q; discriminate).
    destruct (store_clean_ch_add h _ st Hs Ht Hq) as [H1 H2].
    destruct (ch_add h _ st). inv E. split; assumption.
  - destruct (let! out := agent_invoke svc idx st inp in final_response svc json_dir fsys out)
      as [final|e] eqn:F; inv E; split; try exact Hs; [|exact Logic.I].
    split; [exact Ht|]. apply bind_Ok_inv in F as (out & _ & F).
    exact (final_response_cleaned svc json_dir fsys out final F).
  - destruct Ht as [Hh Hf]. destruct (store_clean_ch_add h (AIMessage final) st Hs Hh Hf) as [H1 _].
    destruct (ch_add h _ st). inv E. split; assumption.
  - inv E. split; assumption.
  - inv E. split; assumption.
Qed.

Lemma run_pool_clean reqs sched ts st :
  store_clean st -> Forall thread_clean ts ->
  store_clean (run_pool svc idx json_dir fsys reqs sched ts st).2 /\
  Forall thread_clean (run_pool svc idx json_dir fsys reqs sched ts st).1.
Proof.
  revert ts st. induction sched as [|i sc IH]; intros ts st Hs Ht; [split; assumption|].
  cbn [run_pool]. destruct (reqs !! i) as [r|]; [|by apply IH].
  destruct (ts !! i) as [t|] eqn:Hti; [|by apply IH].
  destruct (thread_step svc idx json_dir fsys r t st) as [t' st'] eqn:E.
  destruct (thread_step_clean r t st t' st' Hs (Forall_lookup_1 _ _ _ _ Ht Hti) E) as [Hs' Ht'].
  apply IH; [exact Hs'|]. by apply Forall_insert.
Qed.

End Effects.


(** ** Lemmas on video threads *)

Lemma vthread_step_inv ext v vs fs :
  vthread_inv ext v vs -> vthread_inv ext v (fst (vthread_step ext v vs fs)).
Proof.
  destruct vs as [|bs|a present|[a|e]]; cbn [vthread_step vthread_inv fst]; intros Hi.
  - destruct (b64decode v) as [bs|e] eqn:D; [|exact Logic.I].
    destruct (write_file ext temp_path bs); cbn [fst vthread_inv]; try exact Logic.I.
    destruct (video_prepare ext bs); exact D || exact Logic.I.
  - eauto.
  - destruct present; [destruct (fs temp_path)|]; cbn [fst vthread_inv]; eauto.
  - exact Hi.
  - exact Logic.I.
Qed.

Lemma run_vsched_inv ext v1 v2 sched t1 t2 fs :
  vthread_inv ext v1 t1 -> vthread_inv ext v2 t2 ->
  let '(t1', t2', _) := run_vsched ext v1 v2 sched t1 t2 fs in
  vthread_inv ext v1 t1' /\ vthread_inv ext v2 t2'.
Proof.
  revert t1 t2 fs. induction sched as [|b sc IH]; intros t1 t2 fs H1 H2; [split; assumption|].
  cbn [run_vsched]. destruct b.
  - pose proof (vthread_step_inv ext v1 t1 fs H1) as H.
    destruct (vthread_step ext v1 t1 fs). by apply IH.
  - pose proof (vthread_step_inv ext v2 t2 fs H2) as H.
    destruct (vthread_step ext v2 t2 fs). by apply IH.
Qed.

(** Take one step of a concrete schedule, on every outcome of the phase. *)
Ltac sched_step svc idx json_dir fsys :=
  match goal with
  | |- context [thread_step _ _ _ _ ?r TStart ?st] =>
      let E := fresh "E" in let x := fresh "x" in
      destruct (thread_step_cases svc idx json_dir fsys r TStart st) as [E|(x & E)]; rewrite E; cbn [run_sched]
  | |- context [thread_step _ _ _ _ ?r (TQueried ?i ?h) ?st] =>
      let E := fresh "E" in let x := fresh "x" in
      destruct (thread_step_cases svc idx json_dir fsys r (TQueried i h) st) as [E|(x & E)]; rewrite E; cbn [run_sched]
  | |- context [thread_step _ _ _ _ ?r ?t ?st] =>
      rewrite (thread_step_cases svc idx json_dir fsys r t st); cbn [run_sched]
  end.

(** ** Theorems *)

Section Requests.
Context {I : Type} `{VectorIndex I}.
Variables (svc : services) (idx : I) (json_dir : text) (fsys : file_system).

(** The four phases run back to back are exactly [post]: same answer,
    same history. *)
Theorem thread_run_post req st :
  let '(t1, st1) := thread_step svc idx json_dir fsys req TStart st in
  let '(t2, st2) := thread_step svc idx json_dir fsys req t1 st1 in
  let '(t3, st3) := thread_step svc idx json_dir fsys req t2 st2 in
  let '(t4, st4) := thread_step svc idx json_dir fsys req t3 st3 in
  thread_response t4 = Some (fst (post svc idx json_dir fsys req st)) /\
  st4 = snd (post svc idx json_dir fsys req st).
Proof.
  unfold post. cbn [thread_step]. destruct (describe_all svc req) as [[[img aud] vid]|e]; [|split; reflexivity].
  cbn [thread_step]. unfold request_input, add_user_message, add_ai_message.
  destruct (str_truthy (request_query req)); [rewrite ch_add_load|]; cbn [thread_step];
    (destruct (let! out := agent_invoke svc idx _ _ in final_response svc json_dir fsys out);
     cbn [thread_step]; [rewrite ch_add_load|]; split; reflexivity).
Qed.

(** C33: Requests of any number of different users, interleaved along
    any schedule, never mix their turns: each user's session ends with its
    old turns followed by its own request's query and answer, and the
    sessions of users without a request are untouched. *)
Theorem interleaving_users_separate reqs sched st :
  NoDup (request_user <$> reqs) ->
  let '(ts, st') := run_pool svc idx json_dir fsys reqs sched (replicate (length reqs) TStart) st in
  (forall i r t, reqs !! i = Some r -> ts !! i = Some t ->
     messages st' (request_user r) = messages st (request_user r) ++ thread_turns r t) /\
  (forall sid, sid ∉ request_user <$> reqs -> messages st' sid = messages st sid).
Proof.
  intros Hnd.
  assert (H0 : pool_sync reqs st (replicate (length reqs) TStart) st).
  { split; [by rewrite length_replicate|]. split; [|done].
    intros i r t _ Ht. apply lookup_replicate in Ht as [-> _].
    split; [by rewrite List.app_nil_r|exact Logic.I]. }
  pose proof (run_pool_sync svc idx json_dir fsys reqs sched st _ st Hnd H0) as Hp.
  destruct (run_pool svc idx json_dir fsys reqs sched (replicate (length reqs) TStart) st) as [ts st'].
  destruct Hp as (_ & Hs & Ho). split; [|exact Ho].
  intros i r t Hr Ht. exact (proj1 (Hs i r t Hr Ht)).
Qed.

(** C34: Two requests of one user with non-empty queries, interleaved so
    that both build their history object before either stores its query:
    each [add_message] writes back its object's stale copy, so both
    answer 200 but the session keeps only the second request's query and
    answer; the first request's turns are lost. *)
Theorem interleaving_same_user r1 r2 st a1 a2 st' :
  request_user r2 = request_user r1 ->
  str_truthy (request_query r1) = true -> str_truthy (request_query r2) = true ->
  run_sched svc idx json_dir fsys r1 r2 [true; false; true; false; true; true; false; false]
    TStart TStart st = (TAnswered a1, TAnswered a2, st') ->
  messages st' (request_user r1) =
    messages st (request_user r1) ++ [HumanMessage (request_query r2); AIMessage a2].
Proof.
  intros Hu Hq1 Hq2. cbn [run_sched].
  repeat (sched_step svc idx json_dir fsys; rewrite ?Hq1, ?Hq2); intros Hr; inv Hr.
  unfold ch_add, load_history, messages at 1. cbn. rewrite Hu, lookup_insert_eq. cbn.
  by rewrite <- List.app_assoc.
Qed.

(** C35: Requests of any users, the same user included, interleaved along any
    schedule: even where a stale copy overwrites turns, every turn left
    in any session is a non-empty query or a [clean_text] output, and
    every answer a thread has returned is a [clean_text] output. *)
Theorem interleaving_history_cleaned reqs sched st :
  System.ai_turns_cleaned st -> System.human_turns_nonempty st ->
  let '(ts, st') := run_pool svc idx json_dir fsys reqs sched (replicate (length reqs) TStart) st in
  System.ai_turns_cleaned st' /\ System.human_turns_nonempty st' /\
  (forall i a, ts !! i = Some (TAnswered a) -> exists raw, a = clean_text raw).
Proof.
  intros Ha Hh.
  destruct (run_pool_clean svc idx json_dir fsys reqs sched (replicate (length reqs) TStart) st
              (proj2 (store_clean_iff st) (conj Ha Hh)) (Forall_replicate _ _ TStart Logic.I)) as [Hs Ht].
  destruct (run_pool svc idx json_dir fsys reqs sched (replicate (length reqs) TStart) st) as [ts st'].
  apply store_clean_iff in Hs as [Ha' Hh']. split; [exact Ha'|]. split; [exact Hh'|].
  intros i a Hi. exact (Forall_lookup_1 _ _ _ _ Ht Hi).
Qed.

End Requests.

(** ** Video requests *)

(** Run alone, the three phases of a video thread are exactly
    [describe_video]: the same answer or exception, the same directory. *)
Theorem vthread_run_describe_video ext v fs :
  let '(a, fs1) := vthread_step ext v VStart fs in
  let '(b, fs2) := vthread_step ext v a fs1 in
  let '(c, fs3) := vthread_step ext v b fs2 in
  c = VDone (fst (describe_video ext v fs)) /\ fs3 = snd (describe_video ext v fs).
Proof.
  unfold describe_video. cbn [vthread_step].
  destruct (b64decode v) as [bs|e]; [|split; reflexivity].
  destruct (write_file ext temp_path bs); cbn [vthread_step]; [|split; reflexivity..].
  destruct (video_prepare ext bs); cbn [vthread_step]; [|split; reflexivity].
  unfold remove_temp. rewrite !set_file_same. split; reflexivity.
Qed.

(** C36: Under any interleaving, a video call that returns an answer returns
    the model's answer on its own upload: the file other requests write
    over is never read back. *)
Theorem run_vsched_answers ext v1 v2 sched fs :
  let '(t1, t2, _) := run_vsched ext v1 v2 sched VStart VStart fs in
  (forall a, t1 = VDone (Ok a) -> exists bs, b64decode v1 = Ok bs /\ a = video_answer ext bs) /\
  (forall a, t2 = VDone (Ok a) -> exists bs, b64decode v2 = Ok bs /\ a = video_answer ext bs).
Proof.
  pose proof (run_vsched_inv ext v1 v2 sched VStart VStart fs Logic.I Logic.I) as Hi.
  destruct (run_vsched ext v1 v2 sched VStart VStart fs) as [[t1 t2] fs'].
  destruct Hi as [H1 H2]. split; intros a ->; assumption.
Qed.

(** C32: Two video calls whose uploads decode and are written, interleaved
    phase by phase: both find ["temp_video.mp4"] present, the first
    removes it, and the second's [os.remove] raises [FileNotFoundError],
    which replaces its answer; each call alone answers. *)
Theorem video_race_raises ext v1 v2 fs bs1 bs2 :
  b64decode v1 = Ok bs1 -> b64decode v2 = Ok bs2 ->
  write_file ext temp_path bs1 = Written -> write_file ext temp_path bs2 = Written ->
  video_prepare ext bs1 = Ok tt -> video_prepare ext bs2 = Ok tt ->
  fst (describe_video ext v2 fs) = Ok (video_answer ext bs2) /\
  exists fs', run_vsched ext v1 v2 [true; false; true; false; true; false] VStart VStart fs =
    (VDone (Ok (video_answer ext bs1)), VDone (Raise FileNotFoundError), fs') /\
    fs' temp_path = None.
Proof.
  intros D1 D2 W1 W2 P1 P2. split; [unfold describe_video; by rewrite D2, W2, P2|].
  cbn [run_vsched vthread_step]. rewrite D1, W1, P1. cbn [vthread_step].
  rewrite D2, W2, P2. cbn [vthread_step]. rewrite !set_file_same. cbn [vthread_step].
  eexists. split; [reflexivity|]. apply set_file_same.
Qed.

(** ** Witnesses *)

Lemma interleaving_users_separate_witness :
  NoDup (request_user <$> [demo_request; demo_other; demo_third]) /\
  let '(ts, st') := run_pool (demo_services false) demo_index demo_dir demo_fs
                      [demo_request; demo_other; demo_third] [0; 1; 2; 0; 2; 1; 0; 1; 2; 2]%nat
                      (replicate 3 TStart) ∅ in
  (forall i r t, [demo_request; demo_other; demo_third] !! i = Some r -> ts !! i = Some t ->
     messages st' (request_user r) = messages ∅ (request_user r) ++ thread_turns r t) /\
  (forall sid, sid ∉ request_user <$> [demo_request; demo_other; demo_third] ->
     messages st' sid = messages ∅ sid).
Proof.
  assert (Hnd : NoDup (request_user <$> [demo_request; demo_other; demo_third]))
    by (apply (bool_decide_unpack _); vm_compute; reflexivity).
  split; [exact Hnd|].
  exact (interleaving_users_separate (demo_services false) demo_index demo_dir demo_fs
           [demo_request; demo_other; demo_third] [0; 1; 2; 0; 2; 1; 0; 1; 2; 2]%nat ∅ Hnd).
Defined.

Lemma interleaving_same_user_witness :
  let run := run_sched (demo_services false) demo_index demo_dir demo_fs
               demo_request demo_followup [true; false; true; false; true; true; false; false]
               TStart TStart ∅ in
  run = (TAnswered demo_answer, TAnswered demo_answer, snd run) /\
  messages (snd run) (request_user demo_request) =
    messages ∅ (request_user demo_request) ++
    [HumanMessage (request_query demo_followup); AIMessage demo_answer].
Proof.
  intros run.
  assert (E : run = (TAnswered demo_answer, TAnswered demo_answer, snd run)) by (vm_compute; reflexivity).
  split; [exact E|].
  exact (interleaving_same_user (demo_services false) demo_index demo_dir demo_fs
           demo_request demo_followup ∅ demo_answer demo_answer (snd run)
           eq_refl eq_refl eq_refl E).
Defined.

Lemma video_race_raises_witness :
  b64decode (Base64.b64encode [Byte.x00]) = Ok [Byte.x00] /\ b64decode (Base64.b64encode [Byte.x01]) = Ok [Byte.x01] /\
  fst (describe_video demo_ext (Base64.b64encode [Byte.x01]) demo_files) = Ok (video_answer demo_ext [Byte.x01]) /\
  exists fs', run_vsched demo_ext (Base64.b64encode [Byte.x00]) (Base64.b64encode [Byte.x01])
                [true; false; true; false; true; false] VStart VStart demo_files =
    (VDone (Ok (video_answer demo_ext [Byte.x00])), VDone (Raise FileNotFoundError), fs') /\
    fs' temp_path = None.
Proof.
  assert (D1 : b64decode (Base64.b64encode [Byte.x00]) = Ok [Byte.x00]) by (vm_compute; reflexivity).
  assert (D2 : b64decode (Base64.b64encode [Byte.x01]) = Ok [Byte.x01]) by (vm_compute; reflexivity).
  split; [exact D1|]. split; [exact D2|].
  exact (video_race_raises demo_ext _ _ demo_files [Byte.x00] [Byte.x01] D1 D2 eq_refl eq_refl eq_refl eq_refl).
Defined.

Lemma interleaving_history_cleaned_witness :
  System.ai_turns_cleaned ∅ /\ System.human_turns_nonempty ∅ /\
  let '(ts, st') := run_pool (demo_services false) demo_index demo_dir demo_fs
                      [demo_request; demo_followup; demo_other] [0; 1; 0; 1; 2; 0; 0; 1; 1; 2; 2; 2]%nat
                      (replicate 3 TStart) ∅ in
  System.ai_turns_cleaned st' /\ System.human_turns_nonempty st' /\
  (forall i a, ts !! i = Some (TAnswered a) -> exists raw, a = clean_text raw).
Proof.
  assert (Ha : System.ai_turns_cleaned ∅) by (intros sid m Hin; vm_compute in Hin; destruct Hin).
  assert (Hh : System.human_turns_nonempty ∅) by (intros sid m Hin; vm_compute in Hin; destruct Hin).
  split; [exact Ha|]. split; [exact Hh|].
  exact (interleaving_history_cleaned (demo_services false) demo_index demo_dir demo_fs
           [demo_request; demo_followup; demo_other] [0; 1; 0; 1; 2; 0; 0; 1; 1; 2; 2; 2]%nat ∅ Ha Hh).
Defined.

End Concurrency.
