(* ===== verification/App.v ===== *)
(** * App: the Flask application, its URL map and request dispatch

    run.py builds the application ([app = Flask(__name__)], line 15),
    registers on it the flask-restful [Api] that api/__init__.py creates
    (line 5) with [api.init_app(app)] (line 18), and enables CORS (line
    21).  The api package imports agent.py and vectordb_generator.py (line
    14), whose last lines register the two resources: [MainAgent] on
    ["/main_agent"] (agent.py line 150) and [GenerateVectorDB] on
    ["/generate_vectordb"] (vectordb_generator.py line 158).  Flask adds
    its own rule ["/static/<path:filename>"], served from a [static]
    folder next to run.py, which the repository does not have.

    A request is routed as Werkzeug and Flask do it: the path selects a
    rule or answers 404; a method the rule does not allow answers 405; a
    rule's methods are its view's, with [HEAD] added where there is [GET]
    and [OPTIONS] always added, which Flask answers itself.  The view of a
    resource is flask-restful's [Resource.dispatch_request]: the method of
    the class named after the request's method, or [get] for a [HEAD].  So
    [HEAD /generate_vectordb] runs the whole ingestion, as [GET] does.

    [serve] answers one request on the service state of [System]: the
    view that runs is [Agent.post] or [Ingestion.generate_vectordb], and
    nothing else changes the state.  Paths are taken as Werkzeug matches
    them: a path with an empty segment ([//]) is redirected or refused
    before any view runs.

    Theorems: the states a fresh deployment reaches by HTTP requests of any
    method on any path are exactly the [System.reachable] states, so the
    invariants of [System] hold of the application ([http_reachable_iff]);
    only [POST /main_agent] and [GET] or [HEAD /generate_vectordb] reach a
    view, and every other request leaves the state alone ([serve_routes]).

    Not modelled: the CORS headers of line 21 and the bodies of Flask's
    error pages (no state depends on them); [app.run] (lines 23-28) starts
    the server, threaded by default, which [Concurrency] models. *)

From Stdlib Require Import List Ascii String Bool QArith.
From stdpp Require Import base gmap strings list.
From S2P Require Import Prelude CleanText PyValue Search History Finalizer Agent Ingestion System.
Import ListNotations CleanText PyValue Search History Finalizer Agent Ingestion System.
Open Scope fg_scope.

Module App.

(** ** Requests and routes *)

Inductive http_method :=
| GET | HEAD | POST | PUT | PATCH | DELETE | OPTIONS
| OtherMethod (name : text).

#[export] Instance http_method_eq_dec : EqDecision http_method.
Proof. solve_decision. Defined.

(** The views of the URL map. *)
Inductive endpoint := MainAgentView | GenerateVectorDBView | StaticView.

(** The methods a view serves: those its class defines ([MainAgent.post],
    [GenerateVectorDB.get]); Flask's static view is registered for [GET]. *)
Definition resource_methods (e : endpoint) : list http_method :=
  match e with
  | MainAgentView => [POST]
  | GenerateVectorDBView => [GET]
  | StaticView => [GET]
  end.

(** [Rule.methods]: Werkzeug adds [HEAD] to a rule with [GET], Flask adds
    [OPTIONS] ([provide_automatic_options]). *)
Definition rule_methods (e : endpoint) : list http_method :=
  resource_methods e ++ (if decide (GET ∈ resource_methods e) then [HEAD] else []) ++ [OPTIONS].

Definition static_url_path : text := ⟪"/static/"⟫.
Definition main_agent_path : text := ⟪"/main_agent"⟫.
Definition generate_vectordb_path : text := ⟪"/generate_vectordb"⟫.

(** The rules [api.add_resource] registers, in the order the api package
    imports their modules. *)
Definition url_rules : list (text * endpoint) :=
  [(main_agent_path, MainAgentView); (generate_vectordb_path, GenerateVectorDBView)].

Fixpoint lookup_rule (rules : list (text * endpoint)) (path : text) : option endpoint :=
  match rules with
  | [] => None
  | (p, e) :: r => if decide (p = path) then Some e else lookup_rule r path
  end.

(** The rule a path matches: ["/static/"] then a file name that does not
    start with a slash ([<path:filename>]), or one of the resources' paths
    exactly (a trailing slash matches none). *)
Definition match_path (path : text) : option endpoint :=
  match strip_prefix static_url_path path with
  | Some (c :: _) => if Ascii.eqb c "/" then lookup_rule url_rules path else Some StaticView
  | _ => lookup_rule url_rules path
  end.

(** A path as Werkzeug matches it: no empty segment. *)
Fixpoint canonical (path : text) : bool :=
  match path with
  | c :: ((d :: _) as r) => negb (Ascii.eqb c "/" && Ascii.eqb d "/") && canonical r
  | _ => true
  end.

Inductive route_result :=
| Matched (e : endpoint)
| NotFound
| MethodNotAllowed (allowed : list http_method)
| AutoOptions (allowed : list http_method).

(** [MapAdapter.match] and Flask's [dispatch_request]. *)
Definition route (m : http_method) (path : text) : route_result :=
  match match_path path with
  | None => NotFound
  | Some e =>
      if decide (m ∈ rule_methods e) then
        if decide (m = OPTIONS) then AutoOptions (rule_methods e) else Matched e
      else MethodNotAllowed (rule_methods e)
  end.

(** flask-restful's [Resource.dispatch_request]: the class's method named
    after the request's, or [get] for a [HEAD] request. *)
Definition resource_handler (e : endpoint) (m : http_method) : option http_method :=
  if decide (m ∈ resource_methods e) then Some m
  else if decide (m = HEAD) then (if decide (GET ∈ resource_methods e) then Some GET else None)
  else None.

(** ** Serving *)

(** A request: method, path, and the form and files [MainAgent.post]
    reads. *)
Record http_request := {
  http_verb : http_method;
  http_path : text;
  http_form : request
}.

Inductive http_response :=
| AgentResponse (r : response)              (** [MainAgent.post]'s answer *)
| VectorDBResponse (r : vectordb_response)  (** [GenerateVectorDB.get]'s answer *)
| NotFound404
| MethodNotAllowed405 (allowed : list http_method)
| Options200 (allowed : list http_method)
| NoView                                     (** redirect or 404 of a non-canonical path *)
| ServerError500.                            (** flask-restful's [assert meth is not None] *)

Section Serve.
Variables (svc : services) (embed : text -> document -> Q) (json_dir : text) (fsys : file_system)
          (load : text -> load_result) (dumps : pyval -> text)
          (provider : text -> nat -> res text) (fuel : nat).

(** One request on the service state; [env] is the [clean_data] directory
    as the ingestion finds it ([os.path.exists], [os.listdir]).  [None]:
    the ingestion's summary loop never returns. *)
Definition serve (env : bool * list text) (hr : http_request) (s : server)
    : option (http_response * server) :=
  if negb (canonical (http_path hr)) then Some (NoView, s) else
  match route (http_verb hr) (http_path hr) with
  | NotFound => Some (NotFound404, s)
  | MethodNotAllowed a => Some (MethodNotAllowed405 a, s)
  | AutoOptions a => Some (Options200 a, s)
  | Matched StaticView => Some (NotFound404, s)
  | Matched e =>
      match e, resource_handler e (http_verb hr) with
      | MainAgentView, Some POST =>
          let '(resp, st') := post svc (live_index embed s) json_dir fsys (http_form hr) (history s) in
          Some (AgentResponse resp, {| history := st'; collection := collection s |})
      | GenerateVectorDBView, Some GET =>
          match generate_vectordb load dumps provider fuel (fst env) (snd env) (collection s) with
          | Some (resp, idx') => Some (VectorDBResponse resp, {| history := history s; collection := idx' |})
          | None => None
          end
      | _, _ => Some (ServerError500, s)
      end
  end.

(** The states a fresh deployment reaches by HTTP requests. *)
Inductive http_reachable : server -> Prop :=
| http_reachable_init : http_reachable initial
| http_reachable_serve s env hr r s' :
    http_reachable s -> serve env hr s = Some (r, s') -> http_reachable s'.

End Serve.

(** Whether a view of the program answered. *)
Definition view_ran (r : http_response) : bool :=
  match r with AgentResponse _ | VectorDBResponse _ => true | _ => false end.

(** The answer a view gives for a step of [System]. *)
Definition event_response (e : event) : http_response :=
  match e with
  | MainAgentPost _ resp => AgentResponse resp
  | GenerateVectorDBGet _ _ resp => VectorDBResponse resp
  end.

(** The request that makes a step of [System]. *)
Definition event_request (e : event) : http_request :=
  match e with
  | MainAgentPost req _ => {| http_verb := POST; http_path := main_agent_path; http_form := req |}
  | GenerateVectorDBGet _ _ _ =>
      {| http_verb := GET; http_path := generate_vectordb_path; http_form := demo_request |}
  end.

Definition event_env (e : event) : bool * list text :=
  match e with
  | MainAgentPost _ _ => (false, [])
  | GenerateVectorDBGet d l _ => (d, l)
  end.

(** ** Lemmas *)

Lemma lookup_rule_in rules p e : lookup_rule rules p = Some e -> In (p, e) rules.
Proof.
  induction rules as [|[p' e'] r IH]; cbn; [discriminate|].
  case_decide as E; [intros Hs; inv Hs; left; reflexivity | intros Hs; right; auto].
Qed.

(** A resource's view is reached only by a path of its rule. *)
Lemma match_path_rule p e : match_path p = Some e -> e <> StaticView -> In (p, e) url_rules.
Proof.
  unfold match_path. intros H Hs.
  destruct (strip_prefix static_url_path p) as [[|c r]|]; [| destruct (Ascii.eqb c "/")|];
    first [by apply lookup_rule_in | by inv H].
Qed.

Lemma route_matched m p e :
  route m p = Matched e -> match_path p = Some e /\ m ∈ rule_methods e.
Proof. unfold route. destruct (match_path p); [|discriminate]. repeat case_decide; intros Hr; inv Hr; auto. Qed.

Lemma resource_handler_cases e m m' :
  resource_handler e m = Some m' -> m' ∈ resource_methods e /\ (m = m' \/ (m = HEAD /\ m' = GET)).
Proof. unfold resource_handler. repeat case_decide; intros Hr; inv Hr; auto. Qed.

Section Refinement.
Variables (svc : services) (embed : text -> document -> Q) (json_dir : text) (fsys : file_system)
          (load : text -> load_result) (dumps : pyval -> text)
          (provider : text -> nat -> res text) (fuel : nat).

Abbreviation serve := (serve svc embed json_dir fsys load dumps provider fuel).
Abbreviation step := (System.step svc embed json_dir fsys load dumps provider fuel).

(** A request either runs no view and leaves the state alone, or makes a
    step of [System] whose answer it returns. *)
Lemma serve_step env hr s r s' :
  serve env hr s = Some (r, s') ->
  (view_ran r = false /\ s' = s) \/ (exists e, step s e s' /\ r = event_response e).
Proof.
  unfold App.serve. repeat case_match; intros Hs; inv Hs; try (left; split; reflexivity).
  - right. eexists (MainAgentPost _ _). split; [by constructor|reflexivity].
  - right. eexists (GenerateVectorDBGet _ _ _). split; [by constructor|reflexivity].
Qed.

(** Every step of [System] is the answer to one request. *)
Lemma step_serve s e s' :
  step s e s' -> serve (event_env e) (event_request e) s = Some (event_response e, s').
Proof.
  destruct 1 as [s req resp st' Hp|s dir listing resp idx' Hg]; unfold App.serve; cbn -[post generate_vectordb].
  - by rewrite Hp.
  - by rewrite Hg.
Qed.

End Refinement.

(** ** Theorems *)

Section Theorems.
Variables (svc : services) (embed : text -> document -> Q) (json_dir : text) (fsys : file_system)
          (load : text -> load_result) (dumps : pyval -> text)
          (provider : text -> nat -> res text) (fuel : nat).

Abbreviation serve := (serve svc embed json_dir fsys load dumps provider fuel).

(** C10: The states a fresh deployment reaches by HTTP requests of any method
    on any path are exactly the states [System] reaches by requests and
    ingestion runs: the application refines the service model and the
    service model is all it does. *)
Theorem http_reachable_iff s :
  http_reachable svc embed json_dir fsys load dumps provider fuel s <->
  reachable svc embed json_dir fsys load dumps provider fuel s.
Proof.
  split.
  - induction 1 as [|s env hr r s' _ IH Hs]; [constructor|].
    destruct (serve_step _ _ _ _ _ _ _ _ _ _ _ _ _ Hs) as [[_ ->]|(e & He & _)]; [exact IH|].
    by eapply reachable_step.
  - induction 1 as [|s e s' _ IH Hs]; [constructor|].
    eapply http_reachable_serve; [exact IH|]. by apply step_serve.
Qed.

(** C18: A request that reaches no view of the program leaves the state as it
    was; only [POST /main_agent] and [GET] or [HEAD /generate_vectordb]
    reach one. *)
Theorem serve_routes env hr s r s' :
  serve env hr s = Some (r, s') ->
  (view_ran r = false -> s' = s) /\
  (view_ran r = true ->
     (http_verb hr = POST /\ http_path hr = main_agent_path) \/
     ((http_verb hr = GET \/ http_verb hr = HEAD) /\ http_path hr = generate_vectordb_path)).
Proof.
  intros Hs. split.
  - intros Hv. destruct (serve_step _ _ _ _ _ _ _ _ _ _ _ _ _ Hs) as [[_ ->]|(e & _ & ->)]; [reflexivity|].
    by destruct e.
  - unfold App.serve in Hs. repeat case_match; inv Hs; try discriminate; intros _;
      match goal with
      | Hr : route _ _ = Matched ?e, Hh : resource_handler ?e _ = Some _ |- _ =>
          apply route_matched in Hr as [Hm _]; apply match_path_rule in Hm; [|discriminate];
          apply resource_handler_cases in Hh as [_ Hh]; cbn in Hm;
          destruct Hm as [Hm|[Hm|[]]]; inv Hm; naive_solver
      end.
Qed.

End Theorems.

(** ** Witnesses *)

Abbreviation demo_serve :=
  (App.serve (demo_services false) demo_embed demo_dir demo_fs demo_load demo_dumps demo_provider 3).

Definition demo_head : http_request :=
  {| http_verb := HEAD; http_path := generate_vectordb_path; http_form := demo_request |}.

Lemma serve_routes_witness :
  demo_serve (true, demo_listing) demo_head initial = Some (VectorDBResponse (Created 2), demo_server1) /\
  (view_ran (VectorDBResponse (Created 2)) = false -> demo_server1 = initial) /\
  (view_ran (VectorDBResponse (Created 2)) = true ->
     (http_verb demo_head = POST /\ http_path demo_head = main_agent_path) \/
     ((http_verb demo_head = GET \/ http_verb demo_head = HEAD) /\ http_path demo_head = generate_vectordb_path)).
Proof.
  assert (E : demo_serve (true, demo_listing) demo_head initial = Some (VectorDBResponse (Created 2), demo_server1))
    by (vm_compute; reflexivity).
  split; [exact E|].
  exact (serve_routes (demo_services false) demo_embed demo_dir demo_fs demo_load demo_dumps demo_provider 3
           _ _ _ _ _ E).
Defined.

End App.
